(* ===== verification/_CoqProject ===== *)
-Q . S2P
Prelude.v
PyDict.v
PyStr.v
Clock.v
Json.v
Auth.v
Crud.v
Hub.v
EventLoop.v
Files.v
App.v
Mail.v
Postulaciones.v
Query.v
Usuarios.v
Catalogo.v
Session.v
Engine.v
Schema.v
Startup.v
Responses.v
CvDownload.v
Api.v
