(* ===== verification/Prelude.v ===== *)
(** * DonEmilioCVs: a verification development of the recruiting back end

    The repository is a FastAPI back end for a recruiting platform
    ([src/Api]).  Applicants upload a CV through a public form; the
    administrators review the applications ("postulaciones"), decide on
    them and see, in real time, which colleague is looking at which
    application.  This development models, from the Python sources, the
    real-time presence hub, the application service and its HTTP
    handlers, the users, positions and business units with their
    guards, the application's route table, the storage and download of
    the uploaded CVs and the notification mails, and proves the
    properties that make them correct, or shows where they fail.

    ** Parts of the program and how they interact

    - [main.py] includes the routers of [usuarios], [puestos],
      [unidades_negocio], [postulaciones] and [websockets] into one
      Starlette router, then declares [GET /] and the front-end routes
      [/form/...] and [/admin/...]; a [CORSMiddleware] wraps it all.  Each
      route declares its guard: [JWTBearer()] ([middlewares/jwt_bearer.py]),
      [admin_required] ([utils/authz.py]), [require_public_api_key]
      ([utils/api_key.py]) or none; tokens come from
      [utils/jwt_manager.py] through [POST /usuarios/login].
    - [utils/websocket_manager.py]: the singleton [ConnectionManager].
      [active_connections] (WebSocket -> {"id","nombre"}) is the
      connection registry, filled by [connect] and emptied by
      [disconnect], which also purges the user from the presence index
      [viewers] (cv_id -> {user_id -> nombre}) and returns the cvs whose
      viewer list changed.  [handle_message] applies ENTER_VIEW and
      EXIT_VIEW; [broadcast] sends {"type","payload"} to a snapshot of the
      registered sockets, one [await send_text] at a time, swallowing the
      errors; [broadcast_viewers] sends a VIEWERS_UPDATE.
    - [routers/websockets.py]: [websocket_endpoint], one asyncio task per
      client: register, then receive, decode and dispatch frames; on
      [WebSocketDisconnect] unregister and re-broadcast the affected
      viewer lists, on any other exception only unregister.
    - [services/postulaciones.py] ([PostulacionesService]) and
      [routers/postulaciones.py]: create (with the CV upload and two
      mails), decide, update, delete, get, list, count and download
      applications; create, decide and delete schedule
      [manager.broadcast] as a background task; the handlers declared
      with [response_model=PostulacionOut] ([schemas/postulaciones.py])
      have their result validated after they return.
    - [services/usuarios.py], [services/puestos.py],
      [services/unidades_negocio.py] and their routers: the same
      get/create/update/delete pattern over tables with NOT NULL and
      UNIQUE constraints and foreign keys.
    - [utils/files.py]: extension check, slug-based file name, a unique
      path in [STORAGE_DIR/cv], a size-limited copy.
    - [utils/mailer.py], [utils/email_templates.py]: [send_mail] with its
      fall-back between SMTP security modes over a TLS context
      ([_tls_context]); subjects, texts and HTML bodies with
      [html.escape], and the date of the application printed in
      [TIMEZONE] ([_fmt_dt]).
    - [config/database.py]: every handler that touches the database gets
      its session from [get_db], which opens a [SessionLocal] session
      ([autocommit=False], [autoflush=False]) and closes it in a
      [finally]; the services commit their changes.  The sessions draw
      their connections from the engine's pool ([create_engine] with
      [pool_pre_ping=True], [pool_recycle=3600]), and [main.py] creates
      the tables of [Base.metadata] at startup ([create_all]).

    ** Files of the development (in dependency order)

    - [Prelude]: this header, the result monad for Python exceptions
      ([result], [let?]), the [hub] hint databases, the tactics [invc] and
      [dec_split], reachability lemmas ([rtc_preserved], [reachable_inv]).
    - [PyDict]: the insertion-ordered Python [dict] as an association list
      ([get], [setitem], [delitem], [keys], [of_list]), its well-formedness
      and the refinement of each operation to stdpp's [gmap]; dicts of
      counters ([sum_where], [graph]).
    - [PyStr]: [str.strip], [str.lower], [in] on strings and [int(s)];
      [strip] is idempotent and never lengthens a string.
    - [Clock] ([Module Clock]): a model of the libraries the program
      calls for time, not of its own code: instants as POSIX seconds,
      the proleptic Gregorian calendar ([civil_from_days],
      [days_from_civil]), wall clocks ([to_datetime], [of_datetime]),
      zones and the zone database of [ZoneInfo] ([zone], [tzdb],
      [astimezone]) and the two [strftime] formats of the program, with
      the tactic [split_zifs].
    - [Json]: the values [json.loads] produces, [dict.get], [==], [int()]
      and truth values on them.
    - [Auth] ([Module Jwt], [Guards], [AuthDemo]): [create_token] and
      [validate_token] over PyJWT's checks (the signature is symbolic:
      a token records its claims, key and algorithm), [HTTPBearer],
      [JWTBearer], [admin_required] and both API-key guards as values of
      [guard] ([Pass] or [Deny] with the HTTP status).
    - [Crud] (class [Table], [Module Crud]): the interface a table offers
      (key, auto-increment, [setattr], NOT NULL, UNIQUE) and the service
      methods [get], [create], [update], [delete] written once against it,
      with the table invariant [wf].
    - [Hub] ([Module ConnectionManager]): the manager's state and every
      method; the presence index as an abstract specification
      ([to_pres], [pres_enter], [pres_exit], [pres_purge] on a [gmap]
      with the equivalence [pres_equiv], coarser than equality because an
      emptied viewer map stays in the dict) and the refinement of
      [handle_message] and [disconnect] to it.
    - [EventLoop] ([Module EventLoop]): the endpoint tasks and the
      background broadcasts as a step relation [step] on a [world]
      (manager, clients with their task's program point, running
      broadcasts, a ghost clock); [step_fn] is its executable version
      ([step_fn_sound], [step_fn_complete]); [run] runs a schedule.
    - [Files] ([Module Files]): [posixpath.basename], [splitext], [join];
      [slugify] (with [unicodedata]'s NFKD and ASCII encoding as a
      parameter of the configuration), [build_cv_filename] with its
      clock in [TIMEZONE] ([cv_now], [cv_stamp]), [unique_path],
      [save_upload_file_cv] (whose [open()] fails with [OSError] on a
      name longer than NAME_MAX or a path longer than PATH_MAX),
      [cv_disk_path] over a file system given as the list of existing
      paths.
    - [App] ([Module Main]): the routes [main.py] declares itself, and its
      CORS options with Starlette's origin check.
    - [Mail] ([Module Mailer], [Module Templates]): [send_mail] with the
      SMTP server as an oracle, [_tls_context] and the dialogues of
      [_send_starttls] and [_send_ssl] step by step ([send_mail_events]),
      the header check of [EmailMessage], the subjects, texts and HTML
      bodies of the two mails, [html.escape] and [_fmt_dt].
    - [Postulaciones] ([Module Store], [Service], [Router], [Demo]): the
      table with its key and auto-increment and the constraints its
      commit checks ([commit_row]: the [String(n)] lengths, raising
      [DataError], then NOT NULL and the foreign keys to [puestos],
      [unidades_negocio] and [usuarios], raising [IntegrityError]); the
      service methods; the handlers with their HTTP errors, mails and
      scheduled broadcasts; concrete runs.
    - [Query] ([Module Sql], [Listado], [QueryDemo]): the semantics of
      the SQL the list query compiles to ([LIKE], comparisons with NULL,
      [ORDER BY]); [PostulacionesService.list], [resumen_por_estado],
      [count_nuevas], [list_by_estado] and the handler
      [list_postulaciones] with its query-parameter validation.
    - [Usuarios] ([Module Users], [Routing], [UsuariosDemo]): the users
      table as an instance of [Table], the schemas, every handler of
      [routers/usuarios.py] including the login, and Starlette's route
      matching ([Routing.dispatch]: first full match, 405 on a path-only
      match) over the router's routes.
    - [Catalogo] ([Module Catalogo]): positions and business units as
      instances of [Table], with the foreign key, the cascade of
      [delete] and every route with its guard.
    - [Session] ([Module Session], [SessionDemo]): [get_db] and the
      session of a request as a computation of ExtLib's [eitherT] over
      [state] (the world survives an exception, so the [finally] clause
      can close the session), with [commit], [close] and its rollback;
      the services' [update] and [delete] run in it ([update_s],
      [delete_s]), against the tables of [Crud].
    - [Engine] ([Module Pool], [PoolDemo]): the options [create_engine]
      is given ([engine_config]: [pool_pre_ping], [pool_recycle] and the
      pool sizes) and, to state what they guarantee, SQLAlchemy's
      [QueuePool] (library code, not mapped to the repository) as a
      state machine ([pstep]): the queue of idle records, the
      connections sessions hold, the server's live connections, the
      pool's invalidation time and the clock; [checkout] is
      [QueuePool._do_get], [get_connection] with its recycle test and
      the pre-ping loop, [checkin] is [_do_return_conn]; the server drops
      connections, goes down and up, and time passes on their own.
    - [Schema] ([Module Schema], [SchemaDemo]): the four model tables on
      [Base.metadata] in declaration order, [create_all] with
      [checkfirst] and the foreign-key order of
      [sort_tables_and_constraints] ([sort_as_subsets]), and the
      server's checks of each [FOREIGN KEY] clause of [CREATE TABLE]
      (the referenced table exists and has the column as a key), over a
      catalogue of table names, columns and keys.
    - [Startup] ([Module Startup], [StartupDemo]): the import of
      [main.py] running [create_all] through the engine's pool
      ([engine.begin()], the DDL, the connection returned).
    - [Responses] ([Module Out], [ResponsesDemo]): [PostulacionOut] and
      [PostulacionUpdate] validation, and the handlers as the client sees
      them after FastAPI's [serialize_response].
    - [CvDownload] ([Module Quote], [CvDownload]): [urllib.parse.quote]
      with [safe=""], and [view_cv_inline] / [download_cv].
    - [Api] ([Module Api], [ApiDemo]): the route table of the whole
      application in [include_router] order, with each route's guard
      ([app_dispatch]).

    ** What is proved

    - Hub: [handle_message] refines its contract; malformed messages
      change nothing; [disconnect] returns exactly the affected cvs,
      purges the user and is idempotent.
    - EventLoop, by rule induction over [step] from [init_world]: the
      registry holds exactly the sockets whose task is active
      ([registry_matches_tasks]); no viewer is stale ([no_stale_viewer]);
      a client receives only broadcasts whose snapshot followed its
      registration ([received_after_registration]); a background
      broadcast run to its end delivers once to every open active client
      and to no one else ([rest_broadcast_fanout]); concrete runs exhibit
      the findings (the [except Exception] branch leaves a stale
      VIEWERS_UPDATE; presence keyed by user id drops a second tab).
    - Postulaciones: [decide], [update], [create_from_upload] on every
      path, errors of the commit included ([DataError] for a value too
      long for its column, [IntegrityError] for a null name or a
      reference to a missing position, unit or reviewer), the invariant
      [Store.wf] (every row satisfies every constraint) preserved;
      [update] never touches the protected columns; the handlers'
      responses and broadcasts ([decidir_outcome]: a deleted reviewer's
      token gives a 500; [create_postulacion_spec]: a refused insert
      leaves the saved CV on disk; [delete_postulacion_spec]);
      [update_postulacion] never broadcasts; [counts_por_estado] counts
      correctly.
    - Session: [get_db] closes the session whatever the handler does,
      leaving the database as the last successful commit left it
      ([get_db_closes]); run in that session, the services' [update] and
      [delete] are [Crud.update] and [Crud.delete], so the result model
      of [Crud], where a refused commit changes nothing, is what the
      session does ([crud_session_refines]).
    - Engine: in every run from its creation the pool keeps at most
      [pool_size] idle records and [pool_size + max_overflow]
      connections, and never gives one connection to two sessions
      ([pool_invariant]); a checked-out connection is live and younger
      than [pool_recycle] ([checkout_usable]); a checkout fails only with
      [TimeoutError] on an exhausted pool or [OperationalError] with the
      server down ([checkout_errors]) and otherwise succeeds
      ([checkout_succeeds]).
    - Schema: [sort_tables] is a foreign-key order of all its tables
      ([sort_tables_spec]); [create_all] on the application's metadata
      succeeds exactly when every existing table a missing table refers
      to has the referenced column as a key, then creates exactly the
      missing tables and leaves the others, columns included, as they
      are, and otherwise fails on such a reference
      ([create_all_metadata]); a second run changes nothing
      ([create_all_idempotent]).
    - Startup: with the server down the import of [main.py] fails with
      [OperationalError]; with it up it has the outcome of [create_all]
      and the pool keeps the one connection opened, idle and live
      ([startup_spec]).
    - Clock: the calendar conversion is a bijection between instants and
      valid dates and times ([to_datetime_of_datetime],
      [of_datetime_to_datetime]); the printed fields are fixed-width
      digits that determine the date for four-digit years
      ([strftime_stamp_inj], [strftime_dmy_inj]).
    - Responses: the administrators' requests keep every stored row
      valid for [PostulacionOut] (a type-preservation invariant, by
      induction over [admin_step]), so [GET /postulaciones/{pid}] never
      fails validation; the public form's lengths are those of the
      columns, which the insert enforces, but its address is not checked
      against [EmailStr], and a bad address is committed and mailed
      before the 500 ([create_response_after_commit]).
    - Query: the page [list] returns is a slice of an order [ORDER BY]
      allows and its count is the number of selected rows
      ([listado_spec]); the filters select exactly the rows of the
      declarative contract [list_spec] ([selection_refines]); pages are
      the same under every order the database may choose when the sort
      key is distinct ([listado_pages_deterministic]), and concrete runs
      show the tie of [procesado], the [_] wildcard, the backslash
      escape and the "total" key collision; [resumen_por_estado] counts each state;
      [list_postulaciones] answers 422 exactly on invalid parameters.
    - Auth: a token is accepted exactly during its validity and carries
      its claims ([create_validate_roundtrip]); [admin_required] on every
      branch; a token signed with the default key is forged.
    - Crud, Usuarios, Catalogo: [update] raises [IntegrityError] exactly
      on a constraint violation and keeps [wf]; [GET /usuarios/me] is
      unreachable; any holder of a valid token can make any user, itself
      included, an administrator ([privilege_escalation]); the login
      token passes [admin_required]
      exactly for administrators; the catalogue's invariant (keys,
      constraints, every position naming an existing unit) holds after
      any sequence of requests ([cat_steps_wf]).
    - Api: the routers do not interfere ([routers_isolated]); every
      applications endpoint but the public form needs an administrator's
      token ([applications_admin_only]); without credentials only the
      form and the login run.
    - Files: [slugify] yields a valid slug without [/], and is the
      identity on valid slugs and idempotent when NFKD keeps ASCII text;
      [unique_path] terminates; [save_upload_file_cv] refuses exactly the
      disallowed extensions and the oversized uploads, fails with
      [OSError] exactly on names the file system refuses, never
      overwrites a file, and [cv_disk_path] finds the stored file again; [serve_form] serves any file of the server;
      two uploads share the stamp of their file names exactly when their
      wall clocks in [TIMEZONE] coincide, which a zone with daylight
      saving time makes happen ([cv_stamp_collision]).
    - CvDownload: both handlers on every branch, with a
      [Content-Disposition] that decodes to the original name and cannot
      be broken by it; [quote] at most triples the length.
    - Mail: [send_mail]'s attempts and delivery, and when it raises; the
      credentials are only sent after a verifying TLS handshake, in
      both modes and in the fall-back ([credentials_only_over_tls]); the
      administrators' HTML has exactly its template's markup whatever
      the applicant typed ([admin_html_markup]); [_fmt_dt] prints 19
      characters that determine the wall clock ([fmt_dt_spec]).

    ** Bounds and fuel

    - [Files.unique_path] tests at most [fuel] candidates after the
      first; [unique_path_terminates] shows that more tests than existing
      paths always find a free name and that more fuel changes nothing,
      because the candidates are pairwise distinct ([candidate_inj]), so
      the Python [while] loop terminates.
    - [EventLoop.run] follows a finite schedule; the liveness theorem
      [rest_broadcast_fanout] names the schedule (one step per target).
    - [create_postulacion] passes its [fuel] to [unique_path];
      [create_postulacion_spec] assumes the bound above.
    - The pre-ping loop of [Engine.ping_loop] has the two attempts of
      SQLAlchemy's code; [checkout_errors] shows the second always
      succeeds, because a reconnected record is fresh and not pinged.
      [sort_rounds] has [length todo] rounds of fuel: each round that
      does not raise removes a table.
    - Every integer is a [Z] (Python integers do not overflow); sizes in
      bytes and ids are unbounded.
    - The calendar is exact for every integer instant; the theorems on
      printed dates assume years 1000..9999, the range where [%Y] has
      four digits ([datetime] stops at 9999, and the clock of a running
      server is past 1970).

    ** Modelling conventions

    - A Python [str] is a Rocq [string], one [ascii] per byte (UTF-8
      text is its bytes), so lengths in pydantic's [Field]s are exact on
      ASCII text; [lower] maps A-Z.
    - A Python [dict] is an association list in insertion order, because
      the order is observable (viewer lists, fan-out order, counters).
    - A WebSocket object is a [nat] handle compared by identity.
    - A Python exception is a constructor of the operation's result
      type; an uncaught exception of a handler is a [Raise] (HTTP 500).
    - The database is a [gmap] from ids to rows; the order in which a
      query returns rows is the order of [map_to_list].
    - The clock ([datetime.now], [func.now()]) is an argument, POSIX
      seconds; the zone database [ZoneInfo] reads is a function from keys
      to offsets, [None] for a key it refuses.
    - Libraries the code calls are parameters or symbolic:
      [email-validator] ([EmailStr]) and [unicodedata]'s NFKD with
      [encode("ascii", "ignore")] are functions the theorems quantify
      over, bcrypt hashes and JWT signatures are symbolic values.
    - The database behind [DATABASE_URL] is a server such as PostgreSQL
      or MySQL: a commit checks NOT NULL, UNIQUE and FOREIGN KEY
      constraints ([IntegrityError]) and the length of [String(n)]
      values ([DataError]), and [LIKE] reads a backslash as its default
      escape character.

    ** Not modelled, and why

    - The database server behind [DATABASE_URL]: [Query.Sql] gives the
      meaning of the SQL the code builds, [nulls_low] where the engine
      sorts NULL, and the order of rows with equal keys is left to it
      (the theorems quantify over every order [ORDER BY] allows);
      [Engine] models the pool's connections as ids the server keeps
      open or drops, not the driver or the wire protocol.  A checkout is
      one step of [pstep]: [QueuePool]'s wait of up to 30 s for a
      connection another session returns is the interleaving in which
      that checkin comes first, and its [TimeoutError] is the checkout
      that finds the pool exhausted; the length of the wait is not
      modelled.
    - The missing [middlewares.error_handler] module, the TLS protocol
      and the bytes of SMTP and of the files: code that is not in the
      repository, or I/O; the TLS handshake is one event of the
      dialogue, with the settings of its context.  Indexes and column
      types of the models are not part of [Schema]'s catalogue.
    - Starlette's [StaticFiles] mounts and [:path] decoding, FastAPI's
      redirect of a trailing slash: library behaviour, only named.
*)

From Stdlib Require Export ZArith Lia String.
From stdpp Require Export base list gmap strings relations.

Create HintDb hub.
Create Rewrite HintDb hub_rw.

(** ** Python exceptions as values

    A fallible Python expression is a [result]: [Ok v] or [Raise e].  The
    hub never lets an exception escape its tasks: the endpoint's bare
    [except: pass] swallows the ones raised by [handle_message], so the
    exception kinds are kept only to document which Python error each
    branch stands for. *)
Inductive exc :=
  | AttributeError   (** [x.get] on a value that is not a [dict] *)
  | TypeError        (** [int(None)], [int([...])], [int({...})] *)
  | ValueError       (** [int("abc")], [int(float("nan"))] *)
  | KeyError         (** [d[k]] on an absent key *)
  | IntegrityError   (** [db.commit()] refused by a NOT NULL, UNIQUE or
                        FOREIGN KEY constraint *)
  | DataError        (** [db.commit()] of a value longer than its
                        [String(n)] column *)
  | OSError.         (** [open()] refused by the file system *)

Inductive result (A : Type) :=
  | Ok (a : A)
  | Raise (e : exc).
Arguments Ok {A} a.
Arguments Raise {A} e.

Definition result_bind {A B} (r : result A) (k : A -> result B) : result B :=
  match r with Ok a => k a | Raise e => Raise e end.

Declare Scope py_scope.
Delimit Scope py_scope with py.
Notation "'let?' x := r 'in' k" := (result_bind r (fun x => k))
  (at level 10, x name, r at level 100, k at level 200) : py_scope.

Lemma result_bind_Ok {A B} (r : result A) (k : A -> result B) b :
  result_bind r k = Ok b <-> exists a, r = Ok a /\ k a = Ok b.
Proof. destruct r; simpl; naive_solver. Qed.

(** ** Tactics shared by every component *)

(** Invert a hypothesis and clean up. *)
Ltac invc H := inversion H; subst; try clear H.

(** Split on every [if]/[match] of the goal on a decision procedure. *)
Ltac dec_split :=
  repeat (first [progress simplify_eq/= | case_decide | case_match]); try done.

(** ** Generic lemmas *)

Section Reach.
Context {A : Type} (R : relation A).

(** An invariant of one step is an invariant of every run. *)
Lemma rtc_preserved (P : A -> Prop) :
  (forall x y, P x -> R x y -> P y) ->
  forall x y, rtc R x y -> P x -> P y.
Proof. intros Hs x y H. induction H; eauto. Qed.

(** A property of the initial state that every step preserves holds in
    every reachable state. *)
Lemma reachable_inv (init : A) (P : A -> Prop) :
  P init -> (forall x y, P x -> R x y -> P y) ->
  forall y, rtc R init y -> P y.
Proof. intros H0 Hs y H. exact (rtc_preserved P Hs init y H H0). Qed.
End Reach.

Section Lists.
Context {A : Type}.

Lemma NoDup_app_single (l : list A) (x : A) :
  NoDup l -> x ∉ l -> NoDup (l ++ [x]).
Proof.
  intros Hl Hx. apply NoDup_app. split; [done|]. split.
  - intros y Hy Hy'. apply list_elem_of_singleton in Hy'. subst. done.
  - apply NoDup_singleton.
Qed.
End Lists.

#[export] Hint Resolve NoDup_app_single : hub.
#[export] Hint Resolve NoDup_nil_2 : hub.
#[export] Hint Rewrite @result_bind_Ok : hub_rw.
