(* ===== verification/PyDict.v ===== *)
(** * PyDict: the insertion-ordered Python [dict]

    The hub keeps its state in two Python dicts
    ([ConnectionManager.active_connections] and the nested
    [ConnectionManager.viewers]).  A CPython dict remembers insertion
    order: assigning an existing key updates its value in place,
    assigning a new key appends it, deleting removes it.  Iteration
    ([items()], [keys()], [list(d.keys())]) follows that order, and the
    hub's observable output (the viewer list of VIEWERS_UPDATE, the order
    of the broadcast fan-out) depends on it, so a dict is modelled here as
    an association list rather than as a finite map.

    The section gives the dict operations the hub uses, the
    well-formedness invariant (keys are distinct) that every operation
    preserves, and a refinement of each operation to the corresponding
    operation of stdpp's [gmap] ([to_map]), through which the map-level
    reasoning of the components is done. *)

From S2P Require Import Prelude.

Module PyDict.

Section Dict.
Context {K V : Type} `{EqDecision K}.

(** [d.get(k)] and [d[k]]: the value bound to [k]. *)
Fixpoint get (d : list (K * V)) (k : K) : option V :=
  match d with
  | [] => None
  | (k', v) :: d' => if decide (k = k') then Some v else get d' k
  end.

(** [k in d] *)
Definition contains (d : list (K * V)) (k : K) : bool :=
  match get d k with Some _ => true | None => false end.

(** [d[k] = v]: update in place when present, append otherwise. *)
Fixpoint setitem (d : list (K * V)) (k : K) (v : V) : list (K * V) :=
  match d with
  | [] => [(k, v)]
  | (k', v') :: d' =>
      if decide (k = k') then (k, v) :: d' else (k', v') :: setitem d' k v
  end.

(** [del d[k]], used by the hub only under a [k in d] guard, so the
    [KeyError] of an absent key never arises. *)
Fixpoint delitem (d : list (K * V)) (k : K) : list (K * V) :=
  match d with
  | [] => []
  | (k', v') :: d' =>
      if decide (k = k') then delitem d' k else (k', v') :: delitem d' k
  end.

(** [list(d.keys())] *)
Definition keys (d : list (K * V)) : list K := d.*1.

(** [dict(pairs)]: successive assignments, later pairs win. *)
Definition of_list (kvs : list (K * V)) : list (K * V) :=
  fold_left (fun d kv => setitem d kv.1 kv.2) kvs [].

(** A dict never holds a key twice. *)
Definition wf (d : list (K * V)) : Prop := NoDup (keys d).

(** *** Lookup laws *)

Lemma get_setitem_eq d k v : get (setitem d k v) k = Some v.
Proof. induction d as [|[k' v'] d IH]; simpl; dec_split; auto. Qed.

Lemma get_setitem_ne d k k' v : k <> k' -> get (setitem d k v) k' = get d k'.
Proof.
  intros Hne. induction d as [|[k'' v''] d IH]; simpl; dec_split; auto.
Qed.

Lemma get_delitem_eq d k : get (delitem d k) k = None.
Proof. induction d as [|[k' v'] d IH]; simpl; dec_split; auto. Qed.

Lemma get_delitem_ne d k k' : k <> k' -> get (delitem d k) k' = get d k'.
Proof.
  intros Hne. induction d as [|[k'' v''] d IH]; simpl; dec_split; auto.
Qed.

Lemma get_Some_elem d k v : get d k = Some v -> (k, v) ∈ d.
Proof.
  induction d as [|[k' v'] d IH]; simpl; intros Hg; [done|].
  dec_split; [left | right; auto].
Qed.

Lemma get_keys d k : is_Some (get d k) <-> k ∈ keys d.
Proof.
  induction d as [|[k' v'] d IH]; simpl.
  - split; [intros [? ?]; done | intros Hk; invc Hk].
  - dec_split; rewrite elem_of_cons; [split; eauto|].
    rewrite IH. naive_solver.
Qed.

Lemma get_None_keys d k : get d k = None <-> k ∉ keys d.
Proof. rewrite <- get_keys. destruct (get d k); naive_solver. Qed.

Lemma contains_true d k : contains d k = true <-> k ∈ keys d.
Proof.
  unfold contains. rewrite <- get_keys. destruct (get d k); naive_solver.
Qed.

Lemma elem_get d k v : wf d -> (k, v) ∈ d -> get d k = Some v.
Proof.
  unfold wf, keys. induction d as [|[k' v'] d IH]; simpl; intros Hnd Hin.
  - invc Hin.
  - apply NoDup_cons in Hnd as [Hk Hnd]. apply elem_of_cons in Hin.
    dec_split; destruct Hin as [Hin|Hin]; simplify_eq; auto.
    destruct Hk. apply list_elem_of_fmap. exists (k', v). done.
Qed.

Lemma elem_setitem d k v kv :
  kv ∈ setitem d k v -> kv = (k, v) \/ kv ∈ d.
Proof.
  induction d as [|[k' v'] d IH]; simpl; intros H.
  - apply list_elem_of_singleton in H. by left.
  - case_decide; apply elem_of_cons in H as [H|H]; subst; auto.
    + right. by right.
    + right. by left.
    + destruct (IH H); auto. right. by right.
Qed.

Lemma elem_delitem d k kv : kv ∈ delitem d k -> kv ∈ d /\ kv.1 <> k.
Proof.
  induction d as [|[k' v'] d IH]; simpl; intros H; [inversion H|].
  case_decide.
  - destruct (IH H). split; [by right | done].
  - apply elem_of_cons in H as [H|H]; subst.
    + split; [by left | simpl; auto].
    + destruct (IH H). split; [by right | done].
Qed.

Lemma delitem_notin d k : k ∉ keys d -> delitem d k = d.
Proof.
  unfold keys. induction d as [|[k' v'] d IH]; simpl; intros Hk; [done|].
  rewrite elem_of_cons in Hk. case_decide; [naive_solver|]. rewrite IH; naive_solver.
Qed.

Lemma filter_key_notin d k : k ∉ keys d -> filter (fun e => e.1 = k) d = [].
Proof.
  unfold keys. induction d as [|[k' v'] d IH]; simpl; intros Hk; [done|].
  rewrite elem_of_cons in Hk. rewrite filter_cons. case_decide; simpl in *; [naive_solver|].
  apply IH. naive_solver.
Qed.

(** After [d[k] = v] a well-formed dict binds [k] exactly once, to [v]. *)
Lemma filter_key_setitem d k v :
  wf d -> filter (fun e => e.1 = k) (setitem d k v) = [(k, v)].
Proof.
  unfold wf, keys. induction d as [|[k' v'] d IH]; simpl; intros Hnd.
  - rewrite filter_cons. case_decide; simpl; naive_solver.
  - apply NoDup_cons in Hnd as [Hk Hnd]. case_decide; subst; rewrite filter_cons; simpl.
    + case_decide; [|done]. f_equal. by apply filter_key_notin.
    + case_decide; simpl in *; [congruence|]. by apply IH.
Qed.

(** *** Key order *)

Lemma keys_setitem_in d k v :
  k ∈ keys d -> keys (setitem d k v) = keys d.
Proof.
  unfold keys. induction d as [|[k' v'] d IH]; simpl; intros Hk; [invc Hk|].
  apply elem_of_cons in Hk as [Hk|Hk]; dec_split; rewrite IH; done.
Qed.

Lemma keys_setitem_notin d k v :
  k ∉ keys d -> keys (setitem d k v) = keys d ++ [k].
Proof.
  unfold keys. induction d as [|[k' v'] d IH]; simpl; intros Hk; [done|].
  rewrite elem_of_cons in Hk. dec_split; [naive_solver|].
  rewrite IH; naive_solver.
Qed.

Lemma setitem_notin d k v : k ∉ keys d -> setitem d k v = d ++ [(k, v)].
Proof.
  unfold keys. induction d as [|[k' v'] d IH]; simpl; intros Hk; [done|].
  rewrite elem_of_cons in Hk. rewrite decide_False by naive_solver. rewrite IH; naive_solver.
Qed.

Lemma elem_keys_setitem d k v k' : k' ∈ keys (setitem d k v) <-> k' = k \/ k' ∈ keys d.
Proof.
  destruct (decide (k ∈ keys d)) as [Hk|Hk].
  - rewrite keys_setitem_in by done. naive_solver.
  - rewrite keys_setitem_notin, elem_of_app, list_elem_of_singleton by done. naive_solver.
Qed.

Lemma keys_delitem d k : keys (delitem d k) = filter (fun k' => k <> k') (keys d).
Proof.
  unfold keys. induction d as [|[k' v'] d IH]; simpl; [done|].
  rewrite filter_cons. dec_split; rewrite IH; done.
Qed.

Lemma elem_keys_delitem d k k' : k' ∈ keys (delitem d k) <-> k' ∈ keys d /\ k <> k'.
Proof. rewrite keys_delitem, list_elem_of_filter. naive_solver. Qed.

(** *** Well-formedness is preserved *)

Lemma wf_nil : wf [].
Proof. constructor. Qed.

Lemma wf_setitem d k v : wf d -> wf (setitem d k v).
Proof.
  unfold wf. intros Hd. destruct (decide (k ∈ keys d)) as [Hk|Hk].
  - rewrite keys_setitem_in; done.
  - rewrite keys_setitem_notin; auto with hub.
Qed.

Lemma wf_delitem d k : wf d -> wf (delitem d k).
Proof. unfold wf. rewrite keys_delitem. apply NoDup_filter. Qed.

Lemma wf_of_list kvs : wf (of_list kvs).
Proof.
  unfold of_list. generalize (@wf_nil). generalize (@nil (K * V)).
  induction kvs as [|kv kvs IH]; simpl; intros d Hd; [done|].
  apply IH, wf_setitem, Hd.
Qed.

Lemma get_app d1 d2 k :
  get (d1 ++ d2) k = match get d1 k with Some v => Some v | None => get d2 k end.
Proof. induction d1 as [|[k' v'] d1 IH]; simpl; [done|]. case_decide; done. Qed.

Lemma get_setitem d k k' v :
  get (setitem d k' v) k = if decide (k = k') then Some v else get d k.
Proof.
  case_decide; subst; [apply get_setitem_eq|]. apply get_setitem_ne. congruence.
Qed.

(** [d.update(kvs)] (successive assignments): the last binding of [k] in
    [kvs], if any, else the binding in [d]. *)
Lemma get_fold_setitem kvs d k :
  get (fold_left (fun d kv => setitem d kv.1 kv.2) kvs d) k =
  match get (reverse kvs) k with Some v => Some v | None => get d k end.
Proof.
  revert d. induction kvs as [|[k' v'] kvs IH]; intros d; simpl; [done|].
  rewrite IH, reverse_cons, get_app, get_setitem. simpl.
  destruct (get (reverse kvs) k); [done|]. by case_decide.
Qed.

Lemma get_of_list kvs k : get (of_list kvs) k = get (reverse kvs) k.
Proof. unfold of_list. rewrite get_fold_setitem. by destruct (get (reverse kvs) k). Qed.

(** [dict(d.items())] of a dict is the dict itself. *)
Lemma of_list_wf d : wf d -> of_list d = d.
Proof.
  unfold of_list. intros Hd.
  assert (Hgen : forall acc, NoDup (keys acc ++ keys d) -> fold_left (fun d kv => setitem d kv.1 kv.2) d acc = acc ++ d).
  { clear Hd. induction d as [|[k v] d IH]; intros acc Hnd; simpl; [by rewrite app_nil_r|].
    unfold keys in Hnd. rewrite fmap_cons in Hnd. simpl in Hnd.
    apply NoDup_app in Hnd as (Hacc & Hdis & Hkd). apply NoDup_cons in Hkd as [Hk Hkd].
    rewrite setitem_notin by (intros Hin; apply (Hdis k Hin); left).
    rewrite IH, <- app_assoc; [done|].
    unfold keys. rewrite fmap_app. simpl. rewrite <- app_assoc. simpl.
    apply NoDup_app. split; [done|]. split.
    - exact Hdis.
    - by apply NoDup_cons. }
  apply (Hgen []). exact Hd.
Qed.

(** *** Refinement to stdpp's [gmap] *)

Context {HK : Countable K}.

(** The finite map a dict denotes (the first binding of a key wins,
    which is the only binding of a well-formed dict). *)
Definition to_map (d : list (K * V)) : gmap K V :=
  foldr (fun kv m => <[kv.1 := kv.2]> m) ∅ d.

Lemma to_map_lookup d k : to_map d !! k = get d k.
Proof.
  induction d as [|[k' v'] d IH]; simpl; [apply lookup_empty|].
  dec_split; [apply lookup_insert_eq|]. rewrite lookup_insert_ne; auto.
Qed.

Lemma to_map_setitem d k v : to_map (setitem d k v) = <[k := v]> (to_map d).
Proof.
  apply map_eq. intros k'. rewrite to_map_lookup.
  destruct (decide (k = k')) as [<-|Hne].
  - rewrite get_setitem_eq, lookup_insert_eq. done.
  - rewrite get_setitem_ne, lookup_insert_ne, to_map_lookup; done.
Qed.

Lemma to_map_delitem d k : to_map (delitem d k) = delete k (to_map d).
Proof.
  apply map_eq. intros k'. rewrite to_map_lookup.
  destruct (decide (k = k')) as [<-|Hne].
  - rewrite get_delitem_eq, lookup_delete_eq. done.
  - rewrite get_delitem_ne, lookup_delete_ne, to_map_lookup; done.
Qed.

Lemma dom_to_map d k : k ∈ dom (to_map d) <-> k ∈ keys d.
Proof. rewrite elem_of_dom, to_map_lookup. apply get_keys. Qed.
End Dict.

(** Mapping a function over the values of a dict. *)
Lemma get_map_values {K V W} `{EqDecision K} (f : V -> W) (d : list (K * V)) k :
  get ((fun e => (e.1, f e.2)) <$> d) k = f <$> get d k.
Proof. induction d as [|[k' v'] d IH]; simpl; [done|]. by case_decide. Qed.

(** ** Dicts of counters *)

Section Counters.
Context {K : Type} `{EqDecision K}.
Local Open Scope Z_scope.

(** The sum of the values whose key satisfies [P]. *)
Definition sum_where (P : K -> Prop) `{forall k, Decision (P k)} (d : list (K * Z)) : Z :=
  foldr (fun kv acc => (if decide (P kv.1) then kv.2 else 0) + acc) 0 d.

(** The dict with keys [ks] (in that order) and value [f k] at [k]. *)
Definition graph (ks : list K) (f : K -> Z) : list (K * Z) := (fun k => (k, f k)) <$> ks.

Lemma sum_where_cons P `{forall k, Decision (P k)} k v d :
  sum_where P ((k, v) :: d) = (if decide (P k) then v else 0) + sum_where P d.
Proof. reflexivity. Qed.

Lemma sum_where_setitem P `{forall k, Decision (P k)} d k v :
  sum_where P (setitem d k v) =
  sum_where P d - (if decide (P k) then default 0 (get d k) else 0) + (if decide (P k) then v else 0).
Proof.
  induction d as [|[k' v'] d IH]; simpl.
  - case_decide; lia.
  - destruct (decide (k = k')) as [<-|Hne]; simpl.
    + case_decide; lia.
    + rewrite IH. case_decide; case_decide; lia.
Qed.

(** In a dict, the sum over the key [k] is the value at [k], or 0. *)
Lemma sum_where_get d k :
  wf d -> sum_where (fun k' => k' = k) d = default 0 (get d k).
Proof.
  induction d as [|[k' v] d IH]; intros Hd; [done|].
  unfold wf, keys in Hd. rewrite fmap_cons in Hd. apply NoDup_cons in Hd as [Hk' Hd].
  rewrite sum_where_cons, IH by done. simpl.
  destruct (decide (k' = k)) as [<-|Hne]; rewrite ?decide_True by done.
  - assert (get d k' = None) as -> by (apply get_None_keys; done). simpl. lia.
  - rewrite decide_False by congruence. lia.
Qed.

Lemma get_graph ks f k : k ∈ ks -> get (graph ks f) k = Some (f k).
Proof.
  induction ks as [|k' ks IH]; simpl; intros Hk; [by apply not_elem_of_nil in Hk|].
  apply elem_of_cons in Hk. case_decide; subst; [done|]. apply IH. naive_solver.
Qed.

Lemma keys_graph ks f : keys (graph ks f) = ks.
Proof. unfold keys, graph. rewrite <- list_fmap_compose. apply list_fmap_id. Qed.

Lemma setitem_graph ks f k v :
  NoDup ks -> k ∈ ks ->
  setitem (graph ks f) k v = graph ks (fun k' => if decide (k' = k) then v else f k').
Proof.
  induction ks as [|k' ks IH]; simpl; intros Hnd Hk; [by apply not_elem_of_nil in Hk|].
  apply NoDup_cons in Hnd as [Hk' Hnd]. apply elem_of_cons in Hk.
  destruct (decide (k = k')) as [<-|Hne].
  - rewrite decide_True by done. f_equal. apply list_fmap_ext. intros i k'' Hi.
    apply list_elem_of_lookup_2 in Hi. rewrite decide_False; congruence.
  - rewrite decide_False by congruence. f_equal. apply IH; [done | naive_solver].
Qed.
End Counters.

End PyDict.

#[export] Hint Resolve PyDict.wf_nil PyDict.wf_setitem PyDict.wf_delitem : hub.
#[export] Hint Rewrite @PyDict.get_setitem_eq @PyDict.get_delitem_eq : hub_rw.
