(* ===== verification/PyStr.v ===== *)
(** * PyStr: the Python string built-ins the program relies on

    [str.strip()] (used by [PostulacionesService.decide] and by the
    counters of [routers/postulaciones.py]), [str.isspace] on which it is
    based, and [int(s)] on a string, which [handle_message] applies to
    the [cvId] field of a client message.  Characters are ASCII (see the
    modelling conventions in [Prelude]). *)

From S2P Require Import Prelude.
From Stdlib Require Import Ascii.

Module PyStr.

Local Open Scope Z_scope.

(** [c.isspace()] on an ASCII character: TAB, LF, VT, FF, CR, the four
    separators 0x1C-0x1F and SPACE. *)
Definition is_space (c : ascii) : bool :=
  let n := Z.of_nat (nat_of_ascii c) in
  ((9 <=? n) && (n <=? 13)) || ((28 <=? n) && (n <=? 32)).

Definition is_digit (c : ascii) : bool :=
  let n := Z.of_nat (nat_of_ascii c) in (48 <=? n) && (n <=? 57).

Definition digit_value (c : ascii) : Z := Z.of_nat (nat_of_ascii c) - 48.

Fixpoint lstrip_list (cs : list ascii) : list ascii :=
  match cs with
  | [] => []
  | c :: cs' => if is_space c then lstrip_list cs' else cs
  end.

(** [s.strip()] *)
Definition strip (s : string) : string :=
  string_of_list_ascii
    (rev (lstrip_list (rev (lstrip_list (list_ascii_of_string s))))).

(** The digits of a base-10 numeral after its first digit: underscores
    may separate digits, one at a time, and may not end the numeral. *)
Fixpoint digits_go (cs : list ascii) (acc : Z) (after_us : bool) : option Z :=
  match cs with
  | [] => if after_us then None else Some acc
  | c :: cs' =>
      if is_digit c then digits_go cs' (acc * 10 + digit_value c) false
      else if Ascii.eqb c "_"%char then
        if after_us then None else digits_go cs' acc true
      else None
  end.

Definition parse_decimal (cs : list ascii) : option Z :=
  match cs with
  | c :: cs' => if is_digit c then digits_go cs' (digit_value c) false else None
  | [] => None
  end.

(** [int(s)] for a string [s] (CPython's [PyLong_FromString] in base 10):
    surrounding white space is ignored, one optional sign, then the
    numeral; [None] stands for the [ValueError] of any other string. *)
Definition py_int_str (s : string) : option Z :=
  let cs := rev (lstrip_list (rev (lstrip_list (list_ascii_of_string s)))) in
  match cs with
  | "-"%char :: ds => option_map Z.opp (parse_decimal ds)
  | "+"%char :: ds => parse_decimal ds
  | ds => parse_decimal ds
  end.

(** [s.lower()] on ASCII: A-Z to a-z. *)
Definition lower_char (c : ascii) : ascii :=
  let n := nat_of_ascii c in
  if (65 <=? n)%nat && (n <=? 90)%nat then ascii_of_nat (n + 32) else c.

Definition lower (s : string) : string :=
  string_of_list_ascii (lower_char <$> list_ascii_of_string s).

(** [sub in s] for strings: [sub] occurs in [s] at some position. *)
Fixpoint contains (sub s : string) : bool :=
  String.prefix sub s ||
  match s with
  | EmptyString => false
  | String _ s' => contains sub s'
  end.

(** ** Lemmas *)

Lemma length_string_of_list_ascii l : String.length (string_of_list_ascii l) = length l.
Proof. induction l as [|c l IH]; simpl; congruence. Qed.

Lemma length_list_ascii_of_string s : length (list_ascii_of_string s) = String.length s.
Proof. induction s as [|c s IH]; simpl; congruence. Qed.

Lemma lstrip_suffix cs : exists pre, cs = pre ++ lstrip_list cs.
Proof.
  induction cs as [|c cs [pre IH]]; simpl; [by exists []|].
  destruct (is_space c); [exists (c :: pre); by rewrite IH at 1 | by exists []].
Qed.

Lemma lstrip_head cs :
  lstrip_list cs = [] \/ exists c cs', lstrip_list cs = c :: cs' /\ is_space c = false.
Proof.
  induction cs as [|c cs IH]; simpl; [by left|].
  destruct (is_space c) eqn:Hc; [done | right; eauto].
Qed.

Lemma lstrip_nonspace c cs : is_space c = false -> lstrip_list (c :: cs) = c :: cs.
Proof. simpl. by intros ->. Qed.

Lemma lstrip_idem cs : lstrip_list (lstrip_list cs) = lstrip_list cs.
Proof.
  destruct (lstrip_head cs) as [-> | (c & cs' & -> & Hc)]; [done|]. by apply lstrip_nonspace.
Qed.

Lemma lstrip_length cs : (length (lstrip_list cs) <= length cs)%nat.
Proof. destruct (lstrip_suffix cs) as [pre Hpre]. rewrite Hpre at 2. rewrite length_app. lia. Qed.

(** The characters [strip] keeps, as a list. *)
Lemma strip_list s :
  list_ascii_of_string (strip s) = rev (lstrip_list (rev (lstrip_list (list_ascii_of_string s)))).
Proof. apply list_ascii_of_string_of_list_ascii. Qed.

Lemma strip_length s : (String.length (strip s) <= String.length s)%nat.
Proof.
  rewrite <- !length_list_ascii_of_string, strip_list, length_rev.
  etransitivity; [apply lstrip_length|]. rewrite length_rev. apply lstrip_length.
Qed.

(** [s.strip().strip() == s.strip()] *)
Lemma strip_idem s : strip (strip s) = strip s.
Proof.
  unfold strip at 1. rewrite strip_list.
  set (A := lstrip_list (list_ascii_of_string s)).
  set (B := lstrip_list (rev A)).
  assert (HB : B = [] \/ exists c B', B = B' ++ [c] /\ is_space c = false).
  { destruct B as [|b B0] eqn:HBeq; [by left|]. right.
    destruct (lstrip_suffix (rev A)) as [pre Hpre]. fold B in Hpre. rewrite HBeq in Hpre.
    destruct (lstrip_head (list_ascii_of_string s)) as [HA | (c & cs' & HA & Hc)];
      fold A in HA; rewrite HA in Hpre; simpl in Hpre.
    - by destruct pre.
    - destruct (exists_last (l := b :: B0)) as (B' & c' & Hl); [done|].
      exists c', B'. split; [done|]. rewrite Hl, app_assoc in Hpre.
      apply app_inj_tail in Hpre as [_ <-]. done. }
  assert (Hfix : lstrip_list B = B) by apply lstrip_idem.
  assert (Hs : strip s = string_of_list_ascii (rev B)) by reflexivity.
  rewrite Hs. destruct HB as [HB0 | (c & B' & HB & Hc)]; [by rewrite HB0|].
  assert (Hl : lstrip_list (rev B) = rev B).
  { rewrite HB, rev_app_distr. simpl. by rewrite Hc. }
  by rewrite Hl, rev_involutive, Hfix.
Qed.

(** The order of [str] comparisons (and of a binary SQL collation):
    [String.leb] is a total preorder, in fact a total order. *)
Lemma ascii_compare_N (a b : ascii) : Ascii.compare a b = N.compare (N_of_ascii a) (N_of_ascii b).
Proof. reflexivity. Qed.

Lemma string_compare_lt_trans s1 s2 s3 :
  String.compare s1 s2 = Lt -> String.compare s2 s3 = Lt -> String.compare s1 s3 = Lt.
Proof.
  revert s2 s3. induction s1 as [|a s1 IH]; intros [|b s2] [|c s3]; simpl;
    try (done || discriminate).
  rewrite !ascii_compare_N.
  destruct (N.compare_spec (N_of_ascii a) (N_of_ascii b)) as [Hab|Hab|Hab];
  destruct (N.compare_spec (N_of_ascii b) (N_of_ascii c)) as [Hbc|Hbc|Hbc];
  intros H1 H2; try discriminate;
    [replace (N.compare _ _) with Eq by (symmetry; apply N.compare_eq_iff; lia); eauto|..];
    rewrite (proj2 (N.compare_lt_iff _ _)); [done|lia|done|lia|done|lia].
Qed.

Lemma string_leb_trans s1 s2 s3 :
  String.leb s1 s2 = true -> String.leb s2 s3 = true -> String.leb s1 s3 = true.
Proof.
  unfold String.leb.
  destruct (String.compare s1 s2) eqn:H12; try discriminate;
  destruct (String.compare s2 s3) eqn:H23; try discriminate; intros _ _.
  - apply String.compare_eq_iff in H12. subst s1. by rewrite H23.
  - apply String.compare_eq_iff in H12. subst s1. by rewrite H23.
  - apply String.compare_eq_iff in H23. subst s3. by rewrite H12.
  - by rewrite (string_compare_lt_trans _ _ _ H12 H23).
Qed.

End PyStr.
