(* ===== verification/Clock.v ===== *)
(** * Clock: the current time as the program reads and prints it

    Two functions of the program format the clock:
    [build_cv_filename] of [src/Api/utils/files.py] names a stored CV
    after [datetime.now(timezone.utc)], converted to [TIMEZONE] when it is
    set, with [strftime("%Y%m%d_%H%M%S")]; [_fmt_dt] of
    [src/Api/utils/email_templates.py] prints [created_at] in [TIMEZONE]
    (UTC when the zone is unknown) with [strftime("%d/%m/%Y %H:%M:%S")].
    Both rest on the [datetime] library, which this file models:

    - an aware instant is [t : Z], whole seconds since the Unix epoch
      (the microseconds are never printed);
    - the wall clock of [t] is the proleptic Gregorian calendar date and
      time of day of [t] plus the zone's UTC offset ([civil_from_days] and
      [days_from_civil] are H. Hinnant's algorithms, the ones
      [datetime.fromordinal] and [toordinal] compute with another epoch);
    - the time zone database ([ZoneInfo(key)]) is a function [tzdb] from
      keys to the offset at each instant, [None] when the key is unknown
      (ZoneInfo raises [ZoneInfoNotFoundError]);
    - [strftime]'s fields are zero-padded decimals of fixed width, except
      [%Y], which glibc prints without padding.

    The theorems: the wall clock of an instant is a valid date and time
    and determines the instant ([of_datetime_to_datetime],
    [to_datetime_of_datetime]); the printed fields have fixed width and
    only digits, and for years 1000..9999 (all of [datetime]'s years
    after 1000) the printed string determines the date and time. *)

From S2P Require Import Prelude PyStr.
From Stdlib Require Import Ascii.

Module Clock.

Local Open Scope Z_scope.

(** ** The proleptic Gregorian calendar *)

Definition leap (y : Z) : bool :=
  ((y mod 4 =? 0) && negb (y mod 100 =? 0)) || (y mod 400 =? 0).

Definition days_in_month (y m : Z) : Z :=
  if m =? 2 then (if leap y then 29 else 28)
  else if (m =? 4) || (m =? 6) || (m =? 9) || (m =? 11) then 30 else 31.

(** The date of the day [z] days after 1970-01-01. *)
Definition civil_from_days (z0 : Z) : Z * Z * Z :=
  let z := z0 + 719468 in
  let era := z / 146097 in
  let doe := z mod 146097 in
  let yoe := (doe - doe / 1460 + doe / 36524 - doe / 146096) / 365 in
  let y := yoe + era * 400 in
  let doy := doe - (365 * yoe + yoe / 4 - yoe / 100) in
  let mp := (5 * doy + 2) / 153 in
  let d := doy - (153 * mp + 2) / 5 + 1 in
  let m := if mp <? 10 then mp + 3 else mp - 9 in
  (if m <=? 2 then y + 1 else y, m, d).

(** The number of days from 1970-01-01 to the date [y-m-d]. *)
Definition days_from_civil (y0 m d : Z) : Z :=
  let y := if m <=? 2 then y0 - 1 else y0 in
  let era := y / 400 in
  let yoe := y mod 400 in
  let mp := if 2 <? m then m - 3 else m + 9 in
  let doy := (153 * mp + 2) / 5 + d - 1 in
  let doe := yoe * 365 + yoe / 4 - yoe / 100 + doy in
  era * 146097 + doe - 719468.

(** ** Naive date and time *)

(** The fields of a [datetime] that [strftime] prints. *)
Record datetime := DateTime {
  year : Z; month : Z; day : Z; hour : Z; minute : Z; second : Z
}.

Definition valid_datetime (dt : datetime) : Prop :=
  1 <= month dt <= 12 /\ 1 <= day dt <= days_in_month (year dt) (month dt) /\
  0 <= hour dt < 24 /\ 0 <= minute dt < 60 /\ 0 <= second dt < 60.

#[export] Instance valid_datetime_dec dt : Decision (valid_datetime dt).
Proof. unfold valid_datetime. apply _. Defined.

(** The wall clock of the POSIX time [t] in a zone of offset zero. *)
Definition to_datetime (t : Z) : datetime :=
  let secs := t mod 86400 in
  let '(y, m, d) := civil_from_days (t / 86400) in
  DateTime y m d (secs / 3600) (secs mod 3600 / 60) (secs mod 60).

(** [calendar.timegm]: the POSIX time of a wall clock read in UTC. *)
Definition of_datetime (dt : datetime) : Z :=
  days_from_civil (year dt) (month dt) (day dt) * 86400 +
  hour dt * 3600 + minute dt * 60 + second dt.

(** ** Time zones *)

(** A zone: its UTC offset, in seconds, at each instant. *)
Definition zone := Z -> Z.

(** [ZoneInfo(key)]: the zone of the database, [None] when it raises. *)
Definition tzdb := string -> option zone.

(** [dt.astimezone(tz)], as a wall clock. *)
Definition astimezone (tz : zone) (t : Z) : datetime := to_datetime (t + tz t).

(** [dt.astimezone(timezone.utc)] *)
Definition as_utc (t : Z) : datetime := to_datetime t.

(** ** strftime *)

Definition digit_char (n : Z) : ascii := ascii_of_nat (48 + Z.to_nat n).

(** The last [k] decimal digits of [n], zero-padded: [%0kd]. *)
Fixpoint dec (k : nat) (n : Z) : list ascii :=
  match k with
  | O => []
  | S k' => dec k' (n / 10) ++ [digit_char (n mod 10)]
  end.

(** [%Y]: the year without padding (glibc), for [datetime]'s years
    1..9999. *)
Definition fmt_Y (y : Z) : list ascii :=
  if y <? 10 then dec 1 y else if y <? 100 then dec 2 y
  else if y <? 1000 then dec 3 y else dec 4 y.

(** [%m], [%d], [%H], [%M], [%S] *)
Definition fmt2 (n : Z) : list ascii := dec 2 n.

(** [strftime("%Y%m%d_%H%M%S")] *)
Definition strftime_stamp (dt : datetime) : string :=
  string_of_list_ascii
    (fmt_Y (year dt) ++ fmt2 (month dt) ++ fmt2 (day dt) ++
     "_"%char :: fmt2 (hour dt) ++ fmt2 (minute dt) ++ fmt2 (second dt)).

(** [strftime("%d/%m/%Y %H:%M:%S")] *)
Definition strftime_dmy (dt : datetime) : string :=
  string_of_list_ascii
    (fmt2 (day dt) ++ "/"%char :: fmt2 (month dt) ++ "/"%char :: fmt_Y (year dt) ++
     " "%char :: fmt2 (hour dt) ++ ":"%char :: fmt2 (minute dt) ++ ":"%char :: fmt2 (second dt)).

(** The value of a string of decimal digits: [int(s)] without sign or
    underscores. *)
Definition undec (cs : list ascii) : Z :=
  fold_left (fun acc c => 10 * acc + PyStr.digit_value c) cs 0.

(** ** Calendar lemmas *)

(** Case analysis on the comparisons of the goal. *)
Ltac split_zifs :=
  repeat match goal with
  | |- context [Z.ltb ?a ?b] => destruct (Z.ltb_spec a b)
  | |- context [Z.leb ?a ?b] => destruct (Z.leb_spec a b)
  end.

Lemma days_civil_days z :
  let '(y, m, d) := civil_from_days z in days_from_civil y m d = z.
Proof.
  unfold civil_from_days, days_from_civil.
  set (doe := (z + 719468) mod 146097).
  set (era := (z + 719468) / 146097).
  assert (Hdoe : 0 <= doe < 146097) by (apply Z.mod_pos_bound; lia).
  assert (Hz : z + 719468 = 146097 * era + doe) by (apply Z.div_mod; lia).
  set (yoe := (doe - doe / 1460 + doe / 36524 - doe / 146096) / 365).
  assert (Hyoe : 0 <= yoe <= 399) by (subst yoe; Z.div_mod_to_equations; lia).
  set (doy := doe - (365 * yoe + yoe / 4 - yoe / 100)).
  assert (Hdoy : 0 <= doy <= 365) by (subst doy yoe; Z.div_mod_to_equations; lia).
  set (mp := (5 * doy + 2) / 153).
  assert (Hmp : 0 <= mp <= 11) by (subst mp; Z.div_mod_to_equations; lia).
  cbv zeta. fold doe era yoe doy mp.
  destruct (Z.ltb_spec mp 10) as [Hlt|Hge].
  - destruct (Z.leb_spec (mp + 3) 2); [lia|]. destruct (Z.leb_spec (mp + 3) 2); [lia|].
    destruct (Z.ltb_spec 2 (mp + 3)); [|lia].
    replace (mp + 3 - 3) with mp by lia.
    replace ((yoe + era * 400) / 400) with era by (Z.div_mod_to_equations; lia).
    replace ((yoe + era * 400) mod 400) with yoe by (Z.div_mod_to_equations; lia).
    subst doy mp. Z.div_mod_to_equations. lia.
  - destruct (Z.leb_spec (mp - 9) 2); [|lia]. destruct (Z.leb_spec (mp - 9) 2); [|lia].
    destruct (Z.ltb_spec 2 (mp - 9)); [lia|].
    replace (mp - 9 + 9) with mp by lia. replace (yoe + era * 400 + 1 - 1) with (yoe + era * 400) by lia.
    replace ((yoe + era * 400) / 400) with era by (Z.div_mod_to_equations; lia).
    replace ((yoe + era * 400) mod 400) with yoe by (Z.div_mod_to_equations; lia).
    subst doy mp. Z.div_mod_to_equations. lia.
Qed.

(** The March-based day of the year and year of the era are recovered. *)
Lemma yoe_doy_recover yoe doy :
  0 <= yoe < 400 -> 0 <= doy ->
  (doy <= 364 \/ (doy = 365 /\ (yoe + 1) mod 4 = 0 /\ ((yoe + 1) mod 100 <> 0 \/ yoe = 399))) ->
  let doe := yoe * 365 + yoe / 4 - yoe / 100 + doy in
  0 <= doe < 146097 /\
  (doe - doe / 1460 + doe / 36524 - doe / 146096) / 365 = yoe /\
  doe - (365 * yoe + yoe / 4 - yoe / 100) = doy.
Proof. intros Hy Hd Hl doe. subst doe. split; [|split]; [Z.div_mod_to_equations; lia| |lia].
  Z.div_mod_to_equations. lia.
Qed.

Lemma month_doy_recover mp k :
  0 <= mp <= 11 -> 0 <= k ->
  k < (153 * (mp + 1) + 2) / 5 - (153 * mp + 2) / 5 ->
  let doy := (153 * mp + 2) / 5 + k in
  (5 * doy + 2) / 153 = mp /\ doy - (153 * mp + 2) / 5 + 1 = k + 1.
Proof. intros Hm Hk Hl doy. subst doy. split; [|lia]. Z.div_mod_to_equations. lia. Qed.

Lemma doy_of_doe doe yoe doy :
  0 <= doe < 146097 ->
  yoe = (doe - doe / 1460 + doe / 36524 - doe / 146096) / 365 ->
  doy = doe - (365 * yoe + yoe / 4 - yoe / 100) ->
  0 <= yoe <= 399 /\ 0 <= doy /\
  (doy <= 364 \/ (doy = 365 /\ (yoe + 1) mod 4 = 0 /\ ((yoe + 1) mod 100 <> 0 \/ yoe = 399))).
Proof. intros Hd -> ->. Z.div_mod_to_equations. lia. Qed.

Lemma civil_from_days_valid z :
  let '(y, m, d) := civil_from_days z in 1 <= m <= 12 /\ 1 <= d <= days_in_month y m.
Proof.
  unfold civil_from_days.
  set (doe := (z + 719468) mod 146097). set (era := (z + 719468) / 146097).
  assert (Hdoe : 0 <= doe < 146097) by (apply Z.mod_pos_bound; lia).
  set (yoe := (doe - doe / 1460 + doe / 36524 - doe / 146096) / 365).
  set (doy := doe - (365 * yoe + yoe / 4 - yoe / 100)).
  destruct (doy_of_doe doe yoe doy Hdoe eq_refl eq_refl) as (Hyoe & Hdoy0 & Hdoy).
  set (mp := (5 * doy + 2) / 153).
  assert (Hmp : 153 * mp <= 5 * doy + 2 < 153 * mp + 153) by (subst mp; Z.div_mod_to_equations; lia).
  cbv zeta. fold doe era yoe doy mp. clearbody mp doy yoe era doe.
  assert (mp = 0 \/ mp = 1 \/ mp = 2 \/ mp = 3 \/ mp = 4 \/ mp = 5 \/ mp = 6 \/ mp = 7 \/ mp = 8 \/ mp = 9 \/ mp = 10 \/ mp = 11) as Hc by lia.
  repeat destruct Hc as [->|Hc]; subst; unfold days_in_month; simpl;
    try (split; [lia|]; Z.div_mod_to_equations; lia).
  destruct (leap (yoe + era * 400 + 1)) eqn:Hl; [split; [lia|]; Z.div_mod_to_equations; lia|].
  destruct Hdoy as [Hdoy|(-> & H4 & H100)]; [split; [lia|]; Z.div_mod_to_equations; lia|].
  exfalso. unfold leap in Hl. apply Bool.orb_false_iff in Hl as [Hl1 Hl2].
  apply Z.eqb_neq in Hl2. apply Bool.andb_false_iff in Hl1 as [Hl1|Hl1];
    [apply Z.eqb_neq in Hl1 | apply Bool.negb_false_iff, Z.eqb_eq in Hl1];
    Z.div_mod_to_equations; lia.
Qed.

Lemma civil_days_civil y m d :
  1 <= m <= 12 -> 1 <= d <= days_in_month y m -> civil_from_days (days_from_civil y m d) = (y, m, d).
Proof.
  intros Hm Hd. unfold days_from_civil.
  set (y' := if m <=? 2 then y - 1 else y).
  set (mp := if 2 <? m then m - 3 else m + 9).
  assert (Hmp : 0 <= mp <= 11) by (subst mp; destruct (Z.ltb_spec 2 m); lia).
  assert (Hlen : (d - 1 < (153 * (mp + 1) + 2) / 5 - (153 * mp + 2) / 5 /\ (mp = 11 -> d <= 28)) \/
                 (mp = 11 /\ d = 29 /\ leap y = true)).
  { unfold days_in_month in Hd. subst mp.
    assert (m = 1 \/ m = 2 \/ m = 3 \/ m = 4 \/ m = 5 \/ m = 6 \/ m = 7 \/ m = 8 \/ m = 9 \/ m = 10 \/ m = 11 \/ m = 12) as Hc by lia.
    repeat destruct Hc as [->|Hc]; subst; simpl in Hd |- *;
      try (left; split; [Z.div_mod_to_equations|]; lia).
    destruct (leap y) eqn:Hl; [|left; split; [Z.div_mod_to_equations|]; lia].
    destruct (Z.eq_dec d 29); [now right | left; split; [Z.div_mod_to_equations|]; lia]. }
  set (yoe := y' mod 400). set (era := y' / 400).
  assert (Hy : y' = 400 * era + yoe) by (apply Z.div_mod; lia).
  assert (Hyoe : 0 <= yoe < 400) by (apply Z.mod_pos_bound; lia).
  set (doy := (153 * mp + 2) / 5 + d - 1).
  assert (Hrec : doy <= 364 \/ (doy = 365 /\ (yoe + 1) mod 4 = 0 /\ ((yoe + 1) mod 100 <> 0 \/ yoe = 399))).
  { destruct Hlen as [Hlen|(H11 & -> & Hleap)]; [left; destruct Hlen as [Hlen H11]; subst doy; Z.div_mod_to_equations; lia|right].
    unfold leap in Hleap. subst doy y' mp.
    destruct (Z.ltb_spec 2 m), (Z.leb_spec m 2); try lia.
    apply Bool.orb_true_iff in Hleap as [Hl|Hl].
    - apply Bool.andb_true_iff in Hl as [H4 H100]. apply Z.eqb_eq in H4. apply Bool.negb_true_iff, Z.eqb_neq in H100.
      Z.div_mod_to_equations. lia.
    - apply Z.eqb_eq in Hl. Z.div_mod_to_equations. lia. }
  assert (Hdoy : 0 <= doy) by (subst doy; Z.div_mod_to_equations; lia).
  destruct (yoe_doy_recover yoe doy Hyoe Hdoy Hrec) as (Hdoe & Hyoe' & Hdoy').
  unfold civil_from_days.
  set (doe := yoe * 365 + yoe / 4 - yoe / 100 + doy) in *.
  replace (era * 146097 + doe - 719468 + 719468) with (era * 146097 + doe) by lia.
  replace ((era * 146097 + doe) / 146097) with era by (Z.div_mod_to_equations; lia).
  replace ((era * 146097 + doe) mod 146097) with doe by (Z.div_mod_to_equations; lia).
  cbv zeta. rewrite Hyoe'. rewrite Hdoy'.
  destruct Hlen as [Hlen|(H11 & -> & _)].
  - destruct (month_doy_recover mp (d - 1) Hmp ltac:(lia) (proj1 Hlen)) as [H1 H2].
    replace ((153 * mp + 2) / 5 + (d - 1)) with doy in H1, H2 by (subst doy; lia).
    rewrite H1, H2. subst mp y'.
    destruct (Z.ltb_spec 2 m), (Z.leb_spec m 2); try lia.
    + destruct (Z.ltb_spec (m - 3) 10); [|lia]. destruct (Z.leb_spec (m - 3 + 3) 2); [lia|].
      f_equal; [f_equal|]; lia.
    + destruct (Z.ltb_spec (m + 9) 10); [lia|]. destruct (Z.leb_spec (m + 9 - 9) 2); [|lia].
      f_equal; [f_equal|]; lia.
  - assert (Hm2 : m = 2) by (subst mp; destruct (Z.ltb_spec 2 m); lia).
    assert (y - 1 = 400 * era + yoe) by (subst y'; rewrite Hm2 in Hy; exact Hy).
    subst doy mp. rewrite Hm2.
    split_zifs; f_equal; try f_equal; Z.div_mod_to_equations; lia.
Qed.


(** ** The wall clock of an instant *)

Lemma time_of_day_bounds s :
  0 <= s < 86400 ->
  0 <= s / 3600 < 24 /\ 0 <= s mod 3600 / 60 < 60 /\ 0 <= s mod 60 < 60 /\
  s / 3600 * 3600 + s mod 3600 / 60 * 60 + s mod 60 = s.
Proof. intros Hs. Z.div_mod_to_equations. lia. Qed.

Lemma of_datetime_to_datetime t : of_datetime (to_datetime t) = t.
Proof.
  unfold to_datetime. pose proof (days_civil_days (t / 86400)) as Hc.
  destruct (civil_from_days (t / 86400)) as [[y m] d]. unfold of_datetime; cbn [year month day hour minute second]. rewrite Hc.
  pose proof (time_of_day_bounds (t mod 86400) ltac:(apply Z.mod_pos_bound; lia)) as (_ & _ & _ & Hs).
  pose proof (Z.div_mod t 86400 ltac:(lia)). lia.
Qed.

Lemma to_datetime_valid t : valid_datetime (to_datetime t).
Proof.
  unfold to_datetime. pose proof (civil_from_days_valid (t / 86400)) as Hc.
  destruct (civil_from_days (t / 86400)) as [[y m] d].
  pose proof (time_of_day_bounds (t mod 86400) ltac:(apply Z.mod_pos_bound; lia)) as (? & ? & ? & _).
  unfold valid_datetime; cbn [year month day hour minute second]. tauto.
Qed.

(** Round trip of the calendar: the POSIX time of a valid date and
    time, read back as a wall clock, is that date and time; with
    [of_datetime_to_datetime], instants and valid dates and times are in
    bijection. *)
Theorem to_datetime_of_datetime dt : valid_datetime dt -> to_datetime (of_datetime dt) = dt.
Proof.
  destruct dt as [y m d h mi s]. intros (Hm & Hd & Hh & Hmi & Hs). unfold to_datetime, of_datetime; cbn [year month day hour minute second] in *.
  set (secs := h * 3600 + mi * 60 + s).
  assert (Hsecs : 0 <= secs < 86400) by (subst secs; lia).
  replace (days_from_civil y m d * 86400 + h * 3600 + mi * 60 + s) with
    (days_from_civil y m d * 86400 + secs) by (subst secs; lia).
  rewrite Z.div_add_l, Z.div_small, Z.add_0_r by lia.
  rewrite Z.add_comm, Z.mod_add, Z.mod_small by lia.
  rewrite civil_days_civil by lia. subst secs. f_equal; Z.div_mod_to_equations; lia.
Qed.

Lemma to_datetime_inj t1 t2 : to_datetime t1 = to_datetime t2 -> t1 = t2.
Proof. intros H. rewrite <- (of_datetime_to_datetime t1), H. apply of_datetime_to_datetime. Qed.

(** ** Decimal fields *)

Lemma dec_length k n : length (dec k n) = k.
Proof. revert n. induction k as [|k IH]; intros n; simpl; [done|]. rewrite length_app, IH. simpl. lia. Qed.

Lemma digit_value_char n : 0 <= n < 10 -> PyStr.digit_value (digit_char n) = n.
Proof.
  intros Hn. unfold PyStr.digit_value, digit_char. rewrite nat_ascii_embedding by lia. lia.
Qed.

Lemma is_digit_char n : 0 <= n < 10 -> PyStr.is_digit (digit_char n) = true.
Proof.
  intros Hn. unfold PyStr.is_digit, digit_char. rewrite nat_ascii_embedding by lia.
  apply andb_true_iff. split; apply Z.leb_le; lia.
Qed.

Lemma dec_digits k n : Forall (fun c => PyStr.is_digit c = true) (dec k n).
Proof.
  revert n. induction k as [|k IH]; intros n; simpl; [constructor|].
  apply Forall_app. split; [apply IH|]. constructor; [|constructor].
  apply is_digit_char, Z.mod_pos_bound. lia.
Qed.

Lemma undec_snoc cs c : undec (cs ++ [c]) = 10 * undec cs + PyStr.digit_value c.
Proof. unfold undec. by rewrite fold_left_app. Qed.

Lemma undec_dec k n : 0 <= n < 10 ^ Z.of_nat k -> undec (dec k n) = n.
Proof.
  revert n. induction k as [|k IH]; intros n Hn.
  { change (10 ^ Z.of_nat 0) with 1 in Hn. unfold undec. simpl. lia. }
  simpl. rewrite undec_snoc, IH, digit_value_char.
  - pose proof (Z.div_mod n 10). lia.
  - apply Z.mod_pos_bound. lia.
  - rewrite Nat2Z.inj_succ, Z.pow_succ_r in Hn by lia. Z.div_mod_to_equations. lia.
Qed.

(** Two fields of the same width are equal exactly when their values
    are: the printed text determines the field. *)
Lemma dec_app_inj k a b l1 l2 :
  0 <= a < 10 ^ Z.of_nat k -> 0 <= b < 10 ^ Z.of_nat k ->
  dec k a ++ l1 = dec k b ++ l2 -> a = b /\ l1 = l2.
Proof.
  intros Ha Hb Heq. apply app_inj_1 in Heq as [Hd Hl]; [|by rewrite !dec_length].
  split; [|done]. by rewrite <- (undec_dec k a), <- (undec_dec k b), Hd.
Qed.

Lemma fmt_Y_4 y : 1000 <= y <= 9999 -> fmt_Y y = dec 4 y.
Proof. intros Hy. unfold fmt_Y. split_zifs; lia || done. Qed.

Lemma days_in_month_le y m : days_in_month y m <= 31.
Proof. unfold days_in_month. repeat case_match; lia. Qed.

Lemma valid_fields dt :
  valid_datetime dt ->
  0 <= month dt < 100 /\ 0 <= day dt < 100 /\ 0 <= hour dt < 100 /\
  0 <= minute dt < 100 /\ 0 <= second dt < 100.
Proof. pose proof (days_in_month_le (year dt) (month dt)). unfold valid_datetime. lia. Qed.

Lemma fmt2_app_inj a b l1 l2 :
  0 <= a < 100 -> 0 <= b < 100 -> fmt2 a ++ l1 = fmt2 b ++ l2 -> a = b /\ l1 = l2.
Proof. intros Ha Hb. apply dec_app_inj; cbn; lia. Qed.

Lemma fmt_Y_app_inj a b l1 l2 :
  1000 <= a <= 9999 -> 1000 <= b <= 9999 -> fmt_Y a ++ l1 = fmt_Y b ++ l2 -> a = b /\ l1 = l2.
Proof. intros Ha Hb. rewrite !fmt_Y_4 by done. apply dec_app_inj; cbn; lia. Qed.

Lemma fmt2_inj a b : 0 <= a < 100 -> 0 <= b < 100 -> fmt2 a = fmt2 b -> a = b.
Proof.
  intros Ha Hb H. rewrite <- (app_nil_r (fmt2 a)), <- (app_nil_r (fmt2 b)) in H.
  by apply fmt2_app_inj in H as [? _].
Qed.

Lemma fmt_Y_digits y : Forall (fun c => PyStr.is_digit c = true) (fmt_Y y).
Proof. unfold fmt_Y. repeat case_match; apply dec_digits. Qed.

Lemma fmt_Y_length y : 1000 <= y <= 9999 -> length (fmt_Y y) = 4%nat.
Proof. intros Hy. rewrite fmt_Y_4 by done. apply dec_length. Qed.

Lemma cons_tail_eq (c c' : ascii) l1 l2 : c :: l1 = c' :: l2 -> l1 = l2.
Proof. by intros [= _ ->]. Qed.

Lemma string_of_list_ascii_inj l1 l2 : string_of_list_ascii l1 = string_of_list_ascii l2 -> l1 = l2.
Proof.
  intros H. by rewrite <- (list_ascii_of_string_of_list_ascii l1), H, list_ascii_of_string_of_list_ascii.
Qed.

(** The text [strftime("%Y%m%d_%H%M%S")] prints determines the date and
    time, for years of four digits. *)
Lemma strftime_stamp_inj dt1 dt2 :
  valid_datetime dt1 -> valid_datetime dt2 ->
  1000 <= year dt1 <= 9999 -> 1000 <= year dt2 <= 9999 ->
  strftime_stamp dt1 = strftime_stamp dt2 -> dt1 = dt2.
Proof.
  intros V1%valid_fields V2%valid_fields Y1 Y2 H%string_of_list_ascii_inj.
  destruct dt1, dt2; cbn [year month day hour minute second] in *.
  apply fmt_Y_app_inj in H as [-> H]; [|lia..]. apply fmt2_app_inj in H as [-> H]; [|lia..].
  apply fmt2_app_inj in H as [-> H]; [|lia..]. apply cons_tail_eq in H.
  apply fmt2_app_inj in H as [-> H]; [|lia..]. apply fmt2_app_inj in H as [-> H]; [|lia..].
  apply fmt2_inj in H as ->; [done|lia..].
Qed.

(** The same for [strftime("%d/%m/%Y %H:%M:%S")]. *)
Lemma strftime_dmy_inj dt1 dt2 :
  valid_datetime dt1 -> valid_datetime dt2 ->
  1000 <= year dt1 <= 9999 -> 1000 <= year dt2 <= 9999 ->
  strftime_dmy dt1 = strftime_dmy dt2 -> dt1 = dt2.
Proof.
  intros V1%valid_fields V2%valid_fields Y1 Y2 H%string_of_list_ascii_inj.
  destruct dt1, dt2; cbn [year month day hour minute second] in *.
  apply fmt2_app_inj in H as [-> H]; [|lia..]. apply cons_tail_eq in H.
  apply fmt2_app_inj in H as [-> H]; [|lia..]. apply cons_tail_eq in H.
  apply fmt_Y_app_inj in H as [-> H]; [|lia..]. apply cons_tail_eq in H.
  apply fmt2_app_inj in H as [-> H]; [|lia..]. apply cons_tail_eq in H.
  apply fmt2_app_inj in H as [-> H]; [|lia..]. apply cons_tail_eq in H.
  apply fmt2_inj in H as ->; [done|lia..].
Qed.

Lemma strftime_stamp_chars dt c :
  c ∈ list_ascii_of_string (strftime_stamp dt) -> PyStr.is_digit c = true \/ c = "_"%char.
Proof.
  unfold strftime_stamp. rewrite list_ascii_of_string_of_list_ascii.
  pose proof (fmt_Y_digits (year dt)). pose proof (dec_digits 2 (month dt)).
  pose proof (dec_digits 2 (day dt)). pose proof (dec_digits 2 (hour dt)).
  pose proof (dec_digits 2 (minute dt)). pose proof (dec_digits 2 (second dt)).
  unfold fmt2. rewrite !Forall_forall in *.
  rewrite !elem_of_app, !elem_of_cons, !elem_of_app. intros [Hc|[Hc|[Hc|[->|[Hc|[Hc|Hc]]]]]]; auto.
Qed.

Lemma strftime_stamp_length dt :
  1000 <= year dt <= 9999 -> String.length (strftime_stamp dt) = 15%nat.
Proof.
  intros Hy. unfold strftime_stamp. rewrite PyStr.length_string_of_list_ascii.
  unfold fmt2. repeat (rewrite length_app || rewrite length_cons). rewrite fmt_Y_length by done.
  rewrite !dec_length. done.
Qed.

Lemma strftime_dmy_length dt :
  1000 <= year dt <= 9999 -> String.length (strftime_dmy dt) = 19%nat.
Proof.
  intros Hy. unfold strftime_dmy. rewrite PyStr.length_string_of_list_ascii.
  unfold fmt2. repeat (rewrite length_app || rewrite length_cons). rewrite fmt_Y_length by done.
  rewrite !dec_length. done.
Qed.

(** ** Concrete instants *)

(** The leap day of 2024, one second before midnight. *)
Lemma to_datetime_of_datetime_witness :
  valid_datetime (DateTime 2024 2 29 23 59 59) /\
  to_datetime (of_datetime (DateTime 2024 2 29 23 59 59)) = DateTime 2024 2 29 23 59 59.
Proof.
  assert (H : valid_datetime (DateTime 2024 2 29 23 59 59)) by (apply (bool_decide_unpack _); vm_compute; reflexivity).
  split; [exact H|]. exact (to_datetime_of_datetime _ H).
Defined.

Example to_datetime_demo :
  to_datetime 1735808400 = DateTime 2025 1 2 9 0 0 /\ of_datetime (DateTime 1970 1 1 0 0 0) = 0 /\
  to_datetime (-1) = DateTime 1969 12 31 23 59 59.
Proof. vm_compute. repeat split. Qed.

End Clock.
