(* ===== verification/Json.v ===== *)
(** * Json: the values [json.loads] produces and the Python operations
    [handle_message] applies to them

    [websocket_endpoint] decodes every text frame with [json.loads] and
    hands the result to [ConnectionManager.handle_message], which reads it
    with [dict.get], compares the [type] field with [==] and converts the
    [cvId] field with [int()].  A decoded value is a [json]; an object
    is the list of its members in document order, and the Python [dict]
    [json.loads] builds from it is [PyDict.of_list] of that list (a
    repeated member keeps its first position and its last value).

    A JSON number with a fraction or an exponent becomes a Python
    [float]; the program only passes such a value to [int()] or tests its
    truth, so a float is represented by what [int()] makes of it (its
    truncation toward zero, or [None] for [inf] and [nan]) and by whether
    it is [0.0]. *)

From S2P Require Import Prelude PyDict PyStr.

Module Json.

Local Set Warnings "-register-all".

Local Open Scope Z_scope.
Local Open Scope py_scope.

Inductive json :=
  | JNull
  | JBool (b : bool)
  | JInt (z : Z)
  | JFloat (trunc : option Z) (is_zero : bool)
  | JStr (s : string)
  | JArr (items : list json)
  | JObj (members : list (string * json)).

(** [x.get(k, default)]: [AttributeError] unless [x] is a dict. *)
Definition py_get (x : json) (k : string) (default : json) : result json :=
  match x with
  | JObj members =>
      match PyDict.get (PyDict.of_list members) k with
      | Some v => Ok v
      | None => Ok default
      end
  | _ => Raise AttributeError
  end.

(** [x == s] for a string literal [s]. *)
Definition py_eq_str (x : json) (s : string) : bool :=
  match x with JStr s' => String.eqb s' s | _ => false end.

(** [int(x)] *)
Definition py_int (x : json) : result Z :=
  match x with
  | JInt z => Ok z
  | JBool b => Ok (if b then 1 else 0)
  | JFloat (Some z) _ => Ok z
  | JFloat None _ => Raise ValueError
  | JStr s => match PyStr.py_int_str s with Some z => Ok z | None => Raise ValueError end
  | JNull | JArr _ | JObj _ => Raise TypeError
  end.

(** [bool(x)]: the truth value of a decoded value. *)
Definition py_truthy (x : json) : bool :=
  match x with
  | JNull => false
  | JBool b => b
  | JInt z => negb (z =? 0)
  | JFloat _ is_zero => negb is_zero
  | JStr s => negb (String.eqb s "")
  | JArr items => negb (bool_decide (items = []))
  | JObj members => negb (bool_decide (members = []))
  end.

(** [x or y] *)
Definition py_or (x y : json) : json := if py_truthy x then x else y.

Lemma py_get_obj members k dflt :
  py_get (JObj members) k dflt =
  Ok (default dflt (PyDict.get (PyDict.of_list members) k)).
Proof. simpl. destruct (PyDict.get _ _); done. Qed.

Lemma py_eq_str_true x s : py_eq_str x s = true <-> x = JStr s.
Proof.
  destruct x; simpl; split; intros H; try congruence.
  - apply String.eqb_eq in H. congruence.
  - injection H as ->. apply String.eqb_refl.
Qed.

End Json.
