(* ===== verification/Auth.v ===== *)
(** * Auth: the tokens and the guards of the HTTP API
    [src/Api/utils/jwt_manager.py] issues and checks the tokens,
    [src/Api/middlewares/jwt_bearer.py] ([JWTBearer]) reads them from the
    [Authorization] header, [src/Api/utils/authz.py] ([admin_required])
    admits the administrators, and [src/Api/utils/api_key.py] guards the
    public and the machine-to-machine endpoints with an API key.

    - [Jwt]: [create_token] and [validate_token] over PyJWT's
      [encode]/[decode].  A token is modelled by what it carries: its
      claims and the key and algorithm of its signature; any other
      string is [Garbage].  [decode] is PyJWT's check as the sources call
      it (signature, algorithm, and the registered claims [exp], [iat],
      [nbf] against the current time, with no leeway).  The signature
      is symbolic: a token verifies under a key exactly when it was
      signed with that key, which is what HMAC-SHA256 is used for.
      Times are whole seconds (PyJWT stores a [datetime] as its
      truncated POSIX time stamp).
    - [Guards]: FastAPI's [HTTPBearer] (the scheme compared
      case-insensitively with [bearer]; a missing header, scheme or
      credential is refused with 403, the status of the FastAPI releases
      this code targets), [JWTBearer], [admin_required],
      [require_basic_or_api_key] and [require_public_api_key].  A guard
      either lets the request through with a value or refuses it with
      the status and detail of its [HTTPException]. *)

From S2P Require Import Prelude PyDict PyStr Json.
From Stdlib Require Import Ascii.

Module Jwt.

Import Json.

Local Open Scope Z_scope.

Inductive token :=
  | Signed (claims : list (string * json)) (key alg : string)
  | Garbage (s : string).

(** The module-level settings of [jwt_manager.py]. *)
Record jwt_config := JwtConfig { SECRET_KEY : string; ACCESS_TOKEN_EXPIRE_MINUTES : Z }.

Definition ALGO : string := "HS256".

(** [SECRET_KEY = os.getenv("SECRET_KEY", "change_me")] and
    [int(os.getenv("ACCESS_TOKEN_EXPIRE_MINUTES", "120"))], which raises
    [ValueError] at import time on a value that is not an integer. *)
Definition jwt_config_of_env (secret minutes : option string) : result jwt_config :=
  match PyStr.py_int_str (default "120" minutes) with
  | Some m => Ok (JwtConfig (default "change_me" secret) m)
  | None => Raise ValueError
  end.

(** [payload.update(extra)] *)
Definition dict_update (d extra : list (string * json)) : list (string * json) :=
  fold_left (fun d kv => PyDict.setitem d kv.1 kv.2) extra d.

(** [create_token(sub, extra)] at time [now]. *)
Definition create_token (cfg : jwt_config) (sub : string) (extra : option (list (string * json)))
    (now : Z) : token :=
  let payload := [("sub", JStr sub); ("iat", JInt now);
                  ("exp", JInt (now + ACCESS_TOKEN_EXPIRE_MINUTES cfg * 60))] in
  let payload :=
    match extra with
    | Some e => if bool_decide (e = []) then payload else dict_update payload e
    | None => payload
    end in
  Signed payload (SECRET_KEY cfg) ALGO.

(** A registered time claim: absent, an integer, or malformed. *)
Definition time_claim (c : list (string * json)) (k : string) : option (option Z) :=
  match PyDict.get c k with
  | None => Some None
  | Some (JInt z) => Some (Some z)
  | Some _ => None
  end.

(** PyJWT's [decode(token, key, algorithms)] at time [now]: the claims,
    or [None] when it raises an [InvalidTokenError] (malformed token,
    algorithm not allowed, bad signature, malformed time claim, expired,
    issued in the future, not yet valid). *)
Definition decode (t : token) (key : string) (algorithms : list string) (now : Z)
    : option (list (string * json)) :=
  match t with
  | Garbage _ => None
  | Signed claims k alg =>
      if negb (bool_decide (alg ∈ algorithms)) then None
      else if negb (String.eqb k key) then None
      else
        let c := PyDict.of_list claims in
        match time_claim c "exp", time_claim c "iat", time_claim c "nbf" with
        | Some e, Some i, Some n =>
            if (match e with Some e => e <=? now | None => false end)
               || (match i with Some i => now <? i | None => false end)
               || (match n with Some n => now <? n | None => false end)
            then None else Some c
        | _, _, _ => None
        end
  end.

(** [validate_token(token)]: the claims, or [ValueError]. *)
Definition validate_token (cfg : jwt_config) (t : token) (now : Z) : result (list (string * json)) :=
  match decode t (SECRET_KEY cfg) [ALGO] now with
  | Some c => Ok c
  | None => Raise ValueError
  end.

(** ** Lemmas *)

(** The claims PyJWT itself checks. *)
Definition reserved : list string := ["sub"; "iat"; "exp"; "nbf"].

Lemma dict_update_wf d e : PyDict.wf d -> PyDict.wf (dict_update d e).
Proof.
  unfold dict_update. revert d. induction e as [|kv e IH]; intros d Hd; simpl; [done|].
  apply IH, PyDict.wf_setitem, Hd.
Qed.

Lemma get_reverse_reserved (extra : list (string * json)) k :
  Forall (fun kv => kv.1 ∉ reserved) extra -> k ∈ reserved ->
  PyDict.get (reverse extra) k = None.
Proof.
  intros Hf Hk. apply PyDict.get_None_keys. unfold PyDict.keys.
  rewrite fmap_reverse, elem_of_reverse. intros ([k' v] & -> & Hin)%list_elem_of_fmap.
  rewrite Forall_forall in Hf. by apply (Hf _ Hin).
Qed.

(** The claims of a new token: [extra] over [sub], [iat] and [exp]. *)
Lemma create_token_payload cfg sub extra t :
  let base := [("sub", JStr sub); ("iat", JInt t);
               ("exp", JInt (t + ACCESS_TOKEN_EXPIRE_MINUTES cfg * 60))] in
  exists P, create_token cfg sub (Some extra) t = Signed P (SECRET_KEY cfg) ALGO /\
    PyDict.wf P /\
    forall k, PyDict.get P k =
              match PyDict.get (reverse extra) k with Some v => Some v | None => PyDict.get base k end.
Proof.
  intros base. unfold create_token. fold base.
  assert (Hb : PyDict.wf base) by (apply (bool_decide_unpack _); vm_compute; reflexivity).
  case_bool_decide as He.
  - subst extra. eexists. split; [reflexivity|]. split; [done|]. done.
  - eexists. split; [reflexivity|]. split; [by apply dict_update_wf|].
    intros k. apply PyDict.get_fold_setitem.
Qed.

(** The statement of [create_validate_roundtrip], proved once for the lemmas that build on it. *)
Lemma create_validate_roundtrip_core cfg sub (extra : list (string * json)) t now :
  Forall (fun kv => kv.1 ∉ reserved) extra ->
  (exists c, validate_token cfg (create_token cfg sub (Some extra) t) now = Ok c /\
     PyDict.get c "sub" = Some (JStr sub) /\
     forall k, k ∉ reserved -> PyDict.get c k = PyDict.get (reverse extra) k)
  <-> t <= now < t + ACCESS_TOKEN_EXPIRE_MINUTES cfg * 60.
Proof.
  intros Hf. destruct (create_token_payload cfg sub extra t) as (P & -> & Hwf & Hget).
  set (e := t + ACCESS_TOKEN_EXPIRE_MINUTES cfg * 60) in Hget.
  assert (Hr : forall k, k ∈ reserved -> PyDict.get P k =
            PyDict.get [("sub", JStr sub); ("iat", JInt t); ("exp", JInt e)] k).
  { intros k Hk. by rewrite Hget, get_reverse_reserved. }
  assert (He : time_claim P "exp" = Some (Some e)) by (unfold time_claim; rewrite Hr by set_solver; done).
  assert (Hi : time_claim P "iat" = Some (Some t)) by (unfold time_claim; rewrite Hr by set_solver; done).
  assert (Hn : time_claim P "nbf" = Some None) by (unfold time_claim; rewrite Hr by set_solver; done).
  unfold validate_token, decode. rewrite bool_decide_eq_true_2 by set_solver.
  rewrite String.eqb_refl, PyDict.of_list_wf, He, Hi, Hn by done. simpl.
  destruct ((e <=? now) || (now <? t)) eqn:Hc;
    rewrite ?orb_true_iff, ?orb_false_iff, ?Z.leb_le, ?Z.ltb_lt, ?Z.leb_gt, ?Z.ltb_ge in Hc.
  - split; [intros (c & [=] & _)|lia].
  - split; [lia|]. intros _. exists P. split; [done|]. split; [by rewrite Hr by set_solver|].
    intros k Hk. rewrite Hget. destruct (PyDict.get (reverse extra) k); [done|].
    simpl. repeat case_decide; set_solver.
Qed.

(** (C28) A token made by [create_token] with extra claims that do not
    redefine the registered ones is accepted by [validate_token] exactly
    from its issue time until [ACCESS_TOKEN_EXPIRE_MINUTES] later, and
    then carries the subject and every extra claim. *)
Theorem create_validate_roundtrip cfg sub (extra : list (string * json)) t now :
  Forall (fun kv => kv.1 ∉ reserved) extra ->
  (exists c, validate_token cfg (create_token cfg sub (Some extra) t) now = Ok c /\
     PyDict.get c "sub" = Some (JStr sub) /\
     forall k, k ∉ reserved -> PyDict.get c k = PyDict.get (reverse extra) k)
  <-> t <= now < t + ACCESS_TOKEN_EXPIRE_MINUTES cfg * 60.
Proof. apply create_validate_roundtrip_core. Qed.

End Jwt.

Module Guards.

Import Json Jwt.

Local Open Scope Z_scope.

(** What a dependency does with a request: let it through with a value,
    or raise an [HTTPException]. *)
Inductive guard (A : Type) :=
  | Pass (a : A)
  | Deny (status : Z) (detail : string).
Arguments Pass {A} a.
Arguments Deny {A} status detail.

(** The headers the guards read.  [authorization] is the header split
    by [get_authorization_scheme_param] into the scheme and the
    credentials ([None] when empty); [basic] the decoded credentials of
    a [Basic] header. *)
Record request := Request {
  authorization : option (string * option token);
  x_api_key : option string;
  basic : option (string * string)
}.

(** [HTTPBearer(auto_error=True)] *)
Definition http_bearer (req : request) : guard token :=
  match authorization req with
  | None | Some (_, None) => Deny 403 "Not authenticated"
  | Some (scheme, Some t) =>
      if String.eqb (PyStr.lower scheme) "bearer" then Pass t
      else Deny 403 "Invalid authentication credentials"
  end.

(** [JWTBearer.__call__]: the claims of a valid token, else 401. *)
Definition jwt_bearer (cfg : jwt_config) (req : request) (now : Z) : guard (list (string * json)) :=
  match http_bearer req with
  | Deny st det => Deny st det
  | Pass t =>
      match validate_token cfg t now with
      | Ok payload => Pass payload
      | Raise _ => Deny 401 "Token inválido o expirado"
      end
  end.

(** [admin_required]: [role = (payload or {}).get("role")], which must
    equal ["Admin"]. *)
Definition admin_required (cfg : jwt_config) (req : request) (now : Z) : guard (list (string * json)) :=
  match jwt_bearer cfg req now with
  | Deny st det => Deny st det
  | Pass payload =>
      let role := default JNull (PyDict.get payload "role") in
      if py_eq_str role "Admin" then Pass payload else Deny 403 "Solo administradores"
  end.

(** The environment of [_get_env_key_user]. *)
Record api_env := ApiEnv { BASIC_API_KEY : option string; BASIC_API_USER : option string }.

Definition _get_env_key_user (env : api_env) : string * string :=
  (PyStr.strip (default "" (BASIC_API_KEY env)), PyStr.strip (default "apikey" (BASIC_API_USER env))).

(** [require_basic_or_api_key]: the mode it records in
    [request.state.api_auth]. [secrets.compare_digest] is equality. *)
Definition require_basic_or_api_key (env : api_env) (req : request) : guard string :=
  let '(expected_key, expected_user) := _get_env_key_user env in
  if String.eqb expected_key "" then Deny 500 "API key not configured"
  else if (match x_api_key req with
           | Some k => negb (String.eqb k "") && String.eqb k expected_key
           | None => false
           end) then Pass "header"
  else
    match basic req with
    | Some (u, p) =>
        if String.eqb u expected_user && String.eqb p expected_key then Pass "basic"
        else Deny 401 "Invalid API credentials"
    | None => Deny 401 "Invalid API credentials"
    end.

(** [require_public_api_key] *)
Definition require_public_api_key (req : request) : guard string :=
  match x_api_key req with
  | Some k => if String.eqb k "Donemilio@2026" then Pass k else Deny 401 "Invalid API Key"
  | None => Deny 401 "Invalid API Key"
  end.

(** ** Lemmas *)

Lemma validate_token_raise cfg t now e : validate_token cfg t now = Raise e -> e = ValueError.
Proof. unfold validate_token. destruct (decode _ _ _ _); congruence. Qed.

Lemma jwt_bearer_Pass cfg req now p :
  jwt_bearer cfg req now = Pass p <->
  exists sch t, authorization req = Some (sch, Some t) /\ PyStr.lower sch = "bearer" /\
                validate_token cfg t now = Ok p.
Proof.
  unfold jwt_bearer, http_bearer.
  destruct (authorization req) as [[sch [t|]]|]; [|naive_solver..].
  destruct (String.eqb_spec (PyStr.lower sch) "bearer"); [|naive_solver].
  destruct (validate_token cfg t now) eqn:Hv; split.
  - intros [= ->]. eauto.
  - intros (? & ? & [= <- <-] & _ & H). congruence.
  - done.
  - intros (? & ? & [= <- <-] & _ & H). congruence.
Qed.

(** (C29) [admin_required] lets a request through exactly when its
    [Authorization] header carries, under the [bearer] scheme, a token
    [validate_token] accepts whose [role] claim is ["Admin"]; it answers
    401 when the bearer token is rejected, and 403 when there is no
    bearer token or its role is another. *)
Theorem admin_required_spec cfg req now :
  match admin_required cfg req now with
  | Pass p =>
      exists sch t, authorization req = Some (sch, Some t) /\ PyStr.lower sch = "bearer" /\
        validate_token cfg t now = Ok p /\ PyDict.get p "role" = Some (JStr "Admin")
  | Deny st _ =>
      (st = 401 /\ exists sch t, authorization req = Some (sch, Some t) /\
         PyStr.lower sch = "bearer" /\ validate_token cfg t now = Raise ValueError) \/
      (st = 403 /\ forall sch t, authorization req = Some (sch, Some t) ->
         PyStr.lower sch = "bearer" ->
         exists p, validate_token cfg t now = Ok p /\ PyDict.get p "role" <> Some (JStr "Admin"))
  end.
Proof.
  unfold admin_required, jwt_bearer, http_bearer.
  destruct (authorization req) as [[sch [t|]]|]; [|right; naive_solver..].
  destruct (String.eqb_spec (PyStr.lower sch) "bearer") as [Hb|Hb]; [|right; naive_solver].
  destruct (validate_token cfg t now) as [p|e] eqn:Hv.
  - destruct (py_eq_str (default JNull (PyDict.get p "role")) "Admin") eqn:Hr.
    + apply py_eq_str_true in Hr. exists sch, t. do 3 (split; [done|]).
      by destruct (PyDict.get p "role"); simplify_eq/=.
    + right. split; [done|]. intros ?? [= <- <-] _. exists p. split; [done|].
      intros Hp. rewrite Hp in Hr. by vm_compute in Hr.
  - left. split; [done|]. exists sch, t. do 2 (split; [done|]).
    by rewrite Hv, (validate_token_raise _ _ _ _ Hv).
Qed.

(** [require_basic_or_api_key] (imported by [routers/usuarios.py] but
    used by no route) answers 500 exactly when
    [BASIC_API_KEY] is empty after [strip]; otherwise it lets a request
    through in mode "header" when [X-API-Key] is that key, else in mode
    "basic" when the Basic credentials are [BASIC_API_USER] (default
    "apikey") and that key, and answers 401 in every other case. *)
Theorem require_basic_or_api_key_spec env req :
  let '(key, user) := _get_env_key_user env in
  match require_basic_or_api_key env req with
  | Pass m =>
      key <> "" /\
      ((m = "header" /\ x_api_key req = Some key) \/
       (m = "basic" /\ x_api_key req <> Some key /\ basic req = Some (user, key)))
  | Deny st _ =>
      (st = 500 /\ key = "") \/
      (st = 401 /\ key <> "" /\ x_api_key req <> Some key /\ basic req <> Some (user, key))
  end.
Proof.
  unfold require_basic_or_api_key. destruct (_get_env_key_user env) as [key user].
  destruct (String.eqb_spec key "") as [->|Hk]; [by left|].
  destruct (x_api_key req) as [k|] eqn:Hx.
  - destruct (String.eqb_spec k "") as [->|Hk0]; simpl;
      [|destruct (String.eqb_spec k key) as [->|Hkk]; [naive_solver|]];
      (destruct (basic req) as [[u pw]|]; [|right; naive_solver]);
      destruct (String.eqb_spec u user), (String.eqb_spec pw key); simpl; subst; naive_solver.
  - destruct (basic req) as [[u pw]|]; [|right; naive_solver].
    destruct (String.eqb_spec u user), (String.eqb_spec pw key); simpl; subst; naive_solver.
Qed.

End Guards.

(** ** Concrete tokens *)
Module AuthDemo.

Import Json Jwt Guards.

Local Open Scope Z_scope.

Definition cfg : jwt_config := JwtConfig "s3cret" 120.

(** A login token for user 7, an administrator, issued at 1000 and
    checked at 5000, within its 7200 seconds. *)
Lemma create_validate_roundtrip_witness :
  Forall (fun kv => kv.1 ∉ reserved) [("uid", JInt 7); ("role", JStr "Admin")] /\
  ((exists c, validate_token cfg (create_token cfg "ana@mail.com"
                 (Some [("uid", JInt 7); ("role", JStr "Admin")]) 1000) 5000 = Ok c /\
      PyDict.get c "sub" = Some (JStr "ana@mail.com") /\
      forall k, k ∉ reserved -> PyDict.get c k = PyDict.get (reverse [("uid", JInt 7); ("role", JStr "Admin")]) k)
   <-> 1000 <= 5000 < 1000 + ACCESS_TOKEN_EXPIRE_MINUTES cfg * 60).
Proof.
  assert (Hf : Forall (fun kv : string * json => kv.1 ∉ reserved)
                 [("uid", JInt 7); ("role", JStr "Admin")])
    by (apply (bool_decide_unpack _); vm_compute; reflexivity).
  split; [exact Hf | exact (create_validate_roundtrip cfg "ana@mail.com" _ 1000 5000 Hf)].
Defined.

(** Without [SECRET_KEY] in the environment the key is the public
    default "change_me": a token anyone signs with it, claiming the role
    ["Admin"], passes [admin_required]. *)
Lemma default_secret_forgeable now :
  exists cfg', jwt_config_of_env None None = Ok cfg' /\
    admin_required cfg' (Request (Some ("Bearer", Some (Signed [("role", JStr "Admin")] "change_me" "HS256")))
                           None None) now = Pass [("role", JStr "Admin")].
Proof. eexists. split; [reflexivity|]. reflexivity. Qed.

End AuthDemo.
