(* ===== verification/Crud.v ===== *)
(** * Crud: the service methods shared by the catalogue tables
    [UsuariosService] ([src/Api/services/usuarios.py]), [PuestosService]
    ([src/Api/services/puestos.py]) and [UnidadesNegocioService]
    ([src/Api/services/unidades_negocio.py]) are written alike: [get] by
    primary key, [create] by inserting a row and committing, [update] by
    [setattr] of every field of [data.model_dump(exclude_unset=True)]
    then committing, [delete] of the row found by [get].

    The class [Table] is the interface a table offers to these methods:
    the key of a row, the row with a key assigned by the auto-increment,
    one [setattr], the NOT NULL columns, and the pairwise compatibility
    of two rows that the UNIQUE constraints require.  Section [Crud]
    gives the methods once for every table and proves their behaviour
    and the invariant [wf] (keys, NOT NULL, UNIQUE) against that
    interface; [Usuarios] and [Catalogo] give the instances.

    A commit that a constraint refuses raises [IntegrityError] and the
    session is rolled back: the table is unchanged.  A row that another
    table references through a foreign key without [ON DELETE] cannot be
    deleted: [delete] takes the ids referenced from elsewhere. *)

From S2P Require Import Prelude.

Class Table (R U : Type) := {
  row_id : R -> Z;
  with_id : R -> Z -> R;
  setattr : R -> U -> R;
  not_null : R -> bool;
  compatible : R -> R -> bool;
  row_id_with_id r i : row_id (with_id r i) = i;
  row_id_setattr r u : row_id (setattr r u) = row_id r;
  compatible_sym a b : compatible a b = compatible b a
}.

Module Crud.

Section Crud.

Context {R U : Type} `{!Table R U}.

Local Open Scope Z_scope.
Local Open Scope py_scope.

Record table := Tbl { rows : gmap Z R; next_id : Z }.

(** The constraints a row [r] stored under [k] must satisfy against the
    other rows. *)
Definition fits (m : gmap Z R) (k : Z) (r : R) : bool :=
  not_null r && bool_decide (map_Forall (fun j o => j = k \/ compatible r o = true) m).

(** [db.commit()] of the row [r] under the key [k]. *)
Definition commit (t : table) (k : Z) (r : R) : result table :=
  if fits (rows t) k r then Ok (Tbl (<[k := r]> (rows t)) (next_id t)) else Raise IntegrityError.

(** [query.all()] in the order the table returns the rows. *)
Definition list_all (t : table) : list R := (map_to_list (rows t)).*2.

(** [query.filter(Model.id == id).first()] *)
Definition get (t : table) (i : Z) : option R := rows t !! i.

(** [db.add(obj); db.commit(); db.refresh(obj)]: the auto-increment
    gives the key. *)
Definition create (t : table) (r : R) : result (table * R) :=
  let r' := with_id r (next_id t) in
  let? t' := commit (Tbl (rows t) (next_id t + 1)) (next_id t) r' in
  Ok (t', r').

(** [update(id, data)]: [None] for a missing row, else the row after the
    [setattr] of every item, committed. *)
Definition update (t : table) (i : Z) (items : list U) : result (table * option R) :=
  match get t i with
  | None => Ok (t, None)
  | Some obj =>
      let obj' := fold_left setattr items obj in
      let? t' := commit t i obj' in
      Ok (t', Some obj')
  end.

(** [delete(id)]: [False] for a missing row; a row that another table
    references cannot be deleted. *)
Definition delete (referenced : Z -> bool) (t : table) (i : Z) : result (table * bool) :=
  match get t i with
  | None => Ok (t, false)
  | Some _ => if referenced i then Raise IntegrityError else Ok (Tbl (base.delete i (rows t)) (next_id t), true)
  end.

(** The invariant of a table: every row is stored under its own key,
    below the auto-increment, with its NOT NULL columns set, and two
    rows satisfy the UNIQUE constraints together. *)
Definition wf (t : table) : Prop :=
  map_Forall (fun k r => row_id r = k /\ k < next_id t /\ not_null r = true) (rows t) /\
  forall j k a b, j <> k -> rows t !! j = Some a -> rows t !! k = Some b -> compatible a b = true.

(** [wf] as a computation, for concrete tables. *)
Definition wf_check (t : table) : bool :=
  bool_decide (map_Forall (fun k r => row_id r = k /\ k < next_id t /\ not_null r = true) (rows t)) &&
  forallb (fun ja => forallb (fun kb => bool_decide (ja.1 = kb.1) || compatible ja.2 kb.2)
                       (map_to_list (rows t))) (map_to_list (rows t)).

(** ** Lemmas *)

Lemma wf_check_sound t : wf_check t = true -> wf t.
Proof.
  unfold wf_check. intros [Hm Hc]%andb_prop. apply bool_decide_eq_true in Hm.
  split; [done|]. intros j k a b Hjk Ha Hb.
  rewrite forallb_forall in Hc.
  specialize (Hc _ (proj1 (list_elem_of_In _ _) (proj2 (elem_of_map_to_list _ _ _) Ha))).
  rewrite forallb_forall in Hc.
  specialize (Hc _ (proj1 (list_elem_of_In _ _) (proj2 (elem_of_map_to_list _ _ _) Hb))).
  simpl in Hc. rewrite bool_decide_eq_false_2 in Hc by done. done.
Qed.

Lemma fits_true m k r :
  fits m k r = true <->
  not_null r = true /\ forall j o, m !! j = Some o -> j <> k -> compatible r o = true.
Proof.
  unfold fits. rewrite andb_true_iff, bool_decide_eq_true, map_Forall_lookup.
  split; intros [Hn Hm]; split; try done; intros j o Hj.
  - intros Hjk. by destruct (Hm j o Hj).
  - destruct (decide (j = k)); [by left|right]. by apply (Hm j o Hj).
Qed.

Lemma commit_Ok t k r t' :
  commit t k r = Ok t' <->
  fits (rows t) k r = true /\ t' = Tbl (<[k := r]> (rows t)) (next_id t).
Proof. unfold commit. destruct (fits _ _ _); naive_solver. Qed.

Lemma commit_Raise t k r e : commit t k r = Raise e <-> fits (rows t) k r = false /\ e = IntegrityError.
Proof. unfold commit. destruct (fits _ _ _); naive_solver. Qed.

(** Storing under [k] a row that fits keeps the invariant. *)
Lemma tbl_wf_insert t k r :
  wf t -> row_id r = k -> k < next_id t -> fits (rows t) k r = true ->
  wf (Tbl (<[k := r]> (rows t)) (next_id t)).
Proof.
  intros [Hm Hc] Hid Hk [Hn Hf]%fits_true. split; simpl.
  - apply map_Forall_insert_2; [done|].
    eapply map_Forall_impl; [apply Hm|]. simpl. naive_solver.
  - intros j k' a b Hjk Ha Hb.
    rewrite lookup_insert_Some in Ha, Hb.
    destruct Ha as [[<- <-]|[Hja Ha]], Hb as [[<- <-]|[Hkb Hb]]; [done| | |eauto].
    + by apply (Hf k' b).
    + rewrite compatible_sym. by apply (Hf j a).
Qed.

Lemma tbl_wf_bump t : wf t -> wf (Tbl (rows t) (next_id t + 1)).
Proof.
  intros [Hm Hc]. split; [|done]. eapply map_Forall_impl; [apply Hm|]. simpl.
  intros k r (? & ? & ?). repeat split; (done || lia).
Qed.

Lemma tbl_wf_delete t i : wf t -> wf (Tbl (base.delete i (rows t)) (next_id t)).
Proof.
  intros [Hm Hc]. split; simpl.
  - by apply map_Forall_delete.
  - intros j k a b Hjk Ha Hb. rewrite lookup_delete_Some in Ha, Hb. naive_solver.
Qed.

Lemma tbl_wf_fresh t : wf t -> rows t !! next_id t = None.
Proof.
  intros [Hm _]. destruct (rows t !! next_id t) eqn:E; [|done].
  apply Hm in E. lia.
Qed.

(** ** The behaviour of each method *)

(** [create] either stores the row under the next key and advances the
    auto-increment, keeping the invariant, or raises [IntegrityError]
    when the row violates a constraint. *)
Lemma crud_create_spec t r :
  wf t ->
  match create t r with
  | Ok (t', r') =>
      r' = with_id r (next_id t) /\ rows t' = <[next_id t := r']> (rows t) /\
      next_id t' = next_id t + 1 /\ wf t'
  | Raise e => e = IntegrityError /\ fits (rows t) (next_id t) (with_id r (next_id t)) = false
  end.
Proof.
  intros Hwf. unfold create.
  destruct (commit _ _ _) as [t'|e] eqn:Hc; simpl.
  - apply commit_Ok in Hc as [Hf ->]. simpl. do 3 (split; [done|]).
    apply (tbl_wf_insert (Tbl (rows t) (next_id t + 1))); simpl; [by apply tbl_wf_bump|apply row_id_with_id|lia|done].
  - by apply commit_Raise in Hc as [? ->].
Qed.

Lemma row_id_fold_setattr items o : row_id (fold_left setattr items o) = row_id o.
Proof. revert o. induction items as [|u l IH]; intros o; simpl; [done|]. by rewrite IH, row_id_setattr. Qed.

(** A successful [update] on a well-formed table: the row after the
    [setattr]s replaces the old one and the table stays well formed. *)
Lemma crud_update_Ok t i items t' o :
  wf t -> update t i items = Ok (t', o) ->
  match o with
  | None => get t i = None /\ t' = t
  | Some obj' =>
      exists obj, get t i = Some obj /\ obj' = fold_left setattr items obj /\
        fits (rows t) i obj' = true /\ rows t' = <[i := obj']> (rows t) /\
        next_id t' = next_id t /\ wf t'
  end.
Proof.
  intros Hwf. unfold update. destruct (get t i) as [obj|] eqn:Hg; [|by intros [= <- <-]].
  destruct (commit t i (fold_left setattr items obj)) as [t1|e] eqn:Hc; [simpl|done].
  intros [= <- <-]. apply commit_Ok in Hc as [Hf ->]. exists obj. do 5 (split; [done|]).
  pose proof Hwf as [Hm _]. pose proof (Hm i obj Hg) as (Hid & Hlt & _).
  apply tbl_wf_insert; [done| |done|done]. by rewrite row_id_fold_setattr.
Qed.


Lemma crud_delete_spec referenced t i :
  wf t ->
  match delete referenced t i with
  | Ok (t', true) => is_Some (get t i) /\ referenced i = false /\
                     rows t' = base.delete i (rows t) /\ wf t'
  | Ok (t', false) => get t i = None /\ t' = t
  | Raise e => e = IntegrityError /\ is_Some (get t i) /\ referenced i = true
  end.
Proof.
  intros Hwf. unfold delete. destruct (get t i) eqn:Hg; [|done].
  destruct (referenced i) eqn:Hr; [done|]. simpl. split; [done|]. split; [done|].
  split; [done|]. by apply tbl_wf_delete.
Qed.

End Crud.

End Crud.

Arguments Crud.table R : clear implicits.
