(* ===== verification/Hub.v ===== *)
(** * Hub: the [ConnectionManager] of [src/Api/utils/websocket_manager.py]

    The state of the class is the record [ConnectionManager] (its two
    dicts); each method is one definition, written on the state it reads
    and returning the new state together with what the method returns.
    The awaits of the methods are not here: [broadcast] is split into the
    synchronous part that computes the message and the snapshot of the
    sockets ([message], [broadcast_targets]), and the sending loop, which
    interleaves with the other tasks, is modelled in [EventLoop].
    [handle_message] returns the cv whose viewer list it then broadcasts;
    [broadcast_viewers] builds that broadcast's message ([viewers_update]).

    The presence index ([viewers]) is related to an abstract
    specification, a map from cv to a map from user to name, with an
    equivalence that identifies an absent cv with an empty viewer map;
    each operation refines its specification ([Presence] section). *)

From S2P Require Import Prelude PyDict PyStr Json.

Module ConnectionManager.

Import Json.
Local Open Scope Z_scope.
Local Open Scope py_scope.

(** A [WebSocket] object, compared by identity. *)
Notation WebSocket := nat (only parsing).

(** The [user_info] dict [{"id": id, "nombre": nombre}] built by
    [websocket_endpoint] from the query parameters. *)
Record user_info := UserInfo { ui_id : Z; ui_nombre : string }.

Record ConnectionManager := MkManager {
  active_connections : list (WebSocket * user_info);
  viewers : list (Z * list (Z * string))
}.

(** [ConnectionManager.__init__] *)
Definition init : ConnectionManager := MkManager [] [].

(** [connect], after [await websocket.accept()] has returned. *)
Definition connect (self : ConnectionManager) (ws : WebSocket) (u : user_info)
  : ConnectionManager :=
  MkManager (PyDict.setitem (active_connections self) ws u) (viewers self).

(** The loop of [disconnect] over [self.viewers.items()]: removes the
    user from every viewer map that holds it and collects those cvs. *)
Fixpoint purge_viewers (user_id : Z) (vs : list (Z * list (Z * string)))
  : list (Z * list (Z * string)) * list Z :=
  match vs with
  | [] => ([], [])
  | (cv_id, viewers_map) :: rest =>
      let '(rest', to_notify) := purge_viewers user_id rest in
      if PyDict.contains viewers_map user_id
      then ((cv_id, PyDict.delitem viewers_map user_id) :: rest', cv_id :: to_notify)
      else ((cv_id, viewers_map) :: rest', to_notify)
  end.

(** [disconnect]: [None] is the implicit [return None] of a socket that is
    not registered. *)
Definition disconnect (self : ConnectionManager) (ws : WebSocket)
  : ConnectionManager * option (list Z) :=
  match PyDict.get (active_connections self) ws with
  | None => (self, None)
  | Some user =>
      let '(vs', to_notify_cvs) := purge_viewers (ui_id user) (viewers self) in
      (MkManager (PyDict.delitem (active_connections self) ws) vs', Some to_notify_cvs)
  end.

(** The message [broadcast] serialises: [{"type": event_type, "payload": data}]. *)
Definition message (event_type : string) (data : json) : json :=
  JObj [("type", JStr event_type); ("payload", data)].

(** The snapshot [list(self.active_connections.keys())] [broadcast] sends to. *)
Definition broadcast_targets (self : ConnectionManager) : list WebSocket :=
  PyDict.keys (active_connections self).

Definition viewer_entry (e : Z * string) : json :=
  JObj [("id", JInt e.1); ("nombre", JStr e.2)].

(** [current_viewers] of [broadcast_viewers]. *)
Definition current_viewers (self : ConnectionManager) (cv_id : Z) : list json :=
  match PyDict.get (viewers self) cv_id with
  | Some vm => viewer_entry <$> vm
  | None => []
  end.

(** The message [broadcast_viewers cv_id] broadcasts. *)
Definition viewers_update (self : ConnectionManager) (cv_id : Z) : json :=
  message "VIEWERS_UPDATE"
    (JObj [("cvId", JInt cv_id); ("viewers", JArr (current_viewers self cv_id))]).

(** The ENTER_VIEW branch on the viewers dict:
    [if cv_id not in self.viewers: self.viewers[cv_id] = {}] then
    [self.viewers[cv_id][user["id"]] = user["nombre"]]. *)
Definition enter_view (vs : list (Z * list (Z * string))) (cv_id uid : Z) (nombre : string)
  : list (Z * list (Z * string)) :=
  let vs1 := if PyDict.contains vs cv_id then vs else PyDict.setitem vs cv_id [] in
  PyDict.setitem vs1 cv_id (PyDict.setitem (default [] (PyDict.get vs1 cv_id)) uid nombre).

(** The EXIT_VIEW branch on the viewers dict, after the [cv_id] test:
    [None] when [cv_id not in self.viewers] or the user is not in it
    (nothing changes and nothing is broadcast). *)
Definition exit_view (vs : list (Z * list (Z * string))) (cv_id uid : Z)
  : option (list (Z * list (Z * string))) :=
  match PyDict.get vs cv_id with
  | Some vm =>
      if PyDict.contains vm uid
      then Some (PyDict.setitem vs cv_id (PyDict.delitem vm uid))
      else None
  | None => None
  end.

(** [int(payload.get("cvId", 0))] *)
Definition cv_id_of (payload : json) : result Z :=
  let? v := py_get payload "cvId" (JInt 0) in py_int v.

(** [handle_message]: the new state and the cv whose viewers it then
    broadcasts with [await self.broadcast_viewers(cv_id)]; an exception
    raised by [.get] or [int()] propagates to the caller. *)
Definition handle_message (self : ConnectionManager) (ws : WebSocket) (data : json)
  : result (ConnectionManager * option Z) :=
  let? msg_type := py_get data "type" JNull in
  let? payload := py_get data "payload" (JObj []) in
  match PyDict.get (active_connections self) ws with
  | None => Ok (self, None)
  | Some user =>
      if py_eq_str msg_type "ENTER_VIEW" then
        let? cv_id := cv_id_of payload in
        if cv_id =? 0 then Ok (self, None)
        else Ok (MkManager (active_connections self)
                   (enter_view (viewers self) cv_id (ui_id user) (ui_nombre user)),
                 Some cv_id)
      else if py_eq_str msg_type "EXIT_VIEW" then
        let? cv_id := cv_id_of payload in
        if cv_id =? 0 then Ok (self, None)
        else match exit_view (viewers self) cv_id (ui_id user) with
             | Some vs' => Ok (MkManager (active_connections self) vs', Some cv_id)
             | None => Ok (self, None)
             end
      else Ok (self, None)
  end.

(** ** Well-formedness of the viewers dict *)

(** The viewer map of a cv, [self.viewers[cv_id].items()] when present. *)
Definition viewers_of (vs : list (Z * list (Z * string))) (cv_id : Z) : list (Z * string) :=
  default [] (PyDict.get vs cv_id).

(** No cv twice, and no user twice in the viewer map of a cv. *)
Definition viewers_wf (vs : list (Z * list (Z * string))) : Prop :=
  PyDict.wf vs /\ forall cv vm, (cv, vm) ∈ vs -> PyDict.wf vm.

Lemma viewers_wf_get vs cv vm :
  viewers_wf vs -> PyDict.get vs cv = Some vm -> PyDict.wf vm.
Proof. intros [_ Hin] Hg. eapply Hin, PyDict.get_Some_elem, Hg. Qed.

Lemma viewers_wf_setitem vs cv vm :
  viewers_wf vs -> PyDict.wf vm -> viewers_wf (PyDict.setitem vs cv vm).
Proof.
  intros [Hwf Hin] Hvm. split; [auto with hub|].
  intros c v [H|H]%PyDict.elem_setitem; simplify_eq; eauto.
Qed.

Lemma viewers_wf_nil : viewers_wf [].
Proof. split; [apply PyDict.wf_nil | intros ? ? H; inversion H]. Qed.

Lemma viewers_wf_enter vs cv uid nombre :
  viewers_wf vs -> viewers_wf (enter_view vs cv uid nombre).
Proof.
  intros Hwf. unfold enter_view.
  assert (Hwf1 : viewers_wf (if PyDict.contains vs cv then vs else PyDict.setitem vs cv []))
    by (case_match; [done | apply viewers_wf_setitem; auto with hub]).
  apply viewers_wf_setitem; [done|]. apply PyDict.wf_setitem.
  destruct (PyDict.get _ cv) eqn:Hg; simpl; [eapply viewers_wf_get; eauto | auto with hub].
Qed.

Lemma viewers_wf_exit vs cv uid vs' :
  viewers_wf vs -> exit_view vs cv uid = Some vs' -> viewers_wf vs'.
Proof.
  unfold exit_view. intros Hwf H. dec_split.
  apply viewers_wf_setitem; [done|]. apply PyDict.wf_delitem. eapply viewers_wf_get; eauto.
Qed.

(** The two results of the loop of [disconnect], in closed form. *)
Lemma purge_viewers_fst uid vs :
  (purge_viewers uid vs).1 = (fun e => (e.1, PyDict.delitem e.2 uid)) <$> vs.
Proof.
  induction vs as [|[cv vm] vs IH]; simpl; [done|].
  destruct (purge_viewers uid vs) as [r n]; simpl in *. subst.
  case_match eqn:Hc; [done|]. rewrite PyDict.delitem_notin; [done|].
  intros Hin. apply PyDict.contains_true in Hin. congruence.
Qed.

Lemma purge_viewers_snd uid vs :
  (purge_viewers uid vs).2 = (filter (fun e => uid ∈ PyDict.keys e.2) vs).*1.
Proof.
  induction vs as [|[cv vm] vs IH]; simpl; [done|].
  destruct (purge_viewers uid vs) as [r n]; simpl in *. subst.
  rewrite filter_cons. pose proof (PyDict.contains_true vm uid) as Hct.
  destruct (PyDict.contains vm uid); case_decide; simpl; naive_solver.
Qed.

Lemma viewers_wf_purge uid vs : viewers_wf vs -> viewers_wf (purge_viewers uid vs).1.
Proof.
  intros [Hwf Hin]. rewrite purge_viewers_fst. split.
  - unfold PyDict.wf, PyDict.keys in *. rewrite <- list_fmap_compose. done.
  - intros cv vm ([cv0 vm0] & ? & ?)%list_elem_of_fmap. simplify_eq/=.
    apply PyDict.wf_delitem. eauto.
Qed.

(** ** The presence index: abstract specification and refinement

    §4.2 of the specification describes the presence index as a map from
    resource to the set of its viewers with their names.  [to_pres]
    forgets the order of the dicts; [pres_equiv] also identifies a cv
    bound to an empty viewer map with an absent cv, since [viewersOf]
    cannot tell them apart. *)

Definition to_pres (vs : list (Z * list (Z * string))) : gmap Z (gmap Z string) :=
  PyDict.to_map <$> PyDict.to_map vs.

Definition pres_viewers (p : gmap Z (gmap Z string)) (cv : Z) : gmap Z string :=
  default ∅ (p !! cv).

Definition pres_equiv (p1 p2 : gmap Z (gmap Z string)) : Prop :=
  forall cv, pres_viewers p1 cv = pres_viewers p2 cv.

(** [enter(resourceId, userId, displayName)] *)
Definition pres_enter (cv uid : Z) (n : string) (p : gmap Z (gmap Z string)) :=
  <[cv := <[uid := n]> (pres_viewers p cv)]> p.

(** [exit(resourceId, userId)] *)
Definition pres_exit (cv uid : Z) (p : gmap Z (gmap Z string)) :=
  <[cv := delete uid (pres_viewers p cv)]> p.

(** Removal of a user from every resource (cleanup on disconnect). *)
Definition pres_purge (uid : Z) (p : gmap Z (gmap Z string)) : gmap Z (gmap Z string) :=
  delete uid <$> p.

#[export] Instance pres_equiv_equivalence : Equivalence pres_equiv.
Proof. split; repeat intro; congruence. Qed.

Lemma pres_viewers_enter cv cv' uid n p :
  pres_viewers (pres_enter cv uid n p) cv' =
  if decide (cv = cv') then <[uid := n]> (pres_viewers p cv) else pres_viewers p cv'.
Proof. unfold pres_enter, pres_viewers at 1. rewrite lookup_insert. by case_decide. Qed.

Lemma pres_viewers_exit cv cv' uid p :
  pres_viewers (pres_exit cv uid p) cv' =
  if decide (cv = cv') then delete uid (pres_viewers p cv) else pres_viewers p cv'.
Proof. unfold pres_exit, pres_viewers at 1. rewrite lookup_insert. by case_decide. Qed.

Lemma pres_viewers_purge uid p cv :
  pres_viewers (pres_purge uid p) cv = delete uid (pres_viewers p cv).
Proof.
  unfold pres_purge, pres_viewers. rewrite lookup_fmap.
  destruct (p !! cv); simpl; [done|]. by rewrite delete_empty.
Qed.

#[export] Instance pres_viewers_proper : Proper (pres_equiv ==> eq ==> eq) pres_viewers.
Proof. intros p1 p2 Hp cv ? <-. apply Hp. Qed.

#[export] Instance pres_enter_proper cv uid n : Proper (pres_equiv ==> pres_equiv) (pres_enter cv uid n).
Proof. intros p1 p2 Hp cv'. rewrite !pres_viewers_enter, !Hp. done. Qed.

#[export] Instance pres_exit_proper cv uid : Proper (pres_equiv ==> pres_equiv) (pres_exit cv uid).
Proof. intros p1 p2 Hp cv'. rewrite !pres_viewers_exit, !Hp. done. Qed.

#[export] Instance pres_purge_proper uid : Proper (pres_equiv ==> pres_equiv) (pres_purge uid).
Proof. intros p1 p2 Hp cv'. rewrite !pres_viewers_purge, Hp. done. Qed.

(** *** Each operation on the dicts refines its specification *)

Lemma pres_viewers_to_pres vs cv :
  pres_viewers (to_pres vs) cv = PyDict.to_map (viewers_of vs cv).
Proof.
  unfold pres_viewers, to_pres, viewers_of. rewrite lookup_fmap, PyDict.to_map_lookup.
  by destruct (PyDict.get vs cv).
Qed.

Lemma get_enter_view vs cv cv' uid n :
  PyDict.get (enter_view vs cv uid n) cv' =
  if decide (cv = cv') then Some (PyDict.setitem (viewers_of vs cv) uid n)
  else PyDict.get vs cv'.
Proof.
  unfold enter_view, viewers_of. case_decide as Hc; subst.
  - rewrite PyDict.get_setitem_eq. unfold PyDict.contains.
    destruct (PyDict.get vs cv') eqn:Hg; simpl; [by rewrite Hg|].
    by rewrite PyDict.get_setitem_eq.
  - rewrite PyDict.get_setitem_ne by done. unfold PyDict.contains.
    case_match; [done|]. by rewrite PyDict.get_setitem_ne.
Qed.

Lemma refine_enter vs cv uid n :
  to_pres (enter_view vs cv uid n) = pres_enter cv uid n (to_pres vs).
Proof.
  apply map_eq. intros cv'. unfold to_pres at 1. unfold pres_enter.
  rewrite lookup_fmap, PyDict.to_map_lookup, get_enter_view, lookup_insert.
  case_decide; subst; simpl.
  - by rewrite PyDict.to_map_setitem, pres_viewers_to_pres.
  - unfold to_pres. by rewrite lookup_fmap, PyDict.to_map_lookup.
Qed.

Lemma refine_exit vs cv uid :
  pres_equiv (to_pres (default vs (exit_view vs cv uid))) (pres_exit cv uid (to_pres vs)).
Proof.
  intros cv'. rewrite pres_viewers_exit, !pres_viewers_to_pres.
  unfold exit_view, viewers_of.
  destruct (PyDict.get vs cv) as [vm|] eqn:Hg; simpl.
  - destruct (PyDict.contains vm uid) eqn:Hc; simpl.
    + destruct (decide (cv = cv')) as [<-|Hne].
      * rewrite PyDict.get_setitem_eq. simpl. by rewrite PyDict.to_map_delitem.
      * by rewrite PyDict.get_setitem_ne.
    + case_decide; subst; [|done]. rewrite Hg. simpl. symmetry. apply delete_id.
      rewrite PyDict.to_map_lookup. apply PyDict.get_None_keys.
      intros Hin%PyDict.contains_true. congruence.
  - case_decide; subst; [|done]. rewrite Hg. simpl. by rewrite delete_empty.
Qed.

Lemma refine_purge uid vs :
  to_pres (purge_viewers uid vs).1 = pres_purge uid (to_pres vs).
Proof.
  apply map_eq. intros cv. rewrite purge_viewers_fst.
  unfold to_pres, pres_purge. rewrite !lookup_fmap, !PyDict.to_map_lookup.
  rewrite (PyDict.get_map_values (fun vm => PyDict.delitem vm uid)).
  destruct (PyDict.get vs cv); simpl; [by rewrite PyDict.to_map_delitem | done].
Qed.

Lemma exit_view_spec vs cv uid :
  match exit_view vs cv uid with
  | Some vs' => uid ∈ dom (pres_viewers (to_pres vs) cv) /\
                pres_equiv (to_pres vs') (pres_exit cv uid (to_pres vs))
  | None => uid ∉ dom (pres_viewers (to_pres vs) cv)
  end.
Proof.
  pose proof (refine_exit vs cv uid) as Hr.
  assert (Hd : uid ∈ dom (pres_viewers (to_pres vs) cv) <->
               exists vm, PyDict.get vs cv = Some vm /\ PyDict.contains vm uid = true).
  { rewrite pres_viewers_to_pres, PyDict.dom_to_map. unfold viewers_of.
    destruct (PyDict.get vs cv) as [vm|]; simpl.
    - rewrite <- PyDict.contains_true. naive_solver.
    - split; [intros Hin; exfalso; by eapply not_elem_of_nil | naive_solver]. }
  unfold exit_view in *. destruct (PyDict.get vs cv) as [vm|] eqn:Hg.
  - destruct (PyDict.contains vm uid) eqn:Hc; [split; [naive_solver|done]|].
    intros Hin. apply Hd in Hin as (vm' & Hvm & Hc'). congruence.
  - intros Hin. apply Hd in Hin as (vm' & Hvm & Hc'). congruence.
Qed.

(** ** Inbound messages and the contract of [handle_message]

    §9 of the specification asks for inbound messages decoded once into a
    closed variant.  [decode] is the decoding that [handle_message]
    performs inline (the same [.get] and [int()] calls, in the same
    order), and [spec_handle] is the effect §4.4 prescribes for each
    variant on the abstract presence index, with the cv to re-announce. *)

Inductive inbound :=
  | EnterView (cv : Z)
  | ExitView (cv : Z)
  | Unknown.

Definition decode (data : json) : result inbound :=
  let? msg_type := py_get data "type" JNull in
  let? payload := py_get data "payload" (JObj []) in
  if py_eq_str msg_type "ENTER_VIEW" then let? cv := cv_id_of payload in Ok (EnterView cv)
  else if py_eq_str msg_type "EXIT_VIEW" then let? cv := cv_id_of payload in Ok (ExitView cv)
  else Ok Unknown.

Definition spec_handle (u : user_info) (c : inbound) (p : gmap Z (gmap Z string))
  : gmap Z (gmap Z string) * option Z :=
  match c with
  | EnterView cv =>
      if cv =? 0 then (p, None) else (pres_enter cv (ui_id u) (ui_nombre u) p, Some cv)
  | ExitView cv =>
      if cv =? 0 then (p, None)
      else if decide (ui_id u ∈ dom (pres_viewers p cv))
           then (pres_exit cv (ui_id u) p, Some cv) else (p, None)
  | Unknown => (p, None)
  end.

(** What [handle_message] does for a registered user once the message is
    decoded (the body of its ENTER_VIEW / EXIT_VIEW branches). *)
Definition impl_handle (self : ConnectionManager) (u : user_info) (c : inbound)
  : ConnectionManager * option Z :=
  match c with
  | EnterView cv_id =>
      if cv_id =? 0 then (self, None)
      else (MkManager (active_connections self)
              (enter_view (viewers self) cv_id (ui_id u) (ui_nombre u)), Some cv_id)
  | ExitView cv_id =>
      if cv_id =? 0 then (self, None)
      else match exit_view (viewers self) cv_id (ui_id u) with
           | Some vs' => (MkManager (active_connections self) vs', Some cv_id)
           | None => (self, None)
           end
  | Unknown => (self, None)
  end.

(** [handle_message] on a registered socket is decoding followed by
    [impl_handle]. *)
Lemma handle_message_registered m ws u data :
  PyDict.get (active_connections m) ws = Some u ->
  handle_message m ws data = result_bind (decode data) (fun c => Ok (impl_handle m u c)).
Proof.
  intros Hu. unfold handle_message, decode.
  destruct (py_get data "type" JNull) as [t|e]; simpl; [|done].
  destruct (py_get data "payload" (JObj [])) as [pl|e]; simpl; [|done].
  rewrite Hu. destruct (py_eq_str t "ENTER_VIEW"); [|destruct (py_eq_str t "EXIT_VIEW")];
    try done; destruct (cv_id_of pl) as [cv|]; simpl; try done;
    (destruct (cv =? 0); [done | try case_match; done]).
Qed.

(** On an unregistered socket it changes nothing. *)
Lemma handle_message_unregistered m ws data :
  PyDict.get (active_connections m) ws = None ->
  handle_message m ws data = Ok (m, None) \/ exists e, handle_message m ws data = Raise e.
Proof.
  intros Hu. unfold handle_message.
  destruct (py_get data "type" JNull) as [t|e]; simpl; [|eauto].
  destruct (py_get data "payload" (JObj [])) as [pl|e]; simpl; [|eauto].
  rewrite Hu. auto.
Qed.

Lemma viewers_of_enter vs cv uid n :
  viewers_of (enter_view vs cv uid n) cv = PyDict.setitem (viewers_of vs cv) uid n.
Proof. unfold viewers_of at 1. rewrite get_enter_view. case_decide; done. Qed.

Lemma viewers_wf_of vs cv : viewers_wf vs -> PyDict.wf (viewers_of vs cv).
Proof.
  intros Hwf. unfold viewers_of. destruct (PyDict.get vs cv) eqn:Hg; simpl;
    [eapply viewers_wf_get; eauto | apply PyDict.wf_nil].
Qed.

Lemma wf_elem_get_iff {K V} `{EqDecision K} (d : list (K * V)) k v :
  PyDict.wf d -> (k, v) ∈ d <-> PyDict.get d k = Some v.
Proof. intros Hwf. split; [by apply PyDict.elem_get | apply PyDict.get_Some_elem]. Qed.

(** The cvs [disconnect] returns are those whose viewers held the user. *)
Lemma purge_notify_iff uid vs cv :
  PyDict.wf vs ->
  cv ∈ (purge_viewers uid vs).2 <-> uid ∈ dom (pres_viewers (to_pres vs) cv).
Proof.
  intros Hwf. rewrite purge_viewers_snd, pres_viewers_to_pres, PyDict.dom_to_map.
  unfold viewers_of. rewrite list_elem_of_fmap. split.
  - intros ([cv' vm] & -> & [Hin Hvm]%list_elem_of_filter). simpl in *.
    apply (wf_elem_get_iff vs) in Hvm; [|done]. by rewrite Hvm.
  - destruct (PyDict.get vs cv) as [vm|] eqn:Hg; simpl; intros Hin.
    + exists (cv, vm). split; [done|]. apply list_elem_of_filter. split; [done|].
      by apply wf_elem_get_iff.
    + exfalso. by eapply not_elem_of_nil.
Qed.

Lemma purge_notify_NoDup uid vs : PyDict.wf vs -> NoDup (purge_viewers uid vs).2.
Proof.
  unfold PyDict.wf, PyDict.keys. intros Hwf. rewrite purge_viewers_snd.
  eapply sublist_NoDup; [exact Hwf|]. apply fmap_sublist, sublist_filter.
Qed.

(** *** The registry under each operation *)

Lemma get_connect m ws u ws' :
  PyDict.get (active_connections (connect m ws u)) ws' =
  if decide (ws = ws') then Some u else PyDict.get (active_connections m) ws'.
Proof.
  simpl. case_decide; subst; [apply PyDict.get_setitem_eq | by apply PyDict.get_setitem_ne].
Qed.

Lemma get_disconnect m ws ws' :
  PyDict.get (active_connections (disconnect m ws).1) ws' =
  if decide (ws = ws') then None else PyDict.get (active_connections m) ws'.
Proof.
  unfold disconnect. destruct (PyDict.get (active_connections m) ws) as [u|] eqn:Hu.
  - destruct (purge_viewers _ _). simpl.
    case_decide; subst; [apply PyDict.get_delitem_eq | by apply PyDict.get_delitem_ne].
  - simpl. case_decide; subst; done.
Qed.

Lemma viewers_disconnect m ws :
  viewers (disconnect m ws).1 =
  match PyDict.get (active_connections m) ws with
  | Some u => (purge_viewers (ui_id u) (viewers m)).1
  | None => viewers m
  end.
Proof.
  unfold disconnect. destruct (PyDict.get _ ws); [|done]. by destruct (purge_viewers _ _).
Qed.

Lemma wf_disconnect m ws :
  PyDict.wf (active_connections m) -> PyDict.wf (active_connections (disconnect m ws).1).
Proof.
  unfold disconnect. destruct (PyDict.get _ ws); [|done].
  destruct (purge_viewers _ _). simpl. apply PyDict.wf_delitem.
Qed.

Lemma handle_message_active m ws data m' ocv :
  handle_message m ws data = Ok (m', ocv) -> active_connections m' = active_connections m.
Proof.
  destruct (PyDict.get (active_connections m) ws) as [u|] eqn:Hu.
  - rewrite (handle_message_registered _ _ _ _ Hu).
    destruct (decode data) as [c|]; simpl; [|done]. intros Hr. injection Hr as Hr.
    destruct c as [cv|cv|]; simpl in Hr; repeat case_match; simplify_eq; done.
  - destruct (handle_message_unregistered m ws data Hu) as [Hr|[e Hr]]; rewrite Hr;
      intros Hr'; by simplify_eq.
Qed.

(** *** Every viewer is a registered user *)

Lemma keys_viewers_of_enter vs cv uid n cv' uid' :
  uid' ∈ PyDict.keys (viewers_of (enter_view vs cv uid n) cv') ->
  uid' = uid \/ uid' ∈ PyDict.keys (viewers_of vs cv').
Proof.
  unfold viewers_of at 1. rewrite get_enter_view. case_decide; subst; simpl; [|auto].
  rewrite PyDict.elem_keys_setitem. done.
Qed.

Lemma keys_viewers_of_exit vs cv uid vs' cv' uid' :
  exit_view vs cv uid = Some vs' ->
  uid' ∈ PyDict.keys (viewers_of vs' cv') -> uid' ∈ PyDict.keys (viewers_of vs cv').
Proof.
  unfold exit_view, viewers_of. destruct (PyDict.get vs cv) as [vm|] eqn:Hg; [|done].
  case_match; [|done]. intros Hs. injection Hs as <-.
  destruct (decide (cv = cv')) as [<-|Hne].
  - rewrite PyDict.get_setitem_eq, Hg. simpl. rewrite PyDict.elem_keys_delitem. naive_solver.
  - by rewrite PyDict.get_setitem_ne.
Qed.

Lemma keys_viewers_of_purge uid vs cv uid' :
  uid' ∈ PyDict.keys (viewers_of (purge_viewers uid vs).1 cv) ->
  uid <> uid' /\ uid' ∈ PyDict.keys (viewers_of vs cv).
Proof.
  unfold viewers_of. rewrite purge_viewers_fst.
  rewrite (PyDict.get_map_values (fun vm => PyDict.delitem vm uid)).
  destruct (PyDict.get vs cv); simpl; [rewrite PyDict.elem_keys_delitem; naive_solver|].
  intros Hin. exfalso. by eapply not_elem_of_nil.
Qed.

(** The invariant of §4.2: every user id in a viewer map belongs to a
    registered socket. *)
Definition no_stale (m : ConnectionManager) : Prop :=
  forall cv uid, uid ∈ PyDict.keys (viewers_of (viewers m) cv) ->
    exists ws u, PyDict.get (active_connections m) ws = Some u /\ ui_id u = uid.

Lemma no_stale_init : no_stale init.
Proof. intros cv uid Hin. simpl in Hin. by apply not_elem_of_nil in Hin. Qed.

Lemma no_stale_connect m ws u :
  PyDict.get (active_connections m) ws = None -> no_stale m -> no_stale (connect m ws u).
Proof.
  intros Hn Hs cv uid Hin. destruct (Hs cv uid Hin) as (ws' & u' & Hg & Hid).
  exists ws', u'. split; [|done]. rewrite get_connect. case_decide; subst; congruence.
Qed.

Lemma no_stale_handle m ws data m' ocv :
  no_stale m -> handle_message m ws data = Ok (m', ocv) -> no_stale m'.
Proof.
  intros Hs Hm. destruct (PyDict.get (active_connections m) ws) as [u|] eqn:Hu.
  - rewrite (handle_message_registered _ _ _ _ Hu) in Hm.
    destruct (decode data) as [c|]; simpl in Hm; [|done]. injection Hm as Hm.
    destruct c as [cv|cv|]; simpl in Hm; repeat case_match; simplify_eq; try done.
    + intros cv' uid Hin. apply keys_viewers_of_enter in Hin as [->|Hin]; [by exists ws, u|].
      by apply Hs in Hin.
    + intros cv' uid Hin. eapply keys_viewers_of_exit in Hin; [|eassumption].
      by apply Hs in Hin.
  - destruct (handle_message_unregistered m ws data Hu) as [Hr|[e Hr]]; rewrite Hr in Hm;
      by simplify_eq.
Qed.

Lemma no_stale_disconnect m ws : no_stale m -> no_stale (disconnect m ws).1.
Proof.
  intros Hs cv uid Hin. rewrite viewers_disconnect in Hin.
  destruct (PyDict.get (active_connections m) ws) as [u|] eqn:Hu.
  - apply keys_viewers_of_purge in Hin as [Hne Hin].
    destruct (Hs cv uid Hin) as (ws' & u' & Hg & Hid). exists ws', u'. split; [|done].
    rewrite get_disconnect. case_decide; subst; [congruence | done].
  - destruct (Hs cv uid Hin) as (ws' & u' & Hg & Hid). exists ws', u'. split; [|done].
    rewrite get_disconnect. case_decide; subst; congruence.
Qed.

(** ** Concrete inputs for the witnesses: Ana (id 1) on socket 0 and Beto
    (id 2) on socket 1, and the client messages of spec §8. *)
Definition demo_manager : ConnectionManager :=
  connect (connect init 0%nat (UserInfo 1 "Ana")) 1%nat (UserInfo 2 "Beto").

Definition demo_enter (cv : Z) : json :=
  JObj [("type", JStr "ENTER_VIEW"); ("payload", JObj [("cvId", JInt cv)])].

Definition demo_exit (cv : Z) : json :=
  JObj [("type", JStr "EXIT_VIEW"); ("payload", JObj [("cvId", JInt cv)])].

(** ** Theorems *)

(** (C1) [handle_message] on a registered socket refines its contract: it
    raises exactly when the decoding raises, and otherwise leaves the
    registry alone, changes the presence index as [spec_handle] says (up
    to [pres_equiv]) and re-announces the cv [spec_handle] names. *)
Theorem handle_message_refines m ws u data :
  PyDict.get (active_connections m) ws = Some u ->
  match handle_message m ws data, decode data with
  | Ok (m', ocv), Ok c =>
      active_connections m' = active_connections m /\
      pres_equiv (to_pres (viewers m')) (spec_handle u c (to_pres (viewers m))).1 /\
      ocv = (spec_handle u c (to_pres (viewers m))).2
  | Raise e, Raise e' => e = e'
  | _, _ => False
  end.
Proof.
  intros Hu. unfold handle_message, decode.
  destruct (py_get data "type" JNull) as [t|e]; simpl; [|done].
  destruct (py_get data "payload" (JObj [])) as [pl|e]; simpl; [|done].
  rewrite Hu.
  destruct (py_eq_str t "ENTER_VIEW"); [|destruct (py_eq_str t "EXIT_VIEW")].
  - destruct (cv_id_of pl) as [cv|e]; simpl; [|done].
    destruct (Z.eqb cv 0); simpl; [done|]. rewrite refine_enter. done.
  - destruct (cv_id_of pl) as [cv|e]; simpl; [|done].
    destruct (Z.eqb cv 0); simpl; [done|].
    pose proof (exit_view_spec (viewers m) cv (ui_id u)) as Hs.
    destruct (exit_view (viewers m) cv (ui_id u)) as [vs'|]; simpl;
      case_decide; simpl; naive_solver.
  - done.
Qed.

(** ENTER_VIEW of a registered user: afterwards the viewer map of
    the cv holds exactly one entry for the user, with its current name,
    however many times the user entered before, and the cv is
    re-announced (spec §8, second property). *)
Theorem enter_view_single_entry m ws u data cv :
  viewers_wf (viewers m) ->
  PyDict.get (active_connections m) ws = Some u ->
  decode data = Ok (EnterView cv) -> cv <> 0 ->
  exists m', handle_message m ws data = Ok (m', Some cv) /\
    filter (fun e => e.1 = ui_id u) (viewers_of (viewers m') cv) = [(ui_id u, ui_nombre u)].
Proof.
  intros Hwf Hu Hd Hcv. rewrite (handle_message_registered _ _ _ _ Hu), Hd. simpl.
  destruct (Z.eqb_spec cv 0); [done|]. eexists. split; [done|]. simpl.
  rewrite viewers_of_enter. apply PyDict.filter_key_setitem, viewers_wf_of, Hwf.
Qed.

(** A message that is not an ENTER_VIEW or EXIT_VIEW of a non-zero
    cv (undecodable fields, an unknown or missing type, a missing or zero
    cvId) leaves the whole state unchanged and announces nothing, or
    raises an exception (which [websocket_endpoint] swallows). *)
Theorem malformed_message_no_change m ws data :
  (forall cv, cv <> 0 -> decode data <> Ok (EnterView cv) /\ decode data <> Ok (ExitView cv)) ->
  handle_message m ws data = Ok (m, None) \/ exists e, handle_message m ws data = Raise e.
Proof.
  intros Hd. destruct (PyDict.get (active_connections m) ws) as [u|] eqn:Hu;
    [|by apply handle_message_unregistered].
  rewrite (handle_message_registered _ _ _ _ Hu).
  destruct (decode data) as [[cv|cv|]|e]; simpl; [| |by left|by eauto];
    destruct (Z.eqb_spec cv 0); auto; destruct (Hd cv); congruence.
Qed.

(** (C2) [disconnect] of a registered socket (spec §4.1 and §8, third
    property): it returns, without repetition, exactly the cvs whose
    viewers held the user's id; afterwards no cv holds that id, the socket
    is no longer a broadcast target, and the other sockets keep their
    registration.  A second [disconnect] of the same socket returns
    [None] and changes nothing. *)
Theorem disconnect_spec m ws u :
  PyDict.wf (active_connections m) -> PyDict.wf (viewers m) ->
  PyDict.get (active_connections m) ws = Some u ->
  exists m' cvs, disconnect m ws = (m', Some cvs) /\
    NoDup cvs /\
    (forall cv, cv ∈ cvs <-> ui_id u ∈ dom (pres_viewers (to_pres (viewers m)) cv)) /\
    to_pres (viewers m') = pres_purge (ui_id u) (to_pres (viewers m)) /\
    ws ∉ broadcast_targets m' /\
    (forall ws', ws' <> ws ->
       PyDict.get (active_connections m') ws' = PyDict.get (active_connections m) ws') /\
    disconnect m' ws = (m', None).
Proof.
  intros Hact Hvs Hu. unfold disconnect. rewrite Hu.
  pose proof (refine_purge (ui_id u) (viewers m)) as Hp.
  pose proof (purge_notify_iff (ui_id u) (viewers m)) as Hn.
  pose proof (purge_notify_NoDup (ui_id u) (viewers m) Hvs) as Hnd.
  destruct (purge_viewers (ui_id u) (viewers m)) as [vs' cvs]. simpl in *.
  eexists _, _. split; [done|]. split; [done|]. split; [auto|]. split; [done|].
  unfold broadcast_targets. simpl. rewrite PyDict.elem_keys_delitem.
  split; [naive_solver|]. split; [intros; by apply PyDict.get_delitem_ne|].
  by rewrite PyDict.get_delitem_eq.
Qed.

(** ** Witnesses *)

Lemma handle_message_refines_witness :
  PyDict.get (active_connections demo_manager) 0%nat = Some (UserInfo 1 "Ana") /\
  match handle_message demo_manager 0%nat (demo_enter 42), decode (demo_enter 42) with
  | Ok (m', ocv), Ok c =>
      active_connections m' = active_connections demo_manager /\
      pres_equiv (to_pres (viewers m'))
        (spec_handle (UserInfo 1 "Ana") c (to_pres (viewers demo_manager))).1 /\
      ocv = (spec_handle (UserInfo 1 "Ana") c (to_pres (viewers demo_manager))).2
  | Raise e, Raise e' => e = e'
  | _, _ => False
  end.
Proof. split; [reflexivity | apply handle_message_refines; reflexivity]. Defined.

Lemma enter_view_single_entry_witness :
  exists m', handle_message demo_manager 0%nat (demo_enter 42) = Ok (m', Some 42) /\
    filter (fun e => e.1 = 1) (viewers_of (viewers m') 42) = [(1, "Ana")].
Proof.
  apply (enter_view_single_entry demo_manager 0%nat (UserInfo 1 "Ana")); try reflexivity.
  - split; [apply PyDict.wf_nil | intros ? ? Hin; inversion Hin].
  - lia.
Defined.

Lemma malformed_message_no_change_witness :
  handle_message demo_manager 0%nat (JObj [("type", JInt 5)]) = Ok (demo_manager, None) \/
  exists e, handle_message demo_manager 0%nat (JObj [("type", JInt 5)]) = Raise e.
Proof.
  apply malformed_message_no_change. intros cv _. vm_compute. split; discriminate.
Defined.

Lemma disconnect_spec_witness :
  exists m' cvs, disconnect demo_manager 1%nat = (m', Some cvs) /\
    NoDup cvs /\
    (forall cv, cv ∈ cvs <-> 2 ∈ dom (pres_viewers (to_pres (viewers demo_manager)) cv)) /\
    to_pres (viewers m') = pres_purge 2 (to_pres (viewers demo_manager)) /\
    1%nat ∉ broadcast_targets m' /\
    (forall ws', ws' <> 1%nat ->
       PyDict.get (active_connections m') ws' = PyDict.get (active_connections demo_manager) ws') /\
    disconnect m' 1%nat = (m', None).
Proof.
  apply (disconnect_spec demo_manager 1%nat (UserInfo 2 "Beto")); [| |reflexivity].
  - vm_compute. repeat constructor; set_solver.
  - vm_compute. constructor.
Defined.

End ConnectionManager.
