(* ===== verification/EventLoop.v ===== *)
(** * EventLoop: the endpoint tasks of [src/Api/routers/websockets.py]
    and the background broadcasts, interleaved by the asyncio loop

    Every client has one task running [websocket_endpoint]; the REST
    handlers of [routers/postulaciones.py] add background tasks running
    [manager.broadcast].  All tasks share the singleton [manager] and run
    on one event loop, so a task runs without interruption between two
    [await]s.  A [world] holds the manager, the clients (a client is its
    transport and the state of its endpoint task), the background
    broadcasts, and a ghost clock; [step] relates a world to the world
    after one uninterrupted piece of one task, or after one action of a
    client (open a connection, send a frame, go away) or of the REST layer
    (schedule a broadcast).

    The phases of an endpoint task are the places where it waits:
    [Accepting] ([await manager.connect], i.e. [await websocket.accept()]),
    [Receiving] ([await websocket.receive_text()]), [Sending] (an
    [await connection.send_text(message)] of a [broadcast] called from
    [handle_message] or from the [WebSocketDisconnect] handler),
    [Cleanup] (the [for cv_id in affected_cvs] loop between two
    broadcasts), [Finished].  A background task is its [broadcast] loop.
    A step may end at an [await] that does not suspend in CPython (an
    empty fan-out); this only adds interleavings, so every behaviour of
    the program is a behaviour of the model.

    Ghost state (not in the program, used only to state theorems): the
    clock [w_clock], the step at which a socket was registered
    ([c_reg]), the step at which a broadcast took its snapshot
    ([b_born]), which is also attached to each delivered message. *)

From S2P Require Import Prelude PyDict PyStr Json Hub.

Module EventLoop.

Import Json ConnectionManager.

(** A frame a client sends: a text frame, which [json.loads] decodes
    ([None] when it raises), or a binary frame, on which
    [receive_text()] raises [KeyError]. *)
Inductive frame :=
  | FText (data : option json)
  | FBinary.

(** One running [broadcast]: the serialised message and the sockets of
    its snapshot it has not sent to yet. *)
Record bcast := Bcast {
  b_msg : json;
  b_pending : list WebSocket;
  b_born : nat
}.

(** Where the endpoint task resumes once its broadcast has finished. *)
Inductive after :=
  | KLoop                     (** back to [receive_text()] *)
  | KCleanup (rest : list Z). (** the remaining [affected_cvs] *)

Inductive phase :=
  | Accepting
  | Receiving
  | Sending (b : bcast) (k : after)
  | Cleanup (cvs : list Z)
  | Finished.

Record client := Client {
  c_user : user_info;            (** the query parameters [id], [nombre] *)
  c_inbox : list frame;          (** frames sent, not yet received *)
  c_closed : bool;               (** the transport is closed *)
  c_received : list (nat * json);(** messages delivered to the client *)
  c_phase : phase;
  c_reg : option nat             (** ghost: step of its registration *)
}.

Record world := World {
  w_mgr : ConnectionManager;
  w_clients : list client;       (** the client of socket [h] is at index [h] *)
  w_bg : list bcast;             (** running background broadcasts *)
  w_clock : nat                  (** ghost *)
}.

Definition init_world : world := World init [] [] 0.

(** *** Helpers *)

Definition set_phase (c : client) (p : phase) : client :=
  Client (c_user c) (c_inbox c) (c_closed c) (c_received c) p (c_reg c).

Definition set_inbox (c : client) (i : list frame) : client :=
  Client (c_user c) i (c_closed c) (c_received c) (c_phase c) (c_reg c).

(** Replace client [h] and the manager, and advance the clock. *)
Definition upd (w : world) (m : ConnectionManager) (h : WebSocket) (c : client) : world :=
  World m (<[h := c]> (w_clients w)) (w_bg w) (S (w_clock w)).

(** [await connection.send_text(message)] inside [try ... except
    Exception: pass]: the client receives the message if its transport
    is open; otherwise the send raises and the error is swallowed. *)
Definition deliver (t : WebSocket) (born : nat) (msg : json) (cs : list client) : list client :=
  match cs !! t with
  | Some c =>
      if c_closed c then cs
      else <[t := Client (c_user c) (c_inbox c) (c_closed c)
                    (c_received c ++ [(born, msg)]) (c_phase c) (c_reg c)]> cs
  | None => cs
  end.

(** [broadcast(event_type, data)] up to its first [await]: the message
    and the snapshot [list(self.active_connections.keys())]. *)
Definition start_broadcast (m : ConnectionManager) (msg : json) (now : nat) : bcast :=
  Bcast msg (broadcast_targets m) now.

(** *** One uninterrupted run of the endpoint task of socket [h] *)

(** Resuming from [await websocket.receive_text()] with the frame [f]:
    [json.loads] and [handle_message] inside the bare [try/except], up
    to the first [await] of [broadcast_viewers]; a binary frame makes
    [receive_text()] raise, which the outer [except Exception] turns into
    [manager.disconnect(websocket)] and the end of the task. *)
Definition on_frame (w : world) (h : WebSocket) (c : client) (f : frame) (rest : list frame)
  : world :=
  let m := w_mgr w in
  match f with
  | FText None => upd w m h (set_inbox c rest)
  | FText (Some data) =>
      match handle_message m h data with
      | Raise _ => upd w m h (set_inbox c rest)
      | Ok (m', None) => upd w m' h (set_inbox c rest)
      | Ok (m', Some cv_id) =>
          upd w m' h (set_phase (set_inbox c rest)
                        (Sending (start_broadcast m' (viewers_update m' cv_id) (w_clock w)) KLoop))
      end
  | FBinary =>
      upd w (disconnect m h).1 h
        (Client (c_user c) rest true (c_received c) Finished (c_reg c))
  end.

(** Resuming from [await websocket.receive_text()] after the client went
    away: [WebSocketDisconnect], then [affected_cvs =
    manager.disconnect(websocket)] and, [if affected_cvs:], the loop
    that re-broadcasts each of their viewer lists. *)
Definition on_disconnect (w : world) (h : WebSocket) (c : client) : world :=
  let '(m', affected_cvs) := disconnect (w_mgr w) h in
  match affected_cvs with
  | Some ((_ :: _) as cvs) => upd w m' h (set_phase c (Cleanup cvs))
  | _ => upd w m' h (set_phase c Finished)
  end.

(** The next [await connection.send_text(message)] of the broadcast the
    task of [h] is running. *)
Definition send_next (w : world) (h : WebSocket) (c : client) (b : bcast) (k : after)
  (t : WebSocket) (rest : list WebSocket) : world :=
  let cs := deliver t (b_born b) (b_msg b) (w_clients w) in
  let c' := default c (cs !! h) in
  World (w_mgr w) (<[h := set_phase c' (Sending (Bcast (b_msg b) rest (b_born b)) k)]> cs)
    (w_bg w) (S (w_clock w)).

(** The next cv of [for cv_id in affected_cvs]: [broadcast_viewers(cv_id)]
    up to its first [await]. *)
Definition cleanup_next (w : world) (h : WebSocket) (c : client) (cv_id : Z) (rest : list Z)
  : world :=
  upd w (w_mgr w) h
    (set_phase c (Sending (start_broadcast (w_mgr w) (viewers_update (w_mgr w) cv_id) (w_clock w))
                   (KCleanup rest))).

(** [await manager.connect(websocket, user_info)] returns: the socket is
    registered. *)
Definition accept (w : world) (h : WebSocket) (c : client) : world :=
  upd w (connect (w_mgr w) h (c_user c)) h
    (Client (c_user c) (c_inbox c) false (c_received c) Receiving (Some (w_clock w))).

(** One step of the task of socket [h], by the place where it waits. *)
Definition run_client (w : world) (h : WebSocket) : option world :=
  match w_clients w !! h with
  | None => None
  | Some c =>
      match c_phase c with
      | Accepting =>
          if c_closed c
          then Some (upd w (w_mgr w) h (set_phase c Finished))
          else Some (accept w h c)
      | Receiving =>
          match c_inbox c with
          | f :: rest => Some (on_frame w h c f rest)
          | [] => if c_closed c then Some (on_disconnect w h c) else None
          end
      | Sending b k =>
          match b_pending b with
          | t :: rest => Some (send_next w h c b k t rest)
          | [] =>
              match k with
              | KLoop => Some (upd w (w_mgr w) h (set_phase c Receiving))
              | KCleanup cvs => Some (upd w (w_mgr w) h (set_phase c (Cleanup cvs)))
              end
          end
      | Cleanup (cv_id :: rest) => Some (cleanup_next w h c cv_id rest)
      | Cleanup [] => Some (upd w (w_mgr w) h (set_phase c Finished))
      | Finished => None
      end
  end.

Definition bg_next (w : world) (i : nat) (b : bcast) (t : WebSocket) (rest : list WebSocket)
  : world :=
  World (w_mgr w) (deliver t (b_born b) (b_msg b) (w_clients w))
    (<[i := Bcast (b_msg b) rest (b_born b)]> (w_bg w)) (S (w_clock w)).

Definition bg_done (w : world) (i : nat) : world :=
  World (w_mgr w) (w_clients w) (delete i (w_bg w)) (S (w_clock w)).

(** One step of background broadcast [i]: the next [send_text], or the
    end of the task. *)
Definition run_bg (w : world) (i : nat) : option world :=
  match w_bg w !! i with
  | None => None
  | Some b =>
      match b_pending b with
      | t :: rest => Some (bg_next w i b t rest)
      | [] => Some (bg_done w i)
      end
  end.

(** *** Actions of the environment *)

Inductive event :=
  | EvOpen (u : user_info)            (** a client opens /ws?id=..&nombre=.. *)
  | EvSend (h : WebSocket) (f : frame)(** client [h] sends a frame *)
  | EvClose (h : WebSocket)           (** client [h] goes away *)
  | EvRest (event_type : string) (data : json)
      (** a REST handler's [background_tasks.add_task(manager.broadcast, ...)] starts *)
  | EvRunClient (h : WebSocket)       (** the loop resumes the task of [h] *)
  | EvRunBg (i : nat).                (** the loop resumes background task [i] *)

Definition new_client (u : user_info) : client := Client u [] false [] Accepting None.

Definition open_client (w : world) (u : user_info) : world :=
  World (w_mgr w) (w_clients w ++ [new_client u]) (w_bg w) (S (w_clock w)).

Definition client_sends (w : world) (h : WebSocket) (c : client) (f : frame) : world :=
  upd w (w_mgr w) h (set_inbox c (c_inbox c ++ [f])).

Definition client_closes (w : world) (h : WebSocket) (c : client) : world :=
  upd w (w_mgr w) h (Client (c_user c) (c_inbox c) true (c_received c) (c_phase c) (c_reg c)).

Definition rest_broadcast (w : world) (event_type : string) (data : json) : world :=
  World (w_mgr w) (w_clients w)
    (w_bg w ++ [start_broadcast (w_mgr w) (message event_type data) (w_clock w)])
    (S (w_clock w)).

Definition step_fn (w : world) (e : event) : option world :=
  match e with
  | EvOpen u => Some (open_client w u)
  | EvSend h f =>
      match w_clients w !! h with
      | Some c => if c_closed c then None else Some (client_sends w h c f)
      | None => None
      end
  | EvClose h =>
      match w_clients w !! h with
      | Some c => Some (client_closes w h c)
      | None => None
      end
  | EvRest event_type data => Some (rest_broadcast w event_type data)
  | EvRunClient h => run_client w h
  | EvRunBg i => run_bg w i
  end.

(** The transition relation, one rule per path of the code. *)
Inductive step : world -> world -> Prop :=
  | step_open w u : step w (open_client w u)
  | step_client_send w h c f :
      w_clients w !! h = Some c -> c_closed c = false -> step w (client_sends w h c f)
  | step_client_close w h c :
      w_clients w !! h = Some c -> step w (client_closes w h c)
  | step_rest w event_type data : step w (rest_broadcast w event_type data)
  | step_accept w h c :
      w_clients w !! h = Some c -> c_phase c = Accepting -> c_closed c = false ->
      step w (accept w h c)
  | step_accept_fail w h c :
      w_clients w !! h = Some c -> c_phase c = Accepting -> c_closed c = true ->
      step w (upd w (w_mgr w) h (set_phase c Finished))
  | step_frame w h c f rest :
      w_clients w !! h = Some c -> c_phase c = Receiving -> c_inbox c = f :: rest ->
      step w (on_frame w h c f rest)
  | step_disconnect w h c :
      w_clients w !! h = Some c -> c_phase c = Receiving -> c_inbox c = [] -> c_closed c = true ->
      step w (on_disconnect w h c)
  | step_send_next w h c b k t rest :
      w_clients w !! h = Some c -> c_phase c = Sending b k -> b_pending b = t :: rest ->
      step w (send_next w h c b k t rest)
  | step_send_done_loop w h c b :
      w_clients w !! h = Some c -> c_phase c = Sending b KLoop -> b_pending b = [] ->
      step w (upd w (w_mgr w) h (set_phase c Receiving))
  | step_send_done_cleanup w h c b cvs :
      w_clients w !! h = Some c -> c_phase c = Sending b (KCleanup cvs) -> b_pending b = [] ->
      step w (upd w (w_mgr w) h (set_phase c (Cleanup cvs)))
  | step_cleanup_next w h c cv_id rest :
      w_clients w !! h = Some c -> c_phase c = Cleanup (cv_id :: rest) ->
      step w (cleanup_next w h c cv_id rest)
  | step_cleanup_done w h c :
      w_clients w !! h = Some c -> c_phase c = Cleanup [] ->
      step w (upd w (w_mgr w) h (set_phase c Finished))
  | step_bg_next w i b t rest :
      w_bg w !! i = Some b -> b_pending b = t :: rest -> step w (bg_next w i b t rest)
  | step_bg_done w i b :
      w_bg w !! i = Some b -> b_pending b = [] -> step w (bg_done w i).

Definition reachable (w : world) : Prop := rtc step init_world w.

(** ** Invariants *)

(** The phases in which the endpoint task is inside its receive loop,
    i.e. after [manager.connect] and before [manager.disconnect]. *)
Definition active_phase (p : phase) : bool :=
  match p with Receiving | Sending _ KLoop => true | _ => false end.

(** The registry the endpoint tasks imply: socket [h] is registered with
    the query parameters of its client exactly when its task is active. *)
Definition expected_reg (cs : list client) (h : WebSocket) : option user_info :=
  match cs !! h with
  | Some c => if active_phase (c_phase c) then Some (c_user c) else None
  | None => None
  end.

Definition reg_inv (w : world) : Prop :=
  PyDict.wf (active_connections (w_mgr w)) /\
  forall h, PyDict.get (active_connections (w_mgr w)) h = expected_reg (w_clients w) h.

(** Every socket still to be served by broadcast [b] is a client that
    registered strictly before [b] took its snapshot. *)
Definition bcast_ok (cs : list client) (b : bcast) : Prop :=
  forall t, t ∈ b_pending b ->
    exists c r, cs !! t = Some c /\ c_reg c = Some r /\ (r < b_born b)%nat.

(** The ghost timing facts of a world. *)
Definition time_inv (w : world) : Prop :=
  (forall h c r, w_clients w !! h = Some c -> c_reg c = Some r -> (r < w_clock w)%nat) /\
  (forall h c, w_clients w !! h = Some c -> active_phase (c_phase c) = true -> is_Some (c_reg c)) /\
  (forall h c, w_clients w !! h = Some c -> c_phase c = Accepting -> c_reg c = None) /\
  (forall h c b k, w_clients w !! h = Some c -> c_phase c = Sending b k -> bcast_ok (w_clients w) b) /\
  (forall b, b ∈ w_bg w -> bcast_ok (w_clients w) b) /\
  (forall h c p, w_clients w !! h = Some c -> p ∈ c_received c ->
     exists r, c_reg c = Some r /\ (r < p.1)%nat).

(** Registrations, once made, stay. *)
Definition regs_stable (cs cs' : list client) : Prop :=
  forall t c, cs !! t = Some c -> is_Some (c_reg c) ->
    exists c', cs' !! t = Some c' /\ c_reg c' = c_reg c.

(** The loop of [broadcast] run to its end without interruption: one
    [send_text] per socket of the snapshot, in order. *)
Fixpoint deliver_all (ts : list WebSocket) (born : nat) (msg : json) (cs : list client)
  : list client :=
  match ts with
  | [] => cs
  | t :: ts' => deliver_all ts' born msg (deliver t born msg cs)
  end.

(** The message [broadcast_viewers] sends for cv 42 with the given viewers. *)
Definition viewers_msg (cv : Z) (vs : list (Z * string)) : json :=
  message "VIEWERS_UPDATE" (JObj [("cvId", JInt cv); ("viewers", JArr (viewer_entry <$> vs))]).

(** Run a schedule of events. *)
Fixpoint run (w : world) (es : list event) : option world :=
  match es with
  | [] => Some w
  | e :: es' => match step_fn w e with Some w' => run w' es' | None => None end
  end.

(** What one delivery loop adds to the messages of client [t]. *)
Definition fanout_to (ts : list WebSocket) (born : nat) (msg : json) (t : WebSocket) (c : client)
  : list (nat * json) :=
  if c_closed c then [] else if decide (t ∈ ts) then [(born, msg)] else [].

(** The message a client gets from a broadcast it is a target of. *)
Definition fanout_active (born : nat) (msg : json) (c : client) : list (nat * json) :=
  if c_closed c then [] else if active_phase (c_phase c) then [(born, msg)] else [].

(** The messages client [h] has received, without their ghost timestamps. *)
Definition received_msgs (w : world) (h : WebSocket) : list json :=
  default [] ((fun c => (c_received c).*2) <$> w_clients w !! h).

(** ** Scenarios of spec §8 *)

(** Ana (id 1) and Beto (id 2) connect; Ana opens cv 42. *)
Definition sched_enter : list event :=
  [EvOpen (UserInfo 1 "Ana"); EvOpen (UserInfo 2 "Beto"); EvRunClient 0; EvRunClient 1;
   EvSend 0 (FText (Some (demo_enter 42))); EvRunClient 0].

(** ... the VIEWERS_UPDATE reaches both, and Ana closes her tab. *)
Definition sched_leave : list event :=
  sched_enter ++ [EvRunClient 0; EvRunClient 0; EvRunClient 0; EvClose 0;
                  EvRunClient 0; EvRunClient 0; EvRunClient 0; EvRunClient 0; EvRunClient 0].

(** ... or, instead of closing, Ana's client sends a binary frame. *)
Definition sched_binary : list event :=
  sched_enter ++ [EvRunClient 0; EvRunClient 0; EvRunClient 0; EvSend 0 FBinary; EvRunClient 0].

(** Two tabs of the same user (id 1) view cv 42; the first tab closes. *)
Definition sched_two_tabs : list event :=
  [EvOpen (UserInfo 1 "Ana"); EvOpen (UserInfo 1 "Ana"); EvRunClient 0; EvRunClient 1;
   EvSend 0 (FText (Some (demo_enter 42))); EvSend 1 (FText (Some (demo_enter 42)));
   EvRunClient 0; EvRunClient 0; EvRunClient 0; EvRunClient 0;
   EvRunClient 1; EvRunClient 1; EvRunClient 1; EvRunClient 1;
   EvClose 0; EvRunClient 0; EvRunClient 0; EvRunClient 0; EvRunClient 0; EvRunClient 0].

Definition world_after (es : list event) : world := default init_world (run init_world es).

(** ** The executable step function and the step relation agree *)

Lemma step_fn_sound w e w' : step_fn w e = Some w' -> step w w'.
Proof.
  destruct e as [u|h f|h|t d|h|i]; simpl; intros Hs.
  - injection Hs as <-. constructor.
  - destruct (w_clients w !! h) as [c|] eqn:Hc; [|done].
    destruct (c_closed c) eqn:Hcl; [done|]. injection Hs as <-. by constructor.
  - destruct (w_clients w !! h) as [c|] eqn:Hc; [|done]. injection Hs as <-. by econstructor.
  - injection Hs as <-. constructor.
  - unfold run_client in Hs. destruct (w_clients w !! h) as [c|] eqn:Hc; [|done].
    destruct (c_phase c) as [| |b k|[|cv cvs]|] eqn:Hp.
    + destruct (c_closed c) eqn:Hcl; injection Hs as <-; by econstructor.
    + destruct (c_inbox c) as [|f rest] eqn:Hi.
      * destruct (c_closed c) eqn:Hcl; [|done]. injection Hs as <-. by econstructor.
      * injection Hs as <-. by econstructor.
    + destruct (b_pending b) as [|t rest] eqn:Hb.
      * destruct k; injection Hs as <-; by econstructor.
      * injection Hs as <-. by econstructor.
    + injection Hs as <-. by econstructor.
    + injection Hs as <-. by econstructor.
    + done.
  - unfold run_bg in Hs. destruct (w_bg w !! i) as [b|] eqn:Hb; [|done].
    destruct (b_pending b) as [|t rest] eqn:Hp; injection Hs as <-; by econstructor.
Qed.

Lemma step_fn_complete w w' : step w w' -> exists e, step_fn w e = Some w'.
Proof.
  destruct 1 as [w u|w h c f Hc Hcl|w h c Hc|w t d|w h c Hc Hp Hcl|w h c Hc Hp Hcl
                |w h c f rest Hc Hp Hi|w h c Hc Hp Hi Hcl|w h c b k t rest Hc Hp Hb
                |w h c b Hc Hp Hb|w h c b cvs Hc Hp Hb|w h c cv rest Hc Hp|w h c Hc Hp
                |w i b t rest Hb Hp|w i b Hb Hp].
  - by exists (EvOpen u).
  - exists (EvSend h f). simpl. by rewrite Hc, Hcl.
  - exists (EvClose h). simpl. by rewrite Hc.
  - by exists (EvRest t d).
  - exists (EvRunClient h). simpl. unfold run_client. by rewrite Hc, Hp, Hcl.
  - exists (EvRunClient h). simpl. unfold run_client. by rewrite Hc, Hp, Hcl.
  - exists (EvRunClient h). simpl. unfold run_client. by rewrite Hc, Hp, Hi.
  - exists (EvRunClient h). simpl. unfold run_client. by rewrite Hc, Hp, Hi, Hcl.
  - exists (EvRunClient h). simpl. unfold run_client. by rewrite Hc, Hp, Hb.
  - exists (EvRunClient h). simpl. unfold run_client. by rewrite Hc, Hp, Hb.
  - exists (EvRunClient h). simpl. unfold run_client. by rewrite Hc, Hp, Hb.
  - exists (EvRunClient h). simpl. unfold run_client. by rewrite Hc, Hp.
  - exists (EvRunClient h). simpl. unfold run_client. by rewrite Hc, Hp.
  - exists (EvRunBg i). simpl. unfold run_bg. by rewrite Hb, Hp.
  - exists (EvRunBg i). simpl. unfold run_bg. by rewrite Hb, Hp.
Qed.

Lemma run_sound w es w' : run w es = Some w' -> rtc step w w'.
Proof.
  revert w. induction es as [|e es IH]; simpl; intros w Hr.
  - injection Hr as <-. constructor.
  - destruct (step_fn w e) as [w1|] eqn:He; [|done].
    eapply rtc_l; [by eapply step_fn_sound | by apply IH].
Qed.

Lemma run_cons w e es w1 : step_fn w e = Some w1 -> run w (e :: es) = run w1 es.
Proof. intros He. simpl. by rewrite He. Qed.

Lemma run_app w es1 es2 : run w (es1 ++ es2) = w1 ← run w es1; run w1 es2.
Proof.
  revert w. induction es1 as [|e es1 IH]; intros w; simpl; [done|].
  destruct (step_fn w e); [apply IH | done].
Qed.

(** ** The registry matches the endpoint tasks *)

(** The part of a client [deliver] does not touch. *)
Definition ctl (c : client) := (c_user c, c_inbox c, c_closed c, c_phase c, c_reg c).

Lemma deliver_lookup t born msg cs h :
  deliver t born msg cs !! h =
  if decide (t = h) then
    (fun c => if c_closed c then c
              else Client (c_user c) (c_inbox c) (c_closed c) (c_received c ++ [(born, msg)])
                     (c_phase c) (c_reg c)) <$> cs !! h
  else cs !! h.
Proof.
  unfold deliver. destruct (cs !! t) as [c|] eqn:Ht; case_decide; subst; rewrite ?Ht; simpl; try done.
  - destruct (c_closed c); [done|]. apply list_lookup_insert_eq. by eapply lookup_lt_Some.
  - destruct (c_closed c); [done|]. by apply list_lookup_insert_ne.
Qed.

Lemma deliver_ctl t born msg cs h :
  ctl <$> deliver t born msg cs !! h = ctl <$> cs !! h.
Proof.
  unfold deliver. destruct (cs !! t) as [c|] eqn:Ht; [|done].
  destruct (c_closed c) eqn:Hcl; [done|]. rewrite list_lookup_insert.
  case_decide as Hd; [|done]. destruct Hd as [Hd _]. subst. rewrite Ht. simpl.
  unfold ctl. simpl. by rewrite Hcl.
Qed.

Lemma deliver_length t born msg cs : length (deliver t born msg cs) = length cs.
Proof.
  unfold deliver. destruct (cs !! t) as [c|]; [|done].
  destruct (c_closed c); [done|]. apply length_insert.
Qed.

Lemma expected_reg_ctl cs cs' h :
  ctl <$> cs' !! h = ctl <$> cs !! h -> expected_reg cs' h = expected_reg cs h.
Proof.
  unfold expected_reg. destruct (cs' !! h) as [c'|], (cs !! h) as [c|]; simpl; try done.
  intros Hc. injection Hc as Hu _ _ Hp _. by rewrite Hu, Hp.
Qed.

Lemma expected_reg_insert cs h c h' :
  h < length cs ->
  expected_reg (<[h := c]> cs) h' =
  if decide (h = h') then (if active_phase (c_phase c) then Some (c_user c) else None)
  else expected_reg cs h'.
Proof.
  intros Hh. unfold expected_reg. rewrite list_lookup_insert.
  case_decide as Hd; case_decide; subst; naive_solver.
Qed.

Lemma expected_reg_snoc cs u h :
  expected_reg (cs ++ [new_client u]) h = expected_reg cs h.
Proof.
  unfold expected_reg. rewrite lookup_app. destruct (cs !! h); [done|].
  by destruct (h - length cs).
Qed.

Lemma expected_reg_None cs h : length cs <= h -> expected_reg cs h = None.
Proof. intros Hh. unfold expected_reg. by rewrite lookup_ge_None_2. Qed.

Lemma lookup_lt {A} (l : list A) i x : l !! i = Some x -> i < length l.
Proof. apply lookup_lt_Some. Qed.

(** A step that replaces client [h] and the manager keeps the registry
    in line with the tasks when it does so at [h] and leaves the other
    sockets alone. *)
Lemma reg_inv_upd w m' h c c' :
  reg_inv w -> w_clients w !! h = Some c -> PyDict.wf (active_connections m') ->
  (forall h', h <> h' ->
     PyDict.get (active_connections m') h' = PyDict.get (active_connections (w_mgr w)) h') ->
  PyDict.get (active_connections m') h =
    (if active_phase (c_phase c') then Some (c_user c') else None) ->
  reg_inv (upd w m' h c').
Proof.
  intros [_ Hr] Hc Hwf Hne Hh. split; [done|]. intros h'. simpl.
  rewrite expected_reg_insert by (by eapply lookup_lt). case_decide; subst; [done|].
  rewrite Hne by done. apply Hr.
Qed.

(** The same step on the manager when [c'] keeps the registration state
    and the user of [c]. *)
Lemma reg_inv_upd_same w h c c' :
  reg_inv w -> w_clients w !! h = Some c ->
  active_phase (c_phase c') = active_phase (c_phase c) -> c_user c' = c_user c ->
  reg_inv (upd w (w_mgr w) h c').
Proof.
  intros HI Hc Hp Hu. pose proof HI as [Hwf Hr]. eapply reg_inv_upd; eauto.
  rewrite Hr, Hp, Hu. unfold expected_reg. by rewrite Hc.
Qed.

Lemma reg_inv_unregister w h c c' :
  reg_inv w -> w_clients w !! h = Some c -> active_phase (c_phase c') = false ->
  reg_inv (upd w (disconnect (w_mgr w) h).1 h c').
Proof.
  intros HI Hc Hp. pose proof HI as [Hwf Hr]. eapply reg_inv_upd; eauto.
  - by apply wf_disconnect.
  - intros h' Hne. rewrite get_disconnect. by case_decide.
  - rewrite get_disconnect, Hp. by case_decide.
Qed.

Lemma reg_inv_deliver w t born msg bg' clock' :
  reg_inv w -> reg_inv (World (w_mgr w) (deliver t born msg (w_clients w)) bg' clock').
Proof.
  intros [Hwf Hr]. split; [done|]. intros h'. simpl. rewrite Hr.
  symmetry. apply expected_reg_ctl, deliver_ctl.
Qed.

Lemma deliver_lookup_Some t born msg cs h c :
  cs !! h = Some c -> exists c', deliver t born msg cs !! h = Some c' /\ ctl c' = ctl c.
Proof.
  intros Hc. pose proof (deliver_ctl t born msg cs h) as Hd. rewrite Hc in Hd.
  destruct (deliver t born msg cs !! h) as [c'|]; simpl in Hd; [|discriminate].
  exists c'. split; [done|]. injection Hd as ? ? ? ? ?. unfold ctl. congruence.
Qed.

(** [send_next] is a delivery followed by an update of the sender. *)
Lemma send_next_upd w h c b k t rest :
  send_next w h c b k t rest =
  upd (World (w_mgr w) (deliver t (b_born b) (b_msg b) (w_clients w)) (w_bg w) (w_clock w))
    (w_mgr w) h
    (set_phase (default c (deliver t (b_born b) (b_msg b) (w_clients w) !! h))
       (Sending (Bcast (b_msg b) rest (b_born b)) k)).
Proof. reflexivity. Qed.

Lemma reg_inv_handle w h c c' data m' ocv :
  reg_inv w -> w_clients w !! h = Some c -> handle_message (w_mgr w) h data = Ok (m', ocv) ->
  active_phase (c_phase c') = active_phase (c_phase c) -> c_user c' = c_user c ->
  reg_inv (upd w m' h c').
Proof.
  intros [Hwf Hr] Hc Hm Hp Hu. apply handle_message_active in Hm.
  split; simpl; [by rewrite Hm|]. intros h'. rewrite Hm.
  rewrite expected_reg_insert by (by eapply lookup_lt). case_decide; subst; [|apply Hr].
  rewrite Hr. unfold expected_reg. by rewrite Hc, Hp, Hu.
Qed.

Lemma reg_inv_step w w' : reg_inv w -> step w w' -> reg_inv w'.
Proof.
  intros HI Hs. pose proof HI as [Hwf Hr].
  destruct Hs as [w u|w h c f Hc Hcl|w h c Hc|w t d|w h c Hc Hp Hcl|w h c Hc Hp Hcl
                 |w h c f rest Hc Hp Hi|w h c Hc Hp Hi Hcl|w h c b k t rest Hc Hp Hb
                 |w h c b Hc Hp Hb|w h c b cvs Hc Hp Hb|w h c cv rest Hc Hp|w h c Hc Hp
                 |w i b t rest Hb Hp|w i b Hb Hp].
  - split; [done|]. intros h'. simpl. by rewrite expected_reg_snoc.
  - by eapply reg_inv_upd_same.
  - by eapply reg_inv_upd_same.
  - done.
  - eapply reg_inv_upd; eauto.
    + by apply PyDict.wf_setitem.
    + intros h' Hne. rewrite get_connect. by case_decide.
    + rewrite get_connect. by case_decide.
  - eapply reg_inv_upd_same; eauto. by rewrite Hp.
  - destruct f as [[data|]|]; simpl.
    + destruct (handle_message (w_mgr w) h data) as [[m' [cv|]]|e] eqn:Hm.
      * eapply reg_inv_handle; eauto. by rewrite Hp.
      * eapply reg_inv_handle; eauto.
      * eapply reg_inv_upd_same; eauto.
    + eapply reg_inv_upd_same; eauto.
    + by eapply reg_inv_unregister.
  - unfold on_disconnect. destruct (disconnect (w_mgr w) h) as [m' r] eqn:Hd.
    replace m' with (disconnect (w_mgr w) h).1 by (by rewrite Hd).
    destruct r as [[|cv cvs]|]; by eapply reg_inv_unregister.
  - rewrite send_next_upd.
    destruct (deliver_lookup_Some t (b_born b) (b_msg b) (w_clients w) h c Hc) as (c' & Hc' & Hctl).
    apply (reg_inv_upd_same (World (w_mgr w) (deliver t (b_born b) (b_msg b) (w_clients w))
                               (w_bg w) (w_clock w)) h c');
      [by apply reg_inv_deliver | exact Hc' | |].
    + rewrite Hc'. simpl. injection Hctl as _ _ _ Hp' _. rewrite Hp', Hp. by destruct k.
    + rewrite Hc'. simpl. by injection Hctl as Hu _ _ _ _.
  - eapply reg_inv_upd_same; eauto. by rewrite Hp.
  - eapply reg_inv_upd_same; eauto. by rewrite Hp.
  - eapply reg_inv_upd_same; eauto. by rewrite Hp.
  - eapply reg_inv_upd_same; eauto. by rewrite Hp.
  - by apply reg_inv_deliver.
  - done.
Qed.

(** ** No stale viewer *)

Lemma no_stale_step w w' :
  reg_inv w -> no_stale (w_mgr w) -> step w w' -> no_stale (w_mgr w').
Proof.
  intros [Hwf Hr] Hs Hst.
  destruct Hst as [w u|w h c f Hc Hcl|w h c Hc|w t d|w h c Hc Hp Hcl|w h c Hc Hp Hcl
                  |w h c f rest Hc Hp Hi|w h c Hc Hp Hi Hcl|w h c b k t rest Hc Hp Hb
                  |w h c b Hc Hp Hb|w h c b cvs Hc Hp Hb|w h c cv rest Hc Hp|w h c Hc Hp
                  |w i b t rest Hb Hp|w i b Hb Hp]; simpl; try done.
  - apply no_stale_connect; [|done]. rewrite Hr. unfold expected_reg. by rewrite Hc, Hp.
  - destruct f as [[data|]|]; simpl; [|done|by apply no_stale_disconnect].
    destruct (handle_message (w_mgr w) h data) as [[m' [cv|]]|e] eqn:Hm; simpl;
      try done; by eapply no_stale_handle.
  - unfold on_disconnect. destruct (disconnect (w_mgr w) h) as [m' r] eqn:Hd.
    assert (Hs' : no_stale m') by (replace m' with (disconnect (w_mgr w) h).1 by (by rewrite Hd);
                                    by apply no_stale_disconnect).
    by destruct r as [[|? ?]|].
Qed.

(** The invariant of reachable worlds. *)
Definition world_inv (w : world) : Prop := reg_inv w /\ no_stale (w_mgr w).

Lemma world_inv_init : world_inv init_world.
Proof.
  split; [split|]; simpl.
  - apply PyDict.wf_nil.
  - intros h. unfold expected_reg. by rewrite lookup_nil.
  - apply no_stale_init.
Qed.

Lemma world_inv_step w w' : world_inv w -> step w w' -> world_inv w'.
Proof.
  intros [Hr Hs] Hst. split; [by eapply reg_inv_step | by eapply no_stale_step].
Qed.

Lemma reachable_world_inv w : reachable w -> world_inv w.
Proof. intros Hw. exact (reachable_inv step init_world world_inv world_inv_init world_inv_step w Hw). Qed.

(** ** Broadcast snapshots *)

Lemma bcast_ok_stable cs cs' b : regs_stable cs cs' -> bcast_ok cs b -> bcast_ok cs' b.
Proof.
  intros Hst Hb t Ht. destruct (Hb t Ht) as (c & r & Hc & Hr & Hlt).
  destruct (Hst t c Hc) as (c' & Hc' & Hr'); [by rewrite Hr|]. exists c', r. by rewrite Hr'.
Qed.

Lemma bcast_ok_tail cs m t rest born :
  bcast_ok cs (Bcast m (t :: rest) born) -> bcast_ok cs (Bcast m rest born).
Proof. intros Hb t' Ht'. apply Hb. simpl. by right. Qed.

Lemma regs_stable_insert cs h c c' :
  cs !! h = Some c -> (is_Some (c_reg c) -> c_reg c' = c_reg c) ->
  regs_stable cs (<[h := c']> cs).
Proof.
  intros Hc Hreg t c0 Ht Hs. rewrite list_lookup_insert. case_decide as Hd.
  - destruct Hd as [-> _]. rewrite Hc in Ht. injection Ht as <-. eauto.
  - eauto.
Qed.

Lemma regs_stable_deliver t born msg cs : regs_stable cs (deliver t born msg cs).
Proof.
  intros t' c Hc _. destruct (deliver_lookup_Some t born msg cs t' c Hc) as (c' & Hc' & Hctl).
  exists c'. split; [done|]. by injection Hctl.
Qed.

Lemma regs_stable_snoc cs x : regs_stable cs (cs ++ [x]).
Proof. intros t c Hc _. exists c. split; [by apply lookup_app_l_Some | done]. Qed.

(** A snapshot of the registry serves only sockets registered before. *)
Lemma snapshot_ok w m msg :
  reg_inv w -> time_inv w ->
  active_connections m = active_connections (w_mgr w) ->
  bcast_ok (w_clients w) (start_broadcast m msg (w_clock w)).
Proof.
  intros [_ Hr] (T1 & T2 & _) Hm t Ht. simpl in Ht. unfold broadcast_targets in Ht.
  rewrite Hm, <- PyDict.get_keys, Hr in Ht. unfold expected_reg in Ht.
  destruct (w_clients w !! t) as [c|] eqn:Hc; [|by destruct Ht].
  destruct (active_phase (c_phase c)) eqn:Ha; [|by destruct Ht].
  destruct (T2 t c Hc Ha) as [r Hreg]. exists c, r. simpl. eauto.
Qed.

Lemma lookup_insert_cases {A} (cs : list A) h x t y :
  <[h := x]> cs !! t = Some y -> (t = h /\ y = x) \/ (t <> h /\ cs !! t = Some y).
Proof.
  rewrite list_lookup_insert. case_decide as Hd; [destruct Hd as [-> _]; intros [= ->]; by left|].
  intros Ht. right. split; [|done]. intros ->. apply Hd. split; [done|]. by eapply lookup_lt.
Qed.

(** A step that replaces client [h] keeps the timing facts when the new
    client keeps its registration (or is being registered now), its
    received messages, and starts only broadcasts that are well formed. *)
Lemma time_inv_upd w m' h c c' :
  time_inv w -> w_clients w !! h = Some c ->
  (c_reg c' = c_reg c \/ (c_reg c = None /\ c_reg c' = Some (w_clock w))) ->
  c_received c' = c_received c ->
  (active_phase (c_phase c') = true -> is_Some (c_reg c')) ->
  (c_phase c' = Accepting -> c_reg c' = None) ->
  (forall b k, c_phase c' = Sending b k -> bcast_ok (w_clients w) b) ->
  time_inv (upd w m' h c').
Proof.
  intros (T1 & T2 & T3 & T4 & T5 & T6) Hc Hreg Hrec Ha Hacc Hsend.
  assert (Hst : regs_stable (w_clients w) (<[h := c']> (w_clients w))).
  { apply (regs_stable_insert _ _ c); [done|]. intros [r Hr]. destruct Hreg as [|[? ?]]; congruence. }
  split; [|split; [|split; [|split; [|split]]]]; simpl.
  - intros t c0 r Ht Hr. apply lookup_insert_cases in Ht as [[-> ->]|[_ Ht]];
      [destruct Hreg as [Hreg|[_ Hreg]]; rewrite Hr in Hreg; [symmetry in Hreg; specialize (T1 h c r Hc Hreg); lia | injection Hreg as ->; lia]
      | specialize (T1 t c0 r Ht Hr); lia].
  - intros t c0 Ht. apply lookup_insert_cases in Ht as [[-> ->]|[_ Ht]]; eauto.
  - intros t c0 Ht. apply lookup_insert_cases in Ht as [[-> ->]|[_ Ht]]; eauto.
  - intros t c0 b k Ht Hp. eapply bcast_ok_stable; [exact Hst|].
    apply lookup_insert_cases in Ht as [[-> ->]|[_ Ht]]; eauto.
  - intros b Hb. eapply bcast_ok_stable; eauto.
  - intros t c0 p Ht Hp. apply lookup_insert_cases in Ht as [[-> ->]|[_ Ht]]; [|eauto].
    rewrite Hrec in Hp. destruct (T6 h c p Hc Hp) as (r & Hr & Hlt).
    destruct Hreg as [->|[Hn _]]; [eauto | congruence].
Qed.

Lemma ctl_eq c c' :
  ctl c' = ctl c ->
  c_user c' = c_user c /\ c_inbox c' = c_inbox c /\ c_closed c' = c_closed c /\
  c_phase c' = c_phase c /\ c_reg c' = c_reg c.
Proof. unfold ctl. intros H. by injection H. Qed.

Lemma deliver_lookup_cases t born msg cs h c' :
  deliver t born msg cs !! h = Some c' ->
  exists c, cs !! h = Some c /\ ctl c' = ctl c /\
    (c_received c' = c_received c \/ (h = t /\ c_received c' = c_received c ++ [(born, msg)])).
Proof.
  rewrite deliver_lookup. case_decide as Hd; [|intros Hc; exists c'; auto].
  destruct (cs !! h) as [c|] eqn:Hc; simpl; [|done]. intros Hc'. injection Hc' as <-.
  exists c. split; [done|]. destruct (c_closed c) eqn:Hcl; [split; auto|].
  split; [unfold ctl; simpl; by rewrite Hcl|]. right. by split.
Qed.

Lemma time_inv_deliver w t born msg bg' clock' :
  time_inv w ->
  (exists c r, w_clients w !! t = Some c /\ c_reg c = Some r /\ (r < born)%nat) ->
  (forall b, b ∈ bg' -> bcast_ok (w_clients w) b) -> (w_clock w <= clock')%nat ->
  time_inv (World (w_mgr w) (deliver t born msg (w_clients w)) bg' clock').
Proof.
  intros (T1 & T2 & T3 & T4 & T5 & T6) Ht Hbg Hclk.
  pose proof (regs_stable_deliver t born msg (w_clients w)) as Hst.
  split; [|split; [|split; [|split; [|split]]]]; simpl.
  - intros h c' r Hc' Hr. apply deliver_lookup_cases in Hc' as (c & Hc & (_&_&_&_&Hreg)%ctl_eq & _).
    rewrite Hreg in Hr. specialize (T1 h c r Hc Hr). lia.
  - intros h c' Hc'. apply deliver_lookup_cases in Hc' as (c & Hc & (_&_&_&Hp&Hreg)%ctl_eq & _).
    rewrite Hp, Hreg. eauto.
  - intros h c' Hc'. apply deliver_lookup_cases in Hc' as (c & Hc & (_&_&_&Hp&Hreg)%ctl_eq & _).
    rewrite Hp, Hreg. eauto.
  - intros h c' b k Hc' Hp'. apply deliver_lookup_cases in Hc' as (c & Hc & (_&_&_&Hp&_)%ctl_eq & _).
    rewrite Hp in Hp'. eapply bcast_ok_stable; eauto.
  - intros b Hb. eapply bcast_ok_stable; eauto.
  - intros h c' p Hc' Hp. apply deliver_lookup_cases in Hc' as (c & Hc & (_&_&_&_&Hreg)%ctl_eq & Hrec).
    rewrite Hreg. destruct Hrec as [Hrec|[-> Hrec]]; rewrite Hrec in Hp; [eauto|].
    apply elem_of_app in Hp as [Hp|Hp]; [eauto|].
    apply list_elem_of_singleton in Hp as ->. destruct Ht as (c0 & r & Hc0 & Hr & Hlt).
    rewrite Hc in Hc0. injection Hc0 as <-. by exists r.
Qed.

Lemma elem_of_insert_inv {A} (l : list A) i x y : y ∈ <[i := x]> l -> y = x \/ y ∈ l.
Proof.
  intros (j & Hj)%list_elem_of_lookup. apply lookup_insert_cases in Hj as [[_ ->]|[_ Hj]]; [by left|].
  right. by eapply list_elem_of_lookup_2.
Qed.

Lemma time_inv_bg w bg' :
  time_inv w -> (forall b, b ∈ bg' -> bcast_ok (w_clients w) b) ->
  time_inv (World (w_mgr w) (w_clients w) bg' (S (w_clock w))).
Proof.
  intros (T1 & T2 & T3 & T4 & T5 & T6) Hbg. repeat split; simpl; eauto.
  intros h c r Hc Hr. specialize (T1 h c r Hc Hr). lia.
Qed.

Lemma time_inv_open w u : time_inv w -> time_inv (open_client w u).
Proof.
  intros (T1 & T2 & T3 & T4 & T5 & T6). pose proof (regs_stable_snoc (w_clients w) (new_client u)) as Hst.
  unfold open_client. split; [|split; [|split; [|split; [|split]]]]; simpl.
  - intros h c r [[_ Hc]|[_ <-]]%lookup_snoc_Some Hr; [specialize (T1 h c r Hc Hr); lia | done].
  - intros h c [[_ Hc]|[_ <-]]%lookup_snoc_Some; [eauto | done].
  - intros h c [[_ Hc]|[_ <-]]%lookup_snoc_Some; [eauto | done].
  - intros h c b k [[_ Hc]|[_ <-]]%lookup_snoc_Some Hp; [eapply bcast_ok_stable; eauto | done].
  - intros b Hb. eapply bcast_ok_stable; eauto.
  - intros h c p [[_ Hc]|[_ <-]]%lookup_snoc_Some Hp; [eauto | inversion Hp].
Qed.

Lemma bcast_ok_next cs b t rest :
  bcast_ok cs b -> b_pending b = t :: rest ->
  bcast_ok cs (Bcast (b_msg b) rest (b_born b)) /\
  exists c r, cs !! t = Some c /\ c_reg c = Some r /\ (r < b_born b)%nat.
Proof.
  intros Hb Hp. split.
  - intros t' Ht'. apply Hb. rewrite Hp. by right.
  - apply Hb. rewrite Hp. by left.
Qed.

Lemma time_inv_upd_same w m' h c c' :
  time_inv w -> w_clients w !! h = Some c ->
  c_reg c' = c_reg c -> c_received c' = c_received c -> c_phase c' = c_phase c ->
  time_inv (upd w m' h c').
Proof.
  intros HT Hc Hreg Hrec Hp. pose proof HT as (_ & T2 & T3 & T4 & _).
  eapply time_inv_upd; eauto; rewrite ?Hp, ?Hreg; eauto.
Qed.

Lemma time_inv_step w w' : world_inv w -> time_inv w -> step w w' -> time_inv w'.
Proof.
  intros [HR _] HT Hs. pose proof HT as (T1 & T2 & T3 & T4 & T5 & T6).
  destruct Hs as [w u|w h c f Hc Hcl|w h c Hc|w t d|w h c Hc Hp Hcl|w h c Hc Hp Hcl
                 |w h c f rest Hc Hp Hi|w h c Hc Hp Hi Hcl|w h c b k t rest Hc Hp Hb
                 |w h c b Hc Hp Hb|w h c b cvs Hc Hp Hb|w h c cv rest Hc Hp|w h c Hc Hp
                 |w i b t rest Hb Hp|w i b Hb Hp].
  - by apply time_inv_open.
  - by eapply time_inv_upd_same.
  - by eapply time_inv_upd_same.
  - apply time_inv_bg; [done|]. intros b [Hb|Hb%list_elem_of_singleton]%elem_of_app; [eauto|].
    subst. by apply snapshot_ok.
  - eapply time_inv_upd; eauto; simpl; try done; right; split; eauto.
  - eapply time_inv_upd; eauto; simpl; try done; by rewrite Hp.
  - destruct f as [[data|]|]; simpl; [|by eapply time_inv_upd_same|].
    + destruct (handle_message (w_mgr w) h data) as [[m' [cv|]]|e] eqn:Hm.
      * eapply time_inv_upd; eauto; simpl; try done.
        -- intros _. apply T2 with h; [done | by rewrite Hp].
        -- intros b k [= <- _]. apply snapshot_ok; [done|done|]. by eapply handle_message_active.
      * by eapply time_inv_upd_same.
      * by eapply time_inv_upd_same.
    + eapply time_inv_upd; eauto; simpl; done.
  - unfold on_disconnect. destruct (disconnect (w_mgr w) h) as [m' r].
    destruct r as [[|? ?]|]; eapply time_inv_upd; eauto; simpl; done.
  - rewrite send_next_upd.
    destruct (bcast_ok_next _ _ _ _ (T4 h c b k Hc Hp) Hb) as [Htail Ht].
    assert (HT1 : time_inv (World (w_mgr w) (deliver t (b_born b) (b_msg b) (w_clients w))
                              (w_bg w) (w_clock w))) by (apply time_inv_deliver; eauto).
    destruct (deliver_lookup_Some t (b_born b) (b_msg b) (w_clients w) h c Hc) as (c' & Hc' & Hctl).
    pose proof (ctl_eq _ _ Hctl) as (_ & _ & _ & Hp' & Hreg).
    eapply time_inv_upd; [exact HT1 | exact Hc' | | | | |]; rewrite ?Hc'; simpl; try done.
    + by left.
    + intros Ha. destruct HT1 as (_ & T2' & _). apply (T2' h c' Hc'). rewrite Hp', Hp. by destruct k.
    + intros b' k' [= <- _]. eapply bcast_ok_stable; [apply regs_stable_deliver | done].
  - eapply time_inv_upd; eauto; simpl; try done. intros _. apply T2 with h; [done | by rewrite Hp].
  - eapply time_inv_upd; eauto; simpl; done.
  - eapply time_inv_upd; eauto; simpl; try done. intros b k [= <- _]. by apply snapshot_ok.
  - eapply time_inv_upd; eauto; simpl; done.
  - destruct (bcast_ok_next _ _ _ _ (T5 b (list_elem_of_lookup_2 _ _ _ Hb)) Hp) as [Htail Ht].
    apply time_inv_deliver; [done|done| |lia].
    intros b' [->|Hb']%elem_of_insert_inv; [done|eauto].
  - apply time_inv_bg; [done|]. intros b' Hb'%list_elem_of_delete_inv. eauto.
Qed.

Lemma time_inv_init : time_inv init_world.
Proof.
  repeat split; simpl; intros *; rewrite ?lookup_nil; try done.
  intros Hb. by apply not_elem_of_nil in Hb.
Qed.

Lemma reachable_invariants w : reachable w -> world_inv w /\ time_inv w.
Proof.
  apply (reachable_inv step init_world (fun w => world_inv w /\ time_inv w)).
  - split; [apply world_inv_init | apply time_inv_init].
  - intros x y [Hw Ht] Hs. split; [by eapply world_inv_step | by eapply time_inv_step].
Qed.

(** ** A broadcast runs to completion and serves its snapshot once *)

Lemma deliver_received t born msg cs t' c :
  cs !! t' = Some c ->
  exists c1, deliver t born msg cs !! t' = Some c1 /\ ctl c1 = ctl c /\
    c_received c1 = c_received c ++
      (if c_closed c then [] else if decide (t = t') then [(born, msg)] else []).
Proof.
  intros Hc. rewrite deliver_lookup, Hc. case_decide; simpl; eexists; (split; [done|]).
  - destruct (c_closed c) eqn:Hcl; simpl; [by rewrite app_nil_r|]. split; [|done].
    unfold ctl. simpl. by rewrite Hcl.
  - split; [done|]. destruct (c_closed c); [by rewrite app_nil_r|]. by rewrite app_nil_r.
Qed.

Lemma deliver_all_lookup ts born msg cs t c :
  NoDup ts -> cs !! t = Some c ->
  exists c', deliver_all ts born msg cs !! t = Some c' /\ ctl c' = ctl c /\
    c_received c' = c_received c ++ fanout_to ts born msg t c.
Proof.
  unfold fanout_to. revert cs c. induction ts as [|t0 ts IH]; cbn [deliver_all]; intros cs c Hnd Hc.
  - exists c. split; [done|]. split; [done|]. destruct (c_closed c); [by rewrite app_nil_r|].
    case_decide as Hd; [by apply not_elem_of_nil in Hd | by rewrite app_nil_r].
  - apply NoDup_cons in Hnd as [Hn Hnd].
    destruct (deliver_received t0 born msg cs t c Hc) as (c1 & Hc1 & Hctl1 & Hrec1).
    destruct (IH _ _ Hnd Hc1) as (c2 & Hc2 & Hctl2 & Hrec2). exists c2.
    split; [done|]. split; [congruence|]. rewrite Hrec2, Hrec1.
    pose proof (ctl_eq _ _ Hctl1) as (_ & _ & -> & _). rewrite <- app_assoc.
    destruct (c_closed c); [done|]. f_equal.
    destruct (decide (t0 = t)) as [<-|Hne].
    + rewrite (decide_False (P := t0 ∈ ts)), (decide_True (P := t0 ∈ t0 :: ts));
        [done | by left | done].
    + simpl.
      destruct (decide (t ∈ ts)) as [Hin|Hin].
      * rewrite (decide_True (P := t ∈ t0 :: ts)); [done | by right].
      * rewrite (decide_False (P := t ∈ t0 :: ts)); [done|]. rewrite elem_of_cons. naive_solver.
Qed.

Lemma run_repeat_bg w i b :
  w_bg w !! i = Some b ->
  run w (repeat (EvRunBg i) (length (b_pending b))) =
  Some (World (w_mgr w) (deliver_all (b_pending b) (b_born b) (b_msg b) (w_clients w))
          (<[i := Bcast (b_msg b) [] (b_born b)]> (w_bg w))
          (length (b_pending b) + w_clock w)).
Proof.
  destruct b as [msg ts born]. simpl. revert w.
  induction ts as [|t ts IH]; simpl; intros w Hb.
  - destruct w as [m cs bg clk]; simpl in *. by rewrite list_insert_id.
  - unfold run_bg. rewrite Hb. simpl. rewrite IH.
    + unfold bg_next. cbn [w_mgr w_clients w_bg w_clock b_msg b_born].
      by rewrite list_insert_insert, decide_True, Nat.add_succ_r.
    + unfold bg_next. cbn [w_bg b_msg b_born]. apply list_lookup_insert_eq. by eapply lookup_lt.
Qed.

(** Under the registry invariant, the snapshot of [broadcast] holds
    exactly the sockets whose task is active. *)
Lemma targets_active w h c :
  reg_inv w -> w_clients w !! h = Some c ->
  h ∈ broadcast_targets (w_mgr w) <-> active_phase (c_phase c) = true.
Proof.
  intros [_ Hg] Hc. unfold broadcast_targets. rewrite <- PyDict.get_keys, Hg.
  unfold expected_reg. rewrite Hc. destruct (active_phase _); split; intros H; try done.
Qed.

Lemma targets_NoDup w : reg_inv w -> NoDup (broadcast_targets (w_mgr w)).
Proof. by intros [Hwf _]. Qed.

Lemma fanout_to_targets w born msg h c :
  reg_inv w -> w_clients w !! h = Some c ->
  fanout_to (broadcast_targets (w_mgr w)) born msg h c = fanout_active born msg c.
Proof.
  intros Hr Hc. unfold fanout_to, fanout_active. destruct (c_closed c); [done|].
  pose proof (targets_active w h c Hr Hc) as Hiff.
  case_decide as Hd; destruct (active_phase _); naive_solver.
Qed.

(** (C5) The background [broadcast] a REST handler schedules
    ([background_tasks.add_task(manager.broadcast, ...)]), once run to
    its end, delivers its message exactly once to every client whose task
    was active and whose transport was open when it was scheduled, and to
    no other client; it changes neither the registry nor the presence
    index, nor any client's connection state. *)
Theorem rest_broadcast_fanout w event_type data :
  reachable w ->
  exists w',
    run w (EvRest event_type data
           :: repeat (EvRunBg (length (w_bg w))) (length (broadcast_targets (w_mgr w))))
      = Some w' /\
    w_mgr w' = w_mgr w /\
    forall h c, w_clients w !! h = Some c ->
      exists c', w_clients w' !! h = Some c' /\ ctl c' = ctl c /\
        c_received c' = c_received c ++ fanout_active (w_clock w) (message event_type data) c.
Proof.
  intros Hw. destruct (reachable_invariants w Hw) as [[Hreg _] _].
  set (b := start_broadcast (w_mgr w) (message event_type data) (w_clock w)).
  assert (Hb : w_bg (rest_broadcast w event_type data) !! length (w_bg w) = Some b).
  { simpl. by apply list_lookup_middle. }
  pose proof (run_repeat_bg _ _ _ Hb) as Hrun.
  rewrite (run_cons _ _ _ (rest_broadcast w event_type data)) by done.
  eexists. split; [exact Hrun|]. split; [done|]. intros h c Hc. simpl.
  destruct (deliver_all_lookup (broadcast_targets (w_mgr w)) (w_clock w)
              (message event_type data) (w_clients w) h c (targets_NoDup w Hreg) Hc)
    as (c' & Hc' & Hctl & Hrec).
  exists c'. rewrite <- (fanout_to_targets w _ _ h c) by done. done.
Qed.

Lemma reachable_after es : run init_world es <> None -> reachable (world_after es).
Proof.
  unfold world_after. destruct (run init_world es) as [w|] eqn:Hr; [|done].
  intros _. by apply run_sound in Hr.
Qed.

Lemma rest_broadcast_fanout_witness :
  reachable (world_after sched_enter) /\
  exists w',
    run (world_after sched_enter)
      (EvRest "POSTULACION_UPDATED" JNull
       :: repeat (EvRunBg (length (w_bg (world_after sched_enter))))
            (length (broadcast_targets (w_mgr (world_after sched_enter))))) = Some w' /\
    w_mgr w' = w_mgr (world_after sched_enter) /\
    forall h c, w_clients (world_after sched_enter) !! h = Some c ->
      exists c', w_clients w' !! h = Some c' /\ ctl c' = ctl c /\
        c_received c' = c_received c ++
          fanout_active (w_clock (world_after sched_enter)) (message "POSTULACION_UPDATED" JNull) c.
Proof.
  assert (Hw : reachable (world_after sched_enter)) by (apply reachable_after; by vm_compute).
  split; [exact Hw | exact (rest_broadcast_fanout _ _ _ Hw)].
Defined.

(** (C3) In every reachable state the registry
    [ConnectionManager.active_connections] is a well-formed dict that
    binds exactly the sockets whose endpoint task is active (between
    [manager.connect] and the [manager.disconnect] of its exit path), each
    to the [id] and [nombre] of its query string. *)
Theorem registry_matches_tasks w :
  reachable w ->
  PyDict.wf (active_connections (w_mgr w)) /\
  forall h, PyDict.get (active_connections (w_mgr w)) h = expected_reg (w_clients w) h.
Proof. intros Hw. apply reachable_world_inv, Hw. Qed.

Lemma registry_matches_tasks_witness :
  reachable (world_after sched_enter) /\
  PyDict.get (active_connections (w_mgr (world_after sched_enter))) 1%nat =
  expected_reg (w_clients (world_after sched_enter)) 1%nat.
Proof.
  assert (Hw : reachable (world_after sched_enter)) by (apply reachable_after; by vm_compute).
  split; [exact Hw | apply (registry_matches_tasks _ Hw)].
Defined.

(** (C4) No stale presence: in every reachable state, every user listed
    as a viewer of some cv is the user of a client whose task is active,
    so a VIEWERS_UPDATE never names a user all of whose connections have
    gone through [manager.disconnect]. *)
Theorem no_stale_viewer w cv uid :
  reachable w ->
  uid ∈ PyDict.keys (viewers_of (viewers (w_mgr w)) cv) ->
  exists h c, w_clients w !! h = Some c /\ active_phase (c_phase c) = true /\
    ui_id (c_user c) = uid.
Proof.
  intros Hw Hin. destruct (reachable_world_inv w Hw) as [[_ Hg] Hns].
  destruct (Hns cv uid Hin) as (h & u & Hu & <-). rewrite Hg in Hu.
  unfold expected_reg in Hu. destruct (w_clients w !! h) as [c|] eqn:Hc; [|done].
  destruct (active_phase (c_phase c)) eqn:Ha; [|done]. injection Hu as <-. eauto.
Qed.

Lemma no_stale_viewer_witness :
  reachable (world_after sched_enter) /\
  1%Z ∈ PyDict.keys (viewers_of (viewers (w_mgr (world_after sched_enter))) 42%Z) /\
  exists h c, w_clients (world_after sched_enter) !! h = Some c /\
    active_phase (c_phase c) = true /\ ui_id (c_user c) = 1%Z.
Proof.
  assert (Hw : reachable (world_after sched_enter)) by (apply reachable_after; by vm_compute).
  assert (Hin : 1%Z ∈ PyDict.keys (viewers_of (viewers (w_mgr (world_after sched_enter))) 42%Z))
    by (vm_compute; left).
  split; [exact Hw|]. split; [exact Hin|]. exact (no_stale_viewer _ _ _ Hw Hin).
Defined.

(** (C6) A client only receives messages of broadcasts that took their
    snapshot [list(self.active_connections.keys())] after the client's
    [manager.connect] had registered it: every received message carries
    the time of its snapshot, which is later than the registration. *)
Theorem received_after_registration w h c p :
  reachable w -> w_clients w !! h = Some c -> p ∈ c_received c ->
  exists r, c_reg c = Some r /\ (r < p.1)%nat.
Proof.
  intros Hw Hc Hp. destruct (reachable_invariants w Hw) as [_ Ht].
  destruct Ht as (_ & _ & _ & _ & _ & T6). by eapply T6.
Qed.

Lemma received_after_registration_witness :
  let w := world_after sched_leave in
  let c := default (new_client (UserInfo 0 "")) (w_clients w !! 1%nat) in
  let p := hd (0%nat, JNull) (c_received c) in
  reachable w /\ w_clients w !! 1%nat = Some c /\ p ∈ c_received c /\
  exists r, c_reg c = Some r /\ (r < p.1)%nat.
Proof.
  intros w c p.
  assert (Hw : reachable w) by (apply reachable_after; by vm_compute).
  assert (Hc : w_clients w !! 1%nat = Some c) by (vm_compute; reflexivity).
  assert (Hp : p ∈ c_received c) by (vm_compute; left).
  split; [exact Hw|]. split; [exact Hc|]. split; [exact Hp|].
  exact (received_after_registration w 1%nat c p Hw Hc Hp).
Defined.

(** Finding: a client whose socket fails with an error other than
    [WebSocketDisconnect] (here a binary frame, on which [receive_text()]
    raises) leaves through the [except Exception] branch, which calls
    [manager.disconnect] and drops the cvs it returns: the presence index
    forgets Ana, but nobody is told.  The system then stays quiescent
    (no task can run and no broadcast is pending) while Beto's last
    VIEWERS_UPDATE for cv 42 still lists Ana.  On a normal close the
    [WebSocketDisconnect] branch re-broadcasts and Beto's last update is
    the empty list. *)
Example binary_frame_stale_viewers :
  let w := world_after sched_binary in
  run init_world sched_binary <> None /\
  (forall h, run_client w h = None) /\ w_bg w = [] /\
  PyDict.get (active_connections (w_mgr w)) 1%nat = Some (UserInfo 2 "Beto") /\
  PyDict.keys (viewers_of (viewers (w_mgr w)) 42%Z) = [] /\
  last (received_msgs w 1%nat) = Some (viewers_msg 42 [(1%Z, "Ana")]) /\
  last (received_msgs (world_after sched_leave) 1%nat) = Some (viewers_msg 42 []).
Proof.
  intros w. split; [by vm_compute|]. split; [|vm_compute; repeat split; reflexivity].
  intros [|[|h]]; vm_compute; reflexivity.
Qed.

(** Finding: presence is keyed by the user id alone.  When the same
    user (id 1) views cv 42 from two tabs and one tab closes,
    [disconnect] removes id 1 from the viewers of cv 42 although the
    other tab is still connected and registered, and that tab is told
    that nobody views the cv. *)
Example shared_user_id_presence :
  let w := world_after sched_two_tabs in
  run init_world sched_two_tabs <> None /\
  PyDict.get (active_connections (w_mgr w)) 1%nat = Some (UserInfo 1 "Ana") /\
  option_map c_phase (w_clients w !! 1%nat) = Some Receiving /\
  PyDict.keys (viewers_of (viewers (w_mgr w)) 42%Z) = [] /\
  last (received_msgs w 1%nat) = Some (viewers_msg 42 []).
Proof. intros w. split; [by vm_compute | vm_compute; repeat split; reflexivity]. Qed.

End EventLoop.
