(* ===== verification/Files.v ===== *)
(** * Files: naming, placing and size-limiting the uploaded CVs

    [src/Api/utils/files.py].  [save_upload_file_cv] is called by
    [create_postulacion] with the uploaded file and the applicant's name:
    it checks the extension of the client's file name against
    [ALLOWED_EXTS], builds the name [slug(nombre)_slug(apellido)_stamp.ext],
    makes it unique in [STORAGE_DIR/cv] with [unique_path], and copies the
    upload in chunks of 1 MiB, refusing it (and deleting the partial
    file) as soon as it exceeds [MAX_CV_MB] MiB.  [cv_disk_path] turns the
    stored name back into a path for the download handlers.

    - The path functions of [os.path] ([basename], [splitext], [join])
      are translated from CPython's [posixpath] and [genericpath].
    - The file system is the list [fs] of the paths that exist
      ([os.path.exists]); [os.makedirs] adds the directory, opening the
      destination adds it, [os.remove] takes it away.  The bytes written
      are not modelled, only their number.
    - The upload is the client's file name, its content type and the
      sizes of the successive [file.file.read(1024 * 1024)] calls.
    - [slugify]: [unicodedata.normalize("NFKD", ...)] followed by
      [.encode("ascii", "ignore").decode("ascii")] is the field
      [nfkd_ascii] of the configuration, a function the theorems
      quantify over; where a theorem needs it, the hypothesis
      [nfkd_ascii_id] says that it keeps ASCII text unchanged, as NFKD
      and the encoding do.  The concrete runs use [demo_nfkd], which maps the accented
      Latin-1 letters to their base letters.
    - [open()] of the destination fails with [OSError] ([ENAMETOOLONG])
      when the file name is longer than NAME_MAX (255 bytes) or the path
      longer than PATH_MAX (4096 bytes with its final NUL).
    - The clock [datetime.now(timezone.utc)] is an argument [now], POSIX
      seconds; [build_cv_filename] prints it in [TIMEZONE] with the
      [datetime] model of [Clock] ([cv_now], [cv_stamp]). *)

From S2P Require Import Prelude PyStr Clock.
From stdpp Require Import pretty sorting.
From Stdlib Require Import Ascii.

Module Files.

(** The module-level configuration read from the environment. *)
Record config := Config {
  storage_dir : string;        (** [STORAGE_DIR] *)
  max_cv_mb : Z;               (** [MAX_CV_MB] *)
  allowed_exts : list string;  (** [ALLOWED_EXTS] *)
  timezone : option string;    (** [TIMEZONE = os.getenv("TIMEZONE")] *)
  zoneinfo : Clock.tzdb;       (** the keys [ZoneInfo] knows *)
  nfkd_ascii : string -> string
    (** [unicodedata.normalize("NFKD", t).encode("ascii", "ignore")
        .decode("ascii")], with the Unicode tables of the interpreter *)
}.

(** What the theorems assume of [nfkd_ascii]: NFKD leaves ASCII text as
    it is, and the [encode] keeps it.  ([nfkd_ascii] may lengthen other
    text: NFKD of "⑽" is "(10)".) *)
Definition nfkd_ascii_id (f : string -> string) : Prop :=
  forall s, Forall (fun c => nat_of_ascii c < 128)%nat (list_ascii_of_string s) -> f s = s.

(** ** Character-list helpers *)

(** [s.split(sep)] on characters. *)
Fixpoint split_on (sep : ascii) (cs : list ascii) : list (list ascii) :=
  match cs with
  | [] => [[]]
  | c :: cs' =>
      let rest := split_on sep cs' in
      if Ascii.eqb c sep then [] :: rest
      else match rest with w :: ws => (c :: w) :: ws | [] => [[c]] end
  end.

Definition py_split (sep : ascii) (s : string) : list string :=
  string_of_list_ascii <$> split_on sep (list_ascii_of_string s).

(** The characters before and after the last occurrence of [c]. *)
Fixpoint last_split (c : ascii) (cs : list ascii) : option (list ascii * list ascii) :=
  match cs with
  | [] => None
  | x :: xs =>
      match last_split c xs with
      | Some (h, t) => Some (x :: h, t)
      | None => if Ascii.eqb x c then Some ([], xs) else None
      end
  end.

(** The leading run of [c] and the rest. *)
Fixpoint span_char (c : ascii) (cs : list ascii) : list ascii * list ascii :=
  match cs with
  | x :: xs => if Ascii.eqb x c then let '(l, r) := span_char c xs in (x :: l, r) else ([], cs)
  | [] => ([], [])
  end.

(** [ALLOWED_EXTS = {e.strip().lower() for e in os.getenv(...).split(",")}] *)
Definition parse_allowed_exts (env : string) : list string :=
  remove_dups ((fun e => PyStr.lower (PyStr.strip e)) <$> py_split "," env).

(** ** [os.path] *)

(** [posixpath.basename(p)]: [p[p.rfind('/') + 1:]]. *)
Definition basename (p : string) : string :=
  let l := list_ascii_of_string p in
  string_of_list_ascii (match last_split "/" l with Some (_, t) => t | None => l end).

(** [posixpath.splitext(p)]: the extension starts at the last dot of the
    last component, unless every character before that dot in the
    component is a dot. *)
Definition splitext (p : string) : string * string :=
  let l := list_ascii_of_string p in
  let '(head, base) := match last_split "/" l with
                       | Some (h, t) => (h ++ ["/"%char], t)
                       | None => ([], l)
                       end in
  let '(lead, rest) := span_char "." base in
  match last_split "." rest with
  | Some (r, e) => (string_of_list_ascii (head ++ lead ++ r), string_of_list_ascii ("."%char :: e))
  | None => (p, "")
  end.

(** [s.startswith(c)] for a one-character [c]. *)
Definition starts_with (c : ascii) (s : string) : bool :=
  match s with String x _ => Ascii.eqb x c | EmptyString => false end.

(** [posixpath.join(a, b)] *)
Definition join (a b : string) : string :=
  if starts_with "/" b then b
  else if String.eqb a "" || String.eqb (basename a) "" then a +:+ b
  else a +:+ "/" +:+ b.

(** ** The functions of [files.py] *)

(** [secure_basename(filename)]: [os.path.basename(filename or "upload")]. *)
Definition secure_basename (filename : option string) : string :=
  match filename with
  | Some f => if String.eqb f "" then basename "upload" else basename f
  | None => basename "upload"
  end.

(** The order [sorted] uses on [str]: code point by code point. *)
Definition str_le (a b : string) : Prop := String.leb a b = true.
#[local] Instance str_le_dec : RelDecision str_le := fun a b => decide (String.leb a b = true).

(** [validate_ext(filename)]: the lower-cased extension, or the 400
    response with its detail. *)
Definition validate_ext (cfg : config) (filename : string) : string + (Z * string) :=
  let ext := PyStr.lower (splitext filename).2 in
  if decide (ext ∈ allowed_exts cfg) then inl ext
  else inr (400%Z, "Extensión no permitida: " +:+ ext +:+ ". Permitidas: " +:+
             String.concat ", " (merge_sort str_le (allowed_exts cfg))).

(** [_slug_re = re.compile(r"[^a-z0-9]+")] matches a character that is
    not a lower-case ASCII letter or digit. *)
Definition is_slug_char (c : ascii) : bool :=
  let n := nat_of_ascii c in ((97 <=? n) && (n <=? 122)) || ((48 <=? n) && (n <=? 57)).

(** [_slug_re.sub("-", text)]: every maximal run of non-slug characters
    becomes one dash; [in_run] says the previous character was replaced. *)
Fixpoint slug_sub (cs : list ascii) (in_run : bool) : list ascii :=
  match cs with
  | [] => []
  | c :: cs' =>
      if is_slug_char c then c :: slug_sub cs' false
      else if in_run then slug_sub cs' true else "-"%char :: slug_sub cs' true
  end.

(** [.strip("-")] *)
Definition strip_dashes (cs : list ascii) : list ascii :=
  rev (span_char "-" (rev (span_char "-" cs).2)).2.

(** [slugify(text)]; [text] is a [str], so [(text or "")] is [text]. *)
Definition slugify (cfg : config) (text : string) : string :=
  let cs := list_ascii_of_string (nfkd_ascii cfg (PyStr.strip text)) in
  let cs := PyStr.lower_char <$> cs in
  let cs := strip_dashes (slug_sub cs false) in
  match cs with [] => "x" | _ => string_of_list_ascii cs end.

(** The clock of [build_cv_filename]: [datetime.now(timezone.utc)],
    converted with [now.astimezone(ZoneInfo(TIMEZONE))] when [TIMEZONE]
    is set and not empty; a key [ZoneInfo] refuses leaves it in UTC. *)
Definition cv_now (cfg : config) (now : Z) : Clock.datetime :=
  match timezone cfg with
  | Some tz =>
      if String.eqb tz "" then Clock.as_utc now
      else match zoneinfo cfg tz with
           | Some z => Clock.astimezone z now
           | None => Clock.as_utc now
           end
  | None => Clock.as_utc now
  end.

(** [stamp = now.strftime("%Y%m%d_%H%M%S")] *)
Definition cv_stamp (cfg : config) (now : Z) : string := Clock.strftime_stamp (cv_now cfg now).

(** [build_cv_filename(nombre, apellido, ext)] at the instant [now]. *)
Definition build_cv_filename (cfg : config) (nombre apellido ext : string) (now : Z) : string :=
  slugify cfg nombre +:+ "_" +:+ slugify cfg apellido +:+ "_" +:+ cv_stamp cfg now +:+ ext.

(** The candidate [os.path.join(dirpath, f"{name}-{i}{ext}")]. *)
Definition candidate (dirpath name ext : string) (i : nat) : string :=
  join dirpath (name +:+ "-" +:+ pretty i +:+ ext).

(** The [while os.path.exists(candidate)] loop from the candidate of
    index [i] on, for at most [fuel] more tests. *)
Fixpoint probe (fs : list string) (dirpath name ext : string) (i fuel : nat) : option string :=
  match fuel with
  | O => None
  | S fuel' =>
      let c := candidate dirpath name ext i in
      if decide (c ∈ fs) then probe fs dirpath name ext (S i) fuel' else Some c
  end.

(** [unique_path(dirpath, filename)], testing at most [fuel] candidates
    after the first. *)
Definition unique_path (fs : list string) (dirpath filename : string) (fuel : nat)
  : option string :=
  let '(name, ext) := splitext filename in
  let c := join dirpath filename in
  if decide (c ∈ fs) then probe fs dirpath name ext 2 fuel else Some c.

(** The copy loop of [save_upload_file_cv]: [Some size] when the whole
    file was written, [None] when [size > max_bytes] after some chunk. *)
Fixpoint copy_chunks (max_bytes size : Z) (chunks : list Z) : option Z :=
  match chunks with
  | [] => Some size
  | c :: cs =>
      let size := (size + c)%Z in
      if (max_bytes <? size)%Z then None else copy_chunks max_bytes size cs
  end.

(** An upload: the client's file name, its content type and the sizes of
    the chunks [file.file.read(1024 * 1024)] returns before [b""]. *)
Record upload := Upload {
  up_filename : option string;
  up_content_type : option string;
  up_chunks : list Z
}.

(** What [save_upload_file_cv] does to the file system and returns:
    [(stored_name, size, mime)], the [HTTPException] it raises, or the
    [OSError] of [open] (which no handler catches). *)
Inductive saved :=
  | Saved (fs : list string) (stored_name : string) (size : Z) (mime : string)
  | Refused (fs : list string) (status : Z) (detail : string)
  | Failed (fs : list string) (e : exc).

(** [open(dest_path, "wb")] fails with [ENAMETOOLONG] when the file name
    is longer than [NAME_MAX] (255 bytes) or the path reaches [PATH_MAX]
    (4096 bytes, its terminating NUL included); the file name is UTF-8,
    one byte per character here. *)
Definition name_too_long (p : string) : bool :=
  bool_decide (255 < String.length (basename p))%nat || bool_decide (4096 <= S (String.length p))%nat.

(** [ensure_dir(path)]: [os.makedirs(path, exist_ok=True)] adds the
    directory when it does not exist. *)
Definition ensure_dir (fs : list string) (path : string) : list string :=
  if decide (path ∈ fs) then fs else path :: fs.

(** [cv_disk_path(stored_name)]: [os.path.join(STORAGE_DIR, "cv", stored_name)]. *)
Definition cv_disk_path (cfg : config) (stored_name : string) : string :=
  join (join (storage_dir cfg) "cv") stored_name.

(** [save_upload_file_cv(file, nombre, apellido)]; [fuel] bounds the
    [unique_path] loop ([None] if it runs out, see [unique_path_total]). *)
Definition save_upload_file_cv (cfg : config) (fs : list string) (file : upload)
    (nombre apellido : string) (now : Z) (fuel : nat) : option saved :=
  let dir := join (storage_dir cfg) "cv" in
  let fs := ensure_dir fs dir in
  let original := secure_basename (up_filename file) in
  match validate_ext cfg original with
  | inr (status, detail) => Some (Refused fs status detail)
  | inl ext =>
      let filename := build_cv_filename cfg nombre apellido ext now in
      match unique_path fs dir filename fuel with
      | None => None
      | Some dest_path =>
          if name_too_long dest_path then Some (Failed fs OSError) else
          let max_bytes := (max_cv_mb cfg * 1024 * 1024)%Z in
          match copy_chunks max_bytes 0 (up_chunks file) with
          | None =>
              Some (Refused fs 413 ("El archivo supera el límite de " +:+
                                     pretty (max_cv_mb cfg) +:+ "MB"))
          | Some size =>
              let mime := match up_content_type file with
                          | Some t => if String.eqb t "" then "application/octet-stream" else t
                          | None => "application/octet-stream"
                          end in
              Some (Saved (dest_path :: fs) (basename dest_path) size mime)
          end
      end
  end.

(** ** Lemmas on the character-list helpers *)

Lemma list_ascii_app s1 s2 :
  list_ascii_of_string (s1 +:+ s2) = list_ascii_of_string s1 ++ list_ascii_of_string s2.
Proof. induction s1 as [|c s1 IH]; simpl; [reflexivity | by rewrite IH]. Qed.

Lemma ascii_eqb_spec (a b : ascii) : Ascii.eqb a b = true <-> a = b.
Proof. apply Ascii.eqb_eq. Qed.

Lemma last_split_Some c cs h t :
  last_split c cs = Some (h, t) -> cs = h ++ c :: t /\ c ∉ t.
Proof.
  revert h t. induction cs as [|x xs IH]; simpl; intros h t Hs; [done|].
  destruct (last_split c xs) as [[h' t']|] eqn:Hl.
  - injection Hs as <- <-. destruct (IH _ _ eq_refl) as [-> Ht]. done.
  - destruct (Ascii.eqb x c) eqn:Hx; [|done]. apply ascii_eqb_spec in Hx. subst x.
    injection Hs as <- <-. split; [done|].
    intros Hin. clear IH. induction xs as [|y ys IHy]; [by apply not_elem_of_nil in Hin|].
    simpl in Hl. destruct (last_split c ys) as [[]|]; [done|].
    destruct (Ascii.eqb y c) eqn:Hy; [done|]. apply elem_of_cons in Hin as [Hcy|Hin].
    + subst y. by rewrite (proj2 (ascii_eqb_spec c c) eq_refl) in Hy.
    + by apply IHy.
Qed.

Lemma last_split_None c cs : last_split c cs = None -> c ∉ cs.
Proof.
  induction cs as [|x xs IH]; simpl; intros Hl; [apply not_elem_of_nil|].
  destruct (last_split c xs) as [[]|]; [done|].
  destruct (Ascii.eqb x c) eqn:Hx; [done|]. rewrite elem_of_cons. intros [Hcx|Hin].
  - subst x. by rewrite (proj2 (ascii_eqb_spec c c) eq_refl) in Hx.
  - by apply IH.
Qed.

Lemma last_split_app c h t : c ∉ t -> last_split c (h ++ c :: t) = Some (h, t).
Proof.
  intros Ht. induction h as [|x h IH]; simpl.
  - destruct (last_split c t) as [[h' t']|] eqn:Hl.
    + apply last_split_Some in Hl as [-> _]. set_solver.
    + by rewrite (proj2 (ascii_eqb_spec c c) eq_refl).
  - by rewrite IH.
Qed.

Lemma last_split_notin c cs : c ∉ cs -> last_split c cs = None.
Proof.
  intros Hc. destruct (last_split c cs) as [[h t]|] eqn:Hl; [|done].
  apply last_split_Some in Hl as [-> _]. set_solver.
Qed.

Lemma span_char_app c cs : (span_char c cs).1 ++ (span_char c cs).2 = cs.
Proof.
  induction cs as [|x xs IH]; simpl; [done|].
  destruct (Ascii.eqb x c); [|done]. destruct (span_char c xs) as [l r]. simpl in *. by rewrite IH.
Qed.

(** ** Lemmas on [os.path] *)

Lemma basename_no_slash p : "/"%char ∉ list_ascii_of_string (basename p).
Proof.
  unfold basename. rewrite String.list_ascii_of_string_of_list_ascii.
  destruct (last_split _ _) as [[h t]|] eqn:Hl.
  - by apply last_split_Some in Hl as [_ Ht].
  - by apply last_split_None.
Qed.

Lemma starts_with_false c f : c ∉ list_ascii_of_string f -> starts_with c f = false.
Proof.
  destruct f as [|x f]; [done|]. simpl. intros Hc.
  destruct (Ascii.eqb x c) eqn:Hx; [|done]. apply ascii_eqb_spec in Hx. subst x. set_solver.
Qed.

Lemma basename_of_no_slash f : "/"%char ∉ list_ascii_of_string f -> basename f = f.
Proof.
  intros Hf. unfold basename. rewrite last_split_notin by done.
  apply string_of_list_ascii_of_string.
Qed.

(** The last component of [join(d, f)] is [f], when [f] is a file name. *)
Lemma basename_join d f : "/"%char ∉ list_ascii_of_string f -> basename (join d f) = f.
Proof.
  intros Hf. unfold join. rewrite starts_with_false by done.
  destruct (String.eqb d "" || String.eqb (basename d) "") eqn:Hd.
  - apply orb_true_iff in Hd as [Hd|Hd].
    + apply String.eqb_eq in Hd as ->. by apply basename_of_no_slash.
    + apply String.eqb_eq in Hd. unfold basename in *. rewrite list_ascii_app.
      destruct (last_split "/" (list_ascii_of_string d)) as [[h t]|] eqn:Hl.
      * apply last_split_Some in Hl as [Hd' _].
        destruct t; [|simpl in Hd; discriminate]. rewrite Hd', <- app_assoc. simpl.
        rewrite last_split_app by done. apply string_of_list_ascii_of_string.
      * destruct (list_ascii_of_string d) as [|x l] eqn:Hd'; [|simpl in Hd; discriminate].
        simpl. rewrite last_split_notin by done. apply string_of_list_ascii_of_string.
  - unfold basename. rewrite !list_ascii_app. simpl.
    rewrite last_split_app by done. apply string_of_list_ascii_of_string.
Qed.

Lemma string_list_inj s1 s2 : list_ascii_of_string s1 = list_ascii_of_string s2 -> s1 = s2.
Proof.
  intros H. rewrite <- (string_of_list_ascii_of_string s1), <- (string_of_list_ascii_of_string s2).
  by rewrite H.
Qed.

Lemma last_split_sub c cs h t x : last_split c cs = Some (h, t) -> x ∈ t -> x ∈ cs.
Proof. intros Hl Hx. apply last_split_Some in Hl as [-> _]. set_solver. Qed.

(** [root + ext == p]; the extension is empty or a dot followed by
    characters that are neither a dot nor a slash. *)
Lemma splitext_spec p :
  (splitext p).1 +:+ (splitext p).2 = p /\
  ((splitext p).2 = "" \/
   exists e, list_ascii_of_string (splitext p).2 = "."%char :: e /\
     "."%char ∉ e /\ "/"%char ∉ e).
Proof.
  unfold splitext.
  set (l := list_ascii_of_string p).
  assert (Hsplit : exists head base, head ++ base = l /\ "/"%char ∉ base /\
    (let '(head', base') := match last_split "/" l with
                            | Some (h, t) => (h ++ ["/"%char], t) | None => ([], l) end
     in head' = head /\ base' = base)).
  { destruct (last_split "/" l) as [[h t]|] eqn:Hl.
    - apply last_split_Some in Hl as [Hl Ht]. exists (h ++ ["/"%char]), t.
      rewrite Hl, <- app_assoc. done.
    - apply last_split_None in Hl. exists [], l. done. }
  destruct Hsplit as (head & base & Hhb & Hbase & Hm).
  destruct (match last_split "/" l with Some (h, t) => _ | None => _ end) as [head' base'].
  destruct Hm as [-> ->].
  pose proof (span_char_app "." base) as Hspan.
  destruct (span_char "." base) as [lead rest]. simpl in Hspan.
  destruct (last_split "." rest) as [[r e]|] eqn:Hr.
  - apply last_split_Some in Hr as [Hrest He]. simpl. split.
    + apply string_list_inj. rewrite list_ascii_app, !String.list_ascii_of_string_of_list_ascii.
      fold l. rewrite <- Hhb, <- Hspan, Hrest, <- !app_assoc. simpl.
      by rewrite String.list_ascii_of_string_of_list_ascii.
    + right. exists e. simpl. rewrite String.list_ascii_of_string_of_list_ascii.
      split; [done|]. split; [done|]. intros Hin. apply Hbase. rewrite <- Hspan, Hrest. set_solver.
  - simpl. split; [|by left]. apply string_list_inj. rewrite list_ascii_app. simpl.
    by rewrite app_nil_r.
Qed.

Lemma elem_of_list_ascii_app x s1 s2 :
  x ∈ list_ascii_of_string (s1 +:+ s2) <-> x ∈ list_ascii_of_string s1 \/ x ∈ list_ascii_of_string s2.
Proof. rewrite list_ascii_app. apply elem_of_app. Qed.

(** No component of [splitext p] contains a character [p] does not. *)
Lemma splitext_chars p x :
  (x ∈ list_ascii_of_string (splitext p).1 -> x ∈ list_ascii_of_string p) /\
  (x ∈ list_ascii_of_string (splitext p).2 -> x ∈ list_ascii_of_string p).
Proof.
  destruct (splitext_spec p) as [Hp _].
  split; intros Hx; rewrite <- Hp, elem_of_list_ascii_app; auto.
Qed.

(** ** What a slug is *)

Definition slug_char_or_dash (c : ascii) : bool := is_slug_char c || Ascii.eqb c "-".

Definition hd_is_dash (cs : list ascii) : bool :=
  match cs with c :: _ => Ascii.eqb c "-" | [] => false end.

Fixpoint no_double_dash (cs : list ascii) : bool :=
  match cs with
  | [] => true
  | c :: cs' => negb (Ascii.eqb c "-" && hd_is_dash cs') && no_double_dash cs'
  end.

(** A non-empty word over [a-z0-9-] that neither starts nor ends with a
    dash and has no two dashes in a row. *)
Definition valid_slug (cs : list ascii) : bool :=
  match cs with
  | [] => false
  | _ => forallb slug_char_or_dash cs && no_double_dash cs &&
         negb (hd_is_dash cs) && negb (hd_is_dash (rev cs))
  end.

Lemma no_double_dash_spec cs :
  no_double_dash cs = true <-> ~ exists l1 l2, cs = l1 ++ "-"%char :: "-"%char :: l2.
Proof.
  induction cs as [|c cs IH]; simpl.
  - split; [|done]. intros _ (l1 & l2 & H). by destruct l1.
  - rewrite andb_true_iff, negb_true_iff, IH. split.
    + intros [Hc Hn] (l1 & l2 & Heq). destruct l1 as [|c' l1]; simpl in Heq; injection Heq as -> Heq.
      * subst cs. done.
      * apply Hn. eauto.
    + intros Hn. split.
      * destruct (Ascii.eqb c "-") eqn:Hc; [|done]. apply ascii_eqb_spec in Hc as ->.
        destruct cs as [|c' cs]; [done|]. simpl. destruct (Ascii.eqb c' "-") eqn:Hc'; [|done].
        apply ascii_eqb_spec in Hc' as ->. exfalso. apply Hn. by exists [], cs.
      * intros (l1 & l2 & ->). apply Hn. by exists (c :: l1), l2.
Qed.

Lemma no_double_dash_rev cs : no_double_dash (rev cs) = no_double_dash cs.
Proof.
  apply Bool.eq_iff_eq_true. rewrite !no_double_dash_spec. split; intros Hn (l1 & l2 & Heq); apply Hn.
  - exists (rev l2), (rev l1). rewrite Heq, rev_app_distr. simpl. by rewrite <- !app_assoc.
  - exists (rev l2), (rev l1). rewrite <- (rev_involutive cs), Heq, rev_app_distr. simpl.
    by rewrite <- !app_assoc.
Qed.

Lemma no_double_dash_app_r l1 l2 : no_double_dash (l1 ++ l2) = true -> no_double_dash l2 = true.
Proof.
  rewrite !no_double_dash_spec. intros Hn (a & b & ->). apply Hn. exists (l1 ++ a), b.
  by rewrite <- app_assoc.
Qed.

Lemma span_char_rest_head cs : hd_is_dash (span_char "-" cs).2 = false.
Proof.
  induction cs as [|x xs IH]; simpl; [done|].
  destruct (Ascii.eqb x "-") eqn:Hx; [by destruct (span_char "-" xs)|]. simpl. done.
Qed.

Lemma slug_sub_chars cs b : forallb slug_char_or_dash (slug_sub cs b) = true.
Proof.
  revert b. induction cs as [|c cs IH]; intros b; simpl; [done|].
  destruct (is_slug_char c) eqn:Hc; [simpl; rewrite IH; unfold slug_char_or_dash; by rewrite Hc|].
  destruct b; [apply IH | simpl; by rewrite IH].
Qed.

Lemma slug_char_not_dash c : is_slug_char c = true -> Ascii.eqb c "-" = false.
Proof. intros Hc. destruct (Ascii.eqb c "-") eqn:Hd; [|done]. by apply ascii_eqb_spec in Hd as ->. Qed.

Lemma slug_sub_ndd cs b :
  no_double_dash (slug_sub cs b) = true /\ (b = true -> hd_is_dash (slug_sub cs b) = false).
Proof.
  revert b. induction cs as [|c cs IH]; intros b; simpl; [done|].
  destruct (is_slug_char c) eqn:Hc.
  - simpl. rewrite slug_char_not_dash by done. simpl. split; [apply (IH false) | by intros].
  - destruct b; [apply IH|]. split; [|done]. simpl.
    destruct (IH true) as [H1 H2]. rewrite H1, H2 by done. done.
Qed.

Lemma forallb_rev (f : ascii -> bool) l : forallb f (rev l) = forallb f l.
Proof.
  induction l as [|x l IH]; simpl; [done|]. rewrite forallb_app, IH. simpl.
  by rewrite andb_true_r, andb_comm.
Qed.

Lemma hd_is_dash_app l1 l2 : l1 <> [] -> hd_is_dash (l1 ++ l2) = hd_is_dash l1.
Proof. by destruct l1. Qed.

Lemma hd_is_dash_rev_rev l : hd_is_dash (rev (rev l)) = hd_is_dash l.
Proof. by rewrite rev_involutive. Qed.

(** [.strip("-")] of a word over [a-z0-9-] without two dashes in a row
    is such a word that neither starts nor ends with a dash. *)
Lemma strip_dashes_spec cs :
  forallb slug_char_or_dash cs = true -> no_double_dash cs = true ->
  forallb slug_char_or_dash (strip_dashes cs) = true /\ no_double_dash (strip_dashes cs) = true /\
  hd_is_dash (strip_dashes cs) = false /\ hd_is_dash (rev (strip_dashes cs)) = false.
Proof.
  intros Hf Hn. unfold strip_dashes.
  pose proof (span_char_app "-" cs) as HA. pose proof (span_char_rest_head cs) as HhA.
  set (A := (span_char "-" cs).2) in *. set (lA := (span_char "-" cs).1) in *.
  pose proof (span_char_app "-" (rev A)) as HB. pose proof (span_char_rest_head (rev A)) as HhB.
  set (B := (span_char "-" (rev A)).2) in *. set (lB := (span_char "-" (rev A)).1) in *.
  assert (HfA : forallb slug_char_or_dash A = true)
    by (rewrite <- HA, forallb_app in Hf; by apply andb_true_iff in Hf as [_ ?]).
  assert (HnA : no_double_dash A = true) by (rewrite <- HA in Hn; by eapply no_double_dash_app_r).
  assert (HfB : forallb slug_char_or_dash B = true).
  { rewrite <- forallb_rev in HfA. rewrite <- HB, forallb_app in HfA. by apply andb_true_iff in HfA as [_ ?]. }
  assert (HnB : no_double_dash B = true).
  { rewrite <- no_double_dash_rev in HnA. rewrite <- HB in HnA. by eapply no_double_dash_app_r. }
  split_and!.
  - by rewrite forallb_rev.
  - by rewrite no_double_dash_rev.
  - destruct B as [|b B'] eqn:HBeq; [done|].
    assert (HArev : A = rev (b :: B') ++ rev lB).
    { rewrite <- (rev_involutive A), <- HB, rev_app_distr. done. }
    rewrite <- HBeq in *. rewrite HArev in HhA. rewrite hd_is_dash_app in HhA; [done|].
    rewrite HBeq. simpl. by destruct (rev B').
  - by rewrite rev_involutive.
Qed.

(** The statement of [slugify_valid], proved once for the lemmas that build on it. *)
Lemma slugify_valid_core cfg t : valid_slug (list_ascii_of_string (slugify cfg t)) = true.
Proof.
  unfold slugify.
  set (cs0 := PyStr.lower_char <$> list_ascii_of_string (nfkd_ascii cfg (PyStr.strip t))).
  destruct (strip_dashes_spec (slug_sub cs0 false) (slug_sub_chars _ _) (proj1 (slug_sub_ndd _ _)))
    as (H1 & H2 & H3 & H4).
  destruct (strip_dashes (slug_sub cs0 false)) as [|c cs] eqn:E; [reflexivity|].
  rewrite String.list_ascii_of_string_of_list_ascii.
  change (forallb slug_char_or_dash (c :: cs) && no_double_dash (c :: cs) &&
          negb (hd_is_dash (c :: cs)) && negb (hd_is_dash (rev (c :: cs))) = true).
  by rewrite H1, H2, H3, H4.
Qed.

(** [slugify] always returns a non-empty word over [a-z0-9-] that
    neither starts nor ends with a dash and has no two dashes in a row:
    whatever the applicant types as a name and whatever the Unicode
    tables make of it, the part of the stored file name built from it
    has no slash, no dot and no white space. *)
Theorem slugify_valid cfg t : valid_slug (list_ascii_of_string (slugify cfg t)) = true.
Proof. apply slugify_valid_core. Qed.

Lemma slug_char_facts c :
  slug_char_or_dash c = true ->
  PyStr.is_space c = false /\ (nat_of_ascii c < 128)%nat /\ PyStr.lower_char c = c.
Proof.
  destruct c as [[] [] [] [] [] [] [] []]; vm_compute; intros H;
    try discriminate; split_and!; try reflexivity; lia.
Qed.

Lemma span_char_nodash cs : hd_is_dash cs = false -> span_char "-" cs = ([], cs).
Proof. destruct cs as [|c cs]; simpl; [done|]. by intros ->. Qed.

Lemma slug_sub_id cs b :
  forallb slug_char_or_dash cs = true -> no_double_dash cs = true ->
  (b = true -> hd_is_dash cs = false) -> slug_sub cs b = cs.
Proof.
  revert b. induction cs as [|c cs IH]; intros b Hf Hn Hb; simpl; [done|].
  simpl in Hf, Hn. apply andb_true_iff in Hf as [Hc Hf]. apply andb_true_iff in Hn as [Hcd Hn].
  destruct (is_slug_char c) eqn:Hs; [f_equal; by apply IH|].
  unfold slug_char_or_dash in Hc. rewrite Hs in Hc. simpl in Hc.
  apply ascii_eqb_spec in Hc as ->. destruct b; [by specialize (Hb eq_refl)|].
  f_equal. apply IH; [done | done |]. intros _. simpl in Hcd. by destruct (hd_is_dash cs).
Qed.

Lemma filter_forallb_id (P : ascii -> Prop) `{forall c, Decision (P c)} (f : ascii -> bool) cs :
  (forall c, f c = true -> P c) -> forallb f cs = true -> filter P cs = cs.
Proof.
  intros HfP. induction cs as [|c cs IH]; simpl; [done|].
  intros [Hc Hcs]%andb_true_iff. rewrite filter_cons_True by auto. by rewrite IH.
Qed.

Lemma fmap_forallb_id (g : ascii -> ascii) (f : ascii -> bool) cs :
  (forall c, f c = true -> g c = c) -> forallb f cs = true -> g <$> cs = cs.
Proof.
  intros Hg. induction cs as [|c cs IH]; [done|]. cbn [forallb].
  intros [Hc Hcs]%andb_true_iff. rewrite fmap_cons, Hg by done. f_equal. by apply IH.
Qed.

(** A valid slug is its own slug. *)
Lemma slugify_of_valid cfg cs :
  nfkd_ascii_id (nfkd_ascii cfg) -> valid_slug cs = true ->
  slugify cfg (string_of_list_ascii cs) = string_of_list_ascii cs.
Proof.
  intros Hnf Hv.
  assert (Hv' : forallb slug_char_or_dash cs = true /\ no_double_dash cs = true /\
                hd_is_dash cs = false /\ hd_is_dash (rev cs) = false).
  { destruct cs as [|c cs]; [done|]. unfold valid_slug in Hv.
    rewrite !andb_true_iff, !negb_true_iff in Hv. tauto. }
  destruct Hv' as (Hf & Hn & Hfirst & Hlast).
  assert (Hsp : forall c, c ∈ cs -> PyStr.is_space c = false).
  { intros c Hc. apply slug_char_facts. rewrite forallb_forall in Hf. apply Hf. by apply list_elem_of_In. }
  assert (Hl1 : PyStr.lstrip_list cs = cs).
  { destruct cs as [|c cs']; [done|]. apply PyStr.lstrip_nonspace, Hsp. left. }
  assert (Hl2 : PyStr.lstrip_list (rev cs) = rev cs).
  { destruct (rev cs) as [|d ds] eqn:Hr; [done|]. apply PyStr.lstrip_nonspace, Hsp.
    apply list_elem_of_In, (proj2 (in_rev cs d)). rewrite Hr. by left. }
  assert (Hstrip : PyStr.strip (string_of_list_ascii cs) = string_of_list_ascii cs).
  { unfold PyStr.strip. by rewrite String.list_ascii_of_string_of_list_ascii, Hl1, Hl2, rev_involutive. }
  unfold slugify. rewrite Hstrip, Hnf.
  2:{ rewrite String.list_ascii_of_string_of_list_ascii. apply Forall_forall. intros c Hc.
      apply slug_char_facts. rewrite forallb_forall in Hf. apply Hf. by apply list_elem_of_In. }
  rewrite String.list_ascii_of_string_of_list_ascii.
  rewrite (fmap_forallb_id _ slug_char_or_dash) by (done || (intros c Hc; apply slug_char_facts, Hc)).
  rewrite slug_sub_id by done. unfold strip_dashes.
  rewrite (span_char_nodash cs Hfirst). cbn [snd].
  rewrite (span_char_nodash (rev cs) Hlast). cbn [snd]. rewrite rev_involutive.
  by destruct cs.
Qed.

(** [slugify] is idempotent: a slug is its own slug, so a file
    name built from already slugified names is built from the same
    words. *)
Theorem slugify_idem cfg t :
  nfkd_ascii_id (nfkd_ascii cfg) -> slugify cfg (slugify cfg t) = slugify cfg t.
Proof.
  intros Hnf. pose proof (slugify_of_valid cfg _ Hnf (slugify_valid_core cfg t)) as H.
  by rewrite string_of_list_ascii_of_string in H.
Qed.

(** ** [unique_path] terminates with a fresh path *)

Lemma pretty_N_go_no_slash x s :
  "/"%char ∉ list_ascii_of_string s -> "/"%char ∉ list_ascii_of_string (pretty_N_go x s).
Proof.
  revert s. induction (N.lt_wf_0 x) as [x _ IH]; intros s Hs.
  destruct (decide (x = 0%N)) as [->|Hx]; [by rewrite pretty_N_go_0|].
  rewrite pretty_N_go_step by lia. apply IH; [apply N.div_lt; lia|]. simpl.
  rewrite elem_of_cons. intros [Heq|Hin]; [|done].
  unfold pretty_N_char in Heq. repeat case_match; discriminate.
Qed.

Lemma pretty_no_slash (i : nat) : "/"%char ∉ list_ascii_of_string (pretty i).
Proof.
  unfold pretty, pretty_nat, pretty, pretty_N. case_decide; [set_solver|].
  apply pretty_N_go_no_slash. apply not_elem_of_nil.
Qed.

Lemma starts_with_dash_app c a b b' :
  starts_with c (a +:+ "-" +:+ b) = starts_with c (a +:+ "-" +:+ b').
Proof. by destruct a. Qed.

Lemma join_inj d x y : starts_with "/" x = starts_with "/" y -> join d x = join d y -> x = y.
Proof.
  unfold join. intros Hs. rewrite Hs. destruct (starts_with "/" y); [done|].
  intros Hj. apply string_list_inj. apply (f_equal list_ascii_of_string) in Hj.
  destruct (String.eqb d "" || String.eqb (basename d) "");
    rewrite ?list_ascii_app in Hj; do 2 (try apply app_inv_head in Hj); done.
Qed.

Lemma candidate_inj dir name ext i j : candidate dir name ext i = candidate dir name ext j -> i = j.
Proof.
  unfold candidate. intros Hc. apply join_inj in Hc; [|apply starts_with_dash_app].
  apply (f_equal list_ascii_of_string) in Hc. rewrite !list_ascii_app in Hc.
  apply app_inv_head in Hc. simpl in Hc. injection Hc as Hc.
  apply app_inv_tail in Hc. apply string_list_inj in Hc. by apply (inj pretty).
Qed.

Lemma probe_None fs dir name ext i fuel :
  probe fs dir name ext i fuel = None -> forall k, k < fuel -> candidate dir name ext (i + k) ∈ fs.
Proof.
  revert i. induction fuel as [|fuel IH]; intros i Hp k Hk; [lia|]. simpl in Hp.
  case_decide as Hc; [|done]. destruct k as [|k]; [by rewrite Nat.add_0_r|].
  rewrite <- Nat.add_succ_comm. apply IH; [done | lia].
Qed.

Lemma probe_Some fs dir name ext i fuel c :
  probe fs dir name ext i fuel = Some c -> c ∉ fs /\ exists k, c = candidate dir name ext (i + k).
Proof.
  revert i. induction fuel as [|fuel IH]; intros i Hp; simpl in Hp; [done|].
  case_decide as Hc.
  - destruct (IH _ Hp) as [Hn [k ->]]. split; [done|]. exists (S k). by rewrite Nat.add_succ_comm.
  - injection Hp as <-. split; [done|]. exists 0. by rewrite Nat.add_0_r.
Qed.

(** More tests than there are paths always find a free candidate. *)
Lemma probe_total fs dir name ext i fuel :
  length fs < fuel -> exists c, probe fs dir name ext i fuel = Some c.
Proof.
  intros Hlt. destruct (probe fs dir name ext i fuel) as [c|] eqn:Hp; [by eexists|].
  exfalso. pose proof (probe_None _ _ _ _ _ _ Hp) as Hin.
  assert (Hnd : NoDup ((fun k => candidate dir name ext (i + k)) <$> seq 0 fuel)).
  { apply NoDup_fmap_2; [|apply NoDup_seq]. intros k1 k2 Hk. apply candidate_inj in Hk. lia. }
  assert (Hincl : incl ((fun k => candidate dir name ext (i + k)) <$> seq 0 fuel) fs).
  { intros c Hc. apply list_elem_of_In. apply list_elem_of_In in Hc.
    apply list_elem_of_fmap in Hc as (k & -> & Hk). apply elem_of_seq in Hk. apply Hin. lia. }
  pose proof (NoDup_incl_length (proj1 (NoDup_ListNoDup _) Hnd) Hincl) as Hlen.
  rewrite length_fmap, length_seq in Hlen. lia.
Qed.

(** [unique_path] with more tests than existing paths returns
    [join(dirpath, f)] for a file name [f] that does not exist: the
    requested name or [name-i.ext]. *)
Lemma unique_path_spec fs dir filename fuel :
  length fs < fuel ->
  exists f, unique_path fs dir filename fuel = Some (join dir f) /\ join dir f ∉ fs /\
    (f = filename \/
     exists i : nat, f = (splitext filename).1 +:+ "-" +:+ pretty i +:+ (splitext filename).2).
Proof.
  intros Hlt. unfold unique_path. destruct (splitext filename) as [name ext] eqn:Hs. simpl.
  case_decide as Hc; [|eexists; split; [done|]; split; [done|]; by left].
  destruct (probe_total fs dir name ext 2 fuel Hlt) as [c Hp]. rewrite Hp.
  destruct (probe_Some _ _ _ _ _ _ _ Hp) as [Hn [k ->]].
  eexists. split; [reflexivity|]. split; [done|]. right. by exists (2 + k).
Qed.

(** The sum of the chunk sizes: the size of the upload. *)
Definition total_size (chunks : list Z) : Z := foldr Z.add 0%Z chunks.

(** The copy loop refuses exactly the uploads larger than the limit. *)
Lemma copy_chunks_spec max_bytes size chunks :
  Forall (fun c => 0 <= c)%Z chunks -> (size <= max_bytes)%Z ->
  copy_chunks max_bytes size chunks =
  if (size + total_size chunks <=? max_bytes)%Z then Some (size + total_size chunks)%Z else None.
Proof.
  revert size. induction chunks as [|c cs IH]; intros size Hf Hs; simpl.
  - rewrite Z.add_0_r. by rewrite (proj2 (Z.leb_le _ _) Hs).
  - apply Forall_cons in Hf as [Hc Hf].
    assert (Hcs : (0 <= total_size cs)%Z).
    { clear -Hf. induction Hf as [|c' cs' Hc' _ IH']; unfold total_size in *; simpl; lia. }
    destruct (Z.ltb_spec max_bytes (size + c)).
    + destruct (Z.leb_spec (size + (c + total_size cs)) max_bytes); [lia | done].
    + rewrite IH by (done || lia). rewrite Z.add_assoc. done.
Qed.

Lemma lower_char_slash c : PyStr.lower_char c = "/"%char -> c = "/"%char.
Proof. destruct c as [[] [] [] [] [] [] [] []]; vm_compute; congruence. Qed.

Lemma lower_no_slash s : "/"%char ∉ list_ascii_of_string s -> "/"%char ∉ list_ascii_of_string (PyStr.lower s).
Proof.
  unfold PyStr.lower. rewrite String.list_ascii_of_string_of_list_ascii.
  intros Hs Hin. apply list_elem_of_fmap in Hin as (c & Hc & Hin).
  symmetry in Hc. apply lower_char_slash in Hc. subst c. done.
Qed.

Lemma slugify_no_slash cfg t : "/"%char ∉ list_ascii_of_string (slugify cfg t).
Proof.
  intros Hin. pose proof (slugify_valid_core cfg t) as Hv.
  destruct (list_ascii_of_string (slugify cfg t)) as [|c cs] eqn:Hl; [by apply not_elem_of_nil in Hin|].
  unfold valid_slug in Hv. rewrite !andb_true_iff in Hv. destruct Hv as [[[Hf _] _] _].
  rewrite forallb_forall in Hf. apply list_elem_of_In in Hin. specialize (Hf _ Hin).
  vm_compute in Hf. discriminate.
Qed.

Lemma no_slash_app s1 s2 :
  "/"%char ∉ list_ascii_of_string s1 -> "/"%char ∉ list_ascii_of_string s2 ->
  "/"%char ∉ list_ascii_of_string (s1 +:+ s2).
Proof. rewrite elem_of_list_ascii_app. tauto. Qed.

Lemma no_slash_lit s : bool_decide ("/"%char ∈ list_ascii_of_string s) = false ->
  "/"%char ∉ list_ascii_of_string s.
Proof. by intros H%bool_decide_eq_false. Qed.

Lemma cv_stamp_no_slash cfg now : "/"%char ∉ list_ascii_of_string (cv_stamp cfg now).
Proof. intros [Hd|Hd]%Clock.strftime_stamp_chars; [vm_compute in Hd|]; discriminate. Qed.

(** The stored file name never contains a slash. *)
Lemma build_cv_filename_no_slash cfg nombre apellido ext now :
  "/"%char ∉ list_ascii_of_string ext ->
  "/"%char ∉ list_ascii_of_string (build_cv_filename cfg nombre apellido ext now).
Proof.
  intros He. unfold build_cv_filename.
  repeat apply no_slash_app; auto using slugify_no_slash, cv_stamp_no_slash; by apply no_slash_lit.
Qed.

Lemma validate_ext_no_slash cfg f ext : validate_ext cfg f = inl ext -> "/"%char ∉ list_ascii_of_string ext.
Proof.
  unfold validate_ext. case_decide; [|done]. intros [= <-]. apply lower_no_slash.
  destruct (splitext_spec f) as [_ [-> | (e & -> & _ & He)]]; [apply not_elem_of_nil|].
  rewrite elem_of_cons. intros [Heq|Hin]; [discriminate | done].
Qed.

Lemma validate_ext_cases cfg f :
  (exists ext, validate_ext cfg f = inl ext /\ ext = PyStr.lower (splitext f).2 /\ ext ∈ allowed_exts cfg) \/
  (exists det, validate_ext cfg f = inr (400%Z, det) /\ PyStr.lower (splitext f).2 ∉ allowed_exts cfg).
Proof. unfold validate_ext. case_decide; [left | right]; eauto. Qed.

Lemma unique_name_no_slash filename f :
  "/"%char ∉ list_ascii_of_string filename ->
  (f = filename \/ exists i : nat, f = (splitext filename).1 +:+ "-" +:+ pretty i +:+ (splitext filename).2) ->
  "/"%char ∉ list_ascii_of_string f.
Proof.
  intros Hf [-> | [i ->]]; [done|].
  pose proof (splitext_chars filename "/") as [H1 H2].
  repeat apply no_slash_app; try by apply no_slash_lit.
  - intros Hin. by apply Hf, H1.
  - apply pretty_no_slash.
  - intros Hin. by apply Hf, H2.
Qed.

(** The statement of [save_upload_spec], proved once for the lemmas that build on it. *)
Lemma save_upload_spec_core cfg fs file nombre apellido now fuel :
  (0 <= max_cv_mb cfg)%Z -> Forall (fun c => 0 <= c)%Z (up_chunks file) -> S (length fs) < fuel ->
  let dir := join (storage_dir cfg) "cv" in
  let fs1 := if decide (dir ∈ fs) then fs else dir :: fs in
  let ext := PyStr.lower (splitext (secure_basename (up_filename file))).2 in
  let max_bytes := (max_cv_mb cfg * 1024 * 1024)%Z in
  match save_upload_file_cv cfg fs file nombre apellido now fuel with
  | Some (Saved fs' name size mime) =>
      ext ∈ allowed_exts cfg /\ size = total_size (up_chunks file) /\ (size <= max_bytes)%Z /\
      exists dest, dest ∉ fs1 /\ name_too_long dest = false /\ fs' = dest :: fs1 /\
        name = basename dest /\ cv_disk_path cfg name = dest
  | Some (Refused fs' status _) =>
      fs' = fs1 /\
      ((status = 400%Z /\ ext ∉ allowed_exts cfg) \/
       (status = 413%Z /\ ext ∈ allowed_exts cfg /\ (max_bytes < total_size (up_chunks file))%Z /\
        exists dest, dest ∉ fs1 /\ name_too_long dest = false))
  | Some (Failed fs' e) =>
      e = OSError /\ fs' = fs1 /\ ext ∈ allowed_exts cfg /\
      exists dest, dest ∉ fs1 /\ name_too_long dest = true
  | None => False
  end.
Proof.
  intros Hmax Hchunks Hfuel dir fs1 ext max_bytes. unfold save_upload_file_cv, ensure_dir.
  fold dir. fold fs1. fold max_bytes.
  assert (Hlen : length fs1 < fuel) by (unfold fs1; case_decide; simpl; lia).
  destruct (validate_ext_cases cfg (secure_basename (up_filename file)))
    as [(e & Hv & He & Hin) | (det & Hv & Hnin)]; rewrite Hv; [|by split; [|left]].
  subst e. fold ext in Hin |- *.
  set (filename := build_cv_filename cfg nombre apellido ext now).
  assert (Hfn : "/"%char ∉ list_ascii_of_string filename).
  { apply build_cv_filename_no_slash. by eapply validate_ext_no_slash. }
  destruct (unique_path_spec fs1 dir filename fuel Hlen) as (f & Hu & Hfresh & Hf).
  rewrite Hu. destruct (name_too_long (join dir f)) eqn:Hlong; cbn iota beta.
  { split_and!; [done | done | done | eauto]. }
  rewrite copy_chunks_spec by (done || (unfold max_bytes; lia)).
  destruct (Z.leb_spec (0 + total_size (up_chunks file)) max_bytes) as [Hle|Hgt]; cbn iota beta.
  - split; [done|]. split; [done|]. split; [lia|].
    exists (join dir f). split; [done|]. split; [done|]. split; [done|]. split; [done|].
    unfold cv_disk_path. rewrite basename_join; [done|]. by eapply unique_name_no_slash.
  - split; [done|]. right. split_and!; [done | done | lia | eauto].
Qed.


(** ** The time stamp *)

(** The UTC offset [build_cv_filename] applies at [now]: the zone's when
    [TIMEZONE] names one [ZoneInfo] knows, zero otherwise. *)
Definition cv_offset (cfg : config) (now : Z) : Z :=
  match timezone cfg with
  | Some tz =>
      if String.eqb tz "" then 0
      else match zoneinfo cfg tz with Some z => z now | None => 0 end
  | None => 0
  end.

Lemma cv_now_wall cfg now : cv_now cfg now = Clock.to_datetime (now + cv_offset cfg now).
Proof.
  unfold cv_now, cv_offset, Clock.as_utc, Clock.astimezone.
  repeat case_match; by rewrite ?Z.add_0_r.
Qed.

(** (C38) The time stamp of a stored CV: for the years of four digits, two
    uploads get the same stamp exactly when their instants, shifted by
    the offset of [TIMEZONE] (none when it is unset, empty or unknown),
    coincide.  In a zone without daylight saving time the stamp names
    the second of the upload; in a zone that turns its clocks back the
    two instants an hour apart around the change share it. *)
Theorem cv_stamp_collision cfg t1 t2 :
  (1000 <= Clock.year (cv_now cfg t1) <= 9999)%Z -> (1000 <= Clock.year (cv_now cfg t2) <= 9999)%Z ->
  cv_stamp cfg t1 = cv_stamp cfg t2 <-> (t1 + cv_offset cfg t1 = t2 + cv_offset cfg t2)%Z.
Proof.
  unfold cv_stamp. rewrite !cv_now_wall. intros Y1 Y2. split.
  - intros H. apply Clock.to_datetime_inj, Clock.strftime_stamp_inj; auto using Clock.to_datetime_valid.
  - by intros ->.
Qed.

(** ** Concrete runs *)

(** ** Bounds on the names, and the end of the [while] loop *)

Lemma length_span_char_rest c cs : (length (span_char c cs).2 <= length cs)%nat.
Proof. rewrite <- (span_char_app c cs) at 2. rewrite length_app. lia. Qed.

Lemma length_strip_dashes cs : (length (strip_dashes cs) <= length cs)%nat.
Proof.
  unfold strip_dashes. rewrite length_rev.
  etransitivity; [apply length_span_char_rest|]. rewrite length_rev. apply length_span_char_rest.
Qed.

Lemma length_slug_sub cs b : (length (slug_sub cs b) <= length cs)%nat.
Proof.
  revert b. induction cs as [|c cs IH]; intros b; simpl; [lia|].
  destruct (is_slug_char c); simpl; [specialize (IH false); lia|].
  destruct b; simpl; [specialize (IH true); lia|specialize (IH true); lia].
Qed.


Lemma probe_more_fuel fs dir name ext i fuel k c :
  probe fs dir name ext i fuel = Some c -> probe fs dir name ext i (fuel + k) = Some c.
Proof.
  revert i. induction fuel as [|fuel IH]; intros i; simpl; [done|].
  case_decide; [apply IH|done].
Qed.

(** (C37) The [while os.path.exists(candidate)] loop of [unique_path]
    ends: with more tests than there are paths it returns a path that
    does not exist, and any larger bound gives the same path, so the
    bounded model is the loop. *)
Theorem unique_path_terminates fs dir filename fuel k :
  (length fs < fuel)%nat ->
  exists p, unique_path fs dir filename fuel = Some p /\ p ∉ fs /\
            unique_path fs dir filename (fuel + k) = Some p.
Proof.
  intros Hlt. destruct (unique_path_spec fs dir filename fuel Hlt) as (f & Hu & Hf & _).
  exists (join dir f). split; [done|]. split; [done|].
  revert Hu. unfold unique_path. destruct (splitext filename) as [name ext].
  case_decide; [apply probe_more_fuel|done].
Qed.

(** [TIMEZONE=America/Argentina/Cordoba]: UTC-3 all year. *)
Definition demo_zoneinfo : Clock.tzdb :=
  fun key => if String.eqb key "America/Argentina/Cordoba" then Some (fun _ => (-10800)%Z) else None.

(** The part of NFKD the demos need: the Spanish letters with an
    accent, tilde or diaeresis (UTF-8 [0xC3] then one byte) decompose to
    their base letter and a combining mark, which [encode("ascii",
    "ignore")] drops; every other non-ASCII byte is dropped. *)
Definition latin_base (b : nat) : option ascii :=
  match b with
  | 161 => Some "a" | 169 => Some "e" | 173 => Some "i" | 179 => Some "o"
  | 186 => Some "u" | 177 => Some "n" | 188 => Some "u"
  | 129 => Some "A" | 137 => Some "E" | 141 => Some "I" | 147 => Some "O"
  | 154 => Some "U" | 145 => Some "N" | 156 => Some "U"
  | _ => None
  end%char.

Fixpoint demo_nfkd_list (cs : list ascii) : list ascii :=
  match cs with
  | [] => []
  | c1 :: tl =>
      if (nat_of_ascii c1 <? 128)%nat then c1 :: demo_nfkd_list tl
      else match tl with
           | c2 :: rest =>
               if (nat_of_ascii c1 =? 195)%nat then
                 match latin_base (nat_of_ascii c2) with
                 | Some b => b :: demo_nfkd_list rest
                 | None => demo_nfkd_list rest
                 end
               else demo_nfkd_list tl
           | [] => []
           end
  end.

Definition demo_nfkd (s : string) : string :=
  string_of_list_ascii (demo_nfkd_list (list_ascii_of_string s)).

Definition demo_cfg : config :=
  Config "storage" 10 (parse_allowed_exts ".pdf,.doc,.docx") (Some "America/Argentina/Cordoba")
    demo_zoneinfo demo_nfkd.


Lemma unique_path_terminates_witness :
  (length ["storage/cv/a.pdf"; "storage/cv/a-2.pdf"] < 3)%nat /\
  exists p, unique_path ["storage/cv/a.pdf"; "storage/cv/a-2.pdf"] "storage/cv" "a.pdf" 3 = Some p /\
    p ∉ ["storage/cv/a.pdf"; "storage/cv/a-2.pdf"] /\
    unique_path ["storage/cv/a.pdf"; "storage/cv/a-2.pdf"] "storage/cv" "a.pdf" (3 + 5) = Some p.
Proof.
  assert (H : (length ["storage/cv/a.pdf"; "storage/cv/a-2.pdf"] < 3)%nat) by (simpl; lia).
  split; [exact H|]. exact (unique_path_terminates _ "storage/cv" "a.pdf" 3 5 H).
Defined.

Lemma cv_stamp_collision_witness :
  (1000 <= Clock.year (cv_now demo_cfg 1735732800) <= 9999)%Z /\
  (1000 <= Clock.year (cv_now demo_cfg 1735732801) <= 9999)%Z /\
  (cv_stamp demo_cfg 1735732800 = cv_stamp demo_cfg 1735732801 <->
   (1735732800 + cv_offset demo_cfg 1735732800 = 1735732801 + cv_offset demo_cfg 1735732801)%Z).
Proof.
  assert (H1 : (1000 <= Clock.year (cv_now demo_cfg 1735732800) <= 9999)%Z)
    by (apply (bool_decide_unpack _); vm_compute; reflexivity).
  assert (H2 : (1000 <= Clock.year (cv_now demo_cfg 1735732801) <= 9999)%Z)
    by (apply (bool_decide_unpack _); vm_compute; reflexivity).
  split; [exact H1|]. split; [exact H2|]. exact (cv_stamp_collision demo_cfg _ _ H1 H2).
Defined.

(** Noon UTC on 2025-01-01 is stored as 09:00 in Córdoba. *)
Example demo_stamp : cv_stamp demo_cfg 1735732800 = "20250101_090000".
Proof. vm_compute. reflexivity. Qed.

(** [TIMEZONE=Europe/Madrid], which turns its clocks back from 03:00 to
    02:00 at 01:00 UTC on 2024-10-27: two uploads an hour apart get the
    same stamp, and only [unique_path] keeps them apart. *)
Definition madrid_zoneinfo : Clock.tzdb :=
  fun key => if String.eqb key "Europe/Madrid"
             then Some (fun t => if (t <? 1729990800)%Z then 7200%Z else 3600%Z) else None.

Example dst_stamp_collision :
  let cfg := Config "storage" 10 [".pdf"] (Some "Europe/Madrid") madrid_zoneinfo demo_nfkd in
  cv_stamp cfg 1729989000 = "20241027_023000" /\ cv_stamp cfg 1729992600 = "20241027_023000".
Proof. vm_compute. split; reflexivity. Qed.

(** A name of 300 letters, which the form accepts, gives a file name of
    more than 255 bytes, the longest name the file systems allow: the
    [open] of [save_upload_file_cv] raises [OSError]. *)
Example long_name_open_fails :
  save_upload_file_cv demo_cfg ["storage/cv"] (Upload (Some "cv.pdf") None [10]%Z)
    (string_of_list_ascii (repeat "a"%char 300)) "Paz" 1735732800 3
  = Some (Failed ["storage/cv"] OSError).
Proof. vm_compute. reflexivity. Qed.

End Files.
