(* ===== verification/App.v ===== *)
(** * App: the routes [src/Api/main.py] declares itself
    Besides the API routers it includes, [main.py] answers [GET /] and,
    when the directories [form] and [admin] exist at start-up, serves
    the two front ends: a [StaticFiles] mount for [/form/assets] and
    [/admin/assets], then a catch-all route [/form/{full_path:path}]
    (and its [/admin] twin) that returns the file
    [os.path.join("form", full_path)] if [os.path.isfile] holds for it,
    and [form/index.html] otherwise.

    Starlette tries the mounts and routes in the order they were added;
    a [:path] parameter matches any rest of the URL path, slashes
    included, as the server decoded it.  [files] are the paths for which
    [os.path.isfile] holds.  The [StaticFiles] mounts are the library's
    (they refuse paths outside their directory) and are only named.

    [main.py] also installs Starlette's [CORSMiddleware] with the options
    [main_cors]; [is_allowed_origin] and [cors_headers] are the
    middleware's decision for those options (a regex other than [".*"]
    is not modelled). *)

From S2P Require Import Prelude PyStr Files.
From Stdlib Require Import Ascii.

Module Main.

Local Open Scope Z_scope.

(** The options of [app.add_middleware(CORSMiddleware, ...)]: no
    [allow_origins] list, [allow_origin_regex=".*"],
    [allow_credentials=True]. *)
Record cors_config := CorsConfig {
  allow_origins : list string;
  allow_origin_regex : option string;
  allow_credentials : bool
}.

Definition main_cors : cors_config := CorsConfig [] (Some ".*") true.

(** [re.fullmatch(".*", s)]: [.] matches any character but a line feed. *)
Definition fullmatch_dot_star (s : string) : bool :=
  forallb (fun c => negb (Ascii.eqb c (ascii_of_nat 10))) (list_ascii_of_string s).

(** Starlette's [CORSMiddleware.is_allowed_origin], for the patterns the
    application uses ([".*"]; another pattern is not modelled and
    allows nothing). *)
Definition is_allowed_origin (cfg : cors_config) (origin : string) : bool :=
  bool_decide ("*" ∈ allow_origins cfg) ||
  (match allow_origin_regex cfg with
   | Some re => String.eqb re ".*" && fullmatch_dot_star origin
   | None => false
   end) ||
  bool_decide (origin ∈ allow_origins cfg).

(** The CORS headers Starlette adds to a response for a request with an
    [Origin] header ([simple_response]): the origin is echoed when it is
    allowed and the origins are not the wildcard. *)
Definition cors_headers (cfg : cors_config) (origin : string) : list (string * string) :=
  (if allow_credentials cfg then [("access-control-allow-credentials", "true")] else []) ++
  (if negb (bool_decide ("*" ∈ allow_origins cfg)) && is_allowed_origin cfg origin
   then [("access-control-allow-origin", origin)] else []).

(** What a [GET] on the application's own routes returns. *)
Inductive served :=
  | Home                                   (** [{"ok": True}] *)
  | FileResp (path : string)               (** [FileResponse(path)] *)
  | Assets (directory rest : string)       (** the [StaticFiles] mount *)
  | NotFound.

(** The rest of [s] after the prefix [pre]. *)
Fixpoint strip_prefix (pre s : string) : option string :=
  match pre, s with
  | EmptyString, _ => Some s
  | String a pre', String b s' => if Ascii.eqb a b then strip_prefix pre' s' else None
  | String _ _, EmptyString => None
  end.

(** [serve_form] and [serve_admin], for the directory [dir]. *)
Definition serve_front (dir : string) (files : list string) (full_path : string) : served :=
  let filepath := Files.join dir full_path in
  if bool_decide (filepath ∈ files) then FileResp filepath else FileResp (dir +:+ "/index.html").

(** A [Mount("/d/assets")] followed by the route [/d/{full_path:path}]. *)
Definition front_routes (dir : string) (path : string) (files : list string) : option served :=
  match strip_prefix ("/" +:+ dir +:+ "/assets/") path with
  | Some rest => Some (Assets (dir +:+ "/assets") rest)
  | None =>
      match strip_prefix ("/" +:+ dir +:+ "/") path with
      | Some full_path => Some (serve_front dir files full_path)
      | None => None
      end
  end.

(** [GET path] on the routes of [main.py]; [form_exists] and
    [admin_exists] are [os.path.exists("form")] and
    [os.path.exists("admin")] at start-up. *)
Definition main_get (form_exists admin_exists : bool) (files : list string) (path : string) : served :=
  if String.eqb path "/" then Home
  else
    match (if form_exists then front_routes "form" path files else None) with
    | Some r => r
    | None =>
        match (if admin_exists then front_routes "admin" path files else None) with
        | Some r => r
        | None => NotFound
        end
    end.

(** (C30) [serve_form] serves any file of the server: for an absolute
    [full_path], [os.path.join("form", full_path)] is [full_path] itself,
    so [GET /form//etc/passwd] returns [/etc/passwd] when it exists. *)
Theorem serve_form_any_file admin_exists files p :
  Files.starts_with "/" p = true -> p ∈ files ->
  main_get true admin_exists files ("/form/" +:+ p) = FileResp p.
Proof.
  intros Hs Hp. destruct p as [|c rest]; [done|].
  simpl in Hs. apply Files.ascii_eqb_spec in Hs as ->.
  unfold main_get, front_routes, serve_front, Files.join. simpl.
  rewrite bool_decide_eq_true_2 by done. done.
Qed.

Lemma serve_form_any_file_witness :
  Files.starts_with "/" "/etc/passwd" = true /\ "/etc/passwd" ∈ ["/etc/passwd"; "form/index.html"] /\
  main_get true true ["/etc/passwd"; "form/index.html"] ("/form/" +:+ "/etc/passwd") = FileResp "/etc/passwd".
Proof.
  assert (Hs : Files.starts_with "/" "/etc/passwd" = true) by reflexivity.
  assert (Hp : "/etc/passwd" ∈ ["/etc/passwd"; "form/index.html"]) by set_solver.
  split; [exact Hs|]. split; [exact Hp|]. exact (serve_form_any_file true _ _ Hs Hp).
Defined.

(** [..] segments are kept by [os.path.join]: the catch-all route asks
    the operating system for [form/../...], a file outside [form]. *)
Lemma serve_form_dotdot admin_exists :
  main_get true admin_exists ["form/../.env"] "/form/../.env" = FileResp "form/../.env".
Proof. reflexivity. Qed.

(** The comment above the middleware promises explicit origins, not
    ["*"]; the regex [".*"] lets every origin read the responses with
    credentials: any web page the user visits may call the API in the
    user's name. *)
Lemma cors_any_origin origin :
  fullmatch_dot_star origin = true ->
  cors_headers main_cors origin =
    [("access-control-allow-credentials", "true"); ("access-control-allow-origin", origin)].
Proof. intros H. unfold cors_headers, is_allowed_origin. simpl. by rewrite H. Qed.

End Main.
