(* ===== verification/Mail.v ===== *)
(** * Mail: [send_mail] and its fall-back between SMTP security modes

    [src/Api/utils/mailer.py].  [create_postulacion] sends a confirmation
    to the applicant and a notice to [ADMIN_EMAILS] with [send_mail],
    which prints and returns when mail is disabled or the SMTP
    credentials are missing, and otherwise builds the message and sends
    it with the configured security mode ([SMTP_SECURITY]: "ssl" or, for
    any other value, STARTTLS), retrying once with the other mode when the
    first attempt raises an [smtplib.SMTPException].

    The network is an oracle [net : mode -> send_outcome] that says what
    a connection in a given mode does: deliver, raise an
    [SMTPException], or raise another exception (a socket error, a
    timeout, a certificate error).  The [print] calls are the log lines
    [send_mail] returns.  [send_starttls] and [send_ssl] refine that
    oracle: the steps of the SMTP dialogue, the TLS context of
    [_tls_context] and what the client sends at each step, against a
    server that may make any step fail. *)

From S2P Require Import Prelude PyStr Clock.
From stdpp Require Import pretty.
From Stdlib Require Import Ascii.

Module Mailer.

(** The configuration [mailer.py] reads at import. *)
Record mail_config := MailConfig {
  mail_enabled : bool;          (** [MAIL_ENABLED == "true"] after [lower()] *)
  smtp_username : string;
  smtp_password : string;
  smtp_security : string;       (** [SMTP_SECURITY], lower-cased and stripped *)
  mail_from_name : string;
  mail_from_email : string;
  mail_reply_to : string
}.

(** [os.getenv("MAIL_ENABLED", "true").lower() == "true"] *)
Definition parse_enabled (env : string) : bool := String.eqb (PyStr.lower env) "true".

Inductive mode := StartTLS | SSL.

(** What one connection attempt ([_send_starttls] or [_send_ssl]) does. *)
Inductive send_outcome :=
  | Delivered
  | SMTPError (msg : string)        (** an [smtplib.SMTPException] *)
  | OtherError (msg : string).      (** any other [Exception] *)

(** The message [_build_message] assembles. *)
Record message := Message {
  m_subject : string;
  m_from : string * string;
  m_to : string;
  m_reply_to : option string;
  m_text : string;
  m_html : string
}.

(** [[t.strip() for t in to if t and t.strip()]] *)
Definition to_list (to : list string) : list string :=
  PyStr.strip <$> filter (fun t => t <> "" /\ PyStr.strip t <> "") to.

(** [_build_message(subject, to, html, text)] *)
Definition build_message (cfg : mail_config) (subject : string) (to : list string)
    (html : string) (text : option string) : message :=
  Message subject (mail_from_name cfg, mail_from_email cfg) (String.concat ", " (to_list to))
    (if String.eqb (mail_reply_to cfg) "" then None else Some (mail_reply_to cfg))
    (match text with Some t => if String.eqb t "" then "Ver este correo en HTML." else t
                     | None => "Ver este correo en HTML." end)
    html.

(** The line boundaries of [str.splitlines()] among ASCII characters:
    LF, VT, FF, CR and the separators 0x1C-0x1E (CR LF counts as one). *)
Definition is_line_break (c : ascii) : bool :=
  let n := nat_of_ascii c in ((10 <=? n) && (n <=? 13)) || ((28 <=? n) && (n <=? 30)).

(** [s.splitlines()] on characters; [cur] is the line read so far. *)
Fixpoint splitlines_go (cs cur : list ascii) : list (list ascii) :=
  match cs with
  | [] => match cur with [] => [] | _ => [rev cur] end
  | c :: cs' =>
      if is_line_break c then
        let rest := match cs' with
                    | d :: cs'' => if Ascii.eqb c "013" && Ascii.eqb d "010" then cs'' else cs'
                    | [] => cs'
                    end in
        rev cur :: splitlines_go rest []
      else splitlines_go cs' (c :: cur)
  end.

Definition splitlines (s : string) : list string :=
  string_of_list_ascii <$> splitlines_go (list_ascii_of_string s) [].

(** [msg[name] = value] under [email.policy.default] raises [ValueError]
    when [len(value.splitlines()) > 1]. *)
Definition header_ok (value : string) : bool := (length (splitlines value) <=? 1)%nat.

(** [_build_message] succeeds when every header value it stores is a
    single line. *)
Definition build_message_ok (cfg : mail_config) (subject : string) (to : list string) : bool :=
  header_ok subject && header_ok (String.concat ", " (to_list to)) &&
  (String.eqb (mail_reply_to cfg) "" || header_ok (mail_reply_to cfg)).

(** The first mode [send_mail] tries, and the fall-back. *)
Definition first_mode (cfg : mail_config) : mode :=
  if String.eqb (smtp_security cfg) "ssl" then SSL else StartTLS.

Definition other_mode (m : mode) : mode := match m with SSL => StartTLS | StartTLS => SSL end.

(** What [send_mail] did: the attempts it made, in order, whether the
    message left, and what it printed.  It never raises. *)
Record sent := Sent {
  s_attempts : list mode;
  s_delivered : bool;
  s_log : list string
}.

(** [send_mail(subject, to, html, text)]: the [ValueError] of
    [_build_message], outside the [try], propagates to the caller. *)
Definition send_mail (cfg : mail_config) (net : mode -> send_outcome)
    (subject : string) (to : list string) (html : string) (text : option string) : result sent :=
  if negb (mail_enabled cfg) then
    Ok (Sent [] false ["[MAIL_DISABLED] " +:+ subject +:+ " -> " +:+ String.concat ", " to])
  else if String.eqb (smtp_username cfg) "" || String.eqb (smtp_password cfg) "" then
    Ok (Sent [] false ["[MAIL_ERROR] SMTP_USERNAME/SMTP_PASSWORD no configurados"])
  else if negb (build_message_ok cfg subject to) then Raise ValueError
  else
    let m1 := first_mode cfg in
    match net m1 with
    | Delivered => Ok (Sent [m1] true [])
    | OtherError e => Ok (Sent [m1] false ["[MAIL_ERROR] " +:+ e])
    | SMTPError e =>
        let m2 := other_mode m1 in
        match net m2 with
        | Delivered => Ok (Sent [m1; m2] true ["[MAIL_INFO] Enviado usando fallback de seguridad"])
        | SMTPError e2 | OtherError e2 =>
            Ok (Sent [m1; m2] false ["[MAIL_ERROR_FALLBACK] " +:+ e2; "[MAIL_ERROR] " +:+ e])
        end
    end.

(** ** Lemmas *)

Lemma other_mode_ne m : other_mode m <> m.
Proof. by destruct m. Qed.

(** (C15) [send_mail] with mail enabled and credentials set raises
    [ValueError] exactly when a header value (the subject, the
    recipients) spans several lines, which the applicant controls
    through the name and the e-mail address of the form; otherwise it
    tries the configured mode and, only after an [SMTPException], the
    other mode once, and the message leaves exactly when one of these
    attempts delivers it.  With mail disabled or credentials missing it
    makes no attempt and does not raise. *)
Theorem send_mail_spec cfg net subject to html text :
  match send_mail cfg net subject to html text with
  | Raise e =>
      e = ValueError /\ mail_enabled cfg = true /\ smtp_username cfg <> "" /\
      smtp_password cfg <> "" /\ build_message_ok cfg subject to = false
  | Ok r =>
      if mail_enabled cfg && negb (String.eqb (smtp_username cfg) "") &&
         negb (String.eqb (smtp_password cfg) "")
      then
        let m1 := first_mode cfg in
        build_message_ok cfg subject to = true /\
        NoDup (s_attempts r) /\ head (s_attempts r) = Some m1 /\
        (s_attempts r = [m1] \/ (s_attempts r = [m1; other_mode m1] /\ exists e, net m1 = SMTPError e)) /\
        (s_delivered r = true <->
           net m1 = Delivered \/ ((exists e, net m1 = SMTPError e) /\ net (other_mode m1) = Delivered))
      else s_attempts r = [] /\ s_delivered r = false
  end.
Proof.
  unfold send_mail. destruct (mail_enabled cfg); simpl; [|done].
  destruct (String.eqb_spec (smtp_username cfg) "") as [Hu|Hu]; simpl; [done|].
  destruct (String.eqb_spec (smtp_password cfg) "") as [Hp|Hp]; simpl; [done|].
  destruct (build_message_ok cfg subject to) eqn:Hb; simpl; [|done].
  destruct (net (first_mode cfg)) as [|e|e] eqn:H1; simpl.
  - split_and!; [done | apply NoDup_singleton | done | by left | naive_solver].
  - assert (Hnd2 : NoDup [first_mode cfg; other_mode (first_mode cfg)]).
    { constructor; [|apply NoDup_singleton]. rewrite list_elem_of_singleton.
      intros H. by apply (other_mode_ne (first_mode cfg)). }
    destruct (net (other_mode (first_mode cfg))) eqn:H2; simpl;
      (split_and!; [done | done | done | right; eauto | naive_solver]).
  - split_and!; [done | apply NoDup_singleton | done | by left | naive_solver].
Qed.

(** ** The SMTP dialogue of [_send_starttls] and [_send_ssl] *)

Inductive tls_version := TLSv1 | TLSv1_1 | TLSv1_2 | TLSv1_3.

Definition tls_rank (v : tls_version) : nat :=
  match v with TLSv1 => 0 | TLSv1_1 => 1 | TLSv1_2 => 2 | TLSv1_3 => 3 end.

(** The certificates a context trusts. *)
Inductive ca_store := NoCA | CertifiCA | SystemCA.

(** The settings of an [ssl.SSLContext] the dialogue depends on;
    [min_version = None] is OpenSSL's default. *)
Record ssl_context := SSLContext {
  min_version : option tls_version;
  check_hostname : bool;
  cert_required : bool;            (** [verify_mode == CERT_REQUIRED] *)
  trusted : ca_store
}.

(** [ssl.SSLContext(ssl.PROTOCOL_TLS_CLIENT)]: hostname check and
    certificate verification on, no certificate trusted yet. *)
Definition tls_client_context : ssl_context := SSLContext None true true NoCA.

(** [ssl.create_default_context()] *)
Definition default_context : ssl_context := SSLContext None true true SystemCA.

(** [_tls_context()]; [certifi_ok] says whether [import certifi] and
    [ctx.load_verify_locations(certifi.where())] succeed. *)
Definition tls_context (certifi_ok : bool) : ssl_context :=
  let ctx := tls_client_context in
  let ctx := SSLContext (Some TLSv1_2) (check_hostname ctx) (cert_required ctx) (trusted ctx) in
  if certifi_ok then SSLContext (min_version ctx) (check_hostname ctx) (cert_required ctx) CertifiCA
  else let ctx := default_context in
       SSLContext (Some TLSv1_2) (check_hostname ctx) (cert_required ctx) (trusted ctx).

(** What the client sends on the connection. *)
Inductive smtp_event :=
  | EConnect (m : mode)
  | EHandshake (ctx : ssl_context)   (** a TLS handshake under [ctx] *)
  | EEhlo
  | ELogin (user password : string)
  | ESendMessage.

(** The steps of the dialogue, each of which the server may make fail. *)
Inductive smtp_step := SConnect | SEhlo | SStartTLS | SEhlo2 | SLogin | SSend.

Inductive smtp_fail := FailSMTP (msg : string) | FailOther (msg : string).

(** The server: the failure, if any, of each step in each mode. *)
Definition server := mode -> smtp_step -> option smtp_fail.

(** The steps in order with what the client sends at each: the dialogue
    stops at the first step that fails, with its exception. *)
Fixpoint run_steps (srv : smtp_step -> option smtp_fail) (steps : list (smtp_step * list smtp_event))
  : list smtp_event * send_outcome :=
  match steps with
  | [] => ([], Delivered)
  | (st, evs) :: rest =>
      match srv st with
      | Some (FailSMTP e) => (evs, SMTPError e)
      | Some (FailOther e) => (evs, OtherError e)
      | None => let '(evs', r) := run_steps srv rest in (evs ++ evs', r)
      end
  end.

(** [_send_starttls(msg)]: connect, [ehlo], [starttls(context=ctx)],
    [ehlo], [login], [send_message]. *)
Definition send_starttls (cfg : mail_config) (srv : server) (certifi_ok : bool)
  : list smtp_event * send_outcome :=
  let ctx := tls_context certifi_ok in
  run_steps (srv StartTLS)
    [(SConnect, [EConnect StartTLS]); (SEhlo, [EEhlo]); (SStartTLS, [EHandshake ctx]);
     (SEhlo2, [EEhlo]); (SLogin, [ELogin (smtp_username cfg) (smtp_password cfg)]);
     (SSend, [ESendMessage])].

(** [_send_ssl(msg)]: [SMTP_SSL(..., context=ctx)], [login],
    [send_message]. *)
Definition send_ssl (cfg : mail_config) (srv : server) (certifi_ok : bool)
  : list smtp_event * send_outcome :=
  let ctx := tls_context certifi_ok in
  run_steps (srv SSL)
    [(SConnect, [EConnect SSL; EHandshake ctx]);
     (SLogin, [ELogin (smtp_username cfg) (smtp_password cfg)]); (SSend, [ESendMessage])].

Definition send_mode (cfg : mail_config) (srv : server) (certifi_ok : bool) (m : mode)
  : list smtp_event * send_outcome :=
  match m with SSL => send_ssl cfg srv certifi_ok | StartTLS => send_starttls cfg srv certifi_ok end.

(** What [send_mail] sends over the network: the dialogues of the
    attempts it makes, in order. *)
Definition send_mail_events (cfg : mail_config) (srv : server) (certifi_ok : bool)
    (subject : string) (to : list string) (html : string) (text : option string) : list smtp_event :=
  match send_mail cfg (fun m => snd (send_mode cfg srv certifi_ok m)) subject to html text with
  | Ok r => concat ((fun m => fst (send_mode cfg srv certifi_ok m)) <$> s_attempts r)
  | Raise _ => []
  end.

(** A context that verifies the server: its certificate and host name,
    with TLS 1.2 at least. *)
Definition ctx_verifies (ctx : ssl_context) : bool :=
  check_hostname ctx && cert_required ctx &&
  match min_version ctx with Some v => (2 <=? tls_rank v)%nat | None => false end.

(** The credentials are sent only on a connection whose TLS handshake
    used a verifying context: [tls] is whether the current connection
    has had one. *)
Fixpoint login_protected (tls : bool) (evs : list smtp_event) : bool :=
  match evs with
  | [] => true
  | EConnect _ :: rest => login_protected false rest
  | EHandshake ctx :: rest => login_protected (ctx_verifies ctx) rest
  | ELogin _ _ :: rest => tls && login_protected tls rest
  | _ :: rest => login_protected tls rest
  end.

Lemma tls_context_verifies b : ctx_verifies (tls_context b) = true.
Proof. by destruct b. Qed.

(** A new connection forgets the handshake of the previous one. *)
Lemma login_protected_connect tls evs1 m evs2 :
  login_protected tls (evs1 ++ EConnect m :: evs2) = login_protected tls evs1 && login_protected false evs2.
Proof.
  revert tls. induction evs1 as [|ev evs1 IH]; intros tls; simpl; [done|].
  destruct ev; rewrite ?IH; [done|done|done|by rewrite andb_assoc|done].
Qed.

(** Each attempt opens its own connection and logs in only after a
    verifying handshake. *)
Lemma send_mode_protected cfg srv b m :
  login_protected false (fst (send_mode cfg srv b m)) = true /\
  exists rest, fst (send_mode cfg srv b m) = EConnect m :: rest.
Proof.
  destruct b, m; unfold send_mode, send_ssl, send_starttls; cbn [run_steps];
    repeat (case_match; simplify_eq/=); eauto.
Qed.

Lemma concat_protected (l : list (list smtp_event)) :
  Forall (fun evs => login_protected false evs = true /\ exists m rest, evs = EConnect m :: rest) l ->
  login_protected false (concat l) = true /\
  (concat l = [] \/ exists m rest, concat l = EConnect m :: rest).
Proof.
  induction 1 as [|evs l [Hp (m & rest & ->)] _ [IHp IHs]]; [by split; [|left]|].
  cbn [concat]. split; [|right; eauto].
  destruct IHs as [Hn | (m' & rest' & Hc)]; [by rewrite Hn, app_nil_r|].
  rewrite Hc in IHp |- *. rewrite login_protected_connect, Hp. exact IHp.
Qed.

(** (C36) Whatever the SMTP server does and whether [certifi] is
    installed, [send_mail] sends [SMTP_USERNAME] and [SMTP_PASSWORD]
    only on a connection that has completed a TLS handshake verifying
    the server's certificate and host name with TLS 1.2 or later: in
    both modes and in the fall-back, [login] follows [starttls] or the
    SSL connection, and a failed handshake ends the attempt. *)
Theorem credentials_only_over_tls cfg srv certifi_ok subject to html text :
  login_protected false (send_mail_events cfg srv certifi_ok subject to html text) = true.
Proof.
  unfold send_mail_events. destruct (send_mail _ _ _ _ _ _) as [r|]; [|done].
  apply concat_protected. apply Forall_fmap, Forall_forall. intros m _. simpl.
  destruct (send_mode_protected cfg srv certifi_ok m) as [Hp [rest Hr]]. eauto.
Qed.

End Mailer.

(** * The subjects and plain-text bodies of [utils/email_templates.py]

    The HTML bodies are markup around the same fields, passed through
    [html.escape].  The date [when] is [_fmt_dt(created_at)], printed in
    [TIMEZONE] with the [datetime] model of [Clock]. *)

Module Templates.

(** [html.escape(s)] (with [quote=True]). *)
Fixpoint escape_list (cs : list ascii) : string :=
  match cs with
  | [] => ""
  | c :: cs' =>
      (if Ascii.eqb c "&" then "&amp;"
       else if Ascii.eqb c "<" then "&lt;"
       else if Ascii.eqb c ">" then "&gt;"
       else if Ascii.eqb c (ascii_of_nat 34) then "&quot;"
       else if Ascii.eqb c "'" then "&#x27;"
       else String c "") +:+ escape_list cs'
  end.

Definition escape (s : string) : string := escape_list (list_ascii_of_string s).

(** [f"{nombre} {apellido}".strip()] *)
Definition full_name (nombre apellido : string) : string := PyStr.strip (nombre +:+ " " +:+ apellido).

(** [candidate_confirmation]: subject and text. *)
Definition candidate_subject : string := "Confirmación de envío de CV".

Definition candidate_text (nombre apellido when : string) : string :=
  "Gracias, " +:+ full_name nombre apellido +:+ "! Recibimos tu CV el " +:+ when +:+ ".".

(** [x or "—"] for an optional string. *)
Definition or_dash (x : option string) : string :=
  match x with Some s => if String.eqb s "" then "—" else s | None => "—" end.

(** [admin_new_cv]: subject and text. *)
Definition admin_subject (aviso_id : Z) (nombre apellido : string) : string :=
  "[RRHH] Nuevo CV #" +:+ pretty aviso_id +:+ " - " +:+ full_name nombre apellido.

Definition admin_text (aviso_id : Z) (nombre apellido correo : string)
    (telefono unidad puesto : option string) (when : string) : string :=
  "Nuevo CV recibido (ID " +:+ pretty aviso_id +:+ ") - " +:+ full_name nombre apellido +:+
  " - " +:+ correo +:+ " - " +:+ or_dash telefono +:+ " - Unidad: " +:+ or_dash unidad +:+
  " - Puesto: " +:+ or_dash puesto +:+ " - " +:+ when.

(** A double quote and a line feed, as they occur in the HTML literals. *)
Definition dq : string := String (ascii_of_nat 34) "".
Definition nl : string := String (ascii_of_nat 10) "".

(** An attribute [ name="value"] of an HTML literal. *)
Definition attr (name value : string) : string := " " +:+ name +:+ "=" +:+ dq +:+ value +:+ dq.

Definition div_open : string :=
  nl +:+ "    <div" +:+ attr "style" "font-family:system-ui,Arial,sans-serif;line-height:1.5" +:+ ">" +:+ nl.

(** [candidate_confirmation]: the HTML body. *)
Definition candidate_html (nombre apellido when : string) : string :=
  div_open +:+
  "      <h2>¡Gracias, " +:+ escape (full_name nombre apellido) +:+ "!</h2>" +:+ nl +:+
  "      <p>Recibimos tu CV correctamente el <b>" +:+ escape when +:+ "</b>.</p>" +:+ nl +:+
  "      <p>Nuestro equipo de RRHH revisará tu postulación y se pondrá en contacto si avanzamos con el proceso.</p>" +:+ nl +:+
  "      <p" +:+ attr "style" "color:#666;font-size:12px" +:+
  ">Este es un mensaje automático, por favor no responder.</p>" +:+ nl +:+
  "    </div>" +:+ nl +:+ "    ".

(** The trailing slashes [rstrip("/")] removes, on the reversed string. *)
Fixpoint drop_slashes (cs : list ascii) : list ascii :=
  match cs with
  | c :: cs' => if Ascii.eqb c "/" then drop_slashes cs' else cs
  | [] => []
  end.

(** [ADMIN_DASHBOARD_URL = os.getenv("ADMIN_DASHBOARD_URL", "").rstrip("/")] *)
Definition admin_dashboard_url (env : string) : string :=
  string_of_list_ascii (rev (drop_slashes (rev (list_ascii_of_string env)))).

(** [link_html]: the link to the panel, when [ADMIN_DASHBOARD_URL] is set. *)
Definition link_html (url : string) (aviso_id : Z) : string :=
  if String.eqb url "" then ""
  else "<p><a" +:+ attr "href" (url +:+ "/postulaciones/" +:+ pretty aviso_id) +:+
       attr "style" "color:#5170FF" +:+ ">Abrir en panel</a></p>".

(** One row of the table of [admin_new_cv]. *)
Definition admin_row (label value : string) : string :=
  "        <tr><td" +:+ attr "style" "padding:4px 8px;color:#555" +:+ ">" +:+ label +:+
  "</td><td>" +:+ value +:+ "</td></tr>" +:+ nl.

(** [admin_new_cv]: the HTML body; [url] is [ADMIN_DASHBOARD_URL]. *)
Definition admin_html (url : string) (aviso_id : Z) (nombre apellido correo : string)
    (telefono unidad puesto : option string) (when : string) : string :=
  div_open +:+
  "      <h2>Nuevo CV recibido</h2>" +:+ nl +:+ "      " +:+ nl +:+
  "      <table" +:+ attr "style" "border-collapse:collapse" +:+ ">" +:+ nl +:+
  admin_row "ID" ("<b>" +:+ pretty aviso_id +:+ "</b>") +:+
  admin_row "Fecha" (escape when) +:+
  admin_row "Nombre" (escape (full_name nombre apellido)) +:+
  admin_row "Correo" (escape correo) +:+
  admin_row "Teléfono" (escape (or_dash telefono)) +:+
  admin_row "Unidad de negocio" (escape (or_dash unidad)) +:+
  admin_row "Puesto" (escape (or_dash puesto)) +:+
  "      </table>" +:+ nl +:+ nl +:+
  "      " +:+ link_html url aviso_id +:+ nl +:+ nl +:+
  "      <p" +:+ attr "style" "color:#666;font-size:12px" +:+ ">Mensaje automático • RRHH</p>" +:+ nl +:+
  "    </div>" +:+ nl +:+ "    ".

(** [TIMEZONE = os.getenv("TIMEZONE", "UTC")], from the variable [env]. *)
Definition templates_timezone (env : option string) : string := default "UTC" env.

(** [_fmt_dt(dt)]: [dt] in [TIMEZONE] when [ZoneInfo] ([zi]) knows the
    key, in UTC otherwise, printed [%d/%m/%Y %H:%M:%S]. *)
Definition fmt_dt (zi : Clock.tzdb) (tz : string) (dt : Z) : string :=
  match zi tz with
  | Some z => Clock.strftime_dmy (Clock.astimezone z dt)
  | None => Clock.strftime_dmy (Clock.as_utc dt)
  end.

(** [candidate_confirmation(nombre, apellido, created_at)]: [(subj, html, text)]. *)
Definition candidate_confirmation (zi : Clock.tzdb) (tz : string) (nombre apellido : string)
    (created_at : Z) : string * string * string :=
  let when := fmt_dt zi tz created_at in
  (candidate_subject, candidate_html nombre apellido when, candidate_text nombre apellido when).

(** [admin_new_cv(aviso_id, ..., created_at)]: [(subj, html, text)];
    [url] is [ADMIN_DASHBOARD_URL]. *)
Definition admin_new_cv (zi : Clock.tzdb) (tz url : string) (aviso_id : Z)
    (nombre apellido correo : string) (telefono unidad puesto : option string)
    (created_at : Z) : string * string * string :=
  let when := fmt_dt zi tz created_at in
  (admin_subject aviso_id nombre apellido,
   admin_html url aviso_id nombre apellido correo telefono unidad puesto when,
   admin_text aviso_id nombre apellido correo telefono unidad puesto when).

(** ** Lemmas *)

Definition html_special (c : ascii) : Prop :=
  c = "<"%char \/ c = ">"%char \/ c = ascii_of_nat 34 \/ c = "'"%char.

Lemma list_ascii_app' s1 s2 :
  list_ascii_of_string (s1 +:+ s2) = list_ascii_of_string s1 ++ list_ascii_of_string s2.
Proof. induction s1 as [|c s1 IH]; simpl; [reflexivity | by rewrite IH]. Qed.

(** [html.escape] leaves no character that could open a tag or
    close an attribute: whatever the applicant types as a name, an
    e-mail address or a phone number, it reaches the HTML of the
    notification mails without [<], [>], double or single quotes. *)
Theorem escape_safe s c : c ∈ list_ascii_of_string (escape s) -> ~ html_special c.
Proof.
  unfold escape. generalize (list_ascii_of_string s) as cs.
  induction cs as [|x cs IH]; simpl; [intros Hin; by apply not_elem_of_nil in Hin|].
  rewrite list_ascii_app'. intros [Hin|Hin]%elem_of_app; [|by apply IH].
  unfold html_special.
  destruct (Ascii.eqb x "&") eqn:H1; [simpl in Hin; set_solver|].
  destruct (Ascii.eqb x "<") eqn:H2; [simpl in Hin; set_solver|].
  destruct (Ascii.eqb x ">") eqn:H3; [simpl in Hin; set_solver|].
  destruct (Ascii.eqb x (ascii_of_nat 34)) eqn:H4; [simpl in Hin; set_solver|].
  destruct (Ascii.eqb x "'") eqn:H5; [simpl in Hin; set_solver|].
  simpl in Hin. apply list_elem_of_singleton in Hin as ->.
  apply Ascii.eqb_neq in H2, H3, H4, H5. tauto.
Qed.

Lemma escape_safe_witness :
  "a"%char ∈ list_ascii_of_string (escape "<a href='x'>") /\ ~ html_special "a"%char.
Proof.
  assert (H : "a"%char ∈ list_ascii_of_string (escape "<a href='x'>"))
    by (vm_compute; do 4 right; left).
  split; [exact H | exact (escape_safe _ _ H)].
Defined.

(** The occurrences of the character [a] in [s]. *)
Definition count_char (a : ascii) (s : string) : nat :=
  length (List.filter (fun c => Ascii.eqb c a) (list_ascii_of_string s)).

Lemma count_char_app a s t : count_char a (s +:+ t) = count_char a s + count_char a t.
Proof. unfold count_char. by rewrite list_ascii_app', List.filter_app, length_app. Qed.

Lemma count_lt_escape s : count_char "<" (escape s) = 0.
Proof.
  unfold escape. induction (list_ascii_of_string s) as [|c cs IH]; [done|].
  cbn [escape_list]. rewrite count_char_app, IH.
  destruct (Ascii.eqb c "&"); [done|]. destruct (Ascii.eqb c "<") eqn:H; [done|].
  destruct (Ascii.eqb c ">"), (Ascii.eqb c (ascii_of_nat 34)), (Ascii.eqb c "'"); try done.
  unfold count_char. simpl. by rewrite H.
Qed.

Lemma count_lt_pretty_N_go x s : count_char "<" (pretty_N_go x s) = count_char "<" s.
Proof.
  revert s. induction (N.lt_wf_0 x) as [x _ IH]; intros s.
  destruct (decide (x = 0%N)) as [->|Hx]; [by rewrite pretty_N_go_0|].
  rewrite pretty_N_go_step by lia. rewrite IH by (apply N.div_lt; lia).
  unfold count_char. simpl. unfold pretty_N_char. by repeat case_match.
Qed.

Lemma count_lt_pretty (z : Z) : count_char "<" (pretty z) = 0.
Proof.
  assert (HN : forall p, count_char "<" (pretty (Npos p)) = 0).
  { intros p. unfold pretty, pretty_N. case_decide; [done|]. by rewrite count_lt_pretty_N_go. }
  destruct z as [|p|p]; [done|apply HN|].
  change (pretty (Zneg p)) with ("-" +:+ pretty (Npos p)). rewrite count_char_app, HN. done.
Qed.

(** Replace the count of a character in a closed string by its value. *)
Ltac count_literals :=
  repeat match goal with
  | |- context [count_char ?a ?s] =>
      assert_fails (is_var s);
      let v := eval vm_compute in (count_char a s) in change (count_char a s) with v
  end.

(** (C16) The applicant cannot add markup to the administrators' mail:
    whatever the name, address, phone, unit or position, the HTML of
    [admin_new_cv] has exactly the 52 [<] of its template, plus the 4 of
    the panel link and those of [ADMIN_DASHBOARD_URL] (the operator's,
    not escaped) when the variable is set. *)
Theorem admin_html_markup url aviso_id nombre apellido correo telefono unidad puesto when :
  count_char "<" (admin_html url aviso_id nombre apellido correo telefono unidad puesto when) =
  52 + (if String.eqb url "" then 0 else 4 + count_char "<" url).
Proof.
  unfold admin_html, link_html, admin_row, div_open, attr.
  rewrite !count_char_app, !count_lt_escape, !count_lt_pretty.
  destruct (String.eqb url ""); rewrite ?count_char_app, ?count_lt_pretty;
    count_literals; lia.
Qed.

(** The offset [_fmt_dt] applies at [t]. *)
Definition fmt_offset (zi : Clock.tzdb) (tz : string) (t : Z) : Z :=
  match zi tz with Some z => z t | None => 0%Z end.

(** (C39) [_fmt_dt] prints the wall clock of [TIMEZONE] (UTC when
    [ZoneInfo] refuses the key) in 19 characters for the years of four
    digits, and two dates print the same exactly when their wall clocks
    coincide. *)
Theorem fmt_dt_spec zi tz t1 t2 :
  (1000 <= Clock.year (Clock.to_datetime (t1 + fmt_offset zi tz t1)) <= 9999)%Z ->
  (1000 <= Clock.year (Clock.to_datetime (t2 + fmt_offset zi tz t2)) <= 9999)%Z ->
  fmt_dt zi tz t1 = Clock.strftime_dmy (Clock.to_datetime (t1 + fmt_offset zi tz t1)) /\
  String.length (fmt_dt zi tz t1) = 19 /\
  (fmt_dt zi tz t1 = fmt_dt zi tz t2 <-> t1 + fmt_offset zi tz t1 = t2 + fmt_offset zi tz t2)%Z.
Proof.
  assert (Hw : forall t, fmt_dt zi tz t = Clock.strftime_dmy (Clock.to_datetime (t + fmt_offset zi tz t))).
  { intros t. unfold fmt_dt, fmt_offset, Clock.as_utc, Clock.astimezone. case_match; by rewrite ?Z.add_0_r. }
  intros Y1 Y2. rewrite !Hw. split; [done|]. split; [by apply Clock.strftime_dmy_length|]. split.
  - intros H. apply Clock.to_datetime_inj, Clock.strftime_dmy_inj; auto using Clock.to_datetime_valid.
  - by intros ->.
Qed.

(** [TIMEZONE=America/Argentina/Cordoba], UTC-3. *)
Definition cordoba : Clock.tzdb :=
  fun key => if String.eqb key "America/Argentina/Cordoba" then Some (fun _ => (-10800)%Z) else None.

Lemma fmt_dt_spec_witness :
  (1000 <= Clock.year (Clock.to_datetime (1735808400 + fmt_offset cordoba "America/Argentina/Cordoba" 1735808400)) <= 9999)%Z /\
  (1000 <= Clock.year (Clock.to_datetime (1735808401 + fmt_offset cordoba "America/Argentina/Cordoba" 1735808401)) <= 9999)%Z /\
  fmt_dt cordoba "America/Argentina/Cordoba" 1735808400 =
    Clock.strftime_dmy (Clock.to_datetime (1735808400 + fmt_offset cordoba "America/Argentina/Cordoba" 1735808400)) /\
  String.length (fmt_dt cordoba "America/Argentina/Cordoba" 1735808400) = 19 /\
  (fmt_dt cordoba "America/Argentina/Cordoba" 1735808400 = fmt_dt cordoba "America/Argentina/Cordoba" 1735808401 <->
   (1735808400 + fmt_offset cordoba "America/Argentina/Cordoba" 1735808400 =
    1735808401 + fmt_offset cordoba "America/Argentina/Cordoba" 1735808401)%Z).
Proof.
  assert (H1 : (1000 <= Clock.year (Clock.to_datetime (1735808400 + fmt_offset cordoba "America/Argentina/Cordoba" 1735808400)) <= 9999)%Z)
    by (apply (bool_decide_unpack _); vm_compute; reflexivity).
  assert (H2 : (1000 <= Clock.year (Clock.to_datetime (1735808401 + fmt_offset cordoba "America/Argentina/Cordoba" 1735808401)) <= 9999)%Z)
    by (apply (bool_decide_unpack _); vm_compute; reflexivity).
  split; [exact H1|]. split; [exact H2|]. exact (fmt_dt_spec cordoba _ _ _ H1 H2).
Defined.

(** 09:00 UTC on 2025-01-02 is printed as 06:00 in Córdoba, and in UTC
    when the key is unknown. *)
Example fmt_dt_demo :
  fmt_dt cordoba "America/Argentina/Cordoba" 1735808400 = "02/01/2025 06:00:00" /\
  fmt_dt cordoba "Mars/Olympus" 1735808400 = "02/01/2025 09:00:00".
Proof. vm_compute. split; reflexivity. Qed.

End Templates.
