(* ===== verification/Postulaciones.v ===== *)
(** * Postulaciones: the application records, their service and handlers

    [src/Api/models/postulaciones.py] declares the table [postulaciones];
    [src/Api/services/postulaciones.py] ([PostulacionesService]) reads and
    changes it; [src/Api/routers/postulaciones.py] exposes it over HTTP and
    schedules a [manager.broadcast] after a change.

    - [Store]: one row of the table ([postulacion]), the database
      ([db]: the rows by primary key, the next value of the
      auto-increment, and the [puestos], [unidades_negocio] and
      [usuarios] tables its foreign keys refer to) and the commit
      ([commit_row]), which the server refuses with [DataError] for a
      value longer than its [String(n)] column and with
      [IntegrityError] for an empty NOT NULL column or a foreign key to
      a missing row.
    - [Service]: [get], [create_from_upload], [decide], [update] (with
      [PostulacionUpdate] and its [model_dump(exclude_unset=True)]),
      [delete], and the invariant that every stored row satisfies the
      table's constraints and its key.
    - [Router]: the handlers [create_postulacion], [decidir_postulacion],
      [update_postulacion], [delete_postulacion], [get_postulacion] and
      [counts_por_estado], with their HTTP errors and the broadcast each
      schedules.

    The clock ([datetime.now], [func.now()]) is an argument [now] of the
    operations that read it.  A session commits all or nothing: an
    operation whose commit fails leaves the database as it was. *)

From S2P Require Import Prelude PyDict PyStr Json Files Mail.
From Stdlib Require Import Ascii.

Module Store.

Local Open Scope Z_scope.

(** A row of [postulaciones].  A NOT NULL column of type [String] that the
    program may set to [None] before committing ([nombre], [apellido],
    [correo]) is an [option string], so that the commit can refuse it. *)
Record postulacion := Postulacion {
  p_id : Z;                              (** column [id] *)
  nombre : option string;
  apellido : option string;
  correo : option string;
  telefono : option string;
  puesto_id : option Z;
  unidad_id : option Z;
  puesto_original_id : option Z;
  unidad_original_id : option Z;
  estado : string;
  nota : option string;
  cv_filename : string;
  cv_original : string;
  cv_mime : string;
  cv_size : Z;
  dni : option string;
  fecha_nacimiento : option Z;           (** a [date], as a day number *)
  estado_civil : option string;
  hijos : option bool;
  domicilio_residencia : option string;
  localidad : option string;
  decidido_motivo : option string;
  decidido_por_user_id : option Z;
  decidido_en : option Z;                (** a [datetime], as a time stamp *)
  created_at : Z
}.

(** A row of [puestos] ([src/Api/models/puestos.py]) as the list query
    reads it. *)
Record puesto := Puesto { pu_id : Z; pu_nombre : string; pu_unidad_id : Z }.

Record db := Db {
  rows : gmap Z postulacion;
  next_id : Z;                           (** the auto-increment counter *)
  puestos : list puesto;
  unidades : list (Z * string);          (** [unidades_negocio]: id and [nombre] *)
  usuario_ids : list Z                   (** the ids of [usuarios] *)
}.

Definition puesto_ids (d : db) : list Z := pu_id <$> puestos d.
Definition unidad_ids (d : db) : list Z := fst <$> unidades d.

(** The NOT NULL constraints of the table. *)
Definition not_null_ok (p : postulacion) : bool :=
  bool_decide (is_Some (nombre p)) && bool_decide (is_Some (apellido p)) &&
  bool_decide (is_Some (correo p)).

(** A value fits a [String(n)] column. *)
Definition max_len (n : nat) (o : option string) : bool :=
  match o with Some v => bool_decide (String.length v <= n)%nat | None => true end.

(** The [String(n)] columns of the model (lines 11-14, 27-43): the
    server refuses a longer value ([DataError], "value too long for type
    character varying(n)"). *)
Definition lengths_ok (p : postulacion) : bool :=
  max_len 60 (nombre p) && max_len 60 (apellido p) && max_len 120 (correo p) &&
  max_len 40 (telefono p) && max_len 32 (Some (estado p)) && max_len 255 (nota p) &&
  max_len 200 (Some (cv_filename p)) && max_len 200 (Some (cv_original p)) &&
  max_len 80 (Some (cv_mime p)) && max_len 20 (dni p) && max_len 20 (estado_civil p) &&
  max_len 200 (domicilio_residencia p) && max_len 120 (localidad p) &&
  max_len 255 (decidido_motivo p).

(** A nullable [ForeignKey] column: [NULL] or the id of a row. *)
Definition ref_ok (ids : list Z) (o : option Z) : bool :=
  match o with Some i => bool_decide (i ∈ ids) | None => true end.

(** The foreign keys of the model (lines 16, 17, 20, 21, 47). *)
Definition fk_ok (d : db) (p : postulacion) : bool :=
  ref_ok (puesto_ids d) (puesto_id p) && ref_ok (unidad_ids d) (unidad_id p) &&
  ref_ok (puesto_ids d) (puesto_original_id p) && ref_ok (unidad_ids d) (unidad_original_id p) &&
  ref_ok (usuario_ids d) (decidido_por_user_id p).

(** Every constraint of the table on one row. *)
Definition row_ok (d : db) (p : postulacion) : bool :=
  lengths_ok p && not_null_ok p && fk_ok d p.

Definition with_rows (d : db) (r : gmap Z postulacion) (n : Z) : db :=
  Db r n (puestos d) (unidades d) (usuario_ids d).

(** [db.commit()] of an inserted or changed row: the value too long for
    its column is found when the row is formed ([DataError]), then the
    NOT NULL and FOREIGN KEY constraints ([IntegrityError]). *)
Definition commit_row (d : db) (p : postulacion) : result db :=
  if negb (lengths_ok p) then Raise DataError
  else if not_null_ok p && fk_ok d p then Ok (with_rows d (<[p_id p := p]> (rows d)) (next_id d))
  else Raise IntegrityError.

(** The table is well formed: every row is stored under its own key,
    satisfies every constraint of the table and has a key below the
    auto-increment counter. *)
Definition wf (d : db) : Prop :=
  map_Forall (fun k p => p_id p = k /\ row_ok d p = true /\ k < next_id d) (rows d).

(** The rows of the table, in the order the database returns them. *)
Definition table_rows (d : db) : list postulacion := (map_to_list (rows d)).*2.

(** [db.query(Postulacion.estado, count(Postulacion.id))
    .group_by(Postulacion.estado).all()]: one pair per distinct value of
    [estado] with the number of rows that hold it, in order of first
    appearance. *)
Definition group_by_estado (ps : list postulacion) : list (string * Z) :=
  fold_left (fun acc p => PyDict.setitem acc (estado p) (default 0 (PyDict.get acc (estado p)) + 1))
    ps [].

(** ** Lemmas *)

(** Splits the hypotheses that are conjunctions of booleans. *)
Ltac split_andb :=
  repeat match goal with H : _ && _ = true |- _ => apply andb_true_iff in H as [? ?] end.

Lemma wf_lookup d k p :
  wf d -> rows d !! k = Some p -> p_id p = k /\ row_ok d p = true /\ k < next_id d.
Proof. intros Hwf Hk. exact (Hwf k p Hk). Qed.

Lemma row_ok_iff d p :
  row_ok d p = true <-> lengths_ok p = true /\ not_null_ok p = true /\ fk_ok d p = true.
Proof. unfold row_ok. rewrite !andb_true_iff. tauto. Qed.

(** [commit_row] on every path. *)
Lemma commit_row_cases d p :
  commit_row d p =
  if row_ok d p then Ok (with_rows d (<[p_id p := p]> (rows d)) (next_id d))
  else if lengths_ok p then Raise IntegrityError else Raise DataError.
Proof. unfold commit_row, row_ok. by destruct (lengths_ok p), (not_null_ok p), (fk_ok d p). Qed.

Lemma commit_row_ok d p :
  row_ok d p = true -> commit_row d p = Ok (with_rows d (<[p_id p := p]> (rows d)) (next_id d)).
Proof. rewrite commit_row_cases. by intros ->. Qed.

(** The constraints of a row depend on the database only through the
    tables its foreign keys refer to. *)
Lemma row_ok_with_rows d r n p : row_ok (with_rows d r n) p = row_ok d p.
Proof. done. Qed.

Lemma wf_insert d k p n :
  wf d -> p_id p = k -> row_ok d p = true -> k < n -> next_id d <= n ->
  wf (with_rows d (<[k := p]> (rows d)) n).
Proof.
  intros Hwf Hk Hn Hlt Hle. apply map_Forall_insert_2; [simpl; auto|].
  eapply map_Forall_impl; [exact Hwf|]. simpl. intros j q (? & ? & ?). split_and!; auto; lia.
Qed.

Lemma not_null_ok_iff p :
  not_null_ok p = true <-> is_Some (nombre p) /\ is_Some (apellido p) /\ is_Some (correo p).
Proof. unfold not_null_ok. rewrite !andb_true_iff, !bool_decide_eq_true. tauto. Qed.

Lemma group_by_estado_sum (P : string -> Prop) `{forall e, Decision (P e)} ps :
  PyDict.sum_where P (group_by_estado ps) = Z.of_nat (length (filter (fun p => P (estado p)) ps)).
Proof.
  unfold group_by_estado.
  assert (Hgen : forall acc, PyDict.sum_where P (fold_left (fun acc p =>
      PyDict.setitem acc (estado p) (default 0 (PyDict.get acc (estado p)) + 1)) ps acc) =
      PyDict.sum_where P acc + Z.of_nat (length (filter (fun p => P (estado p)) ps))).
  { induction ps as [|p ps IH]; intros acc; simpl; [lia|].
    rewrite IH, PyDict.sum_where_setitem, filter_cons. case_decide; simpl; lia. }
  rewrite Hgen. simpl. lia.
Qed.

End Store.

Module Service.
Import Store.

Local Open Scope Z_scope.

(** What a service method raises: [ValueError(msg)], which the handlers
    catch, or another exception, which they do not. *)
Inductive raised :=
  | RValueError (msg : string)
  | RExc (e : exc).

Inductive outcome (A : Type) :=
  | Ret (a : A)
  | Exc (r : raised).
Arguments Ret {A} a.
Arguments Exc {A} r.

(** [PostulacionesService.get]: [query(...).filter(id == id).first()]. *)
Definition get (d : db) (i : Z) : option postulacion := rows d !! i.

(** The keyword arguments of [create_from_upload]. *)
Record create_args := CreateArgs {
  a_nombre : string; a_apellido : string; a_correo : string; a_telefono : option string;
  a_puesto_id : option Z; a_unidad_id : option Z; a_nota : option string;
  a_cv_filename : string; a_cv_original : string; a_cv_mime : string; a_cv_size : Z;
  a_dni : option string; a_fecha_nacimiento : option Z; a_estado_civil : option string;
  a_hijos : option bool; a_domicilio_residencia : option string; a_localidad : option string
}.

(** The row [create_from_upload] inserts: [estado="nueva"], the original
    [puesto_id]/[unidad_id] copied into the [*_original_id] columns,
    [estado_civil] stripped, no decision, [created_at = now()]. *)
Definition new_row (i : Z) (a : create_args) (now : Z) : postulacion :=
  Postulacion i (Some (a_nombre a)) (Some (a_apellido a)) (Some (a_correo a)) (a_telefono a)
    (a_puesto_id a) (a_unidad_id a) (a_puesto_id a) (a_unidad_id a) "nueva" (a_nota a)
    (a_cv_filename a) (a_cv_original a) (a_cv_mime a) (a_cv_size a)
    (a_dni a) (a_fecha_nacimiento a) (PyStr.strip <$> a_estado_civil a) (a_hijos a)
    (a_domicilio_residencia a) (a_localidad a) None None None now.

(** [create_from_upload]: [db.add(obj)], [db.commit()] (the id is the
    next value of the auto-increment), [db.refresh(obj)].  The commit
    raises when a value is too long for its column or the position or
    unit does not exist; the session is then rolled back. *)
Definition create_from_upload (d : db) (a : create_args) (now : Z) : result (db * postulacion) :=
  let p := new_row (next_id d) a now in
  match commit_row d p with
  | Ok d' => Ok (with_rows d' (rows d') (next_id d + 1), p)
  | Raise e => Raise e
  end.

(** The row after the assignments of [decide]. *)
Definition decided (p : postulacion) (ne mo : string) (reviewer_user_id now : Z)
    (new_unidad_id new_puesto_id : option Z) : postulacion :=
  Postulacion (p_id p) (nombre p) (apellido p) (correo p) (telefono p)
    (if new_puesto_id is Some u then Some u else puesto_id p)
    (if new_unidad_id is Some u then Some u else unidad_id p) (puesto_original_id p)
    (unidad_original_id p) ne (nota p) (cv_filename p) (cv_original p) (cv_mime p)
    (cv_size p) (dni p) (fecha_nacimiento p) (estado_civil p) (hijos p)
    (domicilio_residencia p) (localidad p) (Some mo) (Some reviewer_user_id)
    (Some now) (created_at p).

(** [decide(id, new_estado=, motivo=, reviewer_user_id=, new_unidad_id=,
    new_puesto_id=)]; [new_estado] and [motivo] are [str], so
    [(x or "")] is [x]. *)
Definition decide (d : db) (i : Z) (new_estado motivo : string) (reviewer_user_id : Z)
    (new_unidad_id new_puesto_id : option Z) (now : Z) : outcome (db * postulacion) :=
  match get d i with
  | None => Exc (RValueError "No encontrado")
  | Some obj =>
      let ne := PyStr.strip new_estado in
      if String.eqb ne "" then Exc (RValueError "Estado no puede estar vacío")
      else if (32 <? String.length ne)%nat then Exc (RValueError "Estado demasiado largo (máx. 32)")
      else
        let mo := PyStr.strip motivo in
        if String.eqb mo "" then Exc (RValueError "Motivo obligatorio")
        else
          let obj' := decided obj ne mo reviewer_user_id now new_unidad_id new_puesto_id in
          match commit_row d obj' with
          | Ok d' => Ret (d', obj')
          | Raise e => Exc (RExc e)
          end
  end.

(** One item of [data.model_dump(exclude_unset=True)]: a field of
    [PostulacionUpdate] the request set, with its value ([None] when the
    request sent [null]). *)
Inductive upd_item :=
  | UNombre (v : option string)
  | UApellido (v : option string)
  | UCorreo (v : option string)
  | UTelefono (v : option string)
  | UPuestoId (v : option Z)
  | UUnidadId (v : option Z)
  | UNota (v : option string)
  | UDni (v : option string)
  | UFechaNacimiento (v : option Z)
  | UEstadoCivil (v : option string)
  | UHijos (v : option bool)
  | UDomicilioResidencia (v : option string)
  | ULocalidad (v : option string).

(** [PostulacionUpdate] ([src/Api/schemas/postulaciones.py]): each field
    is [None] when the request did not set it, [Some v] when it did. *)
Record PostulacionUpdate := MkPostulacionUpdate {
  u_nombre : option (option string);
  u_apellido : option (option string);
  u_correo : option (option string);
  u_telefono : option (option string);
  u_puesto_id : option (option Z);
  u_unidad_id : option (option Z);
  u_nota : option (option string);
  u_dni : option (option string);
  u_fecha_nacimiento : option (option Z);
  u_estado_civil : option (option string);
  u_hijos : option (option bool);
  u_domicilio_residencia : option (option string);
  u_localidad : option (option string)
}.

(** [data.model_dump(exclude_unset=True)]: the set fields, in declaration
    order. *)
Definition model_dump (u : PostulacionUpdate) : list upd_item :=
  omap id [
    UNombre <$> u_nombre u;
    UApellido <$> u_apellido u;
    UCorreo <$> u_correo u;
    UTelefono <$> u_telefono u;
    UPuestoId <$> u_puesto_id u;
    UUnidadId <$> u_unidad_id u;
    UNota <$> u_nota u;
    UDni <$> u_dni u;
    UFechaNacimiento <$> u_fecha_nacimiento u;
    UEstadoCivil <$> u_estado_civil u;
    UHijos <$> u_hijos u;
    UDomicilioResidencia <$> u_domicilio_residencia u;
    ULocalidad <$> u_localidad u].

(** [setattr(obj, k, v)] *)
Definition setattr (p : postulacion) (it : upd_item) : postulacion :=
  match it with
  | UNombre v =>
    Postulacion (p_id p) v (apellido p) (correo p) (telefono p) (puesto_id p)
      (unidad_id p) (puesto_original_id p) (unidad_original_id p) (estado p) (nota p)
      (cv_filename p) (cv_original p) (cv_mime p) (cv_size p) (dni p)
      (fecha_nacimiento p) (estado_civil p) (hijos p) (domicilio_residencia p)
      (localidad p) (decidido_motivo p) (decidido_por_user_id p) (decidido_en p)
      (created_at p)
  | UApellido v =>
    Postulacion (p_id p) (nombre p) v (correo p) (telefono p) (puesto_id p)
      (unidad_id p) (puesto_original_id p) (unidad_original_id p) (estado p) (nota p)
      (cv_filename p) (cv_original p) (cv_mime p) (cv_size p) (dni p)
      (fecha_nacimiento p) (estado_civil p) (hijos p) (domicilio_residencia p)
      (localidad p) (decidido_motivo p) (decidido_por_user_id p) (decidido_en p)
      (created_at p)
  | UCorreo v =>
    Postulacion (p_id p) (nombre p) (apellido p) v (telefono p) (puesto_id p)
      (unidad_id p) (puesto_original_id p) (unidad_original_id p) (estado p) (nota p)
      (cv_filename p) (cv_original p) (cv_mime p) (cv_size p) (dni p)
      (fecha_nacimiento p) (estado_civil p) (hijos p) (domicilio_residencia p)
      (localidad p) (decidido_motivo p) (decidido_por_user_id p) (decidido_en p)
      (created_at p)
  | UTelefono v =>
    Postulacion (p_id p) (nombre p) (apellido p) (correo p) v (puesto_id p)
      (unidad_id p) (puesto_original_id p) (unidad_original_id p) (estado p) (nota p)
      (cv_filename p) (cv_original p) (cv_mime p) (cv_size p) (dni p)
      (fecha_nacimiento p) (estado_civil p) (hijos p) (domicilio_residencia p)
      (localidad p) (decidido_motivo p) (decidido_por_user_id p) (decidido_en p)
      (created_at p)
  | UPuestoId v =>
    Postulacion (p_id p) (nombre p) (apellido p) (correo p) (telefono p) v (unidad_id p)
      (puesto_original_id p) (unidad_original_id p) (estado p) (nota p) (cv_filename p)
      (cv_original p) (cv_mime p) (cv_size p) (dni p) (fecha_nacimiento p)
      (estado_civil p) (hijos p) (domicilio_residencia p) (localidad p)
      (decidido_motivo p) (decidido_por_user_id p) (decidido_en p) (created_at p)
  | UUnidadId v =>
    Postulacion (p_id p) (nombre p) (apellido p) (correo p) (telefono p) (puesto_id p) v
      (puesto_original_id p) (unidad_original_id p) (estado p) (nota p) (cv_filename p)
      (cv_original p) (cv_mime p) (cv_size p) (dni p) (fecha_nacimiento p)
      (estado_civil p) (hijos p) (domicilio_residencia p) (localidad p)
      (decidido_motivo p) (decidido_por_user_id p) (decidido_en p) (created_at p)
  | UNota v =>
    Postulacion (p_id p) (nombre p) (apellido p) (correo p) (telefono p) (puesto_id p)
      (unidad_id p) (puesto_original_id p) (unidad_original_id p) (estado p) v
      (cv_filename p) (cv_original p) (cv_mime p) (cv_size p) (dni p)
      (fecha_nacimiento p) (estado_civil p) (hijos p) (domicilio_residencia p)
      (localidad p) (decidido_motivo p) (decidido_por_user_id p) (decidido_en p)
      (created_at p)
  | UDni v =>
    Postulacion (p_id p) (nombre p) (apellido p) (correo p) (telefono p) (puesto_id p)
      (unidad_id p) (puesto_original_id p) (unidad_original_id p) (estado p) (nota p)
      (cv_filename p) (cv_original p) (cv_mime p) (cv_size p) v (fecha_nacimiento p)
      (estado_civil p) (hijos p) (domicilio_residencia p) (localidad p)
      (decidido_motivo p) (decidido_por_user_id p) (decidido_en p) (created_at p)
  | UFechaNacimiento v =>
    Postulacion (p_id p) (nombre p) (apellido p) (correo p) (telefono p) (puesto_id p)
      (unidad_id p) (puesto_original_id p) (unidad_original_id p) (estado p) (nota p)
      (cv_filename p) (cv_original p) (cv_mime p) (cv_size p) (dni p) v (estado_civil p)
      (hijos p) (domicilio_residencia p) (localidad p) (decidido_motivo p)
      (decidido_por_user_id p) (decidido_en p) (created_at p)
  | UEstadoCivil v =>
    Postulacion (p_id p) (nombre p) (apellido p) (correo p) (telefono p) (puesto_id p)
      (unidad_id p) (puesto_original_id p) (unidad_original_id p) (estado p) (nota p)
      (cv_filename p) (cv_original p) (cv_mime p) (cv_size p) (dni p)
      (fecha_nacimiento p) v (hijos p) (domicilio_residencia p) (localidad p)
      (decidido_motivo p) (decidido_por_user_id p) (decidido_en p) (created_at p)
  | UHijos v =>
    Postulacion (p_id p) (nombre p) (apellido p) (correo p) (telefono p) (puesto_id p)
      (unidad_id p) (puesto_original_id p) (unidad_original_id p) (estado p) (nota p)
      (cv_filename p) (cv_original p) (cv_mime p) (cv_size p) (dni p)
      (fecha_nacimiento p) (estado_civil p) v (domicilio_residencia p) (localidad p)
      (decidido_motivo p) (decidido_por_user_id p) (decidido_en p) (created_at p)
  | UDomicilioResidencia v =>
    Postulacion (p_id p) (nombre p) (apellido p) (correo p) (telefono p) (puesto_id p)
      (unidad_id p) (puesto_original_id p) (unidad_original_id p) (estado p) (nota p)
      (cv_filename p) (cv_original p) (cv_mime p) (cv_size p) (dni p)
      (fecha_nacimiento p) (estado_civil p) (hijos p) v (localidad p)
      (decidido_motivo p) (decidido_por_user_id p) (decidido_en p) (created_at p)
  | ULocalidad v =>
    Postulacion (p_id p) (nombre p) (apellido p) (correo p) (telefono p) (puesto_id p)
      (unidad_id p) (puesto_original_id p) (unidad_original_id p) (estado p) (nota p)
      (cv_filename p) (cv_original p) (cv_mime p) (cv_size p) (dni p)
      (fecha_nacimiento p) (estado_civil p) (hijos p) (domicilio_residencia p) v
      (decidido_motivo p) (decidido_por_user_id p) (decidido_en p) (created_at p)
  end.


(** [update(id, data)]: [None] when the row does not exist.  The three
    [payload.pop(...)] calls remove keys [PostulacionUpdate] does not
    declare (pydantic ignores such fields of the request), so they never
    remove anything. *)
Definition update (d : db) (i : Z) (data : PostulacionUpdate)
  : outcome (option (db * postulacion)) :=
  match get d i with
  | None => Ret None
  | Some obj =>
      let obj' := fold_left setattr (model_dump data) obj in
      match commit_row d obj' with
      | Ok d' => Ret (Some (d', obj'))
      | Raise e => Exc (RExc e)
      end
  end.

(** [delete(id)] *)
Definition delete (d : db) (i : Z) : db * bool :=
  match get d i with
  | None => (d, false)
  | Some _ => (with_rows d (base.delete i (rows d)) (next_id d), true)
  end.

(** The row [update] is meant to produce: every field the request set
    takes the requested value, every other column keeps its value. *)
Definition patched (p : postulacion) (u : PostulacionUpdate) : postulacion :=
  Postulacion (p_id p) (default (nombre p) (u_nombre u))
    (default (apellido p) (u_apellido u)) (default (correo p) (u_correo u))
    (default (telefono p) (u_telefono u)) (default (puesto_id p) (u_puesto_id u))
    (default (unidad_id p) (u_unidad_id u)) (puesto_original_id p)
    (unidad_original_id p) (estado p) (default (nota p) (u_nota u)) (cv_filename p)
    (cv_original p) (cv_mime p) (cv_size p) (default (dni p) (u_dni u))
    (default (fecha_nacimiento p) (u_fecha_nacimiento u))
    (default (estado_civil p) (u_estado_civil u)) (default (hijos p) (u_hijos u))
    (default (domicilio_residencia p) (u_domicilio_residencia u))
    (default (localidad p) (u_localidad u)) (decidido_motivo p) (decidido_por_user_id p)
    (decidido_en p) (created_at p).

(** The columns that [update] must not change: the key, [estado] (changed
    only by [decide]), the original unit and position, the file, the
    decision audit and the creation time. *)
Definition protected (p : postulacion) :=
  (p_id p, estado p, puesto_original_id p, unidad_original_id p,
   (cv_filename p, cv_original p, cv_mime p, cv_size p),
   (decidido_motivo p, decidido_por_user_id p, decidido_en p), created_at p).

(** ** Lemmas *)

Lemma fold_omap_cons (o : option upd_item) os p :
  fold_left setattr (omap id (o :: os)) p = fold_left setattr (omap id os) (from_option (setattr p) p o).
Proof. by destruct o. Qed.
Lemma setattr_opt_nombre q o :
  from_option (setattr q) q (UNombre <$> o) = setattr q (UNombre (default (nombre q) o)).
Proof. by destruct o, q. Qed.
Lemma setattr_opt_apellido q o :
  from_option (setattr q) q (UApellido <$> o) = setattr q (UApellido (default (apellido q) o)).
Proof. by destruct o, q. Qed.
Lemma setattr_opt_correo q o :
  from_option (setattr q) q (UCorreo <$> o) = setattr q (UCorreo (default (correo q) o)).
Proof. by destruct o, q. Qed.
Lemma setattr_opt_telefono q o :
  from_option (setattr q) q (UTelefono <$> o) = setattr q (UTelefono (default (telefono q) o)).
Proof. by destruct o, q. Qed.
Lemma setattr_opt_puesto_id q o :
  from_option (setattr q) q (UPuestoId <$> o) = setattr q (UPuestoId (default (puesto_id q) o)).
Proof. by destruct o, q. Qed.
Lemma setattr_opt_unidad_id q o :
  from_option (setattr q) q (UUnidadId <$> o) = setattr q (UUnidadId (default (unidad_id q) o)).
Proof. by destruct o, q. Qed.
Lemma setattr_opt_nota q o :
  from_option (setattr q) q (UNota <$> o) = setattr q (UNota (default (nota q) o)).
Proof. by destruct o, q. Qed.
Lemma setattr_opt_dni q o :
  from_option (setattr q) q (UDni <$> o) = setattr q (UDni (default (dni q) o)).
Proof. by destruct o, q. Qed.
Lemma setattr_opt_fecha_nacimiento q o :
  from_option (setattr q) q (UFechaNacimiento <$> o) = setattr q (UFechaNacimiento (default (fecha_nacimiento q) o)).
Proof. by destruct o, q. Qed.
Lemma setattr_opt_estado_civil q o :
  from_option (setattr q) q (UEstadoCivil <$> o) = setattr q (UEstadoCivil (default (estado_civil q) o)).
Proof. by destruct o, q. Qed.
Lemma setattr_opt_hijos q o :
  from_option (setattr q) q (UHijos <$> o) = setattr q (UHijos (default (hijos q) o)).
Proof. by destruct o, q. Qed.
Lemma setattr_opt_domicilio_residencia q o :
  from_option (setattr q) q (UDomicilioResidencia <$> o) = setattr q (UDomicilioResidencia (default (domicilio_residencia q) o)).
Proof. by destruct o, q. Qed.
Lemma setattr_opt_localidad q o :
  from_option (setattr q) q (ULocalidad <$> o) = setattr q (ULocalidad (default (localidad q) o)).
Proof. by destruct o, q. Qed.

(** The [setattr] loop over [model_dump] computes [patched]. *)
Lemma update_fold_patched p u : fold_left setattr (model_dump u) p = patched p u.
Proof.
  unfold model_dump. rewrite !fold_omap_cons. cbn [omap fold_left].
  rewrite setattr_opt_nombre, setattr_opt_apellido, setattr_opt_correo, setattr_opt_telefono,
    setattr_opt_puesto_id, setattr_opt_unidad_id, setattr_opt_nota, setattr_opt_dni,
    setattr_opt_fecha_nacimiento, setattr_opt_estado_civil, setattr_opt_hijos,
    setattr_opt_domicilio_residencia, setattr_opt_localidad.
  by destruct p.
Qed.

Lemma not_null_decided p ne mo r now nu np :
  not_null_ok (decided p ne mo r now nu np) = not_null_ok p.
Proof. reflexivity. Qed.

Lemma not_null_patched p u :
  not_null_ok (patched p u) = true <->
  is_Some (default (nombre p) (u_nombre u)) /\ is_Some (default (apellido p) (u_apellido u)) /\
  is_Some (default (correo p) (u_correo u)).
Proof. apply not_null_ok_iff. Qed.

(** The decision changes only [estado] and [decidido_motivo] among the
    [String(n)] columns. *)
Lemma lengths_decided p ne mo r now nu np :
  lengths_ok p = true ->
  lengths_ok (decided p ne mo r now nu np) =
  bool_decide (String.length ne <= 32)%nat && bool_decide (String.length mo <= 255)%nat.
Proof.
  destruct p. unfold lengths_ok. simpl. intros H. split_andb.
  repeat match goal with H : ?b = true |- _ => try rewrite H; clear H end.
  by rewrite ?andb_true_r.
Qed.

(** The decision refers to the reviewer and, when given, to a new unit
    and position; the other references of the row are kept. *)
Lemma fk_decided d p ne mo r now nu np :
  fk_ok d p = true ->
  fk_ok d (decided p ne mo r now nu np) =
  ref_ok (puesto_ids d) np && ref_ok (unidad_ids d) nu && bool_decide (r ∈ usuario_ids d).
Proof.
  destruct p. unfold fk_ok. simpl. intros H. split_andb.
  destruct nu, np; simpl;
    repeat match goal with H : ?b = true |- _ => try rewrite H; clear H end;
    by rewrite ?andb_true_r.
Qed.

Lemma row_ok_decided d p ne mo r now nu np :
  row_ok d p = true ->
  row_ok d (decided p ne mo r now nu np) =
  bool_decide (String.length ne <= 32)%nat && bool_decide (String.length mo <= 255)%nat &&
  (ref_ok (puesto_ids d) np && ref_ok (unidad_ids d) nu && bool_decide (r ∈ usuario_ids d)).
Proof.
  intros (Hl & Hn & Hf)%row_ok_iff. unfold row_ok.
  by rewrite lengths_decided, not_null_decided, fk_decided, Hn, andb_true_r.
Qed.

(** An update refers to a new unit and position when it sets them; the
    other references of the row are kept. *)
Lemma fk_patched d p u :
  fk_ok d p = true ->
  fk_ok d (patched p u) =
  ref_ok (puesto_ids d) (default (puesto_id p) (u_puesto_id u)) &&
  ref_ok (unidad_ids d) (default (unidad_id p) (u_unidad_id u)).
Proof.
  destruct p. unfold fk_ok. simpl. intros H. split_andb.
  repeat match goal with H : ?b = true |- _ => try rewrite H; clear H end.
  by rewrite ?andb_true_r.
Qed.

Lemma ref_ok_default_false ids o (v : option (option Z)) :
  ref_ok ids o = true -> ref_ok ids (default o v) = false ->
  exists x, v = Some (Some x) /\ x ∉ ids.
Proof.
  destruct v as [[x|]|]; simpl; [|done|congruence].
  intros _ Hx%bool_decide_eq_false. eauto.
Qed.

Lemma fk_new_row d i a now :
  fk_ok d (new_row i a now) = ref_ok (puesto_ids d) (a_puesto_id a) && ref_ok (unidad_ids d) (a_unidad_id a).
Proof. unfold fk_ok. simpl. by destruct (ref_ok _ (a_puesto_id a)), (ref_ok _ (a_unidad_id a)). Qed.

(** The statement of [decide_spec], proved once for the lemmas that build on it. *)
Lemma decide_spec_core d i ne mo r nu np now :
  wf d ->
  match decide d i ne mo r nu np now with
  | Ret (d', obj') =>
      exists obj, get d i = Some obj /\
        PyStr.strip ne <> "" /\ (String.length (PyStr.strip ne) <= 32)%nat /\
        PyStr.strip mo <> "" /\ (String.length (PyStr.strip mo) <= 255)%nat /\
        r ∈ usuario_ids d /\ ref_ok (unidad_ids d) nu = true /\ ref_ok (puesto_ids d) np = true /\
        estado obj' = PyStr.strip ne /\ decidido_motivo obj' = Some (PyStr.strip mo) /\
        decidido_por_user_id obj' = Some r /\ decidido_en obj' = Some now /\
        p_id obj' = i /\ puesto_original_id obj' = puesto_original_id obj /\
        unidad_original_id obj' = unidad_original_id obj /\
        rows d' = <[i := obj']> (rows d) /\ wf d'
  | Exc (RValueError msg) =>
      (get d i = None /\ msg = "No encontrado") \/
      (is_Some (get d i) /\ PyStr.strip ne = "" /\ msg = "Estado no puede estar vacío") \/
      (is_Some (get d i) /\ PyStr.strip ne <> "" /\ (32 < String.length (PyStr.strip ne))%nat /\
         msg = "Estado demasiado largo (máx. 32)") \/
      (is_Some (get d i) /\ PyStr.strip ne <> "" /\ (String.length (PyStr.strip ne) <= 32)%nat /\
         PyStr.strip mo = "" /\ msg = "Motivo obligatorio")
  | Exc (RExc e) =>
      is_Some (get d i) /\ PyStr.strip ne <> "" /\ (String.length (PyStr.strip ne) <= 32)%nat /\
      PyStr.strip mo <> "" /\
      ((e = DataError /\ (255 < String.length (PyStr.strip mo))%nat) \/
       (e = IntegrityError /\ (String.length (PyStr.strip mo) <= 255)%nat /\
        (r ∉ usuario_ids d \/ ref_ok (unidad_ids d) nu = false \/ ref_ok (puesto_ids d) np = false)))
  end.
Proof.
  intros Hwf. unfold decide, get.
  destruct (rows d !! i) as [obj|] eqn:Hg; [|by left].
  destruct (wf_lookup d i obj Hwf Hg) as (Hid & Hrow & Hlt).
  destruct (String.eqb_spec (PyStr.strip ne) "") as [He|He]; [right; left; eauto|].
  destruct (32 <? String.length (PyStr.strip ne))%nat eqn:Hl.
  { apply Nat.ltb_lt in Hl. right; right; left. eauto 6. }
  apply Nat.ltb_ge in Hl.
  destruct (String.eqb_spec (PyStr.strip mo) "") as [Hm|Hm]; [right; right; right; eauto 7|].
  pose proof (row_ok_decided d obj (PyStr.strip ne) (PyStr.strip mo) r now nu np Hrow) as Hr.
  pose proof (proj1 (row_ok_iff d obj) Hrow) as (Hlen & _).
  rewrite commit_row_cases, Hr, lengths_decided by done.
  rewrite (bool_decide_eq_true_2 (String.length (PyStr.strip ne) <= 32)%nat) by done.
  destruct (base.decide (String.length (PyStr.strip mo) <= 255)%nat) as [Hmo|Hmo];
    [rewrite (bool_decide_eq_true_2 _ Hmo) | rewrite (bool_decide_eq_false_2 _ Hmo)]; simpl;
    [|split_and!; eauto; left; split; [done|lia]].
  destruct (ref_ok (puesto_ids d) np) eqn:Hp, (ref_ok (unidad_ids d) nu) eqn:Hu; simpl;
    try (split_and!; eauto; right; split_and!; eauto; fail).
  destruct (base.decide (r ∈ usuario_ids d)) as [Hr'|Hr'];
    [rewrite (bool_decide_eq_true_2 _ Hr') | rewrite (bool_decide_eq_false_2 _ Hr')]; simpl;
    [|split_and!; eauto; right; split_and!; eauto].
  exists obj. subst i. do 16 (split; [done|]).
  apply wf_insert; [done | done | | done | done].
  rewrite Hr. by rewrite !bool_decide_eq_true_2.
Qed.

(** (C10) [decide] on a well-formed table, on every path: it fails with
    [ValueError("No encontrado")] exactly when the row is missing, then
    with the message of the first validation that fails ([estado] empty
    or longer than 32 characters after [strip()], [motivo] empty after
    [strip()]); then the commit raises [DataError] when the stripped
    [motivo] is longer than its [String(255)] column, and
    [IntegrityError] when the reviewer is not a row of [usuarios] or the
    new unit or position does not exist.  Otherwise it commits the row
    with the stripped [estado], the stripped [motivo], the reviewer and
    the time of the decision, keeps the original unit and position, and
    the table stays well formed. *)
Theorem decide_spec d i ne mo r nu np now :
  wf d ->
  match decide d i ne mo r nu np now with
  | Ret (d', obj') =>
      exists obj, get d i = Some obj /\
        PyStr.strip ne <> "" /\ (String.length (PyStr.strip ne) <= 32)%nat /\
        PyStr.strip mo <> "" /\ (String.length (PyStr.strip mo) <= 255)%nat /\
        r ∈ usuario_ids d /\ ref_ok (unidad_ids d) nu = true /\ ref_ok (puesto_ids d) np = true /\
        estado obj' = PyStr.strip ne /\ decidido_motivo obj' = Some (PyStr.strip mo) /\
        decidido_por_user_id obj' = Some r /\ decidido_en obj' = Some now /\
        p_id obj' = i /\ puesto_original_id obj' = puesto_original_id obj /\
        unidad_original_id obj' = unidad_original_id obj /\
        rows d' = <[i := obj']> (rows d) /\ wf d'
  | Exc (RValueError msg) =>
      (get d i = None /\ msg = "No encontrado") \/
      (is_Some (get d i) /\ PyStr.strip ne = "" /\ msg = "Estado no puede estar vacío") \/
      (is_Some (get d i) /\ PyStr.strip ne <> "" /\ (32 < String.length (PyStr.strip ne))%nat /\
         msg = "Estado demasiado largo (máx. 32)") \/
      (is_Some (get d i) /\ PyStr.strip ne <> "" /\ (String.length (PyStr.strip ne) <= 32)%nat /\
         PyStr.strip mo = "" /\ msg = "Motivo obligatorio")
  | Exc (RExc e) =>
      is_Some (get d i) /\ PyStr.strip ne <> "" /\ (String.length (PyStr.strip ne) <= 32)%nat /\
      PyStr.strip mo <> "" /\
      ((e = DataError /\ (255 < String.length (PyStr.strip mo))%nat) \/
       (e = IntegrityError /\ (String.length (PyStr.strip mo) <= 255)%nat /\
        (r ∉ usuario_ids d \/ ref_ok (unidad_ids d) nu = false \/ ref_ok (puesto_ids d) np = false)))
  end.
Proof. apply decide_spec_core. Qed.

(** (C11) [update] on a well-formed table, on every path: [None] when the
    row is missing; otherwise the row becomes [patched] (the requested
    fields set, every other column kept) and the table stays well formed,
    unless the commit refuses it: [DataError] when a requested value is
    longer than its [String(n)] column, otherwise [IntegrityError]
    exactly when the request sets [nombre], [apellido] or [correo] to
    [null] (which [PostulacionUpdate] accepts) or sets [puesto_id] or
    [unidad_id] to an id that does not exist. *)
Theorem update_spec d i u :
  wf d ->
  match update d i u with
  | Ret None => get d i = None
  | Ret (Some (d', obj')) =>
      exists obj, get d i = Some obj /\ obj' = patched obj u /\ row_ok d obj' = true /\
        rows d' = <[i := obj']> (rows d) /\ next_id d' = next_id d /\ wf d'
  | Exc e =>
      exists obj, get d i = Some obj /\
      ((e = RExc DataError /\ lengths_ok (patched obj u) = false) \/
       (e = RExc IntegrityError /\ lengths_ok (patched obj u) = true /\
        (u_nombre u = Some None \/ u_apellido u = Some None \/ u_correo u = Some None \/
         (exists v, u_puesto_id u = Some (Some v) /\ v ∉ puesto_ids d) \/
         (exists v, u_unidad_id u = Some (Some v) /\ v ∉ unidad_ids d))))
  end.
Proof.
  intros Hwf. unfold update, get.
  destruct (rows d !! i) as [obj|] eqn:Hg; [|done].
  destruct (wf_lookup d i obj Hwf Hg) as (Hid & Hrow & Hlt).
  apply row_ok_iff in Hrow as Hrow'. destruct Hrow' as (_ & Hnn & Hfk).
  rewrite update_fold_patched, commit_row_cases.
  destruct (row_ok d (patched obj u)) eqn:Hr; cbv beta iota zeta.
  { exists obj. subst i. do 5 (split; [done|]). by apply wf_insert. }
  destruct (lengths_ok (patched obj u)) eqn:Hl; cbv beta iota zeta;
    exists obj; (split; [done|]); [right|by left].
  split_and!; [done|done|]. unfold row_ok in Hr. rewrite Hl in Hr. simpl in Hr.
  apply andb_false_iff in Hr as [Hn|Hf].
  - apply not_null_ok_iff in Hnn as (H1 & H2 & H3).
    assert (Hp : ~ (is_Some (default (nombre obj) (u_nombre u)) /\
                    is_Some (default (apellido obj) (u_apellido u)) /\
                    is_Some (default (correo obj) (u_correo u))))
      by (rewrite <- not_null_patched; congruence).
    destruct (u_nombre u) as [[]|], (u_apellido u) as [[]|], (u_correo u) as [[]|];
      simpl in Hp; naive_solver.
  - unfold fk_ok in Hfk. split_andb.
    rewrite fk_patched in Hf by (unfold fk_ok; repeat (apply andb_true_iff; split); done).
    apply andb_false_iff in Hf as [Hf|Hf].
    + do 3 right; left. eapply ref_ok_default_false; [|exact Hf]; done.
    + do 4 right. eapply ref_ok_default_false; [|exact Hf]; done.
Qed.

(** [update] never changes the key, [estado] (which only [decide]
    changes), the original unit and position, the stored file, the
    decision audit or the creation time of the row, whatever the request
    sets. *)
Theorem update_protected d i u d' obj obj' :
  get d i = Some obj -> update d i u = Ret (Some (d', obj')) -> protected obj' = protected obj.
Proof.
  unfold update. intros ->. rewrite update_fold_patched.
  destruct (commit_row d (patched obj u)); [|done]. by intros [= _ <-].
Qed.

(** [create_from_upload] on a well-formed table inserts [new_row] under a
    fresh key (in state "nueva", with the original unit and position
    equal to the requested ones and no decision), or fails with the
    error of the commit: [DataError] for a value too long for its column,
    otherwise [IntegrityError] for a position or unit that does not
    exist. *)
Lemma create_spec d a now :
  wf d ->
  match create_from_upload d a now with
  | Ok (d', p) =>
      p = new_row (next_id d) a now /\
      get d (p_id p) = None /\ rows d' = <[p_id p := p]> (rows d) /\ next_id d' = next_id d + 1 /\
      wf d' /\ estado p = "nueva" /\ puesto_original_id p = a_puesto_id a /\
      unidad_original_id p = a_unidad_id a /\ decidido_en p = None
  | Raise e =>
      (e = DataError /\ lengths_ok (new_row (next_id d) a now) = false) \/
      (e = IntegrityError /\ lengths_ok (new_row (next_id d) a now) = true /\
       (ref_ok (puesto_ids d) (a_puesto_id a) = false \/ ref_ok (unidad_ids d) (a_unidad_id a) = false))
  end.
Proof.
  intros Hwf. unfold create_from_upload. rewrite commit_row_cases.
  destruct (row_ok d (new_row (next_id d) a now)) eqn:Hr; cbv beta iota zeta.
  - split_and!; try done.
    + unfold get. destruct (rows d !! next_id d) as [q|] eqn:Hq; [|done].
      destruct (wf_lookup d _ q Hwf Hq) as (_ & _ & Hlt). lia.
    + apply (wf_insert d); simpl; [done|done|done|lia|lia].
  - destruct (lengths_ok (new_row (next_id d) a now)) eqn:Hl; cbv beta iota zeta; [right|by left].
    split_and!; [done|done|]. unfold row_ok in Hr. rewrite Hl, fk_new_row in Hr.
    simpl in Hr. by apply andb_false_iff in Hr.
Qed.

(** [delete] reports whether the row existed and removes exactly it. *)
Lemma delete_spec d i :
  let '(d', ok) := delete d i in
  ok = bool_decide (is_Some (get d i)) /\ rows d' = base.delete i (rows d) /\
  next_id d' = next_id d /\ (wf d -> wf d').
Proof.
  unfold delete, get. destruct (rows d !! i) eqn:Hg; cbn [fst snd rows next_id].
  - split; [by rewrite bool_decide_eq_true_2|]. do 2 (split; [done|]).
    intros Hwf. by apply map_Forall_delete.
  - split; [by rewrite bool_decide_eq_false_2; [|intros []]|].
    split; [by rewrite delete_id|]. by split.
Qed.

End Service.

Module Router.
Import Json Store Service Mailer Templates.

Local Open Scope Z_scope.
Local Open Scope py_scope.

(** A handler's response: the status and the body, or the status and
    [detail] of the [HTTPException] it raises. *)
Inductive response (A : Type) :=
  | Resp (status : Z) (body : A)
  | HTTPError (status : Z) (detail : string).
Arguments Resp {A} status body.
Arguments HTTPError {A} status detail.

(** What a request does: the database after it, the response, and the
    [manager.broadcast(event_type, data)] calls scheduled with
    [background_tasks.add_task], which run after the response.  An
    exception the handler does not catch is a [Raise] (a 500 response,
    the session rolled back). *)
Record handled (A : Type) := Handled {
  h_db : db;
  h_resp : response A;
  h_tasks : list (string * json)
}.
Arguments Handled {A} h_db h_resp h_tasks.
Arguments h_db {A} _.
Arguments h_resp {A} _.
Arguments h_tasks {A} _.

(** [PostulacionDecisionIn] after validation. *)
Record decision_in := DecisionIn {
  di_estado : string; di_motivo : string; di_unidad_id : option Z; di_puesto_id : option Z
}.

(** Pydantic's validation of the request body of [decidir]: the length
    constraints of [Field(...)] on the raw strings, then the validator
    [_normalize_estado] (strip, reject the empty result); [None] is the
    422 response. *)
Definition validate_decision (estado motivo : string) (unidad_id puesto_id : option Z)
  : option decision_in :=
  if bool_decide (1 <= String.length estado <= 32)%nat &&
     bool_decide (3 <= String.length motivo <= 255)%nat
  then
    let v := PyStr.strip estado in
    if String.eqb v "" then None else Some (DecisionIn v motivo unidad_id puesto_id)
  else None.

(** The payload of the domain events, [{"id": obj.id, "estado": obj.estado}]. *)
Definition event_payload (obj : postulacion) : json :=
  JObj [("id", JInt (p_id obj)); ("estado", JStr (estado obj))].

(** [(estado or "").strip().lower()]; the column is NOT NULL, so
    [estado or ""] is [estado]. *)
Definition norm_estado (e : string) : string := PyStr.lower (PyStr.strip e).

(** The dict [res] before the loop of [counts_por_estado]. *)
Definition counts_init : list (string * Z) :=
  [("nueva", 0); ("destacada", 0); ("posible", 0); ("descartada", 0)].

(** One iteration of [for estado, cnt in rows:]. *)
Definition counts_step (acc : list (string * Z) * Z) (row : string * Z) : list (string * Z) * Z :=
  let '(res, total) := acc in
  let '(e, cnt) := row in
  let total := total + cnt in
  let key := norm_estado e in
  if PyDict.contains res key
  then (PyDict.setitem res key (default 0 (PyDict.get res key) + cnt), total)
  else (res, total).

(** [counts_por_estado] on the rows of its [GROUP BY] query. *)
Definition counts_por_estado (rows : list (string * Z)) : list (string * Z) :=
  let '(res, total) := fold_left counts_step rows (counts_init, 0) in
  PyDict.setitem res "total" total.

(** The form fields [create_postulacion] passes on ([Form(...)]). *)
Record create_form := CreateForm {
  f_nombre : string; f_apellido : string; f_correo : string; f_telefono : option string;
  f_puesto_id : option Z; f_unidad_id : option Z; f_nota : option string;
  f_dni : option string; f_fecha_nacimiento : option Z; f_estado_civil : option string;
  f_hijos : option bool; f_domicilio_residencia : option string; f_localidad : option string
}.

(** What the handler reads from the environment and the outside world:
    the file and mail configuration, [ADMIN_EMAILS], what the SMTP
    server does, and [ADMIN_DASHBOARD_URL] after its [rstrip("/")]. *)
Record app_env := AppEnv {
  e_files : Files.config;
  e_mail : mail_config;
  e_net : mode -> send_outcome;
  e_admin_emails : list string;
  e_dashboard_url : string
}.

(** [ADMIN_EMAILS = [e.strip() for e in os.getenv("ADMIN_EMAILS", "").split(",") if e.strip()]] *)
Definition parse_admin_emails (env : string) : list string :=
  PyStr.strip <$> filter (fun e => PyStr.strip e <> "") (Files.py_split ","%char env).

(** [if unidad_id: un = db.query(UnidadNegocio).filter(...).first();
    unidad_nombre = un.nombre if un else None] *)
Definition unidad_nombre (d : db) (unidad_id : option Z) : option string :=
  match unidad_id with
  | Some u => if u =? 0 then None else snd <$> head (filter (fun x => x.1 = u) (unidades d))
  | None => None
  end.

(** The same for the position. *)
Definition puesto_nombre (d : db) (puesto_id : option Z) : option string :=
  match puesto_id with
  | Some u => if u =? 0 then None else pu_nombre <$> head (filter (fun x => pu_id x = u) (puestos d))
  | None => None
  end.

(** What [create_postulacion] does: the database and the file system
    after it, its response or the exception it lets through (a 500), the
    [send_mail] calls it made (recipients and outcome; an exception of
    [send_mail] is caught and printed), and the broadcasts it
    scheduled. *)
Record created := Created {
  c_db : db;
  c_fs : list string;
  c_resp : result (response postulacion);
  c_mails : list (list string * result sent);
  c_tasks : list (string * json)
}.

(** [create_postulacion]; [upload_now] is the clock [build_cv_filename]
    reads, [now] the [func.now()] of the insert ([created_at]), [fuel]
    bounds the [unique_path] loop.  [TIMEZONE] is the variable of the
    files' configuration, read with its default "UTC" by the templates.
    The file is saved before the insert, so an insert the database
    refuses leaves it on disk. *)
Definition create_postulacion (env : app_env) (d : db) (fs : list string) (form : create_form)
    (cv : Files.upload) (upload_now now : Z) (fuel : nat)
  : option created :=
  match Files.save_upload_file_cv (e_files env) fs cv (f_nombre form) (f_apellido form) upload_now fuel with
  | None => None
  | Some (Files.Refused fs' status detail) => Some (Created d fs' (Ok (HTTPError status detail)) [] [])
  | Some (Files.Failed fs' e) => Some (Created d fs' (Raise e) [] [])
  | Some (Files.Saved fs' stored size mime) =>
      let cv_original := match Files.up_filename cv with
                         | Some f => if String.eqb f "" then "cv" else f
                         | None => "cv"
                         end in
      let args := CreateArgs (f_nombre form) (f_apellido form) (f_correo form) (f_telefono form)
                    (f_puesto_id form) (f_unidad_id form) (f_nota form) stored cv_original mime size
                    (f_dni form) (f_fecha_nacimiento form) (f_estado_civil form) (f_hijos form)
                    (f_domicilio_residencia form) (f_localidad form) in
      match create_from_upload d args now with
      | Raise e => Some (Created d fs' (Raise e) [] [])
      | Ok (d', obj) =>
      let un := unidad_nombre d' (f_unidad_id form) in
      let pu := puesto_nombre d' (f_puesto_id form) in
      let n := default "" (nombre obj) in
      let a := default "" (apellido obj) in
      let c := default "" (correo obj) in
      let zi := Files.zoneinfo (e_files env) in
      let tz := templates_timezone (Files.timezone (e_files env)) in
      let '(subj_c, html_c, text_c) := candidate_confirmation zi tz n a (created_at obj) in
      let mail_c := ([c], send_mail (e_mail env) (e_net env) subj_c [c] html_c (Some text_c)) in
      let mail_a := match e_admin_emails env with
                    | [] => []
                    | admins =>
                        let '(subj_a, html_a, text_a) :=
                          admin_new_cv zi tz (e_dashboard_url env) (p_id obj) n a c (telefono obj) un pu
                            (created_at obj) in
                        [(admins, send_mail (e_mail env) (e_net env) subj_a admins html_a (Some text_a))]
                    end in
      Some (Created d' fs' (Ok (Resp 201 obj)) (mail_c :: mail_a)
              [("POSTULACION_CREATED", JObj [("id", JInt (p_id obj)); ("estado", JStr "nueva")])])
      end
  end.

(** [get_postulacion] *)
Definition get_postulacion (d : db) (pid : Z) : handled postulacion :=
  match get d pid with
  | Some obj => Handled d (Resp 200 obj) []
  | None => Handled d (HTTPError 404 "No encontrado") []
  end.

(** [decidir_postulacion]; [jwt] is the token payload [admin_required]
    returned. *)
Definition decidir_postulacion (d : db) (pid : Z) (payload : decision_in) (jwt : json)
    (now : Z) : result (handled postulacion) :=
  let? uid := py_get jwt "uid" (JInt 0) in
  let? reviewer_id := py_int (py_or uid (JInt 0)) in
  if reviewer_id =? 0 then Ok (Handled d (HTTPError 401 "No autenticado") [])
  else
    match decide d pid (di_estado payload) (di_motivo payload) reviewer_id None None now with
    | Ret (d', obj) =>
        Ok (Handled d' (Resp 200 obj) [("POSTULACION_UPDATED", event_payload obj)])
    | Exc (RValueError msg) =>
        if PyStr.contains "No encontrado" msg then Ok (Handled d (HTTPError 404 msg) [])
        else Ok (Handled d (HTTPError 400 msg) [])
    | Exc (RExc e) => Raise e
    end.

(** [update_postulacion]: [return obj] inside the [try] ends the handler,
    so the [add_task] after the [try] statement is never reached. *)
Definition update_postulacion (d : db) (pid : Z) (payload : PostulacionUpdate)
  : result (handled postulacion) :=
  match update d pid payload with
  | Ret None => Ok (Handled d (HTTPError 404 "No encontrado") [])
  | Ret (Some (d', obj)) => Ok (Handled d' (Resp 200 obj) [])
  | Exc (RValueError msg) => Ok (Handled d (HTTPError 400 msg) [])
  | Exc (RExc e) => Raise e
  end.

(** [delete_postulacion] *)
Definition delete_postulacion (d : db) (pid : Z) : handled unit :=
  let '(d', ok) := delete d pid in
  if ok then Handled d' (Resp 204 tt) [("POSTULACION_DELETED", JObj [("id", JInt pid)])]
  else Handled d' (HTTPError 404 "No encontrado") [].

(** The number of rows whose normalised [estado] is [k]. *)
Definition count_estado (d : db) (k : string) : Z :=
  Z.of_nat (length (filter (fun p => norm_estado (estado p) = k) (table_rows d))).

(** ** Lemmas *)

Definition estado_keys : list string := ["nueva"; "destacada"; "posible"; "descartada"].

Lemma counts_init_graph : counts_init = PyDict.graph estado_keys (fun _ => 0).
Proof. reflexivity. Qed.

Lemma estado_keys_NoDup : NoDup estado_keys.
Proof. unfold estado_keys. repeat constructor; set_solver. Qed.

Lemma graph_ext_in ks (g h : string -> Z) :
  (forall k, k ∈ ks -> g k = h k) -> PyDict.graph ks g = PyDict.graph ks h.
Proof.
  intros Hgh. apply list_fmap_ext. intros i k Hi. apply list_elem_of_lookup_2 in Hi.
  by rewrite Hgh.
Qed.

(** The loop of [counts_por_estado] adds every count to [total] and the
    count of each row to the key its normalised [estado] names, if any. *)
Lemma counts_fold rows f t :
  fold_left counts_step rows (PyDict.graph estado_keys f, t) =
  (PyDict.graph estado_keys (fun k => f k + PyDict.sum_where (fun e => norm_estado e = k) rows),
   t + PyDict.sum_where (fun _ => True) rows).
Proof.
  revert f t. induction rows as [|[e cnt] rows IH]; intros f t; cbn [fold_left counts_step].
  - f_equal; [|simpl; lia]. apply graph_ext_in. intros k _. simpl. lia.
  - destruct (PyDict.contains _ _) eqn:Hc.
    + apply PyDict.contains_true in Hc. rewrite PyDict.keys_graph in Hc.
      rewrite PyDict.get_graph, PyDict.setitem_graph by (done || apply estado_keys_NoDup).
      rewrite IH. f_equal; [|rewrite PyDict.sum_where_cons, decide_True by done; lia].
      apply graph_ext_in. intros k _. rewrite PyDict.sum_where_cons. unfold default, id.
      repeat case_decide; subst; try done; lia.
    + rewrite IH. f_equal; [|rewrite PyDict.sum_where_cons, decide_True by done; lia].
      apply graph_ext_in. intros k Hk. rewrite PyDict.sum_where_cons.
      case_decide as Hek; [|lia]. subst k. exfalso.
      assert (Hin : PyDict.contains (PyDict.graph estado_keys f) (norm_estado e) = true)
        by (apply PyDict.contains_true; by rewrite PyDict.keys_graph).
      congruence.
Qed.

Lemma counts_por_estado_graph rows :
  counts_por_estado rows =
  PyDict.graph estado_keys (fun k => PyDict.sum_where (fun e => norm_estado e = k) rows) ++
  [("total", PyDict.sum_where (fun _ => True) rows)].
Proof.
  unfold counts_por_estado. rewrite counts_init_graph, counts_fold.
  rewrite PyDict.setitem_notin by (rewrite PyDict.keys_graph; unfold estado_keys; set_solver).
  f_equal.
Qed.

Lemma validate_decision_Some estado motivo u pu p :
  validate_decision estado motivo u pu = Some p ->
  di_estado p = PyStr.strip estado /\ di_motivo p = motivo /\
  PyStr.strip estado <> "" /\ (String.length estado <= 32)%nat /\ (String.length motivo <= 255)%nat.
Proof.
  unfold validate_decision.
  destruct (bool_decide _ && bool_decide _) eqn:H1; [|done]. destruct (String.eqb_spec (PyStr.strip estado) ""); [done|].
  intros [= <-]. apply andb_true_iff in H1 as [H1 H2].
  apply bool_decide_eq_true_1 in H1, H2. simpl. split_and!; auto; lia.
Qed.

(** A validated [estado] passes the two checks of [decide] on [estado]. *)
Lemma validated_estado_ok estado motivo u pu p :
  validate_decision estado motivo u pu = Some p ->
  PyStr.strip (di_estado p) = di_estado p /\ di_estado p <> "" /\
  (String.length (di_estado p) <= 32)%nat.
Proof.
  intros Hv. destruct (validate_decision_Some _ _ _ _ _ Hv) as (-> & _ & Hne & Hlen & _).
  rewrite PyStr.strip_idem. split_and!; [done | done |].
  etransitivity; [apply PyStr.strip_length | done].
Qed.

(** (C12) [decidir_postulacion] on a well-formed table, for a body that
    passed validation and a token whose [uid] is a non-zero integer:
    404 when the row is missing, 400 "Motivo obligatorio" when the motivo
    is blank; otherwise, when the token's [uid] is a row of [usuarios],
    200 with the row decided (the stripped [estado], the reviewer from
    the token) and exactly one POSTULACION_UPDATED broadcast of its id
    and new [estado], and when it is not (the user was deleted after the
    token was issued) the [IntegrityError] of the foreign key
    [decidido_por_user_id], which no handler catches (a 500).  The two
    checks of [decide] on [estado] and the [String(255)] bound of the
    motivo can never fire behind the validation; a failed request changes
    nothing and broadcasts nothing. *)
Theorem decidir_outcome d pid est mot u pu p jwt r now :
  wf d -> validate_decision est mot u pu = Some p ->
  py_get jwt "uid" (JInt 0) = Ok (JInt r) -> r <> 0 ->
  match get d pid with
  | None => decidir_postulacion d pid p jwt now = Ok (Handled d (HTTPError 404 "No encontrado") [])
  | Some obj =>
      if String.eqb (PyStr.strip mot) "" then
        decidir_postulacion d pid p jwt now = Ok (Handled d (HTTPError 400 "Motivo obligatorio") [])
      else if bool_decide (r ∈ usuario_ids d) then
        exists h obj', decidir_postulacion d pid p jwt now = Ok h /\ h_resp h = Resp 200 obj' /\
        estado obj' = PyStr.strip est /\ decidido_por_user_id obj' = Some r /\
        rows (h_db h) = <[pid := obj']> (rows d) /\
        h_tasks h = [("POSTULACION_UPDATED", event_payload obj')]
      else decidir_postulacion d pid p jwt now = Raise IntegrityError
  end.
Proof.
  intros Hwf Hv Huid Hr.
  destruct (validated_estado_ok _ _ _ _ _ Hv) as (Hfix & Hne & Hlen).
  destruct (validate_decision_Some _ _ _ _ _ Hv) as (Hest & Hmot & _ & _ & Hmlen).
  pose proof (PyStr.strip_length mot) as Hsl.
  assert (Hr0 : (r =? 0) = false) by (by apply Z.eqb_neq).
  unfold decidir_postulacion. rewrite Huid. unfold py_or. cbn [py_truthy result_bind].
  rewrite Hr0. cbn [negb py_int result_bind]. rewrite Hr0.
  pose proof (decide_spec_core d pid (di_estado p) (di_motivo p) r None None now Hwf) as Hd.
  rewrite Hfix in Hd.
  destruct (decide _ _ _ _ _ _ _ _) as [[d' obj']|[msg|e]]; rewrite Hmot in Hd.
  - destruct Hd as (obj & Hg & _ & _ & Hm & _ & Hu & _ & _ & He & _ & Hby & _ & _ & _ & _ & Hrows & _).
    rewrite Hg. destruct (String.eqb_spec (PyStr.strip mot) ""); [congruence|].
    rewrite bool_decide_eq_true_2 by done.
    eexists _, obj'. split; [reflexivity|]. rewrite Hest in He. done.
  - destruct Hd as [(Hg & ->) | [(_ & Hs & _) | [(_ & _ & Hl & _) | (Hg & _ & _ & Hm & ->)]]].
    + by rewrite Hg.
    + done.
    + lia.
    + destruct Hg as [obj Hg]. rewrite Hg. by rewrite Hm.
  - destruct Hd as ([obj Hg] & _ & _ & Hm & [(-> & Hl) | (-> & _ & [Hnot | [Hu | Hp]])]);
      [lia| |done|done].
    rewrite Hg. destruct (String.eqb_spec (PyStr.strip mot) ""); [congruence|].
    by rewrite bool_decide_eq_false_2.
Qed.


Lemma filter_True_id {A} (l : list A) : filter (fun _ => True) l = l.
Proof. induction l as [|x l IH]; [done|]. rewrite filter_cons_True by done. by f_equal. Qed.

(** (C20) [counts_por_estado] counts, under each of "nueva", "destacada",
    "posible" and "descartada", the rows whose [estado] equals the key
    after [strip()] and [lower()], and under "total" every row, rows
    with any other [estado] included; the keys come in that order. *)
Theorem counts_por_estado_correct d :
  counts_por_estado (group_by_estado (table_rows d)) =
  [("nueva", count_estado d "nueva"); ("destacada", count_estado d "destacada");
   ("posible", count_estado d "posible"); ("descartada", count_estado d "descartada");
   ("total", Z.of_nat (length (table_rows d)))].
Proof.
  rewrite counts_por_estado_graph. unfold PyDict.graph, estado_keys. cbn [fmap list_fmap app].
  by rewrite !group_by_estado_sum, filter_True_id.
Qed.

(** (C22) [delete_postulacion]: when the row exists, 204, the row removed,
    the table still well formed, and one POSTULACION_DELETED broadcast of
    its id; otherwise 404 with nothing changed and nothing broadcast. *)
Theorem delete_postulacion_spec d pid :
  wf d ->
  let h := delete_postulacion d pid in
  match get d pid with
  | Some _ =>
      h_resp h = Resp 204 tt /\ rows (h_db h) = base.delete pid (rows d) /\ wf (h_db h) /\
      h_tasks h = [("POSTULACION_DELETED", JObj [("id", JInt pid)])]
  | None => h = Handled d (HTTPError 404 "No encontrado") []
  end.
Proof.
  intros Hwf. unfold delete_postulacion. pose proof (delete_spec d pid) as Hd.
  unfold delete in *. destruct (get d pid) eqn:Hg; simpl in *; [|done].
  destruct Hd as (_ & Hrows & _ & Hwf'). auto.
Qed.

(** (C25) Finding: [update_postulacion] never schedules a broadcast, on
    any path, although a successful PATCH changes the row: the [add_task]
    of POSTULACION_UPDATED follows [return obj] and is unreachable. *)
Theorem update_postulacion_no_broadcast d pid u h :
  update_postulacion d pid u = Ok h -> h_tasks h = [].
Proof.
  unfold update_postulacion.
  destruct (update d pid u) as [[[d' obj]|]|[msg|e]]; intros Hh; by inversion Hh.
Qed.

(** (C8) [create_postulacion] on a well-formed table, with the bound on
    [unique_path] the file system gives: an upload [save_upload_file_cv]
    refuses (400 for the extension, 413 for the size) or cannot open
    ([OSError]) creates no row, sends no mail and broadcasts nothing; an
    insert the database refuses ([DataError] for a value too long for its
    column, [IntegrityError] for a position or unit that does not exist)
    raises, creates no row, sends nothing and leaves the saved file on
    disk; any other request inserts one row in state "nueva" under a
    fresh id, whose [cv_filename] leads [cv_disk_path] to a file that did
    not exist before, answers 201, mails the applicant and, when
    [ADMIN_EMAILS] is not empty, the administrators, and schedules
    exactly one POSTULACION_CREATED broadcast of the id and "nueva" --
    whatever the mail server does. *)
Theorem create_postulacion_spec env d fs form cv upload_now now fuel :
  wf d -> (0 <= Files.max_cv_mb (e_files env))%Z -> Forall (fun c => 0 <= c)%Z (Files.up_chunks cv) ->
  (S (length fs) < fuel)%nat ->
  match create_postulacion env d fs form cv upload_now now fuel with
  | Some c =>
      match c_resp c with
      | Ok (Resp st obj) =>
          st = 201 /\ get d (p_id obj) = None /\ get (c_db c) (p_id obj) = Some obj /\
          wf (c_db c) /\ estado obj = "nueva" /\
          Files.cv_disk_path (e_files env) (cv_filename obj) ∈ c_fs c /\
          Files.cv_disk_path (e_files env) (cv_filename obj) ∉ fs /\
          c_tasks c = [("POSTULACION_CREATED", JObj [("id", JInt (p_id obj)); ("estado", JStr "nueva")])] /\
          (c_mails c).*1 = [f_correo form] :: (if e_admin_emails env is [] then [] else [e_admin_emails env])
      | Ok (HTTPError st _) => c_db c = d /\ c_tasks c = [] /\ c_mails c = [] /\ (st = 400 \/ st = 413)
      | Raise e =>
          c_db c = d /\ c_tasks c = [] /\ c_mails c = [] /\
          (e = OSError \/
           ((e = DataError \/ e = IntegrityError) /\
            exists name, Files.cv_disk_path (e_files env) name ∈ c_fs c /\
                         Files.cv_disk_path (e_files env) name ∉ fs))
      end
  | None => False
  end.
Proof.
  intros Hwf Hmax Hch Hfuel. unfold create_postulacion.
  pose proof (Files.save_upload_spec_core (e_files env) fs cv (f_nombre form) (f_apellido form) upload_now fuel
                Hmax Hch Hfuel) as Hs.
  destruct (Files.save_upload_file_cv _ _ _ _ _ _ _) as [[fs' stored size mime|fs' st det|fs' e]|];
    [| | |done].
  - destruct Hs as (_ & _ & _ & dest & Hfresh & _ & -> & Hname & Hcv).
    match goal with |- context [create_from_upload d ?a now] => set (args := a) end.
    pose proof (create_spec d args now Hwf) as Hc.
    destruct (create_from_upload d args now) as [[d' obj]|e].
    + destruct Hc as (-> & Hnew & Hrows & _ & Hwf' & Hest & _).
      subst args. simpl.
      rewrite Hcv. split_and!; try done.
      * unfold get. rewrite Hrows. apply lookup_insert_eq.
      * set_solver.
      * intros Hin. apply Hfresh. case_decide; set_solver.
      * by destruct (e_admin_emails env).
    + cbn [c_resp c_db c_fs c_tasks c_mails]. split_and!; [done|done|done|]. right.
      split; [destruct Hc as [[-> _]|[-> _]]; auto|].
      exists stored. rewrite Hcv. split; [set_solver|]. intros Hin. apply Hfresh. case_decide; set_solver.
  - destruct Hs as [-> Hcases]. simpl. split_and!; try done. destruct Hcases as [[-> _]|[-> _]]; auto.
  - destruct Hs as (-> & _). simpl. split_and!; auto.
Qed.

End Router.

(** * Concrete runs of the service and the handlers *)

Module Demo.
Import Json Store Service Router Mailer.

Local Open Scope Z_scope.

(** Concrete inputs: a table of three applications.  *)

Definition demo_args (n a : string) : create_args :=
  CreateArgs n a "x@example.com" None (Some 3) (Some 1) None "cv.pdf" "cv.pdf"
    "application/pdf" 1000 None None (Some " soltera ") None None None.

Definition demo_db0 : db :=
  Db ∅ 1 [Puesto 3 "Cajero" 1; Puesto 4 "Disponibilidad General" 1] [(1, "Sucursal Centro")] [7; 9].

(** The table after an insert, or as it was when the insert failed. *)
Definition inserted (d : db) (r : result (db * postulacion)) : db :=
  match r with Ok (d', _) => d' | Raise _ => d end.

(** Three applications; the second decided " Destacada ", the third "contactada". *)
Definition demo_db : db :=
  let d1 := inserted demo_db0 (create_from_upload demo_db0 (demo_args "Ana" "Paz") 100) in
  let d2 := inserted d1 (create_from_upload d1 (demo_args "Beto" "Sosa") 101) in
  let d3 := inserted d2 (create_from_upload d2 (demo_args "Ceci" "Ruiz") 102) in
  match decide d3 2 " Destacada " "buen perfil" 7 None None 103 with
  | Ret (d4, _) =>
      match decide d4 3 "contactada" "llamar" 7 None None 104 with
      | Ret (d5, _) => d5
      | Exc _ => d4
      end
  | Exc _ => d3
  end.

Definition demo_jwt : json :=
  JObj [("sub", JStr "admin@example.com"); ("uid", JInt 7); ("role", JStr "Admin")].


Lemma demo_db_wf : wf demo_db.
Proof. apply (bool_decide_unpack _). vm_compute. reflexivity. Qed.

Lemma decide_spec_witness :
  let d := demo_db in let i := 1 in let ne := " Posible " in let mo := "ok" in
  let r := 9 in let nu := @None Z in let np := @None Z in let now := 200 in
  wf d /\
  match decide d i ne mo r nu np now with
  | Ret (d', obj') =>
      exists obj, get d i = Some obj /\
        PyStr.strip ne <> "" /\ (String.length (PyStr.strip ne) <= 32)%nat /\
        PyStr.strip mo <> "" /\ (String.length (PyStr.strip mo) <= 255)%nat /\
        r ∈ usuario_ids d /\ ref_ok (unidad_ids d) nu = true /\ ref_ok (puesto_ids d) np = true /\
        estado obj' = PyStr.strip ne /\ decidido_motivo obj' = Some (PyStr.strip mo) /\
        decidido_por_user_id obj' = Some r /\ decidido_en obj' = Some now /\
        p_id obj' = i /\ puesto_original_id obj' = puesto_original_id obj /\
        unidad_original_id obj' = unidad_original_id obj /\
        rows d' = <[i := obj']> (rows d) /\ wf d'
  | Exc (RValueError msg) =>
      (get d i = None /\ msg = "No encontrado") \/
      (is_Some (get d i) /\ PyStr.strip ne = "" /\ msg = "Estado no puede estar vacío") \/
      (is_Some (get d i) /\ PyStr.strip ne <> "" /\ (32 < String.length (PyStr.strip ne))%nat /\
         msg = "Estado demasiado largo (máx. 32)") \/
      (is_Some (get d i) /\ PyStr.strip ne <> "" /\ (String.length (PyStr.strip ne) <= 32)%nat /\
         PyStr.strip mo = "" /\ msg = "Motivo obligatorio")
  | Exc (RExc e) =>
      is_Some (get d i) /\ PyStr.strip ne <> "" /\ (String.length (PyStr.strip ne) <= 32)%nat /\
      PyStr.strip mo <> "" /\
      ((e = DataError /\ (255 < String.length (PyStr.strip mo))%nat) \/
       (e = IntegrityError /\ (String.length (PyStr.strip mo) <= 255)%nat /\
        (r ∉ usuario_ids d \/ ref_ok (unidad_ids d) nu = false \/ ref_ok (puesto_ids d) np = false)))
  end.
Proof. intros. split; [exact demo_db_wf | apply decide_spec, demo_db_wf]. Defined.

Lemma update_spec_witness :
  let d := demo_db in let i := 1 in
  let u := MkPostulacionUpdate (Some None) None None None None None None None None None None None None in
  wf d /\
  match update d i u with
  | Ret None => get d i = None
  | Ret (Some (d', obj')) =>
      exists obj, get d i = Some obj /\ obj' = patched obj u /\ row_ok d obj' = true /\
        rows d' = <[i := obj']> (rows d) /\ next_id d' = next_id d /\ wf d'
  | Exc e =>
      exists obj, get d i = Some obj /\
      ((e = RExc DataError /\ lengths_ok (patched obj u) = false) \/
       (e = RExc IntegrityError /\ lengths_ok (patched obj u) = true /\
        (u_nombre u = Some None \/ u_apellido u = Some None \/ u_correo u = Some None \/
         (exists v, u_puesto_id u = Some (Some v) /\ v ∉ puesto_ids d) \/
         (exists v, u_unidad_id u = Some (Some v) /\ v ∉ unidad_ids d))))
  end.
Proof. intros. split; [exact demo_db_wf | apply update_spec, demo_db_wf]. Defined.

Lemma update_protected_witness :
  let d := demo_db in let i := 2 in
  let u := MkPostulacionUpdate None None None (Some (Some "351")) None (Some None) None None None None None None None in
  exists d' obj obj', get d i = Some obj /\ update d i u = Ret (Some (d', obj')) /\
    protected obj' = protected obj.
Proof.
  intros. eexists _, _, _.
  assert (Hg : get d i = Some (default (new_row 0 (demo_args "" "") 0) (get d i)))
    by (vm_compute; reflexivity).
  assert (Hu : update d i u = Ret (Some (default (d, new_row 0 (demo_args "" "") 0)
                 (match update d i u with Ret (Some r) => Some r | _ => None end))))
    by (vm_compute; reflexivity).
  split; [exact Hg|]. split; [exact Hu|]. exact (update_protected _ _ _ _ _ _ Hg Hu).
Defined.


Lemma decidir_outcome_witness :
  let d := demo_db in let pid := 1 in let est := " Destacada " in let mot := "buen perfil" in
  let u := @None Z in let pu := @None Z in let jwt := demo_jwt in let r := 7 in let now := 300 in
  let p := default (DecisionIn "" "" None None) (validate_decision est mot u pu) in
  wf d /\ validate_decision est mot u pu = Some p /\
  py_get jwt "uid" (JInt 0) = Ok (JInt r) /\ r <> 0 /\
  match get d pid with
  | None => decidir_postulacion d pid p jwt now = Ok (Handled d (HTTPError 404 "No encontrado") [])
  | Some obj =>
      if String.eqb (PyStr.strip mot) "" then
        decidir_postulacion d pid p jwt now = Ok (Handled d (HTTPError 400 "Motivo obligatorio") [])
      else if bool_decide (r ∈ usuario_ids d) then
        exists h obj', decidir_postulacion d pid p jwt now = Ok h /\ h_resp h = Resp 200 obj' /\
        estado obj' = PyStr.strip est /\ decidido_por_user_id obj' = Some r /\
        rows (h_db h) = <[pid := obj']> (rows d) /\
        h_tasks h = [("POSTULACION_UPDATED", event_payload obj')]
      else decidir_postulacion d pid p jwt now = Raise IntegrityError
  end.
Proof.
  intros. assert (Hv : validate_decision est mot u pu = Some p) by (vm_compute; reflexivity).
  assert (Hj : py_get jwt "uid" (JInt 0) = Ok (JInt r)) by (vm_compute; reflexivity).
  assert (Hr : r <> 0) by (vm_compute; discriminate).
  split; [exact demo_db_wf|]. split; [exact Hv|]. split; [exact Hj|]. split; [exact Hr|].
  exact (decidir_outcome d pid est mot u pu p jwt r now demo_db_wf Hv Hj Hr).
Defined.

Lemma delete_postulacion_spec_witness :
  let d := demo_db in let pid := 2 in
  wf d /\
  let h := delete_postulacion d pid in
  match get d pid with
  | Some _ =>
      h_resp h = Resp 204 tt /\ rows (h_db h) = base.delete pid (rows d) /\ wf (h_db h) /\
      h_tasks h = [("POSTULACION_DELETED", JObj [("id", JInt pid)])]
  | None => h = Handled d (HTTPError 404 "No encontrado") []
  end.
Proof. intros. split; [exact demo_db_wf | apply delete_postulacion_spec, demo_db_wf]. Defined.

Definition demo_env : app_env :=
  AppEnv Files.demo_cfg (MailConfig true "rrhh" "secret" "starttls" "RRHH" "rrhh@example.com" "")
    (fun _ => Delivered) ["admin@example.com"] "https://rrhh.example.com".

Definition demo_form : create_form :=
  CreateForm "Dana" "Lopez" "dana@example.com" None (Some 3) (Some 1) None None None None None None None.

Lemma create_postulacion_spec_witness :
  let env := demo_env in let d := demo_db in let fs := @nil string in let form := demo_form in
  let cv := Files.Upload (Some "cv.pdf") (Some "application/pdf") [2048]%Z in
  let upload_now := 1735808400 in let now := 1735808401 in
  let fuel := 2%nat in
  wf d /\ (0 <= Files.max_cv_mb (e_files env))%Z /\ Forall (fun c => 0 <= c)%Z (Files.up_chunks cv) /\
  (S (length fs) < fuel)%nat /\
  match create_postulacion env d fs form cv upload_now now fuel with
  | Some c =>
      match c_resp c with
      | Ok (Resp st obj) =>
          st = 201 /\ get d (p_id obj) = None /\ get (c_db c) (p_id obj) = Some obj /\
          wf (c_db c) /\ estado obj = "nueva" /\
          Files.cv_disk_path (e_files env) (cv_filename obj) ∈ c_fs c /\
          Files.cv_disk_path (e_files env) (cv_filename obj) ∉ fs /\
          c_tasks c = [("POSTULACION_CREATED", JObj [("id", JInt (p_id obj)); ("estado", JStr "nueva")])] /\
          (c_mails c).*1 = [f_correo form] :: (if e_admin_emails env is [] then [] else [e_admin_emails env])
      | Ok (HTTPError st _) => c_db c = d /\ c_tasks c = [] /\ c_mails c = [] /\ (st = 400 \/ st = 413)
      | Raise e =>
          c_db c = d /\ c_tasks c = [] /\ c_mails c = [] /\
          (e = OSError \/
           ((e = DataError \/ e = IntegrityError) /\
            exists name, Files.cv_disk_path (e_files env) name ∈ c_fs c /\
                         Files.cv_disk_path (e_files env) name ∉ fs))
      end
  | None => False
  end.
Proof.
  intros env d fs form cv upload_now now fuel.
  assert (H1 : (0 <= Files.max_cv_mb (e_files env))%Z) by (vm_compute; discriminate).
  assert (H2 : Forall (fun c => 0 <= c)%Z (Files.up_chunks cv)) by (repeat constructor; vm_compute; discriminate).
  assert (H4 : (S (length fs) < fuel)%nat) by (simpl; lia).
  split; [exact demo_db_wf|]. split; [exact H1|]. split; [exact H2|]. split; [exact H4|].
  exact (create_postulacion_spec env d fs form cv upload_now now fuel demo_db_wf H1 H2 H4).
Defined.

(** A token whose user was deleted after it was issued: [decidir]
    raises the [IntegrityError] of [decidido_por_user_id]. *)
Example decidir_deleted_reviewer :
  decidir_postulacion demo_db 1 (DecisionIn "Posible" "buen perfil" None None)
    (JObj [("uid", JInt 5)]) 300 = Raise IntegrityError.
Proof. vm_compute. reflexivity. Qed.

(** An application for a position that does not exist: the insert raises
    [IntegrityError] after the CV was written, and the file stays. *)
Example create_unknown_puesto_orphan_file :
  let form := CreateForm "Dana" "Lopez" "dana@example.com" None (Some 99) None None None None None None None None in
  match create_postulacion demo_env demo_db [] form
          (Files.Upload (Some "cv.pdf") (Some "application/pdf") [2048]%Z) 1735808400 1735808401 2 with
  | Some c => c_resp c = Raise IntegrityError /\ c_db c = demo_db /\ length (c_fs c) = 2%nat
  | None => False
  end.
Proof. vm_compute. auto. Qed.

Lemma update_postulacion_no_broadcast_witness :
  let d := demo_db in
  let u := MkPostulacionUpdate None None None (Some (Some "351-555")) None None None None None None None None None in
  let h := match update_postulacion d 1 u with Ok h => h | Raise _ => Handled d (HTTPError 0 "") [] end in
  update_postulacion d 1 u = Ok h /\ h_resp h <> HTTPError 404 "No encontrado" /\ h_tasks h = [].
Proof.
  intros d u h. assert (Hu : update_postulacion d 1 u = Ok h) by (vm_compute; reflexivity).
  split; [exact Hu|]. split; [vm_compute; discriminate|].
  exact (update_postulacion_no_broadcast _ _ _ _ Hu).
Defined.

End Demo.
