(* ===== verification/Query.v ===== *)
(** * Query: the list query of the applications
    [PostulacionesService.list] ([src/Api/services/postulaciones.py]) and
    its handler [list_postulaciones] ([src/Api/routers/postulaciones.py]).

    - [Sql]: what the database does with the query SQLAlchemy builds.
      [LIKE] patterns ([%] any string, [_] any character), [ILIKE] as
      SQLAlchemy renders it on back ends without that operator
      ([lower(a) LIKE lower(b)]), comparisons with a nullable column, and
      the values an [ORDER BY] compares.  A comparison with NULL is NULL
      and [WHERE] keeps only the rows where the condition is TRUE; the
      conditions of the query are built from [=], [IN], [LIKE], [AND] and
      [OR] only, so collapsing NULL to false gives the same rows.  Where
      NULLs sort is a property of the database ([nulls_low]: below every
      value, as in MySQL and SQLite, or above, as in PostgreSQL).  The
      pattern has no [ESCAPE] clause, so the server's default escape
      character, the backslash, applies: [\%], [\_] and [\] match the
      character itself.  A backslash that ends the pattern matches
      itself, as in MySQL (whose [ILIKE] SQLAlchemy renders as above);
      PostgreSQL refuses such a pattern.
    - [Listado]: the filters of [list] in the order the code adds them,
      the order clause from [_sort_map], the count and the page; the
      handler with its query-parameter validation.

    [ORDER BY] fixes the order only up to rows with equal keys; the model
    sorts with a stable merge sort of the rows in the order the table
    returns them, and [listado_pages_deterministic] says when that choice
    is the only one the database can make. *)

From S2P Require Import Prelude PyDict PyStr Json Files Postulaciones.
From stdpp Require Import sorting.
From Stdlib Require Import Ascii.

Module Sql.

Local Open Scope Z_scope.

(** ** [LIKE] *)

Inductive like_tok := LAny | LOne | LLit (c : ascii).

Definition like_tok_of (c : ascii) : like_tok :=
  if Ascii.eqb c "%" then LAny else if Ascii.eqb c "_" then LOne else LLit c.

Fixpoint like_go (ps : list like_tok) (s : list ascii) : bool :=
  match ps with
  | [] => match s with [] => true | _ :: _ => false end
  | LAny :: ps' =>
      (fix star (s : list ascii) : bool :=
         like_go ps' s || match s with [] => false | _ :: s' => star s' end) s
  | LOne :: ps' => match s with [] => false | _ :: s' => like_go ps' s' end
  | LLit c :: ps' =>
      match s with [] => false | c' :: s' => Ascii.eqb c c' && like_go ps' s' end
  end.

(** The tokens of a pattern read with the default escape character [\]:
    an escaped character is a literal, a final [\] matches itself. *)
Fixpoint like_toks (cs : list ascii) : list like_tok :=
  match cs with
  | [] => []
  | c :: cs' =>
      if Ascii.eqb c "\"%char then
        match cs' with
        | [] => [LLit c]
        | c' :: cs'' => LLit c' :: like_toks cs''
        end
      else like_tok_of c :: like_toks cs'
  end.

(** [s LIKE pat]. *)
Definition like (s pat : string) : bool :=
  like_go (like_toks (list_ascii_of_string pat)) (list_ascii_of_string s).

(** [s.ilike(pat)]: [lower(s) LIKE lower(pat)]. *)
Definition ilike (s pat : string) : bool := like (PyStr.lower s) (PyStr.lower pat).

(** A pattern without the wildcards [%] and [_] and without the escape
    character [\]. *)
Definition no_wildcards (q : string) : bool :=
  forallb (fun c => negb (Ascii.eqb c "%") && negb (Ascii.eqb c "_") && negb (Ascii.eqb c "\"%char))
    (list_ascii_of_string q).

(** ** Conditions on nullable columns *)

(** [col == v] *)
Definition col_eq (c : option Z) (v : Z) : bool :=
  match c with Some x => bool_decide (x = v) | None => false end.

(** [col.in_(vs)] *)
Definition col_in (c : option Z) (vs : list Z) : bool :=
  match c with Some x => bool_decide (x ∈ vs) | None => false end.

(** [col.ilike(pat)] *)
Definition col_ilike (c : option string) (pat : string) : bool :=
  match c with Some s => ilike s pat | None => false end.

(** ** [ORDER BY] *)

Inductive sql_val := VNull | VInt (z : Z) | VStr (s : string).

Inductive direction := Asc | Desc.

Record order_by := OrderBy { ob_dir : direction; ob_key : Store.postulacion -> sql_val }.

(** The order of the values of one column: integers by value, strings by
    a binary collation, NULL below or above everything. *)
Definition val_le (nulls_low : bool) (a b : sql_val) : bool :=
  match a, b with
  | VNull, VNull => true
  | VNull, _ => nulls_low
  | _, VNull => negb nulls_low
  | VInt x, VInt y => x <=? y
  | VStr x, VStr y => String.leb x y
  | VInt _, VStr _ => true
  | VStr _, VInt _ => false
  end.

(** [a] may come before [b] in the result of [ORDER BY o]. *)
Definition row_le (nulls_low : bool) (o : order_by) (a b : Store.postulacion) : Prop :=
  let k := ob_key o in
  match ob_dir o with
  | Asc => val_le nulls_low (k a) (k b) = true
  | Desc => val_le nulls_low (k b) (k a) = true
  end.

#[export] Instance row_le_dec nl o : RelDecision (row_le nl o).
Proof. intros a b. unfold row_le. destruct (ob_dir o); apply _. Defined.

(** A result the database may return for [ORDER BY o] on the rows [rows]. *)
Definition valid_order (nulls_low : bool) (o : order_by) (rows out : list Store.postulacion) : Prop :=
  out ≡ₚ rows /\ Sorted (row_le nulls_low o) out.

(** ** Lemmas *)

Lemma like_go_any_cons ps c s :
  like_go (LAny :: ps) (c :: s) = like_go ps (c :: s) || like_go (LAny :: ps) s.
Proof. reflexivity. Qed.

Lemma like_go_any_end s : like_go [LAny] s = true.
Proof. induction s as [|c s IH]; [reflexivity|]. by rewrite like_go_any_cons, IH, orb_true_r. Qed.

(** Literal characters followed by [%] match exactly the strings that
    start with them. *)
Lemma like_go_prefix q s :
  like_go ((LLit <$> list_ascii_of_string q) ++ [LAny]) (list_ascii_of_string s) = String.prefix q s.
Proof.
  revert s. induction q as [|a q IH]; intros s.
  - destruct s; apply like_go_any_end.
  - destruct s as [|b s]; [reflexivity|]. simpl.
    destruct (ascii_dec a b) as [<-|Hab].
    + rewrite Ascii.eqb_refl. apply IH.
    + by rewrite (proj2 (Ascii.eqb_neq a b) Hab).
Qed.

(** [%q%] with literal [q] matches exactly the strings containing [q]. *)
Lemma like_go_contains q s :
  like_go (LAny :: (LLit <$> list_ascii_of_string q) ++ [LAny]) (list_ascii_of_string s)
  = PyStr.contains q s.
Proof.
  induction s as [|c s IH].
  - pose proof (like_go_prefix q "") as H. simpl in *. by rewrite !orb_false_r, H.
  - change (list_ascii_of_string (String c s)) with (c :: list_ascii_of_string s).
    rewrite like_go_any_cons, IH.
    transitivity (String.prefix q (String c s) || PyStr.contains q s); [|reflexivity].
    f_equal. apply (like_go_prefix q (String c s)).
Qed.

Lemma like_tok_of_lower c :
  like_tok_of (PyStr.lower_char c) =
  match like_tok_of c with LLit _ => LLit (PyStr.lower_char c) | t => t end.
Proof. destruct c as [[] [] [] [] [] [] [] []]; reflexivity. Qed.

Lemma lower_char_backslash c :
  Ascii.eqb (PyStr.lower_char c) "\"%char = Ascii.eqb c "\"%char.
Proof. destruct c as [[] [] [] [] [] [] [] []]; reflexivity. Qed.

Lemma list_ascii_lower s :
  list_ascii_of_string (PyStr.lower s) = PyStr.lower_char <$> list_ascii_of_string s.
Proof. apply String.list_ascii_of_string_of_list_ascii. Qed.

Lemma lower_app s1 s2 : PyStr.lower (s1 +:+ s2) = PyStr.lower s1 +:+ PyStr.lower s2.
Proof.
  apply Files.string_list_inj.
  by rewrite Files.list_ascii_app, !list_ascii_lower, Files.list_ascii_app, fmap_app.
Qed.

Lemma lower_tokens q :
  no_wildcards q = true ->
  like_toks (list_ascii_of_string (PyStr.lower q))
  = LLit <$> list_ascii_of_string (PyStr.lower q).
Proof.
  unfold no_wildcards. rewrite list_ascii_lower.
  induction (list_ascii_of_string q) as [|c l IH]; [done|]. cbn [forallb].
  intros [Hc Hl]%andb_prop. apply andb_prop in Hc as [[H1 H2]%andb_prop H3].
  apply negb_true_iff in H1, H2, H3.
  rewrite !fmap_cons. cbn [like_toks]. rewrite lower_char_backslash, H3, like_tok_of_lower, IH by done.
  f_equal. unfold like_tok_of. by rewrite H1, H2.
Qed.

(** Without a backslash, the tokens of a concatenation are the tokens
    of its parts. *)
Lemma like_toks_app l r :
  Forall (fun c => Ascii.eqb c "\"%char = false) l -> like_toks (l ++ r) = like_toks l ++ like_toks r.
Proof. induction 1 as [|c l Hc _ IH]; [done|]. cbn [app like_toks]. by rewrite Hc, IH. Qed.

Lemma lower_no_escape q :
  no_wildcards q = true ->
  Forall (fun c => Ascii.eqb c "\"%char = false) (list_ascii_of_string (PyStr.lower q)).
Proof.
  unfold no_wildcards. rewrite list_ascii_lower, forallb_forall, Forall_fmap, Forall_forall.
  intros H c Hc%list_elem_of_In. apply H, andb_prop in Hc as [_ Hc]. simpl.
  rewrite lower_char_backslash. by apply negb_true_iff.
Qed.

Lemma val_le_total nl a b : val_le nl a b = true \/ val_le nl b a = true.
Proof.
  destruct a, b, nl; simpl; auto using String.leb_total.
  all: destruct (Z.leb_spec z z0); auto; right; apply Z.leb_le; lia.
Qed.

Lemma val_le_trans nl a b c : val_le nl a b = true -> val_le nl b c = true -> val_le nl a c = true.
Proof.
  destruct a, b, c, nl; simpl; try done; eauto using PyStr.string_leb_trans.
  all: rewrite !Z.leb_le; lia.
Qed.

Lemma val_le_antisym nl a b : val_le nl a b = true -> val_le nl b a = true -> a = b.
Proof.
  destruct a, b, nl; simpl; try done.
  - rewrite !Z.leb_le. intros. f_equal. lia.
  - rewrite !Z.leb_le. intros. f_equal. lia.
  - intros. f_equal. by apply String.leb_antisym.
  - intros. f_equal. by apply String.leb_antisym.
Qed.

#[export] Instance row_le_total nl o : Total (row_le nl o).
Proof. intros a b. unfold row_le. destruct (ob_dir o); apply val_le_total. Qed.

#[export] Instance row_le_trans nl o : Transitive (row_le nl o).
Proof. intros a b c. unfold row_le. destruct (ob_dir o); eauto using val_le_trans. Qed.

Lemma row_le_antisym nl o a b :
  row_le nl o a b -> row_le nl o b a -> ob_key o a = ob_key o b.
Proof. unfold row_le. destruct (ob_dir o); intros; [|symmetry]; eauto using val_le_antisym. Qed.

(** With a search term free of the wildcards [%] and [_] and of the
    escape character [\], the
    filter [col.ilike(f"%{q}%")] of [list] holds exactly when the
    lower-cased term occurs in the lower-cased column value, i.e. it is
    Python's [q.lower() in s.lower()]. *)
Theorem ilike_contains q s :
  no_wildcards q = true ->
  ilike s ("%" +:+ q +:+ "%") = PyStr.contains (PyStr.lower q) (PyStr.lower s).
Proof.
  intros Hq. unfold ilike, like.
  rewrite !lower_app, !Files.list_ascii_app.
  change (list_ascii_of_string (PyStr.lower "%")) with ["%"%char]. cbn [app like_toks].
  rewrite like_toks_app, lower_tokens by (done || by apply lower_no_escape).
  exact (like_go_contains (PyStr.lower q) (PyStr.lower s)).
Qed.

End Sql.

Module Listado.

Import Store Sql.

Local Open Scope Z_scope.

(** A condition of the [WHERE] clause, evaluated on one row. *)
Definition cond := postulacion -> bool.

(** [if x:] on an optional string and an optional int: [None], [""] and
    [0] are false. *)
Definition truthy_str (o : option string) : option string :=
  match o with Some s => if String.eqb s "" then None else Some s | None => None end.

Definition truthy_int (o : option Z) : option Z :=
  match o with Some 0 => None | o => o end.

(** [db.query(Puesto).filter(Puesto.unidad_id == unidad_id,
    Puesto.nombre.ilike("Disponibilidad General")).first()]. *)
Definition puesto_general (d : db) (unidad_id_q : Z) : option puesto :=
  List.find (fun pu => bool_decide (pu_unidad_id pu = unidad_id_q)
                       && ilike (pu_nombre pu) "Disponibilidad General") (puestos d).

(** [or_(Postulacion.puesto_id == puesto_id,
    Postulacion.puesto_original_id == puesto_id)] *)
Definition puesto_cond (pid : Z) : cond :=
  fun p => col_eq (puesto_id p) pid || col_eq (puesto_original_id p) pid.

(** The conditions [list] adds to [query], in the order it adds them. *)
Definition list_query (d : db) (q estado_q : option string) (puesto_id_q unidad_id_q : option Z)
    : list cond :=
  let query : list cond := [] in
  let query :=
    match truthy_str q with
    | Some q =>
        let like := "%" +:+ q +:+ "%" in
        query ++ [fun p => col_ilike (nombre p) like || col_ilike (apellido p) like
                           || col_ilike (correo p) like]
    | None => query
    end in
  let query :=
    match truthy_str estado_q with
    | Some e => query ++ [fun p => bool_decide (estado p = e)]
    | None => query
    end in
  match truthy_int unidad_id_q with
  | Some u =>
      let query := query ++ [fun p => col_eq (unidad_id p) u || col_eq (unidad_original_id p) u] in
      match truthy_int puesto_id_q with
      | Some pid =>
          match puesto_general d u with
          | Some g =>
              if bool_decide (pu_id g <> pid) then
                query ++ [fun p => col_in (puesto_id p) [pid; pu_id g]
                                   || col_in (puesto_original_id p) [pid; pu_id g]]
              else query ++ [puesto_cond pid]
          | None => query ++ [puesto_cond pid]
          end
      | None => query
      end
  | None =>
      match truthy_int puesto_id_q with
      | Some pid => query ++ [puesto_cond pid]
      | None => query
      end
  end.

(** The rows the query selects, in the order the table returns them. *)
Definition selection (d : db) (q estado_q : option string) (puesto_id_q unidad_id_q : option Z)
    : list postulacion :=
  let query := list_query d q estado_q puesto_id_q unidad_id_q in
  List.filter (fun p => forallb (fun c => c p) query) (table_rows d).

Definition created_key : postulacion -> sql_val := fun p => VInt (created_at p).

Definition lower_nombre_key : postulacion -> sql_val :=
  fun p => match nombre p with Some n => VStr (PyStr.lower n) | None => VNull end.

Definition decidido_en_key : postulacion -> sql_val :=
  fun p => match decidido_en p with Some t => VInt t | None => VNull end.

(** [_sort_map] *)
Definition _sort_map : list (string * order_by) :=
  [("reciente", OrderBy Desc created_key);
   ("antiguo", OrderBy Asc created_key);
   ("nombre_az", OrderBy Asc lower_nombre_key);
   ("nombre_za", OrderBy Desc lower_nombre_key);
   ("procesado", OrderBy Desc decidido_en_key)].

(** [_sort_map.get(sort, desc(Postulacion.created_at))] *)
Definition order_clause (sort : string) : order_by :=
  default (OrderBy Desc created_key) (PyDict.get _sort_map sort).

(** [PostulacionesService.list]: the page [offset .. offset + limit) of
    the selected rows in the order of [order_clause], and their number. *)
Definition listado (nulls_low : bool) (d : db) (q estado_q : option string)
    (puesto_id_q unidad_id_q : option Z) (limit offset : Z) (sort : string)
    : list postulacion * Z :=
  let rows := selection d q estado_q puesto_id_q unidad_id_q in
  let total := Z.of_nat (length rows) in
  let items := take (Z.to_nat limit) (drop (Z.to_nat offset)
                 (merge_sort (row_le nulls_low (order_clause sort)) rows)) in
  (items, total).

(** The body of [GET /postulaciones]. *)
Record page := Page {
  pg_items : list postulacion; pg_total : Z; pg_limit : Z; pg_offset : Z
}.

Definition sort_pattern : list string :=
  ["reciente"; "antiguo"; "nombre_az"; "nombre_za"; "procesado"].

(** [list_postulaciones]: the query parameters with their defaults and
    their constraints ([ge], [le], [pattern]; a violation is FastAPI's
    422 response), then the service call. *)
Definition list_postulaciones (nulls_low : bool) (d : db) (q estado_q : option string)
    (puesto_id_q unidad_id_q limit_q offset_q : option Z) (sort_q : option string)
    : Router.handled page :=
  let limit := default 50 limit_q in
  let offset := default 0 offset_q in
  let sort := default "reciente" sort_q in
  if (1 <=? limit) && (limit <=? 200) && (0 <=? offset) && bool_decide (sort ∈ sort_pattern) then
    let '(items, total) :=
      listado nulls_low d q estado_q puesto_id_q unidad_id_q limit offset sort in
    Router.Handled d (Router.Resp 200 (Page items total limit offset)) []
  else Router.Handled d (Router.HTTPError 422 "Unprocessable Entity") [].

(** ** The other readers of [services/postulaciones.py] *)

(** [resumen_por_estado]: the [GROUP BY estado] counts as a dict, then
    [out["total"]] set to the number of rows. *)
Definition resumen_por_estado (d : db) : list (string * Z) :=
  let rows := group_by_estado (table_rows d) in
  let out := PyDict.of_list ((fun '(e, cnt) => (if String.eqb e "" then "" else e, cnt)) <$> rows) in
  PyDict.setitem out "total" (Z.of_nat (length (table_rows d))).

(** [count_nuevas]: [SELECT count(id) ... WHERE estado = 'nueva'] (a
    count is never NULL, so [or 0] does not apply). *)
Definition count_nuevas (d : db) : Z :=
  Z.of_nat (length (List.filter (fun p => bool_decide (estado p = "nueva")) (table_rows d))).

(** [list_by_estado]: the rows in state [estado_q], newest first, with
    [offset] and [limit] applied only when they are truthy. *)
Definition list_by_estado (nulls_low : bool) (d : db) (estado_q : string) (limit : option Z)
    (offset : Z) : list postulacion :=
  let query := merge_sort (row_le nulls_low (OrderBy Desc created_key))
                 (List.filter (fun p => bool_decide (estado p = estado_q)) (table_rows d)) in
  let query := if bool_decide (offset = 0) then query else drop (Z.to_nat offset) query in
  let query := match truthy_int limit with Some l => take (Z.to_nat l) query | None => query end in
  query.

Definition list_nuevas nl d limit offset := list_by_estado nl d "nueva" limit offset.
Definition list_destacadas nl d limit offset := list_by_estado nl d "destacada" limit offset.
Definition list_posibles nl d limit offset := list_by_estado nl d "posible" limit offset.
Definition list_descartadas nl d limit offset := list_by_estado nl d "descartada" limit offset.

(** ** The contract of the filters

    What a row must satisfy to be listed, stated on the column values:
    each filter that is given holds. *)
Definition opt_holds {A} (o : option A) (P : A -> Prop) : Prop :=
  match o with Some a => P a | None => True end.

(** [q] occurs in the column, ignoring case; a NULL column holds nothing. *)
Definition search_hit (q : string) (c : option string) : Prop :=
  match c with Some s => PyStr.contains (PyStr.lower q) (PyStr.lower s) = true | None => False end.

Definition puesto_match (pid : Z) (p : postulacion) : Prop :=
  puesto_id p = Some pid \/ puesto_original_id p = Some pid.

Definition list_spec (d : db) (q estado_q : option string) (puesto_id_q unidad_id_q : option Z)
    (p : postulacion) : Prop :=
  opt_holds (truthy_str q)
    (fun s => search_hit s (nombre p) \/ search_hit s (apellido p) \/ search_hit s (correo p)) /\
  opt_holds (truthy_str estado_q) (fun e => estado p = e) /\
  opt_holds (truthy_int unidad_id_q)
    (fun u => unidad_id p = Some u \/ unidad_original_id p = Some u) /\
  opt_holds (truthy_int puesto_id_q)
    (fun pid => puesto_match pid p \/
       exists u g, truthy_int unidad_id_q = Some u /\ puesto_general d u = Some g /\
                   puesto_match (pu_id g) p).

(** ** Lemmas *)

Lemma col_eq_true c v : col_eq c v = true <-> c = Some v.
Proof. destruct c; simpl; [rewrite bool_decide_eq_true|]; naive_solver. Qed.

Lemma col_in_pair c a b : col_in c [a; b] = true <-> c = Some a \/ c = Some b.
Proof. destruct c; simpl; [rewrite bool_decide_eq_true, !elem_of_cons, elem_of_nil|]; naive_solver. Qed.

Lemma col_ilike_hit c s :
  no_wildcards s = true -> col_ilike c ("%" +:+ s +:+ "%") = true <-> search_hit s c.
Proof. intros Hs. destruct c as [v|]; simpl; [by rewrite ilike_contains|done]. Qed.

Lemma puesto_cond_true pid p : puesto_cond pid p = true <-> puesto_match pid p.
Proof. unfold puesto_cond, puesto_match. by rewrite orb_true_iff, !col_eq_true. Qed.

Lemma truthy_str_Some o s : truthy_str o = Some s -> o = Some s.
Proof. destruct o as [s'|]; simpl; [destruct (String.eqb s' "")|]; congruence. Qed.

Lemma selection_elem d q e pq uq p :
  p ∈ selection d q e pq uq <->
  p ∈ table_rows d /\ forallb (fun c => c p) (list_query d q e pq uq) = true.
Proof. unfold selection. by rewrite !list_elem_of_In, List.filter_In. Qed.

Ltac cond_simpl :=
  rewrite ?forallb_app; cbn [forallb];
  rewrite ?andb_true_r, ?andb_true_iff, ?orb_true_iff, ?col_eq_true, ?col_in_pair,
    ?puesto_cond_true, ?bool_decide_eq_true.

Lemma selection_sorted_perm nl d q e pq uq sort :
  valid_order nl (order_clause sort) (selection d q e pq uq)
    (merge_sort (row_le nl (order_clause sort)) (selection d q e pq uq)).
Proof. split; [apply merge_sort_Permutation | apply Sorted_merge_sort, row_le_total]. Qed.

(** The statement of [listado_spec], proved once for the lemmas that build on it. *)
Lemma listado_spec_core nl d q e pq uq limit offset sort items total :
  listado nl d q e pq uq limit offset sort = (items, total) ->
  0 <= limit -> 0 <= offset ->
  total = Z.of_nat (length (selection d q e pq uq)) /\
  Z.of_nat (length items) = Z.min limit (Z.max 0 (total - offset)) /\
  exists out, valid_order nl (order_clause sort) (selection d q e pq uq) out /\
              items = take (Z.to_nat limit) (drop (Z.to_nat offset) out).
Proof.
  unfold listado. intros [= <- <-] Hl Ho.
  pose proof (selection_sorted_perm nl d q e pq uq sort) as [Hp Hs].
  split; [done|]. split; [|eexists; split; [split; eassumption | reflexivity]].
  rewrite length_take, length_drop, (Permutation_length Hp). lia.
Qed.

(** (C17) [list] returns the number of selected rows and the page
    [offset .. offset + limit) of an order of them that [ORDER BY] allows:
    a page of [min limit (total - offset)] rows. *)
Theorem listado_spec nl d q e pq uq limit offset sort items total :
  listado nl d q e pq uq limit offset sort = (items, total) ->
  0 <= limit -> 0 <= offset ->
  total = Z.of_nat (length (selection d q e pq uq)) /\
  Z.of_nat (length items) = Z.min limit (Z.max 0 (total - offset)) /\
  exists out, valid_order nl (order_clause sort) (selection d q e pq uq) out /\
              items = take (Z.to_nat limit) (drop (Z.to_nat offset) out).
Proof. apply listado_spec_core. Qed.

(** (C18) With a search term free of the wildcards [%], [_] and of the
    escape character [\], [list] selects exactly
    the rows of the table that satisfy [list_spec]: the term occurs in
    the name, surname or e-mail; the state is the one asked for; the
    unit is the current or the original one; the position is the current
    or the original one, or the unit's "Disponibilidad General". *)
Theorem selection_refines d q e pq uq p :
  (forall s, q = Some s -> no_wildcards s = true) ->
  p ∈ selection d q e pq uq <-> p ∈ table_rows d /\ list_spec d q e pq uq p.
Proof.
  intros Hq. rewrite selection_elem. apply and_iff_compat_l.
  unfold list_query, list_spec.
  destruct (truthy_str q) as [s|] eqn:Hs; [pose proof (Hq s (truthy_str_Some _ _ Hs)) as Hw|];
  destruct (truthy_str e) as [es|]; destruct (truthy_int uq) as [u|];
  destruct (truthy_int pq) as [pid|]; try destruct (puesto_general d u) as [g|] eqn:Hg;
  try case_bool_decide; cond_simpl; cbn [opt_holds];
  rewrite ?(col_ilike_hit (nombre p)), ?(col_ilike_hit (apellido p)),
    ?(col_ilike_hit (correo p)) by done;
  unfold puesto_match; naive_solver.
Qed.

(** When the sort key takes distinct values on the selected rows,
    every order the database may choose is the model's, so the pages of
    successive requests neither repeat nor skip a row. *)
Theorem listado_pages_deterministic nl d q e pq uq limit offset sort out :
  (forall p1 p2, p1 ∈ selection d q e pq uq -> p2 ∈ selection d q e pq uq ->
     ob_key (order_clause sort) p1 = ob_key (order_clause sort) p2 -> p1 = p2) ->
  valid_order nl (order_clause sort) (selection d q e pq uq) out ->
  (listado nl d q e pq uq limit offset sort).1 = take (Z.to_nat limit) (drop (Z.to_nat offset) out).
Proof.
  intros Hinj [Hp Hs]. pose proof (selection_sorted_perm nl d q e pq uq sort) as [Hp' Hs'].
  unfold listado; simpl. do 2 f_equal.
  apply (@Sorted_unique_strong _ (row_le nl (order_clause sort)) _); [|done|done|by rewrite Hp', Hp].
  intros x1 x2 H1 H2 H12 H21. apply Hinj; [by rewrite <- Hp' | by rewrite <- Hp |].
  by apply (row_le_antisym nl).
Qed.

Lemma selection_estado d e :
  e <> "" -> selection d None (Some e) None None =
             List.filter (fun p => bool_decide (estado p = e)) (table_rows d).
Proof.
  intros He. unfold selection, list_query. simpl.
  rewrite (proj2 (String.eqb_neq e "") He). apply List.filter_ext. intros p. simpl.
  by rewrite andb_true_r.
Qed.

(** [list_by_estado] with a positive [limit] is the general list
    query filtered on that state and sorted [reciente]. *)
Theorem list_by_estado_refines nl d e limit offset :
  e <> "" -> 0 < limit -> 0 <= offset ->
  list_by_estado nl d e (Some limit) offset = (listado nl d None (Some e) None None limit offset "reciente").1.
Proof.
  intros He Hl Ho. unfold list_by_estado, listado. rewrite selection_estado by done. simpl.
  destruct limit as [|l|l]; [lia| |lia]. simpl. f_equal.
  case_bool_decide as Hz; [by subst offset|done].
Qed.

Lemma group_by_estado_wf ps : PyDict.wf (group_by_estado ps).
Proof.
  unfold group_by_estado. generalize (@PyDict.wf_nil string Z). generalize (@nil (string * Z)).
  induction ps as [|p ps IH]; intros acc Hacc; simpl; [done|]. by apply IH, PyDict.wf_setitem.
Qed.

Lemma or_empty_id (rows : list (string * Z)) :
  (fun '(e, cnt) => (if String.eqb e "" then "" else e, cnt)) <$> rows = rows.
Proof.
  induction rows as [|[e c] rows IH]; [done|]. rewrite fmap_cons, IH. f_equal.
  destruct (String.eqb_spec e ""); congruence.
Qed.

(** [resumen_por_estado] maps every state other than "total" to
    the number of rows in that state (absent when there is none), and
    "total" to the number of all rows. *)
Theorem resumen_por_estado_spec d e :
  e <> "total" ->
  default 0 (PyDict.get (resumen_por_estado d) e)
    = Z.of_nat (length (filter (fun p => estado p = e) (table_rows d))) /\
  PyDict.get (resumen_por_estado d) "total" = Some (Z.of_nat (length (table_rows d))).
Proof.
  intros He. unfold resumen_por_estado. rewrite or_empty_id, PyDict.of_list_wf by apply group_by_estado_wf.
  split; [|apply PyDict.get_setitem_eq].
  rewrite PyDict.get_setitem_ne by congruence.
  by rewrite <- PyDict.sum_where_get, group_by_estado_sum by apply group_by_estado_wf.
Qed.

(** (C27) [GET /postulaciones] changes nothing and schedules no
    broadcast; it answers 422 exactly when [limit] is outside 1..200,
    [offset] is negative or [sort] is not one of the five orders, and
    otherwise 200 with the count of the selected rows and a page of
    [min limit (total - offset)] of them, sorted by an entry of
    [_sort_map] (its default is never used). *)
Theorem list_postulaciones_spec nl d q e pq uq lq oq sq :
  let limit := default 50 lq in
  let offset := default 0 oq in
  let sort := default "reciente" sq in
  let r := list_postulaciones nl d q e pq uq lq oq sq in
  Router.h_db r = d /\ Router.h_tasks r = [] /\
  match Router.h_resp r with
  | Router.Resp st pg =>
      st = 200 /\ (1 <= limit <= 200 /\ 0 <= offset /\ sort ∈ sort_pattern) /\
      pg_limit pg = limit /\ pg_offset pg = offset /\
      pg_total pg = Z.of_nat (length (selection d q e pq uq)) /\
      Z.of_nat (length (pg_items pg)) = Z.min limit (Z.max 0 (pg_total pg - offset)) /\
      PyDict.get _sort_map sort <> None
  | Router.HTTPError st _ => st = 422 /\ ~ (1 <= limit <= 200 /\ 0 <= offset /\ sort ∈ sort_pattern)
  end.
Proof.
  intros limit offset sort r. subst r. unfold list_postulaciones. fold limit offset sort.
  destruct ((1 <=? limit) && (limit <=? 200) && (0 <=? offset) && bool_decide (sort ∈ sort_pattern))
    eqn:Hv.
  - rewrite !andb_true_iff, bool_decide_eq_true, !Z.leb_le in Hv.
    destruct (listado nl d q e pq uq limit offset sort) as [items total] eqn:Hl.
    destruct (listado_spec_core _ _ _ _ _ _ _ _ _ _ _ Hl) as (Ht & Hlen & _); [lia..|].
    do 2 (split; [done|]). simpl. split; [done|]. split; [tauto|]. do 4 (split; [lia|]).
    destruct Hv as [_ Hs]. unfold sort_pattern in Hs. rewrite !elem_of_cons, elem_of_nil in Hs.
    by destruct Hs as [->|[->|[->|[->|[->|[]]]]]].
  - do 2 (split; [done|]). simpl. split; [done|]. intros Hok. apply not_true_iff_false in Hv. apply Hv.
    rewrite !andb_true_iff, bool_decide_eq_true, !Z.leb_le. tauto.
Qed.

(** [p ∈ l] for the rows of [l] on which a key takes distinct values is
    determined by the key. *)
Lemma key_inj_on_NoDup {A B} (f : A -> B) (l : list A) :
  NoDup (f <$> l) -> forall x y, x ∈ l -> y ∈ l -> f x = f y -> x = y.
Proof.
  induction l as [|a l IH]; intros Hnd x y Hx Hy Hxy; [by apply elem_of_nil in Hx|].
  rewrite fmap_cons in Hnd. apply NoDup_cons in Hnd as [Ha Hnd].
  apply elem_of_cons in Hx as [->|Hx], Hy as [->|Hy]; [done| | |by apply IH].
  - contradict Ha. rewrite Hxy. by apply list_elem_of_fmap_2.
  - contradict Ha. rewrite <- Hxy. by apply list_elem_of_fmap_2.
Qed.

End Listado.

(** ** Concrete queries *)
Module QueryDemo.

Import Store Sql Listado.

Local Open Scope Z_scope.

#[local] Instance sql_val_eq_dec : EqDecision sql_val.
Proof. solve_decision. Defined.

Definition row (i : Z) (n a c : string) (pu un : option Z) (est : string) (created : Z)
    (dec : option Z) : postulacion :=
  Postulacion i (Some n) (Some a) (Some c) None pu un None None est None
    "cv.pdf" "cv.pdf" "application/pdf" 1000 None None None None None None None None
    dec created.

Definition r1 := row 1 "Juan" "Perez" "juan.perez@mail.com" (Some 3) (Some 1) "nueva" 100 None.
Definition r2 := row 2 "Ana" "Gomez" "ana_gomez@mail.com" (Some 5) (Some 1) "nueva" 200 None.
Definition r3 := row 3 "Luis" "Diaz" "ldiaz@mail.com" (Some 4) (Some 2) "nueva" 150 (Some 300).
Definition r4 := row 4 "Eva" "Ros" "eros@mail.com" (Some 4) (Some 2) "total" 120 (Some 130).

Definition db_of (ps : list postulacion) : db :=
  Db (list_to_map ((fun p => (p_id p, p)) <$> ps)) (1 + Z.of_nat (length ps))
    [Puesto 3 "Cajero" 1; Puesto 5 "Disponibilidad general" 1; Puesto 4 "Repositor" 2]
    [(1, "Sucursal Centro"); (2, "Sucursal Norte")] [7].

Definition demo := db_of [r1; r2; r3].

(** Sorting by [procesado] orders by [decidido_en] only: the rows
    not yet decided all have a NULL key, the database may order them
    either way on each request, and two requests for the pages at offset
    0 and 1 (one row per page) can both return the same row and never
    the other. *)
Example procesado_pages_unstable nl :
  exists d out1 out2,
    valid_order nl (order_clause "procesado") (selection d None None None None) out1 /\
    valid_order nl (order_clause "procesado") (selection d None None None None) out2 /\
    take 1 out1 = take 1 (drop 1 out2) /\
    exists p, p ∈ selection d None None None None /\ p ∉ take 1 out1 ++ take 1 (drop 1 out2).
Proof.
  assert (Hsel : selection (db_of [r1; r2]) None None None None = [r2; r1]) by (vm_compute; reflexivity).
  exists (db_of [r1; r2]), [r2; r1], [r1; r2]. rewrite Hsel.
  assert (Hle : forall a b, a ∈ [r2; r1] -> b ∈ [r2; r1] -> row_le nl (order_clause "procesado") a b).
  { intros a b Ha Hb. rewrite !elem_of_cons, elem_of_nil in Ha, Hb.
    destruct nl; destruct Ha as [->|[->|[]]], Hb as [->|[->|[]]]; reflexivity. }
  split; [split; [done|] | split; [split; [solve_Permutation|] | split; [done|]]].
  - repeat constructor; apply Hle; set_solver.
  - repeat constructor; apply Hle; set_solver.
  - exists r1. split; [set_solver|]. simpl. rewrite !elem_of_cons, elem_of_nil.
    intros [H|[H|[]]]; inversion H.
Qed.

(** [_] in the search term is a wildcard of [LIKE]: searching
    for the address "juan_perez" also lists a candidate whose address is
    "juan.perez@mail.com", which does not contain the term. *)
Example search_underscore_wildcard :
  r1 ∈ selection demo (Some "juan_perez") None None None /\
  ~ list_spec demo (Some "juan_perez") None None None r1.
Proof.
  split.
  - assert (H : selection demo (Some "juan_perez") None None None = [r1]) by (vm_compute; reflexivity).
    rewrite H. set_solver.
  - intros [H _]. vm_compute in H. naive_solver.
Qed.

(** [\] in the search term escapes the [%] the code appends: the term
    "z\" misses the value "perez\x", which contains it, and matches
    "perez%", which does not. *)
Example search_backslash_escape :
  ilike "perez\x" ("%" +:+ "z\" +:+ "%") = false /\ PyStr.contains "z\" "perez\x" = true /\
  ilike "perez%" ("%" +:+ "z\" +:+ "%") = true /\ PyStr.contains "z\" "perez%" = false.
Proof. vm_compute. auto. Qed.

Lemma ilike_contains_witness :
  no_wildcards "PEREZ" = true /\
  ilike "Juan Perez" ("%" +:+ "PEREZ" +:+ "%")
  = PyStr.contains (PyStr.lower "PEREZ") (PyStr.lower "Juan Perez").
Proof. split; [reflexivity | apply ilike_contains; reflexivity]. Defined.

(** The page at offset 1 of two rows, newest first, of the three new
    applications. *)
Lemma listado_spec_witness :
  listado true demo None (Some "nueva") None None 2 1 "reciente" = ([r3; r1], 3) /\
  3 = Z.of_nat (length (selection demo None (Some "nueva") None None)) /\
  Z.of_nat (length [r3; r1]) = Z.min 2 (Z.max 0 (3 - 1)) /\
  exists out, valid_order true (order_clause "reciente")
                (selection demo None (Some "nueva") None None) out /\
              [r3; r1] = take (Z.to_nat 2) (drop (Z.to_nat 1) out).
Proof.
  assert (H : listado true demo None (Some "nueva") None None 2 1 "reciente" = ([r3; r1], 3))
    by (vm_compute; reflexivity).
  split; [exact H|]. apply (listado_spec _ _ _ _ _ _ _ _ _ _ _ H); lia.
Defined.

(** Position 3 in unit 1 also lists the application to the unit's
    "Disponibilidad general". *)
Lemma selection_refines_witness :
  (forall s, @None string = Some s -> no_wildcards s = true) /\
  (r2 ∈ selection demo None None (Some 3) (Some 1) <->
   r2 ∈ table_rows demo /\ list_spec demo None None (Some 3) (Some 1) r2).
Proof.
  assert (Hq : forall s, @None string = Some s -> no_wildcards s = true) by (intros s [=]).
  split; [exact Hq | exact (selection_refines demo None None (Some 3) (Some 1) r2 Hq)].
Defined.

(** The creation times of the three rows differ, so every order the
    database may return for [reciente] gives the model's pages. *)
Lemma listado_pages_deterministic_witness :
  (forall p1 p2, p1 ∈ selection demo None None None None -> p2 ∈ selection demo None None None None ->
     ob_key (order_clause "reciente") p1 = ob_key (order_clause "reciente") p2 -> p1 = p2) /\
  valid_order true (order_clause "reciente") (selection demo None None None None) [r2; r3; r1] /\
  (listado true demo None None None None 1 1 "reciente").1
  = take (Z.to_nat 1) (drop (Z.to_nat 1) [r2; r3; r1]).
Proof.
  assert (Hsel : selection demo None None None None = [r3; r2; r1]) by (vm_compute; reflexivity).
  assert (Hinj : forall p1 p2, p1 ∈ selection demo None None None None ->
            p2 ∈ selection demo None None None None ->
            ob_key (order_clause "reciente") p1 = ob_key (order_clause "reciente") p2 -> p1 = p2).
  { apply key_inj_on_NoDup. rewrite Hsel. apply (bool_decide_unpack _). vm_compute. reflexivity. }
  assert (Hv : valid_order true (order_clause "reciente") (selection demo None None None None)
                 [r2; r3; r1]).
  { rewrite Hsel. split; [solve_Permutation|]. repeat constructor; vm_compute; reflexivity. }
  split; [exact Hinj|]. split; [exact Hv|].
  exact (listado_pages_deterministic true demo None None None None 1 1 "reciente" _ Hinj Hv).
Defined.

(** A state named "total" (which [decide] accepts: any non-empty
    text of at most 32 characters) collides with the key [total] of
    [resumen_por_estado]: its count is overwritten and the per-state
    counts no longer add up to the total. *)
Example resumen_total_collision :
  length (filter (fun p => estado p = "total") (table_rows (db_of [r1; r2; r4]))) = 1%nat /\
  resumen_por_estado (db_of [r1; r2; r4]) = [("total", 3); ("nueva", 2)].
Proof. split; vm_compute; reflexivity. Qed.

Lemma list_by_estado_refines_witness :
  "nueva" <> "" /\ 0 < 2 /\ 0 <= 1 /\
  list_by_estado true demo "nueva" (Some 2) 1
  = (listado true demo None (Some "nueva") None None 2 1 "reciente").1.
Proof.
  split; [done|]. split; [lia|]. split; [lia|].
  apply list_by_estado_refines; [done | lia | lia].
Defined.

Lemma resumen_por_estado_spec_witness :
  "nueva" <> "total" /\
  default 0 (PyDict.get (resumen_por_estado demo) "nueva")
    = Z.of_nat (length (filter (fun p => estado p = "nueva") (table_rows demo))) /\
  PyDict.get (resumen_por_estado demo) "total" = Some (Z.of_nat (length (table_rows demo))).
Proof. split; [done|]. apply resumen_por_estado_spec. done. Defined.

End QueryDemo.
