(* ===== verification/Usuarios.v ===== *)
(** * Usuarios: the user accounts, their router and the login
    [src/Api/models/usuarios.py] declares the table [usuarios],
    [src/Api/schemas/usuarios.py] the request bodies,
    [src/Api/services/usuarios.py] ([UsuariosService]) the methods, which
    are those of [Crud] on this table, and [src/Api/routers/usuarios.py]
    the routes, guarded by [JWTBearer] (any valid token) except [login].

    - [Users]: a row, the [Table] instance (every column NOT NULL, the
      e-mail UNIQUE), the schemas with their pydantic constraints, the
      service and the handlers, and the login that issues a token with
      [Jwt.create_token].  A password is stored as [Bcrypt p], the hash
      of [p], which [pwd_context.verify] accepts exactly for [p], or, when
      [update_usuario] does not hash it, as [Raw s].  Whether a string
      is an [EmailStr] is the email-validator library's decision, a
      section variable [email_ok].
    - [Routing]: Starlette's route matching (the first route whose path
      and method match; a path match with another method is 405), the
      route table of the router in declaration order, and the
      application of a request to it: the dependencies run first, then
      the path parameters and the body are validated (422).
    - [UsuariosDemo]: concrete requests. *)

From S2P Require Import Prelude PyDict PyStr Json Auth Crud Postulaciones.
From Stdlib Require Import Ascii.

Module Users.

Import Json Jwt Guards.

Local Open Scope Z_scope.
Local Open Scope py_scope.

(** The stored value of the [password] column: the bcrypt hash of a
    password, or a string stored as it is. *)
Inductive secret := Bcrypt (plain : string) | Raw (s : string).

(** [hash_password] and [verify_password]: passlib raises [ValueError]
    on a value that is not a hash it knows. *)
Definition hash_password (p : string) : secret := Bcrypt p.
Definition verify_password (plain : string) (hashed : secret) : result bool :=
  match hashed with
  | Bcrypt p => Ok (String.eqb p plain)
  | Raw _ => Raise ValueError
  end.

(** A row of [usuarios]; a column the program may set to [None] before
    the commit is an option. *)
Record usuario := Usuario {
  u_id : Z;
  apellido : option string;
  nombre : option string;
  correo : option string;
  password : option secret;
  role : option string
}.

(** One [setattr(obj, field, value)] of [update]. *)
Inductive upd_item :=
  | SetApellido (v : option string)
  | SetNombre (v : option string)
  | SetCorreo (v : option string)
  | SetRole (v : option string)
  | SetPassword (v : option secret).

Definition setattr_u (u : usuario) (it : upd_item) : usuario :=
  match it with
  | SetApellido v => Usuario (u_id u) v (nombre u) (correo u) (password u) (role u)
  | SetNombre v => Usuario (u_id u) (apellido u) v (correo u) (password u) (role u)
  | SetCorreo v => Usuario (u_id u) (apellido u) (nombre u) v (password u) (role u)
  | SetRole v => Usuario (u_id u) (apellido u) (nombre u) (correo u) (password u) v
  | SetPassword v => Usuario (u_id u) (apellido u) (nombre u) (correo u) v (role u)
  end.

(** [nullable=False] on every column. *)
Definition not_null_u (u : usuario) : bool :=
  bool_decide (is_Some (apellido u)) && bool_decide (is_Some (nombre u)) &&
  bool_decide (is_Some (correo u)) && bool_decide (is_Some (password u)) &&
  bool_decide (is_Some (role u)).

(** [UniqueConstraint("correo")] *)
Definition compatible_u (a b : usuario) : bool :=
  match correo a, correo b with
  | Some x, Some y => negb (String.eqb x y)
  | _, _ => true
  end.

#[export] Program Instance usuario_table : Table usuario upd_item := {|
  row_id := u_id;
  with_id u i := Usuario i (apellido u) (nombre u) (correo u) (password u) (role u);
  setattr := setattr_u;
  not_null := not_null_u;
  compatible := compatible_u
|}.
Next Obligation. done. Qed.
Next Obligation. by intros u []. Qed.
Next Obligation.
  intros a b. unfold compatible_u. destruct (correo a), (correo b); try done.
  by rewrite String.eqb_sym.
Qed.

Notation udb := (Crud.table usuario).

(** ** Request bodies *)

(** [Field(min_length=lo, max_length=hi)] *)
Definition len_ok (lo hi : nat) (s : string) : bool :=
  (lo <=? String.length s)%nat && (String.length s <=? hi)%nat.

Record UsuarioCreate := MkUsuarioCreate {
  c_apellido : string; c_nombre : string; c_correo : string; c_role : string; c_password : string
}.

Record UsuarioUpdate := MkUsuarioUpdate {
  up_apellido : option (option string);
  up_nombre : option (option string);
  up_correo : option (option string);
  up_role : option (option string);
  up_password : option (option string)
}.

Record UserLogin := MkUserLogin { l_email : string; l_password : string }.

Section Schemas.

(** The email-validator's verdict on a string. *)
Variable email_ok : string -> bool.

Definition valid_create (c : UsuarioCreate) : bool :=
  len_ok 2 50 (c_apellido c) && len_ok 2 50 (c_nombre c) && email_ok (c_correo c) &&
  len_ok 8 128 (c_password c).

(** A field set to [None] is not checked; a field set to a value is. *)
Definition field_ok (P : string -> bool) (f : option (option string)) : bool :=
  match f with Some (Some v) => P v | _ => true end.

Definition valid_update (u : UsuarioUpdate) : bool :=
  field_ok (len_ok 2 50) (up_apellido u) && field_ok (len_ok 2 50) (up_nombre u) &&
  field_ok email_ok (up_correo u) && field_ok (len_ok 6 128) (up_password u).

Definition valid_login (l : UserLogin) : bool := email_ok (l_email l) && len_ok 8 128 (l_password l).

End Schemas.

(** [data.model_dump(exclude_unset=True)], after [update_usuario] has
    replaced a truthy password by its hash, in the fields' order. *)
Definition model_dump (u : UsuarioUpdate) : list upd_item :=
  let pw := match up_password u with
            | Some (Some p) => if String.eqb p "" then Some (Some (Raw p)) else Some (Some (hash_password p))
            | Some None => Some None
            | None => None
            end in
  omap (fun x => x)
    [SetApellido <$> up_apellido u; SetNombre <$> up_nombre u; SetCorreo <$> up_correo u;
     SetRole <$> up_role u; SetPassword <$> pw].

(** ** [UsuariosService] *)

(** [get_by_email(correo)]: the first row with that e-mail. *)
Definition get_by_email (d : udb) (c : string) : option usuario :=
  List.find (fun u => bool_decide (correo u = Some c)) (Crud.list_all d).

(** [create(data, password_hash)], with [role=data.role or "user"]. *)
Definition create_u (d : udb) (data : UsuarioCreate) (password_hash : secret) : result (udb * usuario) :=
  Crud.create d (Usuario 0 (Some (c_apellido data)) (Some (c_nombre data)) (Some (c_correo data))
                   (Some password_hash)
                   (Some (if String.eqb (c_role data) "" then "user" else c_role data))).

(** ** The handlers of [routers/usuarios.py]

    Each handler receives the validated arguments; [Routing.usuarios_app]
    runs the guards and the validation before it. *)

(** What a handler returns. *)
Inductive out :=
  | OUser (u : usuario)
  | OUsers (us : list usuario)
  | OAuth (access_token : token) (expires_in : Z) (user : usuario)
  | ONone.

Notation resp := (Router.response out).

Definition create_usuario (d : udb) (payload : UsuarioCreate) : result (udb * resp) :=
  match get_by_email d (c_correo payload) with
  | Some _ => Ok (d, Router.HTTPError 409 "El correo ya existe")
  | None =>
      let? r := create_u d payload (hash_password (c_password payload)) in
      Ok (r.1, Router.Resp 200 (OUser r.2))
  end.

Definition list_usuarios (d : udb) : result (udb * resp) :=
  Ok (d, Router.Resp 200 (OUsers (Crud.list_all d))).

Definition get_usuario (d : udb) (user_id : Z) : result (udb * resp) :=
  match Crud.get d user_id with
  | Some u => Ok (d, Router.Resp 200 (OUser u))
  | None => Ok (d, Router.HTTPError 404 "No encontrado")
  end.

Definition update_usuario (d : udb) (user_id : Z) (payload : UsuarioUpdate) : result (udb * resp) :=
  let? r := Crud.update d user_id (model_dump payload) in
  match r.2 with
  | Some u => Ok (r.1, Router.Resp 200 (OUser u))
  | None => Ok (r.1, Router.HTTPError 404 "No encontrado")
  end.

(** [referenced]: the users some application names as its reviewer
    ([postulaciones.decidido_por_user_id]). *)
Definition delete_usuario (referenced : Z -> bool) (d : udb) (user_id : Z) : result (udb * resp) :=
  let? r := Crud.delete referenced d user_id in
  if r.2 then Ok (r.1, Router.Resp 204 ONone) else Ok (r.1, Router.HTTPError 404 "No encontrado").

(** The claims [login] puts in the token. *)
Definition opt_json (o : option string) : json := match o with Some s => JStr s | None => JNull end.

Definition login_claims (u : usuario) : list (string * json) :=
  [("uid", JInt (u_id u)); ("role", opt_json (role u))].

(** [login]: 401 unless the e-mail names a user whose password matches,
    else a token for the user's e-mail with its id and role, valid for
    [ACCESS_TOKEN_EXPIRE_MINUTES]. *)
Definition login (cfg : jwt_config) (now : Z) (d : udb) (data : UserLogin) : result (udb * resp) :=
  match get_by_email d (l_email data) with
  | None => Ok (d, Router.HTTPError 401 "Credenciales inválidas")
  | Some user =>
      let? ok := match password user with
                 | Some h => verify_password (l_password data) h
                 | None => Raise TypeError
                 end in
      if ok then
        let token := create_token cfg (default "" (correo user)) (Some (login_claims user)) now in
        Ok (d, Router.Resp 200 (OAuth token (ACCESS_TOKEN_EXPIRE_MINUTES cfg * 60) user))
      else Ok (d, Router.HTTPError 401 "Credenciales inválidas")
  end.

(** [me]: the user named by the token's [uid]. *)
Definition me (d : udb) (jwt : list (string * json)) : result (udb * resp) :=
  let uid := default JNull (PyDict.get jwt "uid") in
  if negb (py_truthy uid) then Ok (d, Router.HTTPError 401 "No autenticado")
  else
    let? i := py_int uid in
    match Crud.get d i with
    | Some u => Ok (d, Router.Resp 200 (OUser u))
    | None => Ok (d, Router.HTTPError 404 "No encontrado")
    end.

(** (C21) The token [login] issues passes [admin_required], throughout
    its validity, exactly when the user's role is "Admin": the role is
    read from the token, fixed at login. *)
Theorem login_token_admin cfg now d l d' tok exp u now' :
  login cfg now d l = Ok (d', Router.Resp 200 (OAuth tok exp u)) ->
  now <= now' < now + ACCESS_TOKEN_EXPIRE_MINUTES cfg * 60 ->
  (exists p, admin_required cfg (Request (Some ("Bearer", Some tok)) None None) now' = Pass p) <->
  role u = Some "Admin".
Proof.
  unfold login. destruct (get_by_email d (l_email l)) as [user|]; [|discriminate].
  destruct (password user) as [h|]; [|discriminate]. simpl.
  destruct (verify_password (l_password l) h) as [ok|]; [|discriminate]. simpl.
  destruct ok; [|discriminate]. intros [= <- <- <- <-] Hw.
  assert (Hf : Forall (fun kv => kv.1 ∉ reserved) (login_claims user))
    by (apply (bool_decide_unpack _); vm_compute; reflexivity).
  destruct (proj2 (create_validate_roundtrip_core cfg (default "" (correo user)) _ now now' Hf) Hw)
    as (c & Hv & _ & Hk).
  assert (Hr : PyDict.get c "role" = Some (opt_json (role user))) by (rewrite Hk; [done|set_solver]).
  unfold admin_required, jwt_bearer, http_bearer. simpl. rewrite Hv. simpl. rewrite Hr.
  destruct (role user) as [r|]; simpl; [|split; [intros (? & [=])|done]].
  destruct (String.eqb_spec r "Admin") as [->|Hne]; [naive_solver|].
  split; [intros (? & [=])|congruence].
Qed.

End Users.

Module Routing.

Import Json Jwt Guards Users.

Local Open Scope Z_scope.

Inductive method := GET | POST | PATCH | DELETE.

#[export] Instance method_eq_dec : EqDecision method.
Proof. solve_decision. Defined.

(** A path template: literal segments and [{param}] segments. *)
Inductive seg := Lit (s : string) | Param (name : string).

Record route (E : Type) := Route { r_method : method; r_path : list seg; r_endpoint : E }.
Arguments Route {E} r_method r_path r_endpoint.
Arguments r_method {E} _.
Arguments r_path {E} _.
Arguments r_endpoint {E} _.

(** A path parameter matches a non-empty segment ([[^/]+]). *)
Fixpoint match_path (p : list seg) (path : list string) : option (list (string * string)) :=
  match p, path with
  | [], [] => Some []
  | Lit s :: p', x :: path' => if String.eqb s x then match_path p' path' else None
  | Param n :: p', x :: path' =>
      if String.eqb x "" then None else (fun ps => (n, x) :: ps) <$> match_path p' path'
  | _, _ => None
  end.

Inductive matched (E : Type) := Full (e : E) (params : list (string * string)) | Partial | NoMatch.
Arguments Full {E} e params.
Arguments Partial {E}.
Arguments NoMatch {E}.

(** Starlette's [Router]: the first route that matches path and method;
    if only the path of some route matches, 405. *)
Fixpoint dispatch {E} (routes : list (route E)) (m : method) (path : list string) : matched E :=
  match routes with
  | [] => NoMatch
  | r :: rs =>
      match match_path (r_path r) path with
      | Some ps =>
          if decide (r_method r = m) then Full (r_endpoint r) ps
          else match dispatch rs m path with Full e ps' => Full e ps' | _ => Partial end
      | None => dispatch rs m path
      end
  end.

Inductive endpoint := EpCreate | EpList | EpGet | EpUpdate | EpDelete | EpLogin | EpMe.

(** The routes of [APIRouter(prefix="/usuarios")] in declaration order. *)
Definition usuarios_routes : list (route endpoint) :=
  [Route POST [Lit "usuarios"] EpCreate;
   Route GET [Lit "usuarios"] EpList;
   Route GET [Lit "usuarios"; Param "user_id"] EpGet;
   Route PATCH [Lit "usuarios"; Param "user_id"] EpUpdate;
   Route DELETE [Lit "usuarios"; Param "user_id"] EpDelete;
   Route POST [Lit "usuarios"; Lit "login"] EpLogin;
   Route GET [Lit "usuarios"; Lit "me"] EpMe].

(** Every route but [login] depends on [JWTBearer()]. *)
Definition needs_jwt (e : endpoint) : bool := match e with EpLogin => false | _ => true end.

(** The JSON body, parsed against the schema the endpoint declares. *)
Inductive body := NoBody | BCreate (c : UsuarioCreate) | BUpdate (u : UsuarioUpdate) | BLogin (l : UserLogin).

Record http_request := HttpRequest {
  req_method : method; req_path : list string; req_headers : request; req_body : body
}.

Definition unprocessable {A} : Router.response A := Router.HTTPError 422 "Unprocessable Entity".

(** [user_id: int] from the path, as pydantic reads a string as an int. *)
Definition path_int (ps : list (string * string)) : option Z :=
  PyStr.py_int_str (default "" (PyDict.get ps "user_id")).

Section App.

Variable email_ok : string -> bool.
Variable cfg : jwt_config.
Variable referenced : Z -> bool.
Variable now : Z.

(** A request to the router: routing, then the dependencies, then the
    validation of the path parameters and the body, then the handler. *)
Definition usuarios_app (d : udb) (req : http_request) : result (udb * resp) :=
  match dispatch usuarios_routes (req_method req) (req_path req) with
  | NoMatch => Ok (d, Router.HTTPError 404 "Not Found")
  | Partial => Ok (d, Router.HTTPError 405 "Method Not Allowed")
  | Full e ps =>
      match (if needs_jwt e then jwt_bearer cfg (req_headers req) now else Pass []) with
      | Deny st det => Ok (d, Router.HTTPError st det)
      | Pass jwt =>
          match e, req_body req with
          | EpCreate, BCreate c => if valid_create email_ok c then create_usuario d c else Ok (d, unprocessable)
          | EpList, _ => list_usuarios d
          | EpGet, _ => match path_int ps with Some i => get_usuario d i | None => Ok (d, unprocessable) end
          | EpUpdate, BUpdate u =>
              match path_int ps with
              | Some i => if valid_update email_ok u then update_usuario d i u else Ok (d, unprocessable)
              | None => Ok (d, unprocessable)
              end
          | EpDelete, _ =>
              match path_int ps with Some i => delete_usuario referenced d i | None => Ok (d, unprocessable) end
          | EpLogin, BLogin l => if valid_login email_ok l then login cfg now d l else Ok (d, unprocessable)
          | EpMe, _ => me d jwt
          | _, _ => Ok (d, unprocessable)
          end
      end
  end.

End App.

(** (C31) [GET /usuarios/me] never reaches [me]: the route
    [GET /usuarios/{user_id}], declared before it, matches the path
    first, so the request is refused by [JWTBearer] or, with a valid
    token, by the validation of "me" as an [int] (422). *)
Theorem me_unreachable email_ok cfg referenced now d hdrs b :
  usuarios_app email_ok cfg referenced now d (HttpRequest GET ["usuarios"; "me"] hdrs b) =
  Ok (d, match jwt_bearer cfg hdrs now with
         | Pass _ => unprocessable
         | Deny st det => Router.HTTPError st det
         end).
Proof. unfold usuarios_app. simpl. by destruct (jwt_bearer cfg hdrs now). Qed.

(** The body [{"role": "Admin"}] of [PATCH /usuarios/{user_id}]. *)
Definition make_admin_body : UsuarioUpdate := MkUsuarioUpdate None None None (Some (Some "Admin")) None.

(** (C32) Every route of [/usuarios] but [login] asks only for a valid
    token, never for an administrator: whatever the role the token
    carries, [PATCH /usuarios/{user_id}] with [{"role": "Admin"}] on a
    well-formed table makes any existing user an administrator (200 with
    the updated row, committed), so any user can promote itself, and
    the token of its next [login] passes [admin_required]
    ([login_token_admin]). *)
Theorem privilege_escalation email_ok cfg referenced now d s i hdrs jwt u :
  Crud.wf d -> jwt_bearer cfg hdrs now = Pass jwt -> PyStr.py_int_str s = Some i ->
  Crud.get d i = Some u ->
  exists d',
    usuarios_app email_ok cfg referenced now d (HttpRequest PATCH ["usuarios"; s] hdrs (BUpdate make_admin_body))
    = Ok (d', Router.Resp 200 (OUser (setattr_u u (SetRole (Some "Admin"))))) /\
    Crud.get d' i = Some (setattr_u u (SetRole (Some "Admin"))).
Proof.
  intros [Hrows Hcomp] Hj Hs Hg.
  assert (Hne : String.eqb s "" = false) by (apply String.eqb_neq; intros ->; discriminate Hs).
  unfold usuarios_app. simpl. rewrite Hne. simpl. rewrite Hj. unfold path_int. simpl. rewrite Hs.
  unfold update_usuario, Crud.update. rewrite Hg. simpl.
  destruct (Hrows i u Hg) as (Hid & _ & Hnn).
  assert (Hfits : Crud.fits (Crud.rows d) i (setattr_u u (SetRole (Some "Admin"))) = true).
  { apply Crud.fits_true. split.
    - simpl in Hnn |- *. unfold not_null_u in *. simpl. rewrite !andb_true_iff in Hnn |- *.
      naive_solver.
    - intros j o Ho Hji. exact (Hcomp i j u o (not_eq_sym Hji) Hg Ho). }
  cbn [setattr_u] in Hfits. unfold Crud.commit. rewrite Hfits. simpl. eexists. split; [reflexivity|].
  unfold Crud.get. simpl. apply lookup_insert_eq.
Qed.

End Routing.

(** ** Concrete requests *)
Module UsuariosDemo.

Import Json Jwt Guards Users Routing.

Local Open Scope Z_scope.

(** A stand-in for the email-validator's verdict. *)
Definition email_ok (s : string) : bool := PyStr.contains "@" s.

Definition cfg : jwt_config := JwtConfig "s3cret" 120.

Definition no_refs (_ : Z) : bool := false.

Definition ana := Usuario 1 (Some "Paz") (Some "Ana") (Some "ana@mail.com") (Some (Bcrypt "password1")) (Some "Admin").
Definition beto := Usuario 2 (Some "Sosa") (Some "Beto") (Some "beto@mail.com") (Some (Bcrypt "password2")) (Some "user").

Definition d0 : udb := Crud.Tbl (list_to_map [(1, ana); (2, beto)]) 3.

Lemma d0_wf : Crud.wf d0.
Proof. apply Crud.wf_check_sound. vm_compute. reflexivity. Qed.

Definition bearer (t : token) : request := Request (Some ("Bearer", Some t)) None None.

Definition beto_login : http_request :=
  HttpRequest POST ["usuarios"; "login"] (Request None None None) (BLogin (MkUserLogin "beto@mail.com" "password2")).

Definition make_admin (t : token) : http_request :=
  HttpRequest PATCH ["usuarios"; "2"] (bearer t)
    (BUpdate (MkUsuarioUpdate None None None (Some (Some "Admin")) None)).

(** The whole escalation: a user with role "user" logs in, is refused by
    [admin_required], sets its own role to "Admin" with
    [PATCH /usuarios/{id}], logs in again and is then admitted by
    [admin_required]. *)
Example beto_promotes_himself :
  match usuarios_app email_ok cfg no_refs 1000 d0 beto_login with
  | Ok (_, Router.Resp 200 (OAuth t1 _ _)) =>
      admin_required cfg (bearer t1) 1100 = Deny 403 "Solo administradores" /\
      match usuarios_app email_ok cfg no_refs 1200 d0 (make_admin t1) with
      | Ok (d1, Router.Resp 200 _) =>
          match usuarios_app email_ok cfg no_refs 1300 d1 beto_login with
          | Ok (_, Router.Resp 200 (OAuth t2 _ _)) => exists p, admin_required cfg (bearer t2) 1400 = Pass p
          | _ => False
          end
      | _ => False
      end
  | _ => False
  end.
Proof. vm_compute. split; [reflexivity | eexists; reflexivity]. Qed.

Definition beto_token : token := create_token cfg "beto@mail.com" (Some (login_claims beto)) 1000.

Lemma privilege_escalation_witness :
  let hdrs := bearer beto_token in
  let jwt := match jwt_bearer cfg hdrs 1100 with Pass j => j | Deny _ _ => [] end in
  admin_required cfg hdrs 1100 = Deny 403 "Solo administradores" /\
  Crud.wf d0 /\ jwt_bearer cfg hdrs 1100 = Pass jwt /\ PyStr.py_int_str "2" = Some 2 /\
  Crud.get d0 2 = Some beto /\
  exists d',
    usuarios_app email_ok cfg no_refs 1100 d0 (HttpRequest PATCH ["usuarios"; "2"] hdrs (BUpdate make_admin_body))
    = Ok (d', Router.Resp 200 (OUser (setattr_u beto (SetRole (Some "Admin"))))) /\
    Crud.get d' 2 = Some (setattr_u beto (SetRole (Some "Admin"))).
Proof.
  intros hdrs jwt.
  assert (Hj : jwt_bearer cfg hdrs 1100 = Pass jwt) by (vm_compute; reflexivity).
  assert (Hs : PyStr.py_int_str "2" = Some 2) by (vm_compute; reflexivity).
  assert (Hg : Crud.get d0 2 = Some beto) by (vm_compute; reflexivity).
  split; [vm_compute; reflexivity|]. split; [exact d0_wf|]. do 3 (split; [assumption|]).
  exact (privilege_escalation email_ok cfg no_refs 1100 d0 "2" 2 hdrs jwt beto d0_wf Hj Hs Hg).
Defined.

(** Beto's e-mail set to Ana's: the UNIQUE constraint refuses the commit. *)
Definition dup_correo : UsuarioUpdate := MkUsuarioUpdate None None (Some (Some "ana@mail.com")) None None.


Definition ana_token : token := create_token cfg "ana@mail.com" (Some (login_claims ana)) 1000.

Lemma login_token_admin_witness :
  login cfg 1000 d0 (MkUserLogin "ana@mail.com" "password1") = Ok (d0, Router.Resp 200 (OAuth ana_token 7200 ana)) /\
  1000 <= 2000 < 1000 + ACCESS_TOKEN_EXPIRE_MINUTES cfg * 60 /\
  ((exists p, admin_required cfg (Request (Some ("Bearer", Some ana_token)) None None) 2000 = Pass p) <->
   role ana = Some "Admin").
Proof.
  assert (Hl : login cfg 1000 d0 (MkUserLogin "ana@mail.com" "password1")
               = Ok (d0, Router.Resp 200 (OAuth ana_token 7200 ana))) by (vm_compute; reflexivity).
  assert (Hw : 1000 <= 2000 < 1000 + ACCESS_TOKEN_EXPIRE_MINUTES cfg * 60) by (simpl; lia).
  split; [exact Hl|]. split; [exact Hw|]. exact (login_token_admin _ _ _ _ _ _ _ _ _ Hl Hw).
Defined.

End UsuariosDemo.
