(* ===== verification/Catalogo.v ===== *)
(** * Catalogo: business units and positions
    [src/Api/models/unidades_negocio.py] and [src/Api/models/puestos.py]
    declare the tables, [src/Api/schemas/unidades_negocio.py] and
    [src/Api/schemas/puestos.py] the bodies, [src/Api/services/puestos.py]
    ([PuestosService]) and [src/Api/services/unidades_negocio.py]
    ([UnidadesNegocioService]) the methods, which are those of [Crud],
    and [src/Api/routers/puestos.py] and
    [src/Api/routers/unidades_negocio.py] the routes: reading is guarded
    by [require_public_api_key], writing by [admin_required].

    - The catalogue is the two tables together, because a position
      belongs to a unit: [puestos.unidad_id] is a foreign key (a commit
      naming a missing unit raises [IntegrityError]) with [ON DELETE
      CASCADE] and the ORM relationship [cascade="all, delete-orphan"],
      so deleting a unit deletes its positions.  The applications
      reference units and positions without [ON DELETE]: [referenced]
      says which ids they name, and such a row cannot be deleted.
    - [ORDER BY nombre ASC] is a stable sort of the rows in table order
      by the byte order of [nombre] (NULL never occurs: the column is
      NOT NULL). *)

From S2P Require Import Prelude PyStr Json Auth Crud Postulaciones.
From stdpp Require Import sorting.

Module Catalogo.

Import Json Guards.

Local Open Scope Z_scope.
Local Open Scope py_scope.

(** ** Rows *)

Record unidad := Unidad {
  un_id : Z; un_nombre : option string; un_descripcion : option string; un_activo : option bool
}.

Record puesto := Puesto {
  pu_id : Z; pu_nombre : option string; pu_descripcion : option string; pu_activo : option bool;
  pu_unidad_id : option Z
}.

Inductive unidad_item :=
  | USetNombre (v : option string) | USetDescripcion (v : option string) | USetActivo (v : option bool).

Inductive puesto_item :=
  | PSetNombre (v : option string) | PSetDescripcion (v : option string) | PSetActivo (v : option bool)
  | PSetUnidad (v : option Z).

Definition setattr_un (u : unidad) (it : unidad_item) : unidad :=
  match it with
  | USetNombre v => Unidad (un_id u) v (un_descripcion u) (un_activo u)
  | USetDescripcion v => Unidad (un_id u) (un_nombre u) v (un_activo u)
  | USetActivo v => Unidad (un_id u) (un_nombre u) (un_descripcion u) v
  end.

Definition setattr_pu (p : puesto) (it : puesto_item) : puesto :=
  match it with
  | PSetNombre v => Puesto (pu_id p) v (pu_descripcion p) (pu_activo p) (pu_unidad_id p)
  | PSetDescripcion v => Puesto (pu_id p) (pu_nombre p) v (pu_activo p) (pu_unidad_id p)
  | PSetActivo v => Puesto (pu_id p) (pu_nombre p) (pu_descripcion p) v (pu_unidad_id p)
  | PSetUnidad v => Puesto (pu_id p) (pu_nombre p) (pu_descripcion p) (pu_activo p) v
  end.

(** [nombre = Column(String(80), unique=True, nullable=False)],
    [activo = Column(Boolean, nullable=False)] *)
Definition not_null_un (u : unidad) : bool :=
  bool_decide (is_Some (un_nombre u)) && bool_decide (is_Some (un_activo u)).

Definition compatible_un (a b : unidad) : bool :=
  match un_nombre a, un_nombre b with
  | Some x, Some y => negb (String.eqb x y)
  | _, _ => true
  end.

#[export] Program Instance unidad_table : Table unidad unidad_item := {|
  row_id := un_id;
  with_id u i := Unidad i (un_nombre u) (un_descripcion u) (un_activo u);
  setattr := setattr_un;
  not_null := not_null_un;
  compatible := compatible_un
|}.
Next Obligation. done. Qed.
Next Obligation. by intros u []. Qed.
Next Obligation.
  intros a b. unfold compatible_un. destruct (un_nombre a), (un_nombre b); try done.
  by rewrite String.eqb_sym.
Qed.

(** [UniqueConstraint("nombre", "unidad_id")], NOT NULL [nombre],
    [activo] and [unidad_id]. *)
Definition not_null_pu (p : puesto) : bool :=
  bool_decide (is_Some (pu_nombre p)) && bool_decide (is_Some (pu_activo p)) &&
  bool_decide (is_Some (pu_unidad_id p)).

Definition compatible_pu (a b : puesto) : bool :=
  negb (bool_decide (pu_nombre a = pu_nombre b /\ pu_unidad_id a = pu_unidad_id b)).

#[export] Program Instance puesto_table : Table puesto puesto_item := {|
  row_id := pu_id;
  with_id p i := Puesto i (pu_nombre p) (pu_descripcion p) (pu_activo p) (pu_unidad_id p);
  setattr := setattr_pu;
  not_null := not_null_pu;
  compatible := compatible_pu
|}.
Next Obligation. done. Qed.
Next Obligation. by intros p []. Qed.
Next Obligation.
  intros a b. unfold compatible_pu. f_equal. apply bool_decide_ext. naive_solver.
Qed.

Record catalog := Catalog { unidades : Crud.table unidad; puestos : Crud.table puesto }.

(** ** Bodies *)

Record PuestoCreate := MkPuestoCreate {
  pc_nombre : string; pc_descripcion : option string; pc_activo : bool; pc_unidad_id : Z
}.

Record PuestoUpdate := MkPuestoUpdate {
  pup_nombre : option (option string); pup_descripcion : option (option string);
  pup_activo : option (option bool); pup_unidad_id : option (option Z)
}.

Record UnidadNegocioCreate := MkUnidadCreate {
  uc_nombre : string; uc_descripcion : option string; uc_activo : bool
}.

Record UnidadNegocioUpdate := MkUnidadUpdate {
  uup_nombre : option (option string); uup_descripcion : option (option string);
  uup_activo : option (option bool)
}.

Definition len_le (hi : nat) (s : string) : bool := (String.length s <=? hi)%nat.
Definition len_in (lo hi : nat) (s : string) : bool := (lo <=? String.length s)%nat && len_le hi s.

Definition opt_ok (P : string -> bool) (o : option string) : bool :=
  match o with Some s => P s | None => true end.

Definition set_ok (P : string -> bool) (o : option (option string)) : bool :=
  match o with Some (Some s) => P s | _ => true end.

Definition valid_puesto_create (c : PuestoCreate) : bool :=
  len_in 1 80 (pc_nombre c) && opt_ok (len_le 255) (pc_descripcion c).

Definition valid_puesto_update (u : PuestoUpdate) : bool :=
  set_ok (len_in 1 80) (pup_nombre u) && set_ok (len_le 255) (pup_descripcion u).

Definition valid_unidad_create (c : UnidadNegocioCreate) : bool :=
  len_in 2 80 (uc_nombre c) && opt_ok (len_le 255) (uc_descripcion c).

Definition valid_unidad_update (u : UnidadNegocioUpdate) : bool :=
  set_ok (len_in 2 80) (uup_nombre u) && set_ok (len_le 255) (uup_descripcion u).

(** [model_dump(exclude_unset=True)] in the fields' order. *)
Definition puesto_items (u : PuestoUpdate) : list puesto_item :=
  omap (fun x => x) [PSetNombre <$> pup_nombre u; PSetDescripcion <$> pup_descripcion u;
                     PSetActivo <$> pup_activo u; PSetUnidad <$> pup_unidad_id u].

Definition unidad_items (u : UnidadNegocioUpdate) : list unidad_item :=
  omap (fun x => x) [USetNombre <$> uup_nombre u; USetDescripcion <$> uup_descripcion u;
                     USetActivo <$> uup_activo u].

(** ** The services *)

(** [ORDER BY nombre ASC] *)
Definition nombre_le (a b : option string) : Prop :=
  match a, b with
  | Some x, Some y => String.leb x y = true
  | None, _ => True
  | Some _, None => False
  end.

#[local] Instance nombre_le_dec : RelDecision nombre_le.
Proof. intros [x|] [y|]; unfold nombre_le; apply _. Defined.

Definition puesto_le (a b : puesto) : Prop := nombre_le (pu_nombre a) (pu_nombre b).
Definition unidad_le (a b : unidad) : Prop := nombre_le (un_nombre a) (un_nombre b).

#[local] Instance puesto_le_dec : RelDecision puesto_le := fun a b => nombre_le_dec _ _.
#[local] Instance unidad_le_dec : RelDecision unidad_le := fun a b => nombre_le_dec _ _.

(** [if not include_inactive: q = q.filter(Model.activo == True)] *)
Definition active_only {A} (activo : A -> option bool) (include_inactive : bool) (l : list A) : list A :=
  if include_inactive then l else List.filter (fun x => bool_decide (activo x = Some true)) l.

(** [PuestosService.list] *)
Definition list_puestos_s (c : catalog) (include_inactive : bool) : list puesto :=
  merge_sort puesto_le (active_only pu_activo include_inactive (Crud.list_all (puestos c))).

(** The foreign key of [puestos.unidad_id], checked at the commit. *)
Definition fk_ok (c : catalog) (p : puesto) : bool :=
  match pu_unidad_id p with Some u => bool_decide (is_Some (Crud.get (unidades c) u)) | None => true end.

(** [PuestosService.create]: the row built from [data.model_dump()]. *)
Definition create_puesto_s (c : catalog) (data : PuestoCreate) : result (catalog * puesto) :=
  let row := Puesto 0 (Some (pc_nombre data)) (pc_descripcion data) (Some (pc_activo data))
               (Some (pc_unidad_id data)) in
  if fk_ok c row then
    let? r := Crud.create (puestos c) row in Ok (Catalog (unidades c) r.1, r.2)
  else Raise IntegrityError.

(** [PuestosService.update] *)
Definition update_puesto_s (c : catalog) (i : Z) (data : PuestoUpdate) : result (catalog * option puesto) :=
  match Crud.get (puestos c) i with
  | None => Ok (c, None)
  | Some obj =>
      if fk_ok c (fold_left setattr (puesto_items data) obj) then
        let? r := Crud.update (puestos c) i (puesto_items data) in Ok (Catalog (unidades c) r.1, r.2)
      else Raise IntegrityError
  end.

(** [PuestosService.delete]; [referenced] are the positions some
    application names. *)
Definition delete_puesto_s (referenced : Z -> bool) (c : catalog) (i : Z) : result (catalog * bool) :=
  let? r := Crud.delete referenced (puestos c) i in Ok (Catalog (unidades c) r.1, r.2).

(** A unit with its positions ([selectinload(UnidadNegocio.puestos)]). *)
Definition with_puestos (c : catalog) (u : unidad) : unidad * list puesto :=
  (u, List.filter (fun p => bool_decide (pu_unidad_id p = Some (un_id u))) (Crud.list_all (puestos c))).

(** [UnidadesNegocioService.list_full] and [list] *)
Definition list_unidades_s (c : catalog) (include_inactive : bool) : list unidad :=
  merge_sort unidad_le (active_only un_activo include_inactive (Crud.list_all (unidades c))).

Definition list_full (c : catalog) (include_inactive : bool) : list (unidad * list puesto) :=
  with_puestos c <$> list_unidades_s c include_inactive.

(** [UnidadesNegocioService.get_full] *)
Definition get_full (c : catalog) (i : Z) : option (unidad * list puesto) :=
  with_puestos c <$> Crud.get (unidades c) i.

(** [UnidadesNegocioService.create] and [update] *)
Definition create_unidad_s (c : catalog) (data : UnidadNegocioCreate) : result (catalog * unidad) :=
  let? r := Crud.create (unidades c) (Unidad 0 (Some (uc_nombre data)) (uc_descripcion data) (Some (uc_activo data))) in
  Ok (Catalog r.1 (puestos c), r.2).

Definition update_unidad_s (c : catalog) (i : Z) (data : UnidadNegocioUpdate) : result (catalog * option unidad) :=
  let? r := Crud.update (unidades c) i (unidad_items data) in Ok (Catalog r.1 (puestos c), r.2).

(** [UnidadesNegocioService.delete]: the unit and, by the cascade, its
    positions; refused when the applications name the unit or one of
    those positions. *)
Definition delete_unidad_s (ref_unidad ref_puesto : Z -> bool) (c : catalog) (i : Z) : result (catalog * bool) :=
  match Crud.get (unidades c) i with
  | None => Ok (c, false)
  | Some _ =>
      let own := List.filter (fun p => bool_decide (pu_unidad_id p = Some i)) (Crud.list_all (puestos c)) in
      if ref_unidad i || existsb (fun p => ref_puesto (pu_id p)) own then Raise IntegrityError
      else
        Ok (Catalog (Crud.Tbl (base.delete i (Crud.rows (unidades c))) (Crud.next_id (unidades c)))
              (Crud.Tbl (filter (fun kv => pu_unidad_id kv.2 <> Some i) (Crud.rows (puestos c)))
                 (Crud.next_id (puestos c))), true)
  end.

(** ** The routers *)

Inductive cat_out :=
  | OPuestos (ps : list puesto)
  | OPuesto (p : puesto)
  | OUnidades (us : list (unidad * list puesto))
  | OUnidad (u : unidad * list puesto)
  | ONoContent.

Notation resp := (Router.response cat_out).

(** A route's dependency runs before its handler: a refusal is the
    response. *)
Definition guarded {A} (g : guard A) (c : catalog) (k : result (catalog * resp)) : result (catalog * resp) :=
  match g with Deny st det => Ok (c, Router.HTTPError st det) | Pass _ => k end.

Definition unprocessable : resp := Router.HTTPError 422 "Unprocessable Entity".
Definition no_encontrado : resp := Router.HTTPError 404 "No encontrado".

Section Routers.

Variable cfg : Jwt.jwt_config.
Variable now : Z.
Variable req : request.

(** [GET /puestos] (public key), [include_inactive] by default [False]. *)
Definition list_puestos (c : catalog) (include_inactive : option bool) : result (catalog * resp) :=
  guarded (require_public_api_key req) c
    (Ok (c, Router.Resp 200 (OPuestos (list_puestos_s c (default false include_inactive))))).

Definition create_puesto (c : catalog) (payload : PuestoCreate) : result (catalog * resp) :=
  guarded (admin_required cfg req now) c
    (if valid_puesto_create payload then
       let? r := create_puesto_s c payload in Ok (r.1, Router.Resp 201 (OPuesto r.2))
     else Ok (c, unprocessable)).

Definition update_puesto (c : catalog) (pid : Z) (payload : PuestoUpdate) : result (catalog * resp) :=
  guarded (admin_required cfg req now) c
    (if valid_puesto_update payload then
       let? r := update_puesto_s c pid payload in
       match r.2 with Some p => Ok (r.1, Router.Resp 200 (OPuesto p)) | None => Ok (r.1, no_encontrado) end
     else Ok (c, unprocessable)).

Definition delete_puesto (referenced : Z -> bool) (c : catalog) (pid : Z) : result (catalog * resp) :=
  guarded (admin_required cfg req now) c
    (let? r := delete_puesto_s referenced c pid in
     if r.2 then Ok (r.1, Router.Resp 204 ONoContent) else Ok (r.1, no_encontrado)).

(** [GET /unidades-negocio] (public key), with the positions. *)
Definition list_unidades (c : catalog) (include_inactive : option bool) : result (catalog * resp) :=
  guarded (require_public_api_key req) c
    (Ok (c, Router.Resp 200 (OUnidades (list_full c (default false include_inactive))))).

Definition get_unidad (c : catalog) (uid : Z) : result (catalog * resp) :=
  guarded (require_public_api_key req) c
    (match get_full c uid with
     | Some u => Ok (c, Router.Resp 200 (OUnidad u))
     | None => Ok (c, no_encontrado)
     end).

(** [create_unidad] answers with [get_full(obj.id)]; [None] there would
    fail the response model (it cannot happen after the commit). *)
Definition create_unidad (c : catalog) (payload : UnidadNegocioCreate) : result (catalog * resp) :=
  guarded (admin_required cfg req now) c
    (if valid_unidad_create payload then
       let? r := create_unidad_s c payload in
       match get_full r.1 (un_id r.2) with
       | Some u => Ok (r.1, Router.Resp 201 (OUnidad u))
       | None => Raise TypeError
       end
     else Ok (c, unprocessable)).

Definition update_unidad (c : catalog) (uid : Z) (payload : UnidadNegocioUpdate) : result (catalog * resp) :=
  guarded (admin_required cfg req now) c
    (if valid_unidad_update payload then
       let? r := update_unidad_s c uid payload in
       match r.2 with
       | None => Ok (r.1, no_encontrado)
       | Some _ => match get_full r.1 uid with
                   | Some u => Ok (r.1, Router.Resp 200 (OUnidad u))
                   | None => Raise TypeError
                   end
       end
     else Ok (c, unprocessable)).

Definition delete_unidad (ref_unidad ref_puesto : Z -> bool) (c : catalog) (uid : Z) : result (catalog * resp) :=
  guarded (admin_required cfg req now) c
    (let? r := delete_unidad_s ref_unidad ref_puesto c uid in
     if r.2 then Ok (r.1, Router.Resp 204 ONoContent) else Ok (r.1, no_encontrado)).

End Routers.

(** ** The invariant of the catalogue *)

(** Both tables well formed, and every position's unit exists. *)
Definition cat_wf (c : catalog) : Prop :=
  Crud.wf (unidades c) /\ Crud.wf (puestos c) /\
  map_Forall (fun _ p => fk_ok c p = true) (Crud.rows (puestos c)).

Lemma fk_ok_unidades c c' p :
  (forall u, is_Some (Crud.get (unidades c) u) -> is_Some (Crud.get (unidades c') u)) ->
  fk_ok c p = true -> fk_ok c' p = true.
Proof.
  unfold fk_ok. destruct (pu_unidad_id p); [|done].
  rewrite !bool_decide_eq_true. auto.
Qed.

(** Creating a position keeps the invariant: the foreign key is checked
    before the commit. *)
Lemma create_puesto_s_wf c data :
  cat_wf c -> forall c' p, create_puesto_s c data = Ok (c', p) -> cat_wf c'.
Proof.
  intros (Hu & Hp & Hfk) c' p. unfold create_puesto_s.
  destruct (fk_ok c _) eqn:Hok; [|discriminate].
  pose proof (Crud.crud_create_spec (puestos c) (Puesto 0 (Some (pc_nombre data)) (pc_descripcion data)
                (Some (pc_activo data)) (Some (pc_unidad_id data))) Hp) as Hc.
  destruct (Crud.create (puestos c) _) as [[t r]|e]; simpl; [|discriminate].
  intros [= <- <-]. destruct Hc as (-> & Hrows & _ & Hwf).
  split; [done|]. split; [done|]. simpl. rewrite Hrows.
  apply map_Forall_insert_2; [by unfold fk_ok in *|].
  eapply map_Forall_impl; [apply Hfk|]. intros ?? Hf. eapply fk_ok_unidades; [|exact Hf]. done.
Qed.

(** Deleting a unit deletes its positions, so no position is left
    pointing at it. *)
Lemma delete_unidad_s_wf ru rp c i :
  cat_wf c -> forall c' b, delete_unidad_s ru rp c i = Ok (c', b) -> cat_wf c'.
Proof.
  intros (Hu & Hp & Hfk) c' b. unfold delete_unidad_s.
  destruct (Crud.get (unidades c) i) eqn:Hg; [|intros [= <- _]; done].
  destruct (_ || _); [discriminate|]. intros [= <- _].
  split; [by apply (Crud.tbl_wf_delete (unidades c))|]. split.
  - destruct Hp as [Hm Hcm]. split; simpl.
    + intros k p Hk. apply map_lookup_filter_Some in Hk as [Hk _]. by apply Hm in Hk.
    + intros j k a b' Hjk Ha Hb. apply map_lookup_filter_Some in Ha as [Ha _], Hb as [Hb _]. eauto.
  - intros k p Hk. apply map_lookup_filter_Some in Hk as [Hk Hne]. simpl in Hne.
    specialize (Hfk k p Hk). unfold fk_ok in *. simpl. destruct (pu_unidad_id p) as [v|]; [|done].
    rewrite bool_decide_eq_true in *. unfold Crud.get in *. simpl.
    rewrite lookup_delete_ne; [done|]. congruence.
Qed.

(** The foreign keys of the positions survive any change of the units
    that keeps every existing unit. *)
Lemma fk_all_unidades c c' :
  (forall u, is_Some (Crud.get (unidades c) u) -> is_Some (Crud.get (unidades c') u)) ->
  Crud.rows (puestos c') = Crud.rows (puestos c) ->
  map_Forall (fun _ p => fk_ok c p = true) (Crud.rows (puestos c)) ->
  map_Forall (fun _ p => fk_ok c' p = true) (Crud.rows (puestos c')).
Proof.
  intros Hu -> Hfk. eapply map_Forall_impl; [exact Hfk|]. intros ?? Hf. by eapply fk_ok_unidades.
Qed.

Lemma update_puesto_s_wf c i data :
  cat_wf c -> forall c' o, update_puesto_s c i data = Ok (c', o) -> cat_wf c'.
Proof.
  intros (Hu & Hp & Hfk) c' o. unfold update_puesto_s.
  destruct (Crud.get (puestos c) i) as [obj|] eqn:Hg; [|intros [= <- _]; done].
  destruct (fk_ok c _) eqn:Hok; [|discriminate].
  destruct (Crud.update (puestos c) i (puesto_items data)) as [[t r]|e] eqn:Hup; simpl; [|discriminate].
  intros [= <- <-]. pose proof (Crud.crud_update_Ok _ _ _ _ _ Hp Hup) as Hc.
  destruct r as [obj'|]; [|by destruct Hc as [Hc _]; rewrite Hc in Hg].
  destruct Hc as (obj0 & Hg0 & -> & _ & Hrows & _ & Hwf). rewrite Hg in Hg0. injection Hg0 as <-.
  split; [done|]. split; [done|]. simpl. rewrite Hrows.
  apply map_Forall_insert_2; [done|]. eapply map_Forall_impl; [apply Hfk|]. done.
Qed.

Lemma delete_puesto_s_wf referenced c i :
  cat_wf c -> forall c' b, delete_puesto_s referenced c i = Ok (c', b) -> cat_wf c'.
Proof.
  intros (Hu & Hp & Hfk) c' b. unfold delete_puesto_s.
  pose proof (Crud.crud_delete_spec referenced (puestos c) i Hp) as Hc.
  destruct (Crud.delete referenced (puestos c) i) as [[t [|]]|e]; simpl; [| |discriminate];
    intros [= <- _]; [destruct Hc as (_ & _ & Hrows & Hwf) | destruct Hc as [_ ->]; done].
  split; [done|]. split; [done|]. simpl. rewrite Hrows. by apply map_Forall_delete.
Qed.

Lemma create_unidad_s_wf c data :
  cat_wf c -> forall c' u, create_unidad_s c data = Ok (c', u) -> cat_wf c'.
Proof.
  intros (Hu & Hp & Hfk) c' u. unfold create_unidad_s.
  pose proof (Crud.crud_create_spec (unidades c) (Unidad 0 (Some (uc_nombre data)) (uc_descripcion data)
                (Some (uc_activo data))) Hu) as Hc.
  destruct (Crud.create (unidades c) _) as [[t r]|e]; simpl; [|discriminate].
  intros [= <- <-]. destruct Hc as (_ & Hrows & _ & Hwf). split; [done|]. split; [done|].
  apply (fk_all_unidades c); [|done|done]. intros v. unfold Crud.get. simpl. rewrite Hrows.
  intros Hv. by apply lookup_insert_is_Some'; right.
Qed.

Lemma update_unidad_s_wf c i data :
  cat_wf c -> forall c' o, update_unidad_s c i data = Ok (c', o) -> cat_wf c'.
Proof.
  intros (Hu & Hp & Hfk) c' o. unfold update_unidad_s.
  destruct (Crud.update (unidades c) i (unidad_items data)) as [[t r]|e] eqn:Hup; simpl; [|discriminate].
  intros [= <- <-]. pose proof (Crud.crud_update_Ok _ _ _ _ _ Hu Hup) as Hc.
  destruct r as [obj'|]; [|destruct Hc as [_ ->]; by split].
  destruct Hc as (_ & _ & _ & _ & Hrows & _ & Hwf). split; [done|]. split; [done|].
  apply (fk_all_unidades c); [|done|done]. intros v. unfold Crud.get. simpl. rewrite Hrows.
  intros Hv. by apply lookup_insert_is_Some'; right.
Qed.

(** The requests of the administrators on the catalogue, as service
    calls that succeed; [ref_unidad] and [ref_puesto] are the units and
    positions the applications name. *)
Inductive cat_step (ref_unidad ref_puesto : Z -> bool) : catalog -> catalog -> Prop :=
  | cs_create_puesto c d c' p : create_puesto_s c d = Ok (c', p) -> cat_step ref_unidad ref_puesto c c'
  | cs_update_puesto c i d c' o : update_puesto_s c i d = Ok (c', o) -> cat_step ref_unidad ref_puesto c c'
  | cs_delete_puesto c i c' b : delete_puesto_s ref_puesto c i = Ok (c', b) -> cat_step ref_unidad ref_puesto c c'
  | cs_create_unidad c d c' u : create_unidad_s c d = Ok (c', u) -> cat_step ref_unidad ref_puesto c c'
  | cs_update_unidad c i d c' o : update_unidad_s c i d = Ok (c', o) -> cat_step ref_unidad ref_puesto c c'
  | cs_delete_unidad c i c' b :
      delete_unidad_s ref_unidad ref_puesto c i = Ok (c', b) -> cat_step ref_unidad ref_puesto c c'.

Lemma cat_step_wf ru rp c c' : cat_wf c -> cat_step ru rp c c' -> cat_wf c'.
Proof.
  intros Hc Hs. destruct Hs; eauto using create_puesto_s_wf, update_puesto_s_wf, delete_puesto_s_wf,
    create_unidad_s_wf, update_unidad_s_wf, delete_unidad_s_wf.
Qed.

(** The catalogue's invariant holds after any sequence of the
    administrators' requests that succeed: both tables keep their keys,
    NOT NULL and UNIQUE constraints, and every position names an
    existing unit -- creating or editing a position checks the foreign
    key, and deleting a unit deletes its positions. *)
Theorem cat_steps_wf ru rp c c' : cat_wf c -> rtc (cat_step ru rp) c c' -> cat_wf c'.
Proof. intros Hc Hr. exact (rtc_preserved _ _ (cat_step_wf ru rp) c c' Hr Hc). Qed.

End Catalogo.

Module CatalogoDemo.
Import Catalogo.

Local Open Scope Z_scope.

(** One unit with one position; then a second position is created and
    the unit deleted, which removes both positions. *)
Definition c0 : catalog :=
  Catalog (Crud.Tbl {[1 := Unidad 1 (Some "Sucursal Centro") None (Some true)]} 2)
          (Crud.Tbl {[1 := Puesto 1 (Some "Cajero") None (Some true) (Some 1)]} 2).

Definition no_refs (_ : Z) : bool := false.

Definition c1 : catalog :=
  match create_puesto_s c0 (MkPuestoCreate "Repositor" None true 1) with Ok (c, _) => c | Raise _ => c0 end.

Definition c2 : catalog :=
  match delete_unidad_s no_refs no_refs c1 1 with Ok (c, _) => c | Raise _ => c1 end.

Lemma c0_wf : cat_wf c0.
Proof.
  split; [apply Crud.wf_check_sound; vm_compute; reflexivity|].
  split; [apply Crud.wf_check_sound; vm_compute; reflexivity|].
  apply (bool_decide_unpack _). vm_compute. reflexivity.
Qed.

Lemma c0_steps : rtc (cat_step no_refs no_refs) c0 c2.
Proof.
  eapply rtc_l; [eapply (cs_create_puesto _ _ c0 (MkPuestoCreate "Repositor" None true 1) c1
                          (Puesto 2 (Some "Repositor") None (Some true) (Some 1)))|].
  { vm_compute. reflexivity. }
  eapply rtc_l; [eapply (cs_delete_unidad _ _ c1 1 c2 true)|]; [vm_compute; reflexivity|].
  apply rtc_refl.
Qed.

Lemma cat_steps_wf_witness : cat_wf c0 /\ rtc (cat_step no_refs no_refs) c0 c2 /\ cat_wf c2.
Proof.
  split; [exact c0_wf|]. split; [exact c0_steps|].
  exact (cat_steps_wf no_refs no_refs c0 c2 c0_wf c0_steps).
Defined.

End CatalogoDemo.
