(* ===== verification/Session.v ===== *)
(** * Session: the database session of a request

    [src/Api/config/database.py].  Every handler that touches the
    database takes [db: Session = Depends(get_db)]: [get_db] opens a
    session of [SessionLocal = sessionmaker(autocommit=False,
    autoflush=False, ...)], yields it to the handler and closes it in a
    [finally] clause, which FastAPI runs when the handler has returned or
    raised.  The services change the session's objects ([db.add],
    [setattr], [db.delete]) and then call [db.commit()].

    A request's world is the committed database [w_db], the session's
    view of it [w_view] (the database with the changes not yet
    committed) and whether the session is open.  With [autoflush=False]
    a change reaches the database only at [commit], which flushes it and
    raises [IntegrityError] when a constraint refuses it; [close] rolls
    back what was not committed.  A handler is a computation of
    [eitherT E (state world)], ExtLib's exception transformer over its
    state monad: the world survives an exception, as the session object
    survives a Python exception, so that the [finally] clause can close
    it.

    Section [Session] is generic in the database and its constraint
    check; Section [CrudSession] instantiates it with the tables of
    [Crud] and proves that the session-level [update] and [delete] of
    the services, run under [get_db], are [Crud.update] and
    [Crud.delete]: the result model of [Crud], where a refused commit
    leaves the table unchanged, is what the session does. *)

From S2P Require Import Prelude Crud Catalogo.
From ExtLib Require Import Structures.Monad Structures.MonadState Structures.MonadExc
  Data.Monads.StateMonad Data.Monads.EitherMonad.

Declare Scope sess_scope.
Delimit Scope sess_scope with sess.
Notation "'let*' x := c 'in' k" := (bind c (fun x => k))
  (at level 10, x name, c at level 100, k at level 200) : sess_scope.

Module Session.

Local Open Scope sess_scope.

Section Session.

(** [D] is the database, [E] the exceptions, [flush_ok old new] the
    check of the constraints a commit of [new] over [old] makes. *)
Context {D E : Type} (integrity_error : E) (flush_ok : D -> D -> bool).

Record world := World { w_db : D; w_view : D; w_open : bool }.

(** The computations a handler performs with its session. *)
Definition sess := eitherT E (state world).

Definition run {A} (m : sess A) (w : world) : (E + A) * world := runState (unEitherT m) w.

(** [SessionLocal()]: a new session, which sees the database. *)
Definition session_local : sess unit :=
  let* w := get in put (World (w_db w) (w_db w) true).

(** A query through the session. *)
Definition query {A} (q : D -> A) : sess A :=
  let* w := get in ret (q (w_view w)).

(** [db.add(obj)], [setattr(obj, k, v)], [db.delete(obj)]: a change of
    the session's objects, not flushed ([autoflush=False]). *)
Definition stage (f : D -> D) : sess unit :=
  let* w := get in put (World (w_db w) (f (w_view w)) (w_open w)).

(** [db.commit()]: flush and commit, or [IntegrityError] and nothing
    written. *)
Definition commit : sess unit :=
  let* w := get in
  if flush_ok (w_db w) (w_view w) then put (World (w_view w) (w_view w) (w_open w))
  else raise integrity_error.

(** [db.close()]: what was not committed is rolled back. *)
Definition close : sess unit :=
  let* w := get in put (World (w_db w) (w_db w) false).

(** [try: m finally: f] *)
Definition try_finally {A} (m : sess A) (f : sess unit) : sess A :=
  catch (let* x := m in let* _ := f in ret x) (fun e => let* _ := f in raise e).

(** [get_db()] around the handler [h]: [db = SessionLocal(); try: yield
    db finally: db.close()]. *)
Definition get_db {A} (h : sess A) : sess A :=
  let* _ := session_local in try_finally h close.

(** A service method of the form [obj = ...; <change>; db.commit()]:
    [op] computes, on the session's view, the exception it raises before
    the commit or the new view and the value it returns. *)
Definition service {A} (op : D -> E + (D * A)) : sess A :=
  let* v := query (fun d => d) in
  match op v with
  | inl e => raise e
  | inr (v', a) => let* _ := stage (fun _ => v') in let* _ := commit in ret a
  end.

(** The world after [close]. *)
Definition closed (d : D) : world := World d d false.

(** ** How the computations run *)

Lemma run_ret {A} (a : A) w : run (ret a) w = (inr a, w).
Proof. reflexivity. Qed.

Lemma run_bind {A B} (m : sess A) (k : A -> sess B) w :
  run (bind m k) w =
  match run m w with (inl e, w') => (inl e, w') | (inr a, w') => run (k a) w' end.
Proof. unfold run. simpl. by destruct (runState (unEitherT m) w) as [[e|a] w']. Qed.

Lemma run_get w : run get w = (inr w, w).
Proof. reflexivity. Qed.

Lemma run_put w w' : run (put w') w = (inr tt, w').
Proof. reflexivity. Qed.

Lemma run_raise {A} e w : run (raise e : sess A) w = (inl e, w).
Proof. reflexivity. Qed.

Lemma run_catch {A} (m : sess A) h w :
  run (catch m h) w = match run m w with (inl e, w') => run (h e) w' | r => r end.
Proof. unfold run. simpl. by destruct (runState (unEitherT m) w) as [[e|a] w']. Qed.

End Session.

Create Rewrite HintDb sess_run.
#[export] Hint Rewrite @run_ret @run_bind @run_get @run_put @run_raise @run_catch : sess_run.

(** Runs the computation of the goal as far as its state allows. *)
Ltac run_sess := repeat (autorewrite with sess_run; cbn [w_db w_view w_open]).

Section Requests.

Context {D E : Type} (integrity_error : E) (flush_ok : D -> D -> bool).

(** [get_db] runs the handler in a new session that sees the database
    and closes the session afterwards, whatever the handler did. *)
Lemma get_db_run {A} (h : @sess D E A) (w : @world D) :
  run (get_db h) w =
  let '(r, w1) := run h (World (w_db w) (w_db w) true) in (r, closed (w_db w1)).
Proof.
  unfold get_db, session_local, try_finally, close. run_sess.
  destruct (run h _) as [[e|a] w1]; by run_sess.
Qed.

Lemma service_run {A} (op : D -> E + (D * A)) (w : @world D) :
  run (service integrity_error flush_ok op) w =
  match op (w_view w) with
  | inl e => (inl e, w)
  | inr (v', a) =>
      if flush_ok (w_db w) v' then (inr a, World v' v' (w_open w))
      else (inl integrity_error, World (w_db w) v' (w_open w))
  end.
Proof.
  unfold service, query, stage, commit. run_sess.
  destruct (op (w_view w)) as [e|[v' a]]; run_sess; [done|]. by destruct (flush_ok _ _).
Qed.

(** (C35) Whatever the handler does -- return, raise before its commit,
    or have its commit refused -- [get_db] closes the session: the
    request ends with the session closed and nothing pending, the
    database as the handler's last successful commit left it, and the
    handler's own result or exception. *)
Theorem get_db_closes {A} (h : @sess D E A) (w : @world D) :
  let '(r, w') := run (get_db h) w in
  let '(r1, w1) := run h (World (w_db w) (w_db w) true) in
  w_open w' = false /\ w_view w' = w_db w' /\ w_db w' = w_db w1 /\ r = r1.
Proof. rewrite get_db_run. by destruct (run h _). Qed.

(** A service method under [get_db] is atomic: the database after the
    request is the one [op] computes when the commit passes its check,
    and the database before it when [op] raises or the commit is
    refused. *)
Lemma service_atomic {A} (op : D -> E + (D * A)) (w : @world D) :
  run (get_db (service integrity_error flush_ok op)) w =
  match op (w_db w) with
  | inl e => (inl e, closed (w_db w))
  | inr (v', a) =>
      if flush_ok (w_db w) v' then (inr a, closed v') else (inl integrity_error, closed (w_db w))
  end.
Proof.
  rewrite get_db_run, service_run. simpl.
  destruct (op (w_db w)) as [e|[v' a]]; [done|]. by destruct (flush_ok _ _).
Qed.

End Requests.

(** ** The services of [Crud] in a session *)

Section CrudSession.

Context {R U : Type} `{!Table R U} (referenced : Z -> bool).

Local Abbreviation table := (@Crud.table R).

(** The check of the flush at [db.commit()]: the rows of the new table
    satisfy the NOT NULL and UNIQUE constraints, and no row another
    table references (a foreign key without [ON DELETE]) was deleted. *)
Definition table_flush_ok (old new : table) : bool :=
  bool_decide (map_Forall (fun k r => Crud.fits (Crud.rows new) k r = true) (Crud.rows new)) &&
  bool_decide (map_Forall (fun k _ => is_Some (Crud.rows new !! k) \/ referenced k = false) (Crud.rows old)).

(** [update(id, data)]: [obj = self.get(id)]; [None] when missing; else
    [setattr] of every item on the session's object, [db.commit()],
    [db.refresh(obj)]. *)
Definition update_s (i : Z) (items : list U) : @sess table exc (option R) :=
  let* o := query (fun t => Crud.get t i) in
  match o with
  | None => ret None
  | Some obj =>
      let obj' := fold_left setattr items obj in
      let* _ := stage (fun t => Crud.Tbl (<[i := obj']> (Crud.rows t)) (Crud.next_id t)) in
      let* _ := commit IntegrityError table_flush_ok in
      ret (Some obj')
  end.

(** [delete(id)]: [obj = self.get(id)]; [False] when missing; else
    [db.delete(obj)], [db.commit()], [True]. *)
Definition delete_s (i : Z) : @sess table exc bool :=
  let* o := query (fun t => Crud.get t i) in
  match o with
  | None => ret false
  | Some _ =>
      let* _ := stage (fun t => Crud.Tbl (base.delete i (Crud.rows t)) (Crud.next_id t)) in
      let* _ := commit IntegrityError table_flush_ok in
      ret true
  end.

Lemma fits_insert_self m k r r0 : Crud.fits (<[k := r0]> m) k r = Crud.fits m k r.
Proof.
  apply Bool.eq_iff_eq_true. rewrite !Crud.fits_true.
  setoid_rewrite lookup_insert_Some. naive_solver.
Qed.

Lemma wf_fits (t : table) i r : Crud.wf t -> Crud.rows t !! i = Some r -> Crud.fits (Crud.rows t) i r = true.
Proof.
  intros [Hm Hc] Hi. apply Crud.fits_true. split; [by destruct (Hm i r Hi) as (_ & _ & ?)|].
  intros j o Hj Hji. by apply (Hc i j).
Qed.

(** Storing a row that fits under [i] keeps every other row fitting. *)
Lemma fits_insert_other (t : table) i r k o :
  Crud.wf t -> Crud.fits (Crud.rows t) i r = true -> k <> i -> Crud.rows t !! k = Some o ->
  Crud.fits (<[i := r]> (Crud.rows t)) k o = true.
Proof.
  intros Hwf [_ Hr]%Crud.fits_true Hki Hk.
  destruct (proj1 (Crud.fits_true _ _ _) (wf_fits t k o Hwf Hk)) as [Hn Ho]. apply Crud.fits_true. split; [done|].
  intros j o' [[<- <-]|[Hji Hj]]%lookup_insert_Some Hjk; [|by apply (Ho j)].
  rewrite compatible_sym. by apply (Hr k).
Qed.

Lemma fits_delete m i k o : Crud.fits m k o = true -> Crud.fits (base.delete i m) k o = true.
Proof.
  rewrite !Crud.fits_true. intros [Hn Ho]. split; [done|].
  intros j o' [_ Hj]%lookup_delete_Some. by apply Ho.
Qed.

Lemma flush_update (t : table) i obj r :
  Crud.wf t -> Crud.rows t !! i = Some obj ->
  table_flush_ok t (Crud.Tbl (<[i := r]> (Crud.rows t)) (Crud.next_id t)) = Crud.fits (Crud.rows t) i r.
Proof.
  intros Hwf Hi. apply Bool.eq_iff_eq_true. unfold table_flush_ok.
  rewrite andb_true_iff, !bool_decide_eq_true, !map_Forall_lookup. simpl. split.
  - intros [H1 _]. rewrite <- (fits_insert_self _ _ _ r). apply H1, lookup_insert_eq.
  - intros Hf. split.
    + intros k o [[<- <-]|[Hne Hk]]%lookup_insert_Some; [by rewrite fits_insert_self|].
      by apply fits_insert_other.
    + intros k x Hx. left. apply lookup_insert_is_Some'. right. eauto.
Qed.

Lemma flush_delete (t : table) i obj :
  Crud.wf t -> Crud.rows t !! i = Some obj ->
  table_flush_ok t (Crud.Tbl (base.delete i (Crud.rows t)) (Crud.next_id t)) = negb (referenced i).
Proof.
  intros Hwf Hi. apply Bool.eq_iff_eq_true. unfold table_flush_ok.
  rewrite andb_true_iff, !bool_decide_eq_true, !map_Forall_lookup, negb_true_iff. simpl. split.
  - intros [_ H2]. destruct (H2 i obj Hi) as [[? Hd]|]; [|done]. by rewrite lookup_delete_eq in Hd.
  - intros Hr. split.
    + intros k o [_ Hk]%lookup_delete_Some. by apply fits_delete, wf_fits.
    + intros k o Hk. destruct (decide (k = i)) as [->|Hne]; [by right|left].
      rewrite lookup_delete_ne by done. eauto.
Qed.

(** (C34) The services' [update] and [delete], run in the session
    [get_db] opens, are [Crud.update] and [Crud.delete] on a
    well-formed table: the same result or exception, the database
    [Crud] computes after a commit that passes, the database before the
    request after [IntegrityError], and the session closed with nothing
    pending in every case. *)
Theorem crud_session_refines (w : @world table) i items :
  Crud.wf (w_db w) ->
  run (get_db (update_s i items)) w =
    match Crud.update (w_db w) i items with
    | Ok (t', r) => (inr r, closed t')
    | Raise e => (inl e, closed (w_db w))
    end /\
  run (get_db (delete_s i)) w =
    match Crud.delete referenced (w_db w) i with
    | Ok (t', b) => (inr b, closed t')
    | Raise e => (inl e, closed (w_db w))
    end.
Proof.
  intros Hwf. rewrite !get_db_run.
  unfold update_s, delete_s, Crud.update, Crud.delete, Crud.get, query, stage, commit. run_sess.
  destruct (Crud.rows (w_db w) !! i) as [obj|] eqn:Hi; run_sess; [|done].
  rewrite (flush_update _ _ obj), (flush_delete _ _ obj) by done.
  unfold Crud.commit. by destruct (Crud.fits _ _ _), (referenced i).
Qed.

End CrudSession.

End Session.

Module SessionDemo.
Import Session Catalogo CatalogoDemo.
Local Open Scope sess_scope.

(** The unit of [c0] renamed, and deleted, each in its own request. *)
Definition w0 : @world (Crud.table unidad) := closed (unidades c0).

Lemma crud_session_refines_witness :
  Crud.wf (w_db w0) /\
  run (get_db (update_s no_refs 1 [USetNombre (Some "Casa Central")])) w0 =
    match Crud.update (w_db w0) 1 [USetNombre (Some "Casa Central")] with
    | Ok (t', r) => (inr r, closed t')
    | Raise e => (inl e, closed (w_db w0))
    end /\
  run (get_db (delete_s no_refs 1)) w0 =
    match Crud.delete no_refs (w_db w0) 1 with
    | Ok (t', b) => (inr b, closed t')
    | Raise e => (inl e, closed (w_db w0))
    end.
Proof.
  assert (H : Crud.wf (w_db w0)) by (apply Crud.wf_check_sound; vm_compute; reflexivity).
  split; [exact H|]. exact (crud_session_refines no_refs w0 1 _ H).
Defined.

(** A handler that stages a change and raises before its commit: the
    session is closed and the change is gone. *)
Example uncommitted_discarded :
  run (get_db (let* _ := stage (fun _ => Crud.Tbl ∅ 2) in (raise ValueError : @sess _ exc unit))) w0 =
    (inl ValueError, closed (unidades c0)).
Proof. reflexivity. Qed.

End SessionDemo.
