(* ===== verification/Engine.v ===== *)
(** * Engine: the connection pool of [create_engine] and [create_all]

    [src/Api/config/database.py] builds the engine once:
    [create_engine(DATABASE_URL, pool_pre_ping=True, pool_recycle=3600,
    future=True)].  With no [poolclass] SQLAlchemy gives it a
    [QueuePool] with its defaults ([pool_size=5], [max_overflow=10],
    FIFO queue).  Every session of [SessionLocal] checks a connection out
    of that pool for its first statement and checks it in at [close].
    [src/Api/main.py] then runs [Base.metadata.create_all(bind=engine)]
    at import time, over the tables the models declared on
    [Base = declarative_base()].

    [engine_config] is the code of the repository; the rest of Module
    [Pool] is SQLAlchemy's [QueuePool], modelled to state what these
    options guarantee.  It is the pool as a state machine: its queue of idle
    connection records (a record whose connection was invalidated holds
    none), the connections sessions hold, the server's set of live
    connections, the pool's invalidation time and the clock.
    [checkout] is [QueuePool._do_get] followed by
    [_ConnectionRecord.get_connection] (recycling after [pool_recycle]
    seconds) and the pre-ping loop of [_ConnectionFairy._checkout];
    [checkin] is [_do_return_conn].  The server and the clock move on
    their own ([pstep]'s environment rules).  The theorems: a checked
    out connection is live and younger than the recycle period, the
    errors a checkout raises, and an invariant of every run (bounds of
    the pool, no connection held twice).  A checkout is one step: the
    wait of up to 30 s of [QueuePool._do_get] for a connection that
    another session returns is the interleaving in which that [checkin]
    step comes first, and its [TimeoutError] is the checkout that finds
    the pool exhausted; how long it waits is not modelled.

    [create_all] itself is in [Schema.v], and its run through this pool
    at import time in [Startup.v]. *)

From S2P Require Import Prelude.

Module Pool.

(** The options of [create_engine] and the defaults of [QueuePool]. *)
Record pool_config := PoolConfig {
  pool_size : nat;
  max_overflow : nat;
  recycle : Z;
  pre_ping : bool
}.

Definition engine_config : pool_config :=
  {| pool_size := 5; max_overflow := 10; recycle := 3600; pre_ping := true |}.

(** A DBAPI connection: its server-side id and [record.starttime]. *)
Record conn := Conn { c_id : nat; c_born : Z }.

#[export] Instance conn_eq_dec : EqDecision conn.
Proof. solve_decision. Defined.

Record world := World {
  idle : list (option conn);   (** the queue of [QueuePool], oldest first *)
  out : list conn;             (** connections held by open sessions *)
  next_id : nat;
  alive : gset nat;            (** connections the server keeps open *)
  server_up : bool;
  inval : Z;                   (** [pool._invalidate_time] *)
  clock : Z                    (** [time.time()] *)
}.

Inductive db_error :=
  | OperationalError     (** the DBAPI [connect()] failed *)
  | PoolTimeout          (** [QueuePool] exhausted: [TimeoutError] *)
  | ConnectionClosed.    (** reconnection attempts exhausted *)

Definition with_idle (l : list (option conn)) (w : world) : world :=
  World l (out w) (next_id w) (alive w) (server_up w) (inval w) (clock w).
Definition with_out (l : list conn) (w : world) : world :=
  World (idle w) l (next_id w) (alive w) (server_up w) (inval w) (clock w).
Definition with_inval (t : Z) (w : world) : world :=
  World (idle w) (out w) (next_id w) (alive w) (server_up w) t (clock w).

(** [_ConnectionRecord.__connect]: a new connection, started now. *)
Definition connect (w : world) : option (world * conn) :=
  if server_up w then
    Some (World (idle w) (out w) (S (next_id w)) ({[next_id w]} ∪ alive w)
            (server_up w) (inval w) (clock w),
          Conn (next_id w) (clock w))
  else None.

(** [_ConnectionRecord.__close]. *)
Definition close_conn (c : conn) (w : world) : world :=
  World (idle w) (out w) (next_id w) (alive w ∖ {[c_id c]})
    (server_up w) (inval w) (clock w).

(** [dialect.do_ping]: [SELECT 1] succeeds on a live connection. *)
Definition ping (w : world) (c : conn) : bool :=
  server_up w && bool_decide (c_id c ∈ alive w).

(** The recycle conditions of [get_connection]. *)
Definition needs_recycle (cfg : pool_config) (w : world) (c : conn) : bool :=
  (bool_decide (-1 < recycle cfg)%Z && bool_decide (recycle cfg < clock w - c_born c)%Z)
  || bool_decide (c_born c < inval w)%Z.

Definition reconnect (w : world) : world * option (conn * bool) :=
  match connect w with
  | Some (w', c) => (w', Some (c, true))
  | None => (w, None)
  end.

(** [_ConnectionRecord.get_connection]; the flag says whether it
    connected, which makes the record [fresh]. *)
Definition get_connection (cfg : pool_config) (w : world) (r : option conn)
    : world * option (conn * bool) :=
  match r with
  | None => reconnect w
  | Some c =>
      if needs_recycle cfg w c then reconnect (close_conn c w)
      else (w, Some (c, false))
  end.

(** The [while attempts > 0] loop of [_ConnectionFairy._checkout]: a
    connection that is not fresh is pinged; a failed ping invalidates
    the record and the whole pool ([InvalidatePoolError]) and
    reconnects.  On an error the connection is already closed. *)
Fixpoint ping_loop (cfg : pool_config) (attempts : nat) (w : world)
    (c : conn) (fresh : bool) : world * (db_error + conn) :=
  match attempts with
  | 0 => (close_conn c w, inl ConnectionClosed)
  | S n =>
      if negb (pre_ping cfg) || fresh || ping w c then (w, inr c)
      else
        let w1 := with_inval (clock w) (close_conn c w) in
        match connect w1 with
        | None => (w1, inl OperationalError)
        | Some (w2, c') => ping_loop cfg n w2 c' true
        end
  end.

(** [QueuePool._do_return_conn]: back into the queue, or closed when
    the queue is full. *)
Definition checkin_record (cfg : pool_config) (r : option conn) (w : world) : world :=
  if bool_decide (length (idle w) < pool_size cfg) then with_idle (idle w ++ [r]) w
  else match r with Some c => close_conn c w | None => w end.

(** [_ConnectionRecord.checkout] then the fairy's pre-ping; a failed
    record goes back to the pool without a connection
    ([_checkin_failed], [fairy.invalidate()]). *)
Definition checkout_record (cfg : pool_config) (w : world) (r : option conn)
    (fresh0 : bool) : world * (db_error + conn) :=
  match get_connection cfg w r with
  | (w1, None) => (checkin_record cfg None w1, inl OperationalError)
  | (w1, Some (c, fresh)) =>
      match ping_loop cfg 2 w1 c (fresh0 || fresh) with
      | (w2, inr c') => (with_out (c' :: out w2) w2, inr c')
      | (w2, inl e) => (checkin_record cfg None w2, inl e)
      end
  end.

(** [QueuePool._do_get]: the oldest idle record, else a new connection
    while the overflow allows, else [TimeoutError] (no other session
    returns a connection during the wait in this sequential model). *)
Definition checkout (cfg : pool_config) (w : world) : world * (db_error + conn) :=
  match idle w with
  | r :: rest => checkout_record cfg (with_idle rest w) r false
  | [] =>
      if bool_decide (length (out w) < pool_size cfg + max_overflow cfg) then
        match connect w with
        | None => (w, inl OperationalError)
        | Some (w1, c) => checkout_record cfg w1 (Some c) true
        end
      else (w, inl PoolTimeout)
  end.

(** [Session.close()] releasing the [i]-th held connection. *)
Definition checkin (cfg : pool_config) (i : nat) (w : world) : world :=
  match out w !! i with
  | Some c => checkin_record cfg (Some c) (with_out (delete i (out w)) w)
  | None => w
  end.

(** ** Checked-out connections are live and young *)

(** What a session may rely on: the connection is open on the server
    and was opened at most [recycle] seconds ago. *)
Definition usable (cfg : pool_config) (w : world) (c : conn) : Prop :=
  c_id c ∈ alive w /\ server_up w = true /\ (clock w - c_born c <= recycle cfg)%Z.

Lemma connect_usable cfg w w' c :
  (0 <= recycle cfg)%Z -> connect w = Some (w', c) ->
  usable cfg w' c /\ clock w' = clock w.
Proof.
  unfold connect, usable. destruct (server_up w) eqn:?; intros ? [= <- <-]; simpl.
  split_and!; [set_solver | done | lia | done].
Qed.

Lemma close_conn_clock c w : clock (close_conn c w) = clock w.
Proof. done. Qed.

Lemma reconnect_usable cfg w w' c b :
  (0 <= recycle cfg)%Z -> reconnect w = (w', Some (c, b)) ->
  usable cfg w' c /\ clock w' = clock w.
Proof.
  unfold reconnect. destruct (connect w) as [[??]|] eqn:E; intros ? [= <- <- <-].
  by eapply connect_usable.
Qed.

Lemma reconnect_fresh cfg w w1 c fresh :
  (0 <= recycle cfg)%Z -> reconnect w = (w1, Some (c, fresh)) ->
  fresh = true /\ usable cfg w1 c.
Proof.
  intros Hr H. destruct (reconnect_usable cfg _ _ _ _ Hr H) as [Hu _].
  unfold reconnect in H. destruct (connect w) as [[??]|]; by simplify_eq.
Qed.

Lemma get_connection_usable cfg w r w1 c fresh :
  (0 <= recycle cfg)%Z -> get_connection cfg w r = (w1, Some (c, fresh)) ->
  (fresh = true -> usable cfg w1 c) /\ (clock w1 - c_born c <= recycle cfg)%Z
  /\ (fresh = false -> w1 = w /\ r = Some c).
Proof.
  intros Hr. destruct r as [c0|]; simpl.
  - destruct (needs_recycle cfg w c0) eqn:E.
    + intros H. apply (reconnect_fresh cfg) in H as [-> Hu]; [|done].
      pose proof Hu as (?&?&?). naive_solver.
    + intros H; simplify_eq. unfold needs_recycle in E.
      apply orb_false_iff in E as [E _]. apply andb_false_iff in E as [E|E];
        apply bool_decide_eq_false in E; naive_solver lia.
  - intros H. apply (reconnect_fresh cfg) in H as [-> Hu]; [|done].
    pose proof Hu as (?&?&?). naive_solver.
Qed.

Lemma ping_loop_usable cfg n w c fresh w' c' :
  pre_ping cfg = true -> (0 <= recycle cfg)%Z ->
  (fresh = true -> usable cfg w c) -> (clock w - c_born c <= recycle cfg)%Z ->
  ping_loop cfg n w c fresh = (w', inr c') -> usable cfg w' c'.
Proof.
  intros Hp Hr. revert w c fresh. induction n as [|n IH]; intros w c fresh Hf Ha; simpl.
  - done.
  - rewrite Hp. destruct fresh; simpl.
    + intros [= <- <-]. auto.
    + destruct (ping w c) eqn:P; simpl.
      * intros [= <- <-]. unfold ping in P. apply andb_true_iff in P as [? P].
        apply bool_decide_eq_true in P. done.
      * destruct (connect _) as [[w2 c2]|] eqn:E; [|done].
        destruct (connect_usable cfg _ _ _ Hr E) as [Hu Hc].
        apply IH; [done|]. destruct Hu as (_ & _ & ?). done.
Qed.

(** What [checkout] leaves alone: the queue and the held connections
    of the world it started from, up to the one change it makes. *)
Definition same_pool (w w' : world) : Prop :=
  idle w' = idle w /\ out w' = out w /\ server_up w' = server_up w.

Lemma connect_same_pool w w' c : connect w = Some (w', c) -> same_pool w w'.
Proof.
  unfold connect, same_pool. destruct (server_up w) eqn:?; intros ?; simplify_eq.
  by split_and!.
Qed.

Lemma ping_loop_same_pool cfg n w c fresh w' r :
  ping_loop cfg n w c fresh = (w', r) -> same_pool w w'.
Proof.
  revert w c fresh. induction n as [|n IH]; intros w c fresh; simpl.
  - intros ?; simplify_eq. by split_and!.
  - case_match; [intros ?; simplify_eq; by split_and!|].
    destruct (connect _) as [[w2 c2]|] eqn:E; [|intros ?; simplify_eq; by split_and!].
    intros Hl. apply connect_same_pool in E as (?&?&?). apply IH in Hl as (?&?&?).
    simpl in *. split_and!; congruence.
Qed.

Lemma get_connection_same_pool cfg w r w1 o :
  get_connection cfg w r = (w1, o) -> same_pool w w1.
Proof.
  destruct r as [c|]; simpl; [destruct (needs_recycle _ _ _)|]; unfold reconnect;
    try destruct (connect _) as [[??]|] eqn:E; intros ?; simplify_eq;
    try (apply connect_same_pool in E as (?&?&?)); simpl in *; split_and!; try done; congruence.
Qed.

Lemma checkin_record_up cfg r w : server_up (checkin_record cfg r w) = server_up w.
Proof. unfold checkin_record. by repeat case_match. Qed.

Lemma checkout_record_usable cfg w r fresh0 w' c :
  pre_ping cfg = true -> (0 <= recycle cfg)%Z ->
  (fresh0 = true -> forall c0, r = Some c0 -> usable cfg w c0) ->
  checkout_record cfg w r fresh0 = (w', inr c) ->
  usable cfg w' c /\ idle w' = idle w /\ out w' = c :: out w.
Proof.
  intros Hp Hr Hf. unfold checkout_record.
  destruct (get_connection cfg w r) as [w1 [[c1 fr]|]] eqn:G; [|done].
  destruct (ping_loop cfg 2 w1 c1 (fresh0 || fr)) as [w2 [e|c2]] eqn:P; [done|].
  intros [= <- <-].
  pose proof (get_connection_same_pool _ _ _ _ _ G) as (?&?&?).
  pose proof (ping_loop_same_pool _ _ _ _ _ _ _ P) as (?&?&?).
  destruct (get_connection_usable _ _ _ _ _ _ Hr G) as (Hu & Ha & Hw).
  eapply ping_loop_usable in P; [|done|done| |done].
  - destruct P as (?&?&?). unfold usable; simpl. split_and!; congruence.
  - destruct fresh0, fr; simpl; auto.
    destruct (Hw eq_refl) as [-> ->]. intros _. by apply Hf.
Qed.

Lemma checkout_usable_core cfg w w' c :
  pre_ping cfg = true -> (0 <= recycle cfg)%Z ->
  checkout cfg w = (w', inr c) -> usable cfg w' c /\ out w' = c :: out w.
Proof.
  intros Hp Hr. unfold checkout. destruct (idle w) as [|r rest] eqn:I.
  - case_bool_decide; [|done].
    destruct (connect w) as [[w1 c0]|] eqn:E; [|done]. intros Hc.
    destruct (connect_usable cfg _ _ _ Hr E) as [Hu _].
    apply checkout_record_usable in Hc as (? & _ & ->); [|done|done|naive_solver].
    apply connect_same_pool in E as (_ & -> & _). done.
  - intros Hc. apply checkout_record_usable in Hc as (? & _ & ->); done.
Qed.

(** ** The errors of a checkout *)

Lemma connect_None w : connect w = None -> server_up w = false.
Proof. unfold connect. by destruct (server_up w). Qed.

Lemma reconnect_None w w1 : reconnect w = (w1, None) -> server_up w = false.
Proof.
  unfold reconnect. destruct (connect w) as [[??]|] eqn:E; [done|].
  intros _. by apply connect_None.
Qed.

Lemma get_connection_None cfg w r w1 :
  get_connection cfg w r = (w1, None) -> server_up w = false.
Proof.
  destruct r as [c|]; simpl; [case_match|]; intros Hg;
    first [by apply reconnect_None in Hg | done].
Qed.

(** Two attempts are enough: a reconnected record is fresh and is not
    pinged again, so the loop only fails when the server refuses to
    connect. *)
Lemma ping_loop_error cfg w c fresh w' e :
  ping_loop cfg 2 w c fresh = (w', inl e) -> e = OperationalError /\ server_up w = false.
Proof.
  simpl. case_match; [done|].
  destruct (connect _) as [[w2 c2]|] eqn:E.
  - simpl. rewrite orb_true_r. done.
  - intros [= _ <-]. apply connect_None in E. done.
Qed.

Lemma checkout_record_error cfg w r fresh0 w' e :
  checkout_record cfg w r fresh0 = (w', inl e) -> e = OperationalError /\ server_up w = false.
Proof.
  unfold checkout_record.
  destruct (get_connection cfg w r) as [w1 [[c1 fr]|]] eqn:G.
  - destruct (ping_loop cfg 2 w1 c1 (fresh0 || fr)) as [w2 [e2|c2]] eqn:P; [|done].
    intros [= _ <-]. apply ping_loop_error in P as [-> ?].
    apply get_connection_same_pool in G as (_ & _ & ?). split; congruence.
  - intros [= _ <-]. apply get_connection_None in G. done.
Qed.

Lemma checkout_errors_core cfg w w' e :
  checkout cfg w = (w', inl e) ->
  (e = PoolTimeout /\ idle w = [] /\ pool_size cfg + max_overflow cfg <= length (out w) /\ w' = w)
  \/ (e = OperationalError /\ server_up w = false).
Proof.
  unfold checkout. destruct (idle w) as [|r rest] eqn:I.
  - case_bool_decide.
    + destruct (connect w) as [[w1 c0]|] eqn:E.
      * intros Hc. apply checkout_record_error in Hc as [-> ?].
        apply connect_same_pool in E as (_ & _ & ?). right. split; congruence.
      * intros [= _ <-]. right. by apply connect_None in E.
    + intros [= <- <-]. left. split_and!; [done|done|lia|done].
  - intros Hc. apply checkout_record_error in Hc. by right.
Qed.

(** ** The invariant of the pool *)

(** The connections the pool knows of: [extra] in flight during a
    checkout, those held by sessions, those in the queue. *)
Definition conns (extra : list conn) (w : world) : list conn :=
  extra ++ out w ++ omap id (idle w).

(** No connection is known twice and every one has an id already
    handed out. *)
Definition ids_ok (extra : list conn) (w : world) : Prop :=
  NoDup (c_id <$> conns extra w) /\ Forall (fun c => c_id c < next_id w) (conns extra w).

Definition pool_inv (cfg : pool_config) (w : world) : Prop :=
  length (idle w) <= pool_size cfg
  /\ length (idle w) + length (out w) <= pool_size cfg + max_overflow cfg
  /\ ids_ok [] w.

Lemma ids_ok_perm extra w extra' w' :
  conns extra w ≡ₚ conns extra' w' -> next_id w <= next_id w' ->
  ids_ok extra w -> ids_ok extra' w'.
Proof.
  intros Hp Hn [Hd Hf]. split; [by rewrite <-Hp|].
  rewrite <-Hp. eapply Forall_impl; [exact Hf|]. intros ? ?; simpl in *; lia.
Qed.

Lemma ids_ok_connect extra w w' c :
  connect w = Some (w', c) -> ids_ok extra w -> ids_ok (c :: extra) w'.
Proof.
  unfold connect. destruct (server_up w); intros ?; simplify_eq.
  intros [Hd Hf]. unfold ids_ok, conns in *; simpl in *. split.
  - constructor; [|done]. intros (c' & Hc & Hin)%list_elem_of_fmap.
    eapply Forall_forall in Hf; [|done]. lia.
  - constructor; [simpl; lia|]. eapply Forall_impl; [done|]. intros ? ?; simpl in *; lia.
Qed.

Lemma ids_ok_drop c extra w : ids_ok (c :: extra) w -> ids_ok extra w.
Proof. intros [Hd Hf]. split; [by apply NoDup_cons in Hd as [_ ?] | by inversion Hf]. Qed.

Lemma ids_ok_same extra w w' :
  idle w' = idle w -> out w' = out w -> next_id w <= next_id w' ->
  ids_ok extra w -> ids_ok extra w'.
Proof. intros Hi Ho. apply ids_ok_perm. unfold conns. by rewrite Hi, Ho. Qed.

Lemma reconnect_ids extra w w1 o :
  ids_ok extra w -> reconnect w = (w1, o) ->
  match o with Some (c, _) => ids_ok (c :: extra) w1 | None => ids_ok extra w1 end.
Proof.
  unfold reconnect. destruct (connect w) as [[w' c]|] eqn:E; intros ? ?; simplify_eq.
  - by eapply ids_ok_connect.
  - done.
Qed.

Lemma get_connection_ids cfg extra w r w1 o :
  ids_ok (option_list r ++ extra) w -> get_connection cfg w r = (w1, o) ->
  match o with Some (c, _) => ids_ok (c :: extra) w1 | None => ids_ok extra w1 end.
Proof.
  destruct r as [c|]; simpl; [|apply reconnect_ids].
  intros Hi. case_match; [|intros ?; by simplify_eq/=].
  apply reconnect_ids. apply ids_ok_drop in Hi. by eapply ids_ok_same.
Qed.

Lemma ping_loop_ids cfg n extra w c fresh w' res :
  ids_ok (c :: extra) w -> ping_loop cfg n w c fresh = (w', res) ->
  match res with inr c' => ids_ok (c' :: extra) w' | inl _ => ids_ok extra w' end.
Proof.
  revert w c fresh. induction n as [|n IH]; intros w c fresh Hi; simpl.
  - intros ?; simplify_eq/=. apply ids_ok_drop in Hi. by eapply ids_ok_same.
  - destruct (negb _ || _ || _); [intros ?; by simplify_eq/=|].
    destruct (connect _) as [[w2 c2]|] eqn:E;
      intros Hl; [|simplify_eq/=; apply ids_ok_drop in Hi; by eapply ids_ok_same].
    apply IH in Hl; [done|]. eapply ids_ok_connect; [done|].
    apply ids_ok_drop in Hi. by eapply ids_ok_same.
Qed.

Lemma checkin_record_ids cfg extra r w :
  ids_ok (option_list r ++ extra) w -> ids_ok extra (checkin_record cfg r w).
Proof.
  unfold checkin_record. case_bool_decide.
  - apply ids_ok_perm; [|done]. unfold conns; simpl.
    rewrite omap_app. destruct r; simpl; [|by rewrite app_nil_r].
    rewrite !(assoc (++)). apply Permutation_cons_append.
  - destruct r as [c|]; simpl; [|done]. intros Hi. apply ids_ok_drop in Hi.
    by eapply ids_ok_same.
Qed.

Lemma checkout_record_ids cfg w r fresh0 :
  ids_ok (option_list r) w -> ids_ok [] (checkout_record cfg w r fresh0).1.
Proof.
  intros Hi. unfold checkout_record.
  destruct (get_connection cfg w r) as [w1 o] eqn:G.
  eapply (get_connection_ids cfg []) in G; [|by rewrite app_nil_r].
  destruct o as [[c fr]|]; [|by apply (checkin_record_ids cfg [] None)].
  destruct (ping_loop cfg 2 w1 c (fresh0 || fr)) as [w2 res] eqn:P.
  eapply ping_loop_ids in P; [|done].
  destruct res as [e|c']; simpl; [by apply (checkin_record_ids cfg [] None)|].
  done.
Qed.

Lemma checkin_record_shape cfg r w :
  out (checkin_record cfg r w) = out w
  /\ (idle (checkin_record cfg r w) = idle w
      \/ idle (checkin_record cfg r w) = idle w ++ [r] /\ length (idle w) < pool_size cfg).
Proof.
  unfold checkin_record. case_bool_decide; [simpl; naive_solver|].
  destruct r; simpl; split; auto.
Qed.

(** How a checkout changes the queue and the held connections. *)
Lemma checkout_record_shape cfg w r fresh0 w' res :
  checkout_record cfg w r fresh0 = (w', res) ->
  (exists c, idle w' = idle w /\ out w' = c :: out w)
  \/ (out w' = out w /\ (idle w' = idle w
      \/ idle w' = idle w ++ [None] /\ length (idle w) < pool_size cfg)).
Proof.
  unfold checkout_record.
  destruct (get_connection cfg w r) as [w1 [[c fr]|]] eqn:G;
    apply get_connection_same_pool in G as (Hi1 & Ho1 & _).
  - destruct (ping_loop cfg 2 w1 c (fresh0 || fr)) as [w2 [e|c']] eqn:P;
      apply ping_loop_same_pool in P as (Hi2 & Ho2 & _); intros ?; simplify_eq.
    + right. rewrite <-Hi1, <-Ho1, <-Hi2, <-Ho2. apply checkin_record_shape.
    + left. exists c'. simpl. split; congruence.
  - intros ?; simplify_eq. right. rewrite <-Hi1, <-Ho1. apply checkin_record_shape.
Qed.

Lemma checkout_inv cfg w : pool_inv cfg w -> pool_inv cfg (checkout cfg w).1.
Proof.
  intros Hinv. pose proof Hinv as (Hs & Ht & Hi). unfold checkout.
  destruct (idle w) as [|r rest] eqn:I.
  - case_bool_decide; [|exact Hinv].
    destruct (connect w) as [[w1 c]|] eqn:E; [|exact Hinv].
    pose proof (checkout_record_ids cfg w1 (Some c) true) as Hid.
    destruct (checkout_record cfg w1 (Some c) true) as [w' res] eqn:C.
    pose proof (connect_same_pool _ _ _ E) as (Hi1 & Ho1 & _).
    pose proof (checkout_record_shape _ _ _ _ _ _ C) as Sh. simpl. split_and!.
    + simpl. destruct Sh as [(? & -> & _)|(_ & [->|[-> ?]])]; rewrite Hi1, I; simpl; lia.
    + simpl. destruct Sh as [(? & -> & ->)|(-> & [->|[-> ?]])];
        rewrite ?Hi1, ?Ho1, ?I; simpl; lia.
    + apply Hid. eapply ids_ok_connect in E; [|done]. done.
  - pose proof (checkout_record_ids cfg (with_idle rest w) r false) as Hid.
    destruct (checkout_record cfg (with_idle rest w) r false) as [w' res] eqn:C.
    pose proof (checkout_record_shape _ _ _ _ _ _ C) as Sh.
    simpl in Sh, Hs, Ht |- *. split_and!.
    + simpl. destruct Sh as [(? & -> & _)|(_ & [->|[-> ?]])]; rewrite ?length_app; simpl; lia.
    + simpl. destruct Sh as [(? & -> & ->)|(-> & [->|[-> ?]])];
        rewrite ?length_app; simpl in *; lia.
    + apply Hid. apply (ids_ok_perm [] w); [|done|exact Hi].
      unfold conns; simpl. rewrite I. destruct r; simpl; [|done].
      by rewrite Permutation_middle.
Qed.

Lemma checkin_inv cfg i w : pool_inv cfg w -> pool_inv cfg (checkin cfg i w).
Proof.
  intros Hinv. pose proof Hinv as (Hs & Ht & Hi). unfold checkin.
  destruct (out w !! i) as [c|] eqn:L; [|exact Hinv].
  pose proof (checkin_record_shape cfg (Some c) (with_out (delete i (out w)) w)) as [Ho Sh].
  pose proof (length_delete (out w) i) as Hl. rewrite L in Hl.
  specialize (Hl ltac:(by eexists)).
  assert (0 < length (out w)) by (apply lookup_lt_Some in L; lia).
  simpl in Sh. split_and!.
  - destruct Sh as [->|[-> ?]]; rewrite ?length_app; simpl; lia.
  - rewrite Ho. simpl. destruct Sh as [->|[-> ?]]; rewrite ?length_app, Hl; simpl; lia.
  - apply (checkin_record_ids cfg [] (Some c)). apply (ids_ok_perm [] w); [|done|exact Hi].
    unfold conns; simpl. apply (Permutation_app_tail _ (delete_Permutation _ _ _ L)).
Qed.

(** ** Runs of the pool *)

Definition with_clock (t : Z) (w : world) : world :=
  World (idle w) (out w) (next_id w) (alive w) (server_up w) (inval w) t.

(** The database server closing one connection ([wait_timeout], a
    killed backend) or going down (every connection lost) or up. *)
Definition drop_conn (i : nat) (w : world) : world :=
  World (idle w) (out w) (next_id w) (alive w ∖ {[i]}) (server_up w) (inval w) (clock w).
Definition set_server (b : bool) (w : world) : world :=
  World (idle w) (out w) (next_id w) (if b then alive w else ∅) b (inval w) (clock w).

(** The pool as the engine creates it: empty, nothing connected. *)
Definition init_world (t : Z) : world := World [] [] 0 ∅ true 0 t.

(** One step of a run: a session checks a connection out or in, time
    passes, or the server moves. *)
Inductive pstep (cfg : pool_config) : world -> world -> Prop :=
  | pstep_checkout w : pstep cfg w (checkout cfg w).1
  | pstep_checkin w i : pstep cfg w (checkin cfg i w)
  | pstep_tick w d : (0 <= d)%Z -> pstep cfg w (with_clock (clock w + d) w)
  | pstep_drop w i : pstep cfg w (drop_conn i w)
  | pstep_server w b : pstep cfg w (set_server b w).

Lemma pstep_inv cfg w w' : pool_inv cfg w -> pstep cfg w w' -> pool_inv cfg w'.
Proof.
  intros Hinv Hs. destruct Hs.
  - by apply checkout_inv.
  - by apply checkin_inv.
  - exact Hinv.
  - exact Hinv.
  - exact Hinv.
Qed.

Lemma init_inv cfg t : pool_inv cfg (init_world t).
Proof.
  split_and!; simpl; [lia|lia|]. split; unfold conns; simpl; constructor.
Qed.

(** ** The engine's pool *)

(** (C23) With [pool_pre_ping=True] and [pool_recycle=3600], a connection
    [checkout] hands to a session is open on the server and at most
    3600 seconds old, and it is now held by that session: a connection
    the server dropped while it sat in the queue is never handed out. *)
Theorem checkout_usable w w' c :
  checkout engine_config w = (w', inr c) ->
  usable engine_config w' c /\ out w' = c :: out w.
Proof. by apply checkout_usable_core. Qed.

(** A checkout of the engine's pool fails only with [TimeoutError]
    when the queue is empty and the 15 connections of [pool_size] plus
    [max_overflow] are all held (the pool is then unchanged), or with
    the DBAPI's [OperationalError] when the server is down; the
    pre-ping loop never exhausts its two attempts. *)
Theorem checkout_errors w w' e :
  checkout engine_config w = (w', inl e) ->
  (e = PoolTimeout /\ idle w = [] /\ 15 <= length (out w) /\ w' = w)
  \/ (e = OperationalError /\ server_up w = false).
Proof. apply checkout_errors_core. Qed.

(** While the server is up, a checkout from a queue that holds a
    record, or with fewer than 15 connections held, gives a
    connection. *)
Theorem checkout_succeeds w :
  server_up w = true -> idle w <> [] \/ length (out w) < 15 ->
  exists w' c, checkout engine_config w = (w', inr c).
Proof.
  intros Hu Hc. destruct (checkout engine_config w) as [w' [e|c]] eqn:E; [|eauto].
  apply checkout_errors_core in E as [(_ & Hi & Hl & _)|(_ & Hs)]; [|congruence].
  simpl in Hl. destruct Hc; [done|lia].
Qed.

(** In every run of a pool from its creation, whatever the sessions
    and the server do: at most [pool_size] records wait in the queue, at
    most [pool_size + max_overflow] connections exist, and no connection
    is held twice or both held and queued. *)
Theorem pool_invariant cfg t w :
  rtc (pstep cfg) (init_world t) w -> pool_inv cfg w.
Proof. apply reachable_inv; [apply init_inv | apply pstep_inv]. Qed.

End Pool.

Module PoolDemo.
Import Pool.

(** A queue holding connection 0, opened at time 0 and since closed by
    the server; the clock is at 100. *)
Definition stale_world : world := World [Some (Conn 0 0)] [] 1 ∅ true 0 100.

Lemma checkout_usable_witness :
  usable engine_config (checkout engine_config stale_world).1 (Conn 1 100).
Proof. apply (proj1 (checkout_usable stale_world _ (Conn 1 100) eq_refl)). Defined.

Definition down_world : world := World [] [] 0 ∅ false 0 0.

Lemma checkout_errors_witness :
  (OperationalError = PoolTimeout /\ idle down_world = [] /\ 15 <= length (out down_world)
   /\ down_world = down_world)
  \/ (OperationalError = OperationalError /\ server_up down_world = false).
Proof. apply (checkout_errors down_world down_world OperationalError). vm_compute. reflexivity. Defined.

Lemma checkout_succeeds_witness :
  exists w' c, checkout engine_config stale_world = (w', inr c).
Proof. apply checkout_succeeds; [reflexivity | left; discriminate]. Defined.

Lemma pool_invariant_witness :
  pool_inv engine_config (checkout engine_config (init_world 0)).1.
Proof. apply (pool_invariant engine_config 0). apply rtc_once. constructor. Defined.

End PoolDemo.
