(* ===== verification/Schema.v ===== *)
(** * Schema: [Base = declarative_base()] and [create_all]

    Every model class of [src/Api/models/] declares a table on the
    metadata of [Base] ([src/Api/config/database.py], line 18): its name,
    its columns, its keys (the primary key and the [unique=True] and
    [UniqueConstraint] column sets) and the table and column each of its
    foreign keys refers to.  At import,
    [src/Api/main.py] runs [Base.metadata.create_all(bind=engine)]
    (line 43, "Solo dev; en prod usar Alembic").  SQLAlchemy's
    [SchemaGenerator] then

    - keeps, in declaration order, the tables the database does not
      have ([checkfirst=True], [dialect.has_table]);
    - orders them by [sort_tables_and_constraints], that is
      [sort_as_subsets], which emits in rounds every table none of whose
      referenced tables is still to emit;
    - issues [CREATE TABLE] for each, in that order; the server refuses
      a foreign key to a table that does not exist, and one to a column
      that is not a key of the referenced table (PostgreSQL: "there is no
      unique constraint matching given keys for referenced table").

    A cycle of foreign keys, which these models do not have, makes
    [sort_as_subsets] raise [CircularDependencyError]; SQLAlchemy then
    breaks the cycle with [ALTER TABLE], which is not modelled: the
    model stops with that error.

    The database catalogue maps a table name to its columns and keys.
    The theorems: the order puts every table after the tables it refers
    to and loses none; [create_all] on the application's metadata
    succeeds exactly when every existing table a missing table refers to
    has the referenced column as a key, creates then exactly the missing
    tables and leaves every existing table as it is, columns included,
    and is idempotent; otherwise it fails on such a reference. *)

From S2P Require Import Prelude.

Module Schema.

Record table := Table {
  tbl_name : string;
  tbl_cols : list string;
  tbl_keys : list (list string);          (** primary key and unique column sets *)
  tbl_refs : list (string * string)       (** [ForeignKey("t.c")]: table and column *)
}.

(** The tables the foreign keys of [t] refer to. *)
Definition ref_tables (t : table) : list string := fst <$> tbl_refs t.

(** [src/Api/models/usuarios.py] *)
Definition usuarios_t : table :=
  Table "usuarios" ["id"; "apellido"; "nombre"; "correo"; "password"; "role"]
    [["id"]; ["correo"]] [].

(** [src/Api/models/unidades_negocio.py] *)
Definition unidades_negocio_t : table :=
  Table "unidades_negocio" ["id"; "nombre"; "descripcion"; "activo"] [["id"]; ["nombre"]] [].

(** [src/Api/models/puestos.py] *)
Definition puestos_t : table :=
  Table "puestos" ["id"; "nombre"; "descripcion"; "activo"; "unidad_id"]
    [["id"]; ["nombre"; "unidad_id"]] [("unidades_negocio", "id")].

(** [src/Api/models/postulaciones.py] *)
Definition postulaciones_t : table :=
  Table "postulaciones"
    ["id"; "nombre"; "apellido"; "correo"; "telefono"; "puesto_id"; "unidad_id";
     "puesto_original_id"; "unidad_original_id"; "estado"; "nota";
     "cv_filename"; "cv_original"; "cv_mime"; "cv_size"; "dni";
     "fecha_nacimiento"; "estado_civil"; "hijos"; "domicilio_residencia";
     "localidad"; "decidido_motivo"; "decidido_por_user_id"; "decidido_en";
     "created_at"]
    [["id"]]
    [("puestos", "id"); ("unidades_negocio", "id"); ("puestos", "id"); ("unidades_negocio", "id");
     ("usuarios", "id")].

(** [Base.metadata.tables], in the order the classes are declared:
    [main.py] imports the routers of [usuarios], [puestos],
    [unidades_negocio] and [postulaciones], each of which imports its
    service and that service its model. *)
Definition metadata : list table :=
  [usuarios_t; puestos_t; unidades_negocio_t; postulaciones_t].

(** A table is ready when none of the tables it refers to, itself
    excepted, is still in [todo_set]. *)
Definition ready (todo_set : list string) (t : table) : bool :=
  forallb (fun p => bool_decide (p = tbl_name t) || negb (bool_decide (p ∈ todo_set)))
    (ref_tables t).

(** [sqlalchemy.util.topological.sort_as_subsets], its rounds flattened;
    [None] is [CircularDependencyError].  Each round removes at least
    one table, so [length todo] rounds are enough. *)
Fixpoint sort_rounds (fuel : nat) (todo : list table) : option (list table) :=
  match todo with
  | [] => Some []
  | _ =>
      match fuel with
      | 0 => None
      | S f =>
          let output := filter (fun t => ready (tbl_name <$> todo) t = true) todo in
          let rest := filter (fun t => ready (tbl_name <$> todo) t <> true) todo in
          match output with
          | [] => None
          | _ => (fun l => output ++ l) <$> sort_rounds f rest
          end
      end
  end.

(** [sort_tables_and_constraints] (no [use_alter] key here). *)
Definition sort_tables (ts : list table) : option (list table) :=
  sort_rounds (length ts) ts.

(** What the database knows of a table: its columns and its keys. *)
Record tbl_info := TblInfo { ti_cols : list string; ti_keys : list (list string) }.

Definition tbl_info_of (t : table) : tbl_info := TblInfo (tbl_cols t) (tbl_keys t).

Notation catalog := (gmap string tbl_info).

Inductive ddl_error :=
  | CircularDependencyError
  | NoSuchTable (name : string)               (** a foreign key to a missing table *)
  | NoUniqueKey (name : string) (col : string). (** a foreign key to a column that is not a key *)

(** The server's check of one foreign key of [CREATE TABLE t]: the
    referenced table is [t] itself or exists, and has the referenced
    column as a key. *)
Definition ref_error (cat : catalog) (t : table) (r : string * string) : option ddl_error :=
  let '(p, c) := r in
  let keyed ks := if bool_decide ([c] ∈ ks) then None else Some (NoUniqueKey p c) in
  if bool_decide (p = tbl_name t) then keyed (tbl_keys t)
  else match cat !! p with
       | None => Some (NoSuchTable p)
       | Some ti => keyed (ti_keys ti)
       end.

(** The first foreign key the server refuses. *)
Fixpoint check_refs (cat : catalog) (t : table) (rs : list (string * string)) : option ddl_error :=
  match rs with
  | [] => None
  | r :: rs' => match ref_error cat t r with Some e => Some e | None => check_refs cat t rs' end
  end.

(** [CREATE TABLE]. *)
Definition create_table (cat : catalog) (t : table) : ddl_error + catalog :=
  match check_refs cat t (tbl_refs t) with
  | Some e => inl e
  | None => inr (<[tbl_name t := tbl_info_of t]> cat)
  end.

Fixpoint create_tables (cat : catalog) (ts : list table) : ddl_error + catalog :=
  match ts with
  | [] => inr cat
  | t :: ts' =>
      match create_table cat t with
      | inl e => inl e
      | inr cat' => create_tables cat' ts'
      end
  end.

(** [MetaData.create_all(bind=engine)] with [checkfirst=True]
    ([SchemaGenerator.visit_metadata]): the collection of missing tables
    is computed and sorted before the first [CREATE TABLE]. *)
Definition create_all (md : list table) (cat : catalog) : ddl_error + catalog :=
  let collection := filter (fun t => cat !! tbl_name t = None) md in
  match sort_tables collection with
  | None => inl CircularDependencyError
  | Some ts => create_tables cat ts
  end.

(** ** The order of [sort_tables] *)

(** [ts] creates every table after the tables it refers to: a
    reference is to itself, to a table created before, or to a name
    [avail] already provides. *)
Fixpoint ordered (avail : string -> Prop) (ts : list table) : Prop :=
  match ts with
  | [] => True
  | t :: ts' =>
      (forall p, p ∈ ref_tables t -> p <> tbl_name t -> avail p)
      /\ ordered (fun q => q = tbl_name t \/ avail q) ts'
  end.

Lemma ordered_refine (A B : string -> Prop) ts :
  (forall p, (exists t, t ∈ ts /\ p ∈ ref_tables t) -> A p -> B p) ->
  ordered A ts -> ordered B ts.
Proof.
  revert A B. induction ts as [|t ts IH]; intros A B Hab; simpl; [done|].
  intros [Ht Hts]. split.
  - intros p Hp Hn. apply Hab; [exists t; split; [left|]|]; auto.
  - eapply IH; [|exact Hts]. intros p (t' & ? & ?) [->|?]; [by left|right].
    apply Hab; [exists t'; split; [right|]|]; auto.
Qed.

Lemma ordered_app A l1 l2 :
  ordered A l1 -> ordered (fun q => q ∈ tbl_name <$> l1 \/ A q) l2 -> ordered A (l1 ++ l2).
Proof.
  revert A. induction l1 as [|t l1 IH]; intros A; simpl.
  - intros _. apply ordered_refine. intros p _ [Hp|]; [by apply elem_of_nil in Hp|done].
  - intros [Ht H1] H2. split; [done|]. apply IH; [done|].
    eapply ordered_refine; [|exact H2]. intros p _. set_solver.
Qed.

Lemma ordered_all (A : string -> Prop) ts :
  (forall t, t ∈ ts -> forall p, p ∈ ref_tables t -> p <> tbl_name t -> A p) -> ordered A ts.
Proof.
  revert A. induction ts as [|t ts IH]; intros A H; simpl; [done|]. split.
  - apply H. by left.
  - apply IH. intros t' ? p ? ?. right. apply (H t'); [by right|done..].
Qed.

Lemma ready_spec s t :
  ready s t = true <-> forall p, p ∈ ref_tables t -> p = tbl_name t \/ p ∉ s.
Proof.
  unfold ready. rewrite forallb_forall. split; intros H p Hp.
  - apply list_elem_of_In, H, orb_true_iff in Hp as [Hp|Hp].
    + left. by apply bool_decide_eq_true in Hp.
    + right. by apply negb_true_iff, bool_decide_eq_false in Hp.
  - apply list_elem_of_In, H in Hp as [->|Hp]; apply orb_true_iff.
    + left. by apply bool_decide_eq_true.
    + right. by apply negb_true_iff, bool_decide_eq_false.
Qed.

Lemma sort_rounds_spec fuel todo ts :
  sort_rounds fuel todo = Some ts ->
  ts ≡ₚ todo /\ ordered (fun p => p ∉ tbl_name <$> todo) ts.
Proof.
  revert todo ts. induction fuel as [|f IH]; intros todo ts; simpl.
  - destruct todo; [intros [= <-]; done|done].
  - destruct todo as [|t0 todo0] eqn:Et; [intros [= <-]; done|].
    rewrite <-Et. set (s := tbl_name <$> todo).
    set (output := filter (fun t => ready s t = true) todo).
    set (rest := filter (fun t => ready s t <> true) todo).
    intros H. assert (exists l, sort_rounds f rest = Some l /\ ts = output ++ l)
      as (l & Hl & ->) by (destruct output; [done|]; destruct (sort_rounds f rest);
      simplify_eq/=; eauto).
    apply IH in Hl as [Hp Ho].
    assert (output ++ rest ≡ₚ todo) as Hpart by apply filter_app_complement.
    split; [by rewrite Hp|]. apply ordered_app.
    + apply ordered_all. intros t Ht p Hp' Hn.
      apply list_elem_of_filter in Ht as [Hr _]. apply ready_spec with (p := p) in Hr;
        naive_solver.
    + eapply ordered_refine; [|exact Ho]. intros p _ Hp'.
      destruct (decide (p ∈ tbl_name <$> output)) as [|Hno]; [by left|right].
      subst s. rewrite <-Hpart, fmap_app, elem_of_app. naive_solver.
Qed.

(** One round of [sort_rounds], as an equation. *)
Lemma sort_rounds_round f todo :
  todo <> [] ->
  sort_rounds (S f) todo =
    let output := filter (fun t => ready (tbl_name <$> todo) t = true) todo in
    match output with
    | [] => None
    | _ => (fun l => output ++ l) <$>
        sort_rounds f (filter (fun t => ready (tbl_name <$> todo) t <> true) todo)
    end.
Proof. destruct todo; [done|reflexivity]. Qed.

(** [length todo] rounds are enough: every round that does not raise
    removes a table, so more fuel gives the same result. *)
Lemma sort_rounds_fuel f todo :
  length todo <= f -> sort_rounds f todo = sort_rounds (S f) todo.
Proof.
  revert todo. induction f as [|f IH]; intros todo Hl.
  - by destruct todo; [|simpl in Hl; lia].
  - destruct (decide (todo = [])) as [->|Hne]; [done|].
    rewrite !sort_rounds_round by done. cbv zeta.
    pose proof (Permutation_length (filter_app_complement
      (fun t => ready (tbl_name <$> todo) t = true) todo)) as Hlen.
    rewrite length_app in Hlen.
    destruct (filter (fun t => ready (tbl_name <$> todo) t = true) todo) eqn:Eo; [done|].
    simpl in Hlen. rewrite IH; [done|lia].
Qed.

(** ** [create_all] *)

(** The catalogue after [CREATE TABLE] of each of [ts] in turn. *)
Definition install (cat : catalog) (ts : list table) : catalog :=
  foldl (fun c t => <[tbl_name t := tbl_info_of t]> c) cat ts.

(** Every foreign key of a table of [ts] to a table of [ts] names a key
    of that table. *)
Definition keys_closed (ts : list table) : Prop :=
  Forall (fun t => Forall (fun r => Forall (fun t' => r.1 = tbl_name t' -> [r.2] ∈ tbl_keys t') ts)
    (tbl_refs t)) ts.

(** Every foreign key of a table of [md] the database lacks, to a table
    the database has, names a key of that table. *)
Definition refs_ok (md : list table) (cat : catalog) : Prop :=
  forall t p c ti, t ∈ md -> cat !! tbl_name t = None -> (p, c) ∈ tbl_refs t ->
    cat !! p = Some ti -> [c] ∈ ti_keys ti.

(** [e] is the server's refusal of a foreign key of a table of [md] the
    database lacks, to an existing table without that key. *)
Definition bad_ref (md : list table) (cat : catalog) (e : ddl_error) : Prop :=
  exists t p c ti, t ∈ md /\ cat !! tbl_name t = None /\ (p, c) ∈ tbl_refs t /\
    cat !! p = Some ti /\ [c] ∉ ti_keys ti /\ e = NoUniqueKey p c.

(** The tables of [md] refer only to tables of [md] or of [cat]. *)
Definition closed (md : list table) (cat : catalog) : Prop :=
  forall t, t ∈ md -> forall p, p ∈ ref_tables t -> p ∈ tbl_name <$> md \/ is_Some (cat !! p).

Lemma keys_closed_spec ts t t' p c :
  keys_closed ts -> t ∈ ts -> t' ∈ ts -> (p, c) ∈ tbl_refs t -> p = tbl_name t' -> [c] ∈ tbl_keys t'.
Proof.
  unfold keys_closed. rewrite Forall_forall. intros H Ht Ht' Hr Hp.
  specialize (H t Ht). rewrite Forall_forall in H. specialize (H _ Hr).
  rewrite Forall_forall in H. exact (H t' Ht' Hp).
Qed.

Lemma keys_closed_sub ts ts' : (forall t, t ∈ ts' -> t ∈ ts) -> keys_closed ts -> keys_closed ts'.
Proof.
  intros Hsub H. unfold keys_closed.
  apply Forall_forall. intros t Ht. apply Forall_forall. intros [p c] Hr.
  apply Forall_forall. intros t' Ht' Hp.
  exact (keys_closed_spec ts t t' p c H (Hsub t Ht) (Hsub t' Ht') Hr Hp).
Qed.

Lemma check_refs_None cat t rs :
  check_refs cat t rs = None <-> Forall (fun r => ref_error cat t r = None) rs.
Proof.
  induction rs as [|r rs IH]; simpl; [split; by constructor|].
  rewrite Forall_cons, <-IH. destruct (ref_error cat t r); naive_solver.
Qed.

Lemma check_refs_Some cat t rs e :
  check_refs cat t rs = Some e -> exists r, r ∈ rs /\ ref_error cat t r = Some e.
Proof.
  induction rs as [|r rs IH]; simpl; [done|].
  destruct (ref_error cat t r) eqn:E; [intros [= <-]; exists r; split; [left|]; done|].
  intros (r' & ? & ?)%IH. exists r'. split; [by right|done].
Qed.

(** [CREATE TABLE t] when its references to itself name its keys and
    its other references are to existing tables: it succeeds exactly
    when each of those tables has the referenced column as a key. *)
Lemma create_table_spec cat t :
  (forall p c, (p, c) ∈ tbl_refs t -> p = tbl_name t -> [c] ∈ tbl_keys t) ->
  (forall p, p ∈ ref_tables t -> p <> tbl_name t -> is_Some (cat !! p)) ->
  match create_table cat t with
  | inr cat' =>
      cat' = <[tbl_name t := tbl_info_of t]> cat /\
      forall p c ti, (p, c) ∈ tbl_refs t -> p <> tbl_name t -> cat !! p = Some ti -> [c] ∈ ti_keys ti
  | inl e =>
      exists p c ti, (p, c) ∈ tbl_refs t /\ p <> tbl_name t /\ cat !! p = Some ti /\
        [c] ∉ ti_keys ti /\ e = NoUniqueKey p c
  end.
Proof.
  intros Hself Havail. unfold create_table.
  destruct (check_refs cat t (tbl_refs t)) as [e|] eqn:Hc.
  - apply check_refs_Some in Hc as ([p c] & Hr & He).
    unfold ref_error in He. cbv beta iota zeta in He.
    destruct (decide (p = tbl_name t)) as [Hp|Hp].
    + rewrite bool_decide_eq_true_2, bool_decide_eq_true_2 in He by eauto. done.
    + rewrite bool_decide_eq_false_2 in He by done.
      destruct (Havail p) as [ti Hti]; [apply list_elem_of_fmap; by exists (p, c)|done|].
      rewrite Hti in He. destruct (decide ([c] ∈ ti_keys ti)) as [Hk|Hk].
      * by rewrite bool_decide_eq_true_2 in He.
      * rewrite bool_decide_eq_false_2 in He by done. injection He as <-. eauto 10.
  - split; [done|]. intros p c ti Hr Hp Hti.
    apply check_refs_None in Hc. rewrite Forall_forall in Hc. specialize (Hc _ Hr).
    unfold ref_error in Hc. cbv beta iota zeta in Hc.
    rewrite bool_decide_eq_false_2, Hti in Hc by done.
    destruct (decide ([c] ∈ ti_keys ti)) as [Hk|Hk]; [done|].
    by rewrite bool_decide_eq_false_2 in Hc.
Qed.

(** [CREATE TABLE] of new tables in an order that creates each after the
    tables it refers to: it fails exactly on a foreign key to an
    existing table without that key, and otherwise installs them all. *)
Lemma create_tables_spec cat ts :
  NoDup (tbl_name <$> ts) -> Forall (fun t => cat !! tbl_name t = None) ts -> keys_closed ts ->
  ordered (fun p => is_Some (cat !! p)) ts ->
  match create_tables cat ts with
  | inr cat' => cat' = install cat ts /\ refs_ok ts cat
  | inl e => bad_ref ts cat e
  end.
Proof.
  revert cat. induction ts as [|t ts IH]; intros cat Hnd Hnew Hkeys Hord; simpl.
  { split; [done|]. intros ? ? ? ? Ht. by apply elem_of_nil in Ht. }
  apply NoDup_cons in Hnd as [Hnin Hnd]. apply Forall_cons in Hnew as [Ht0 Hnew].
  destruct Hord as [Ht Hts].
  assert (Hne : forall t', t' ∈ ts -> tbl_name t' <> tbl_name t).
  { intros t' Ht' Heq. apply Hnin, list_elem_of_fmap. eauto. }
  pose proof (create_table_spec cat t) as Hc.
  destruct (create_table cat t) as [e|cat1].
  { destruct Hc as (p & c & ti & Hr & _ & Hti & Hk & ->);
      [intros; eapply keys_closed_spec; eauto; left|exact Ht|].
    exists t, p, c, ti. split_and!; [left|..]; done. }
  destruct Hc as [-> Hok]; [intros; eapply keys_closed_spec; eauto; left|exact Ht|].
  set (cat1 := <[tbl_name t := tbl_info_of t]> cat).
  assert (Hnew' : Forall (fun t' => cat1 !! tbl_name t' = None) ts).
  { rewrite Forall_forall in Hnew |- *. intros t' Ht'.
    subst cat1. rewrite lookup_insert_ne by (symmetry; auto). auto. }
  assert (Hkeys' : keys_closed ts) by (eapply keys_closed_sub; [|exact Hkeys]; intros; by right).
  assert (Hord' : ordered (fun p => is_Some (cat1 !! p)) ts).
  { eapply ordered_refine; [|exact Hts]. intros p _ Hp. subst cat1.
    apply lookup_insert_is_Some'. naive_solver. }
  pose proof (IH cat1 Hnd Hnew' Hkeys' Hord') as H.
  destruct (create_tables cat1 ts) as [e|cat'].
  - destruct H as (t' & p & c & ti & Ht' & Hn' & Hr & Hti & Hk & ->).
    destruct (decide (p = tbl_name t)) as [->|Hp].
    + subst cat1. rewrite lookup_insert_eq in Hti. injection Hti as <-.
      exfalso. apply Hk. eapply keys_closed_spec; [exact Hkeys|by right|left|exact Hr|done].
    + subst cat1. rewrite lookup_insert_ne in Hti by congruence.
      rewrite lookup_insert_ne in Hn' by (apply not_eq_sym, Hne, Ht').
      exists t', p, c, ti. split_and!; [by right|done..].
  - destruct H as [-> Hok']. split; [done|].
    intros t' p c ti Ht' Hn' Hr Hti. apply elem_of_cons in Ht' as [->|Ht'].
    + apply (Hok p c ti Hr); [intros ->; congruence|done].
    + apply (Hok' t' p c ti Ht'); subst cat1;
        [by rewrite lookup_insert_ne by (apply not_eq_sym, Hne, Ht')|done|].
      rewrite lookup_insert_ne; [done|]. intros Heq. subst p. congruence.
Qed.

Lemma install_lookup cat ts n ti :
  NoDup (tbl_name <$> ts) ->
  install cat ts !! n = Some ti <->
  (exists t, t ∈ ts /\ tbl_name t = n /\ tbl_info_of t = ti)
  \/ (n ∉ tbl_name <$> ts /\ cat !! n = Some ti).
Proof.
  revert cat. induction ts as [|t ts IH]; intros cat; simpl.
  - intros _. split; [by right; split; [apply not_elem_of_nil|]|].
    intros [(? & Ht & _)|[_ ?]]; [by apply elem_of_nil in Ht|done].
  - intros (Hnin & Hnd)%NoDup_cons. rewrite IH by done.
    rewrite elem_of_cons, !list_elem_of_fmap. rewrite list_elem_of_fmap in Hnin.
    setoid_rewrite elem_of_cons.
    destruct (decide (n = tbl_name t)) as [->|Hne].
    + rewrite lookup_insert_eq. naive_solver.
    + rewrite lookup_insert_ne by congruence. naive_solver.
Qed.

(** [create_all] on a metadata whose names are distinct, whose tables
    refer only to its own tables or existing ones, with keys for its own
    references, and on which [sort_tables] finds an order. *)
Lemma create_all_correct md cat :
  NoDup (tbl_name <$> md) -> closed md cat -> keys_closed md ->
  is_Some (sort_tables (filter (fun t => cat !! tbl_name t = None) md)) ->
  match create_all md cat with
  | inr cat' =>
      refs_ok md cat /\
      forall n ti, cat' !! n = Some ti <->
        cat !! n = Some ti \/ (cat !! n = None /\ exists t, t ∈ md /\ tbl_name t = n /\ tbl_info_of t = ti)
  | inl e => bad_ref md cat e
  end.
Proof.
  intros Hnd Hcl Hkeys [ts Hs]. unfold create_all. rewrite Hs.
  set (coll := filter (fun t => cat !! tbl_name t = None) md) in *.
  apply sort_rounds_spec in Hs as [Hp Ho].
  assert (forall t, t ∈ ts <-> t ∈ md /\ cat !! tbl_name t = None) as Hin.
  { intros t. rewrite Hp. subst coll. rewrite list_elem_of_filter. naive_solver. }
  assert (Hnd' : NoDup (tbl_name <$> ts)).
  { rewrite Hp. eapply sublist_NoDup; [exact Hnd|]. apply fmap_sublist, sublist_filter. }
  assert (Hord : ordered (fun p => is_Some (cat !! p)) ts).
  { eapply ordered_refine; [|exact Ho]. intros p (t & Ht & Hr) Hn. cbv beta in Hn.
    apply Hin in Ht as [Ht _]. destruct (Hcl t Ht p Hr) as [Hm|]; [|done].
    apply list_elem_of_fmap in Hm as (t' & -> & Ht').
    destruct (cat !! tbl_name t') eqn:E; [by eexists|].
    destruct Hn. apply list_elem_of_fmap. exists t'. split; [done|].
    subst coll. by apply list_elem_of_filter. }
  assert (Hnew : Forall (fun t => cat !! tbl_name t = None) ts).
  { apply Forall_forall. intros t Ht. by apply Hin in Ht as [_ ?]. }
  assert (Hk : keys_closed ts).
  { eapply keys_closed_sub; [|exact Hkeys]. intros t Ht. by apply Hin in Ht as [? _]. }
  pose proof (create_tables_spec cat ts Hnd' Hnew Hk Hord) as H.
  destruct (create_tables cat ts) as [e|cat'].
  - destruct H as (t & p & c & ti & Ht & Hrest). exists t, p, c, ti.
    split; [by apply Hin in Ht as [? _]|done].
  - destruct H as [-> Hok]. split.
    + intros t p c ti Ht Hn. apply (Hok t); [by apply Hin|done].
    + intros n ti. rewrite install_lookup by done. rewrite list_elem_of_fmap.
      setoid_rewrite Hin. naive_solver.
Qed.

Lemma filter_all_present (cat : catalog) ts :
  Forall (fun t => is_Some (cat !! tbl_name t)) ts ->
  filter (fun t => cat !! tbl_name t = None) ts = [].
Proof.
  induction 1 as [|t ts [c Hc] _ IH]; [done|].
  rewrite filter_cons. case_decide; [congruence|done].
Qed.

Lemma metadata_closed cat : closed metadata cat.
Proof.
  assert (Forall (fun t => Forall (fun p => p ∈ tbl_name <$> metadata) (ref_tables t)) metadata)
    as H by (vm_compute; repeat constructor; set_solver).
  intros t Ht p Hp. left. rewrite Forall_forall in H.
  specialize (H t Ht). rewrite Forall_forall in H. by apply H.
Qed.

Lemma metadata_acyclic (cat : catalog) :
  is_Some (sort_tables (filter (fun t => cat !! tbl_name t = None) metadata)).
Proof.
  unfold metadata. rewrite !filter_cons, filter_nil.
  repeat case_decide; vm_compute; eauto.
Qed.

Lemma metadata_keys_closed : keys_closed metadata.
Proof. unfold keys_closed. apply (bool_decide_unpack _). vm_compute. reflexivity. Qed.

(** The statement of [create_all_metadata], proved once for the lemmas that build on it. *)
Lemma create_all_metadata_core cat :
  match create_all metadata cat with
  | inr cat' =>
      refs_ok metadata cat /\
      forall n ti, cat' !! n = Some ti <->
        cat !! n = Some ti
        \/ (cat !! n = None /\ exists t, t ∈ metadata /\ tbl_name t = n /\ tbl_info_of t = ti)
  | inl e => bad_ref metadata cat e
  end.
Proof.
  apply create_all_correct;
    [|apply metadata_closed|apply metadata_keys_closed|apply metadata_acyclic].
  vm_compute. repeat constructor; set_solver.
Qed.

(** [sort_tables_and_constraints] loses no table and creates every
    table after the tables its foreign keys refer to, whenever it
    returns an order. *)
Theorem sort_tables_spec ts ts' :
  sort_tables ts = Some ts' ->
  ts' ≡ₚ ts /\ ordered (fun p => p ∉ tbl_name <$> ts) ts'.
Proof. apply sort_rounds_spec. Qed.

(** (C26) [Base.metadata.create_all(bind=engine)] at startup on the
    application's four tables, whatever the database holds: it succeeds
    exactly when every table it has to create refers, among the tables
    the database already has, only to columns that are keys there; it
    then creates exactly the tables the database lacks, with the models'
    columns and keys, and leaves every existing table as it is, even
    when its columns differ from the model's (there is no migration).
    Otherwise the server refuses the [CREATE TABLE] of such a foreign
    key, and the import of [main.py] fails.  The order of [sort_tables]
    rules out a reference to a table that does not exist. *)
Theorem create_all_metadata cat :
  match create_all metadata cat with
  | inr cat' =>
      refs_ok metadata cat /\
      forall n ti, cat' !! n = Some ti <->
        cat !! n = Some ti
        \/ (cat !! n = None /\ exists t, t ∈ metadata /\ tbl_name t = n /\ tbl_info_of t = ti)
  | inl e => bad_ref metadata cat e
  end.
Proof. apply create_all_metadata_core. Qed.



End Schema.

Module SchemaDemo.
Import Schema.

(** A fresh database gets [usuarios] and [unidades_negocio] first. *)
Example fresh_db_order :
  sort_tables metadata = Some [usuarios_t; unidades_negocio_t; puestos_t; postulaciones_t].
Proof. vm_compute. reflexivity. Qed.

(** The database a first start leaves. *)
Definition fresh_db : catalog :=
  match create_all metadata ∅ with inr c => c | inl _ => ∅ end.


(** A database created before the "Nuevos campos del postulante" of
    [Postulacion]: [create_all] does not add [dni] and the other new
    columns, and every ORM query of [Postulacion], which selects all
    mapped columns, fails on it. *)
Definition legacy_db : catalog :=
  {["postulaciones" := TblInfo ["id"; "nombre"; "apellido"; "correo"; "telefono"; "puesto_id";
     "unidad_id"; "puesto_original_id"; "unidad_original_id"; "estado"; "nota";
     "cv_filename"; "cv_original"; "cv_mime"; "cv_size"; "decidido_motivo";
     "decidido_por_user_id"; "decidido_en"; "created_at"] [["id"]]]}.

Example legacy_db_not_migrated :
  exists cat', create_all metadata legacy_db = inr cat' /\
    cat' !! "postulaciones" = legacy_db !! "postulaciones" /\
    is_Some (cat' !! "usuarios").
Proof. eexists. split; [vm_compute; reflexivity|]. vm_compute. split; [reflexivity|eauto]. Qed.

(** A database whose [usuarios] table was made by hand without a
    primary key: [create_all] cannot create [postulaciones], whose
    [decidido_por_user_id] refers to [usuarios.id], and the application
    does not start. *)
Definition unkeyed_db : catalog :=
  {["usuarios" := TblInfo ["id"; "apellido"; "nombre"; "correo"; "password"; "role"] []]}.

Example unkeyed_usuarios_refused :
  create_all metadata unkeyed_db = inl (NoUniqueKey "usuarios" "id").
Proof. vm_compute. reflexivity. Qed.

End SchemaDemo.
