(* ===== verification/Startup.v ===== *)
(** * Startup: [create_all] through the engine's pool

    [src/Api/main.py] line 43 runs [Base.metadata.create_all(bind=engine)]
    when the module is imported.  [create_all] opens [engine.begin()]:
    it checks a connection out of the pool of [Engine], runs the DDL of
    [Schema] in one transaction, commits and checks the connection back
    in.  An exception there aborts the import of [main.py], so the
    server does not start.

    The theorem composes the two components: on the pool [create_engine]
    makes, startup fails with the DBAPI's [OperationalError] when the
    server is down, and otherwise has the outcome of [create_all] and
    leaves the pool holding one idle, open connection, which the first
    request reuses. *)

From S2P Require Import Prelude Engine Schema.

Module Startup.
Import Pool Schema.

Inductive startup_error :=
  | PoolError (e : db_error)
  | DdlError (e : ddl_error).

(** [with engine.begin() as conn: metadata.create_all(conn)]; a failed
    DDL transaction is rolled back, leaving the catalogue as it was. *)
Definition startup (w : Pool.world) (cat : catalog) : Pool.world * (startup_error + catalog) :=
  match checkout engine_config w with
  | (w1, inl e) => (w1, inl (PoolError e))
  | (w1, inr c) =>
      match create_all metadata cat with
      | inl e => (checkin engine_config 0 w1, inl (DdlError e))
      | inr cat' => (checkin engine_config 0 w1, inr cat')
      end
  end.

(** The engine as [create_engine] leaves it at time [t], with the
    server up or down. *)
Definition engine_at (up : bool) (t : Z) : Pool.world := World [] [] 0 ∅ up 0 t.

(** Importing [main.py] with the database server down fails with
    [OperationalError] and leaves the pool empty; with the server up it
    runs [create_all] (see [create_all_metadata] for its outcome) in one
    transaction and, whether the DDL succeeds or not, leaves the pool
    with its one new connection idle in the queue and open on the
    server. *)
Theorem startup_spec t up cat :
  (0 <= t)%Z ->
  (up = false -> startup (engine_at up t) cat = (engine_at up t, inl (PoolError OperationalError)))
  /\ (up = true ->
       startup (engine_at up t) cat =
       (World [Some (Conn 0 t)] [] 1 {[0]} true 0 t,
        match create_all metadata cat with inl e => inl (DdlError e) | inr cat' => inr cat' end)).
Proof.
  intros Ht. split; intros ->; [done|].
  unfold startup, checkout, engine_at, checkout_record, get_connection, needs_recycle. simpl.
  rewrite (bool_decide_eq_false_2 (3600 < t - t)%Z), (bool_decide_eq_false_2 (t < 0)%Z)
    by lia. simpl. unfold checkin, checkin_record. simpl.
  rewrite (right_id_L ∅ (∪)). by destruct (create_all metadata cat).
Qed.

End Startup.

Module StartupDemo.
Import Pool Schema Startup.

Lemma startup_spec_witness :
  (0 <= 0)%Z /\
  startup (engine_at true 0) ∅ =
  (World [Some (Conn 0 0)] [] 1 {[0]} true 0 0,
   match create_all metadata ∅ with inl e => inl (DdlError e) | inr cat' => inr cat' end).
Proof.
  split; [lia|]. exact (proj2 (startup_spec 0 true ∅ ltac:(lia)) eq_refl).
Defined.

End StartupDemo.
