(* ===== verification/Responses.v ===== *)
(** * Responses: the response model of the applications router
    The handlers of [src/Api/routers/postulaciones.py] declared with
    [response_model=PostulacionOut] return the ORM row; FastAPI then
    validates it against [PostulacionOut]
    ([src/Api/schemas/postulaciones.py]) and sends the validated model.
    A row the schema refuses raises [ResponseValidationError]: the client
    gets a 500, and the background tasks attached to the response never
    run -- but whatever the handler committed or sent stays done.

    [postulacion_out] is that validation, field by field: the required
    [str] columns, [EmailStr] for [correo], the [Field] lengths, then the
    validator [_normalize_estado]; [validate_update] is the validation of
    the request body [PostulacionUpdate].  [EmailStr] is the library
    [email-validator]: the section variable [validate_email] returns the
    normalised address or refuses it.  Lengths count characters, one per
    [ascii] of the model's strings.

    The theorems show that the administrators' operations keep every
    stored row serialisable, and that the public [create_postulacion]
    does not: the database refuses the values too long for their
    columns, which are the lengths [PostulacionOut] checks, but nothing
    before the response model checks the address, which it refuses
    after the commit and the mails. *)

From S2P Require Import Prelude PyStr Json Files Mail Postulaciones.

Module Out.
Import Store Service Router.

Local Open Scope Z_scope.

Section Out.

Variable validate_email : string -> option string.

(** [Field(default=None, max_length=n)] on an [Optional[str]]. *)
Definition opt_max (n : nat) (o : option string) : bool :=
  match o with Some s => bool_decide (String.length s <= n)%nat | None => true end.

(** [estado: str = Field(..., min_length=1, max_length=32)], then
    [_normalize_estado]: [v.strip()], refused when empty. *)
Definition out_estado (e : string) : option string :=
  if bool_decide (1 <= String.length e <= 32)%nat then
    let v := PyStr.strip e in if String.eqb v "" then None else Some v
  else None.

(** The validated model: the normalised address and [estado]. *)
Definition out_row (p : postulacion) (c e : string) : postulacion :=
  Postulacion (p_id p) (nombre p) (apellido p) (Some c) (telefono p) (puesto_id p)
    (unidad_id p) (puesto_original_id p) (unidad_original_id p) e (nota p)
    (cv_filename p) (cv_original p) (cv_mime p) (cv_size p) (dni p)
    (fecha_nacimiento p) (estado_civil p) (hijos p) (domicilio_residencia p)
    (localidad p) (decidido_motivo p) (decidido_por_user_id p) (decidido_en p)
    (created_at p).

(** [PostulacionOut.model_validate(obj)]: [None] is the
    [ResponseValidationError].  [nombre], [apellido] and [correo] are
    [str] (a [None] is refused); [dni], [estado_civil],
    [domicilio_residencia] and [localidad] have a [max_length]. *)
Definition postulacion_out (p : postulacion) : option postulacion :=
  match nombre p, apellido p, correo p with
  | Some _, Some _, Some c =>
      match validate_email c, out_estado (estado p) with
      | Some c', Some e =>
          if opt_max 20 (dni p) && opt_max 20 (estado_civil p) &&
             opt_max 200 (domicilio_residencia p) && opt_max 120 (localidad p)
          then Some (out_row p c' e) else None
      | _, _ => None
      end
  | _, _, _ => None
  end.

(** [Field(default=None, min_length=lo, max_length=hi)] on a field of
    [PostulacionUpdate]: checked only when the request sets a string. *)
Definition set_len (lo hi : nat) (o : option (option string)) : bool :=
  match o with Some (Some s) => bool_decide (lo <= String.length s <= hi)%nat | _ => true end.

(** The body of [PATCH /postulaciones/{pid}]: [None] is the 422
    response; [correo] is replaced by its normalised form. *)
Definition validate_update (u : PostulacionUpdate) : option PostulacionUpdate :=
  if set_len 2 60 (u_nombre u) && set_len 2 60 (u_apellido u) && set_len 0 255 (u_nota u) &&
     set_len 0 20 (u_dni u) && set_len 0 20 (u_estado_civil u) &&
     set_len 0 200 (u_domicilio_residencia u) && set_len 0 120 (u_localidad u)
  then
    match u_correo u with
    | Some (Some c) =>
        (fun c' => MkPostulacionUpdate (u_nombre u) (u_apellido u) (Some (Some c')) (u_telefono u)
                     (u_puesto_id u) (u_unidad_id u) (u_nota u) (u_dni u) (u_fecha_nacimiento u)
                     (u_estado_civil u) (u_hijos u) (u_domicilio_residencia u) (u_localidad u))
          <$> validate_email c
    | _ => Some u
    end
  else None.

(** FastAPI's [serialize_response] for [response_model=PostulacionOut]:
    an [HTTPException] passes through; a returned row is validated. *)
Definition serialize (r : response postulacion) : response postulacion :=
  match r with
  | Resp st obj =>
      match postulacion_out obj with
      | Some o => Resp st o
      | None => HTTPError 500 "Internal Server Error"
      end
  | HTTPError st m => HTTPError st m
  end.

(** A handled request after serialisation: when the response model
    refuses the row, the response is never built and its background
    tasks never run; the database keeps what the handler committed. *)
Definition serialize_handled (h : handled postulacion) : handled postulacion :=
  match serialize (h_resp h) with
  | HTTPError 500 m => Handled (h_db h) (HTTPError 500 m) []
  | r => Handled (h_db h) r (h_tasks h)
  end.

(** [GET /postulaciones/{pid}] as the client sees it. *)
Definition get_postulacion_http (d : db) (pid : Z) : handled postulacion :=
  serialize_handled (get_postulacion d pid).

(** [POST /postulaciones] as the client sees it: the mails are sent and
    the row committed inside the handler, before the validation. *)
Definition create_postulacion_http (c : created) : created :=
  match c_resp c with
  | Ok (Resp st obj) =>
      match postulacion_out obj with
      | Some o => Created (c_db c) (c_fs c) (Ok (Resp st o)) (c_mails c) (c_tasks c)
      | None => Created (c_db c) (c_fs c) (Ok (HTTPError 500 "Internal Server Error")) (c_mails c) []
      end
  | _ => c
  end.

(** Every stored row passes the response model. *)
Definition store_out_ok (d : db) : Prop :=
  map_Forall (fun _ p => is_Some (postulacion_out p)) (rows d).

(** The operations of the administrators on the table, with the request
    bodies as pydantic validated them. *)
Inductive admin_step : db -> db -> Prop :=
  | step_decide d i e m r nu np now d' obj :
      decide d i e m r nu np now = Ret (d', obj) -> admin_step d d'
  | step_update d i u u' d' obj :
      validate_update u = Some u' -> update d i u' = Ret (Some (d', obj)) -> admin_step d d'
  | step_delete d i : admin_step d (delete d i).1.

(** ** Lemmas *)

Lemma postulacion_out_Some p :
  is_Some (postulacion_out p) <->
  is_Some (nombre p) /\ is_Some (apellido p) /\
  (exists c, correo p = Some c /\ is_Some (validate_email c)) /\ is_Some (out_estado (estado p)) /\
  opt_max 20 (dni p) = true /\ opt_max 20 (estado_civil p) = true /\
  opt_max 200 (domicilio_residencia p) = true /\ opt_max 120 (localidad p) = true.
Proof.
  unfold postulacion_out. split.
  - intros [o Ho]. repeat case_match; simplify_eq/=; rewrite ?andb_true_iff in *; naive_solver.
  - intros ([n Hn] & [a Ha] & (c & Hc & [c' Hv]) & [e He] & Hd & Hec & Hdo & Hl).
    rewrite Hn, Ha, Hc, Hv, He, Hd, Hec, Hdo, Hl. by eexists.
Qed.

(** [decide] stores [estado] stripped and at most 32 long. *)
Lemma out_estado_decided e :
  String.eqb (PyStr.strip e) "" = false -> (String.length (PyStr.strip e) <= 32)%nat ->
  out_estado (PyStr.strip e) = Some (PyStr.strip e).
Proof.
  intros He Hl. unfold out_estado. rewrite PyStr.strip_idem, He.
  apply String.eqb_neq in He. destruct (PyStr.strip e); [done|].
  rewrite bool_decide_eq_true_2; [done|]. simpl in *. lia.
Qed.

Lemma opt_max_default n o x :
  opt_max n o = true -> set_len 0 n x = true -> opt_max n (default o x) = true.
Proof.
  destruct x as [[s|]|]; simpl; [|by intros|by intros]. intros _ Hs.
  apply bool_decide_eq_true in Hs. apply bool_decide_eq_true. lia.
Qed.

Section Idempotent.

(** [email-validator] accepts the address it normalised. *)
Hypothesis validate_email_idem : forall e e', validate_email e = Some e' -> validate_email e' = Some e'.

Lemma validate_update_Some u u' :
  validate_update u = Some u' ->
  set_len 0 20 (u_dni u') = true /\ set_len 0 20 (u_estado_civil u') = true /\
  set_len 0 200 (u_domicilio_residencia u') = true /\ set_len 0 120 (u_localidad u') = true /\
  (forall c, u_correo u' = Some (Some c) -> is_Some (validate_email c)).
Proof.
  unfold validate_update. destruct (_ && _ && _ && _ && _ && _ && _) eqn:Hb; [|done].
  rewrite !andb_true_iff in Hb. destruct Hb as ((((((_ & _) & _) & Hd) & He) & Hdo) & Hl).
  destruct (u_correo u) as [[c|]|] eqn:Hc.
  - destruct (validate_email c) as [c'|] eqn:Hv; [|done]. intros [= <-]. simpl.
    do 4 (split; [done|]). intros c0 [= <-]. eexists. eauto.
  - intros [= <-]. do 4 (split; [done|]). by rewrite Hc.
  - intros [= <-]. do 4 (split; [done|]). by rewrite Hc.
Qed.

Lemma out_patched p u u' :
  is_Some (postulacion_out p) -> validate_update u = Some u' -> not_null_ok (patched p u') = true ->
  is_Some (postulacion_out (patched p u')).
Proof.
  intros Hp Hu [Hn [Ha Hc]]%not_null_patched.
  apply validate_update_Some in Hu as (Hd & He & Hdo & Hl & Hcv).
  apply postulacion_out_Some in Hp as (_ & _ & (c & Hc0 & Hv) & Hes & Hd0 & He0 & Hdo0 & Hl0).
  apply postulacion_out_Some. simpl. do 2 (split; [done|]).
  split; [|split; [done|]; repeat split; by apply opt_max_default].
  destruct (u_correo u') as [[c'|]|]; simpl in *; [| by destruct Hc|]; eauto.
Qed.

Lemma admin_step_out_ok d d' : store_out_ok d -> admin_step d d' -> store_out_ok d'.
Proof.
  intros Hd Hs. revert Hd. destruct Hs as [d0 i e m r nu np now d1 obj Hdec|d0 i u u' d1 obj Hu Hup|d0 i]; intros Hd.
  - unfold decide in Hdec. destruct (get d0 i) as [p|] eqn:Hg; [|done].
    destruct (String.eqb _ _) eqn:He; [done|]. destruct (Nat.ltb _ _) eqn:Hl; [done|].
    destruct (String.eqb (PyStr.strip m) _); [done|].
    destruct (commit_row _ _) as [d2|] eqn:Hc; [|done]. injection Hdec as <- <-.
    rewrite commit_row_cases in Hc. destruct (row_ok _ _); [|by destruct (lengths_ok _)].
    injection Hc as <-.
    apply map_Forall_insert_2; [|exact Hd]. pose proof (Hd i p Hg) as Hp.
    apply postulacion_out_Some in Hp as (? & ? & ? & _ & ?).
    apply postulacion_out_Some. simpl. rewrite out_estado_decided; [naive_solver|done|].
    apply Nat.ltb_ge in Hl. lia.
  - unfold update in Hup. destruct (get d0 i) as [p|] eqn:Hg; [|done].
    rewrite update_fold_patched in Hup.
    destruct (commit_row _ _) as [d2|] eqn:Hc; [|done]. injection Hup as <- <-.
    rewrite commit_row_cases in Hc. destruct (row_ok _ _) eqn:Hn; [|by destruct (lengths_ok _)].
    injection Hc as <-. apply row_ok_iff in Hn as (_ & Hn & _).
    apply map_Forall_insert_2; [|exact Hd]. apply (out_patched p u); [exact (Hd _ _ Hg)|done|done].
  - unfold delete. destruct (get d0 i); [|done]. by apply map_Forall_delete.
Qed.

(** The response of [GET /postulaciones/{pid}] on a table whose rows all
    pass the response model. *)
Lemma get_postulacion_http_ok d pid :
  store_out_ok d ->
  match h_resp (get_postulacion_http d pid) with
  | Resp st o => st = 200 /\ exists p, get d pid = Some p /\ postulacion_out p = Some o
  | HTTPError st _ => st = 404 /\ get d pid = None
  end.
Proof.
  intros Hd. unfold get_postulacion_http, get_postulacion, serialize_handled, serialize.
  destruct (get d pid) as [p|] eqn:Hg; [|done].
  destruct (Hd pid p Hg) as [o Ho]. simpl. rewrite Ho. simpl. eauto.
Qed.

(** (C9) Type preservation for the administrators' side: after any
    sequence of [decidir], validated [PATCH] and [DELETE] requests on a
    table whose rows all pass [PostulacionOut], every row still passes
    it, so [GET /postulaciones/{pid}] answers 200 with the validated row
    or 404, never the 500 of a [ResponseValidationError]. *)
Theorem admin_steps_serialisable d d' pid :
  store_out_ok d -> rtc admin_step d d' ->
  store_out_ok d' /\
  match h_resp (get_postulacion_http d' pid) with
  | Resp st o => st = 200 /\ exists p, get d' pid = Some p /\ postulacion_out p = Some o
  | HTTPError st _ => st = 404 /\ get d' pid = None
  end.
Proof.
  intros Hd Hr.
  assert (Hd' : store_out_ok d') by exact (rtc_preserved _ _ admin_step_out_ok d d' Hr Hd).
  split; [done|]. by apply get_postulacion_http_ok.
Qed.

End Idempotent.

(** The row [create_postulacion] answers with holds the form's fields
    and passed the length checks of the commit. *)
Lemma create_postulacion_row env d fs form cv upload_now now fuel c st obj :
  create_postulacion env d fs form cv upload_now now fuel = Some c ->
  c_resp c = Ok (Resp st obj) ->
  nombre obj = Some (f_nombre form) /\ apellido obj = Some (f_apellido form) /\
  correo obj = Some (f_correo form) /\ estado obj = "nueva" /\ lengths_ok obj = true.
Proof.
  unfold create_postulacion.
  destruct (Files.save_upload_file_cv _ _ _ _ _ _ _) as [[fs' stored size mime|fs' s det|fs' e]|];
    intros Hc; [|by injection Hc as <-|by injection Hc as <-|done].
  destruct (create_from_upload _ _ _) as [[d' p]|e] eqn:Hcr; [|by injection Hc as <-].
  injection Hc as <-. simpl. intros [= _ <-].
  unfold create_from_upload in Hcr. rewrite commit_row_cases in Hcr.
  destruct (row_ok _ _) eqn:Hrow; [|by destruct (lengths_ok _)].
  injection Hcr as _ <-. apply row_ok_iff in Hrow as (Hl & _).
  split_and!; first [exact Hl | reflexivity].
Qed.

Lemma opt_max_max_len n o : opt_max n o = max_len n o.
Proof. by destruct o. Qed.

Lemma create_row_out_ok env d fs form cv upload_now now fuel c st obj :
  create_postulacion env d fs form cv upload_now now fuel = Some c ->
  c_resp c = Ok (Resp st obj) ->
  is_Some (postulacion_out obj) <-> is_Some (validate_email (f_correo form)).
Proof.
  intros Hc Hr.
  destruct (create_postulacion_row _ _ _ _ _ _ _ _ _ _ _ Hc Hr) as (Hn & Ha & Hco & He & Hl).
  unfold lengths_ok in Hl. split_andb.
  rewrite postulacion_out_Some, Hn, Ha, Hco, He, !opt_max_max_len.
  split; [naive_solver|]. intros Hv. split_and!; [by eexists | by eexists | by eauto | by eexists | done..].
Qed.

(** (C13) The public [POST /postulaciones] does not check the address
    that [PostulacionOut] checks: when it is not one [email-validator]
    accepts, the row is committed and the mails are sent, and only then
    the response model refuses the row: the applicant gets a 500 and the
    POSTULACION_CREATED broadcast never runs.  Otherwise the response is
    the validated row; a refused upload, a file that cannot be written
    and an insert the database refuses pass through unchanged. *)
Theorem create_response_after_commit env d fs form cv upload_now now fuel :
  match create_postulacion env d fs form cv upload_now now fuel with
  | Some c =>
      let c' := create_postulacion_http c in
      c_db c' = c_db c /\ c_fs c' = c_fs c /\ c_mails c' = c_mails c /\
      match c_resp c with
      | Ok (Resp st obj) =>
          if bool_decide (is_Some (validate_email (f_correo form)))
          then c_tasks c' = c_tasks c /\ exists o, c_resp c' = Ok (Resp st o) /\ postulacion_out obj = Some o
          else c_tasks c' = [] /\ c_resp c' = Ok (HTTPError 500 "Internal Server Error")
      | _ => c' = c
      end
  | None => True
  end.
Proof.
  destruct (create_postulacion _ _ _ _ _ _ _ _) as [c|] eqn:Hc; [|done]. simpl.
  unfold create_postulacion_http. destruct (c_resp c) as [[st obj|st m]|e] eqn:Hr; [|done|done].
  pose proof (create_row_out_ok _ _ _ _ _ _ _ _ _ _ _ Hc Hr) as Hiff.
  destruct (postulacion_out obj) as [o|] eqn:Ho; case_bool_decide; simpl;
    [eauto 10 | | |done]; exfalso; naive_solver.
Qed.

End Out.

End Out.

Module ResponsesDemo.
Import Store Service Router Out Postulaciones.Demo.

Local Open Scope Z_scope.

(** A stand-in for [email-validator]: an address with an [@], kept as
    it is. *)
Definition email_demo (s : string) : option string :=
  if PyStr.contains "@" s then Some s else None.

Lemma email_demo_idem e e' : email_demo e = Some e' -> email_demo e' = Some e'.
Proof. unfold email_demo. destruct (PyStr.contains _ _) eqn:H; [|done]. intros [= <-]. by rewrite H. Qed.

Lemma demo_db_out_ok : store_out_ok email_demo demo_db.
Proof. apply (bool_decide_unpack _). vm_compute. reflexivity. Qed.

(** The first application decided "posible", then the second deleted. *)
Definition demo_d1 : db :=
  match decide demo_db 1 " posible " "ok" 9 None None 300 with Ret (d, _) => d | Exc _ => demo_db end.

Definition demo_o1 : postulacion :=
  match decide demo_db 1 " posible " "ok" 9 None None 300 with
  | Ret (_, o) => o
  | Exc _ => new_row 0 (demo_args "" "") 0
  end.

Lemma demo_steps : rtc (admin_step email_demo) demo_db (delete demo_d1 2).1.
Proof.
  eapply rtc_l; [eapply (step_decide _ _ 1 " posible " "ok" 9 None None 300 demo_d1 demo_o1)|].
  - vm_compute. reflexivity.
  - apply rtc_once, step_delete.
Qed.

Lemma admin_steps_serialisable_witness :
  (forall e e', email_demo e = Some e' -> email_demo e' = Some e') /\
  store_out_ok email_demo demo_db /\ rtc (admin_step email_demo) demo_db (delete demo_d1 2).1 /\
  store_out_ok email_demo (delete demo_d1 2).1 /\
  match h_resp (get_postulacion_http email_demo (delete demo_d1 2).1 1) with
  | Resp st o => st = 200 /\ exists p, get (delete demo_d1 2).1 1 = Some p /\ postulacion_out email_demo p = Some o
  | HTTPError st _ => st = 404 /\ get (delete demo_d1 2).1 1 = None
  end.
Proof.
  split; [exact email_demo_idem|]. split; [exact demo_db_out_ok|]. split; [exact demo_steps|].
  exact (admin_steps_serialisable email_demo email_demo_idem demo_db _ 1 demo_db_out_ok demo_steps).
Defined.

(** The public form with the address "dana": the row is committed under
    id 4 and both mails are sent, the applicant gets a 500, and from then
    on [GET /postulaciones/4] answers 500 as well. *)
Definition bad_form : create_form :=
  CreateForm "Dana" "Lopez" "dana" None None None None None None None None None None.

Example public_form_unserialisable :
  match create_postulacion demo_env demo_db [] bad_form
          (Files.Upload (Some "cv.pdf") (Some "application/pdf") [2048]) 1735808400 1735808401 2 with
  | Some c =>
      let c' := create_postulacion_http email_demo c in
      c_resp c' = Ok (HTTPError 500 "Internal Server Error") /\ c_tasks c' = [] /\
      (c_mails c').*1 = [["dana"]; ["admin@example.com"]] /\ is_Some (get (c_db c') 4) /\
      h_resp (get_postulacion_http email_demo (c_db c') 4) = HTTPError 500 "Internal Server Error"
  | None => False
  end.
Proof. vm_compute. repeat split; eauto. Qed.

(** A [dni] longer than its [String(20)] column: the insert raises
    [DataError] before any mail, and nothing is stored. *)
Example public_form_long_dni :
  let form := CreateForm "Dana" "Lopez" "dana@example.com" None None None None
                (Some "0123456789012345678901") None None None None None in
  match create_postulacion demo_env demo_db [] form
          (Files.Upload (Some "cv.pdf") (Some "application/pdf") [2048]) 1735808400 1735808401 2 with
  | Some c => c_resp (create_postulacion_http email_demo c) = Raise DataError /\ c_db c = demo_db /\ c_mails c = []
  | None => False
  end.
Proof. vm_compute. auto. Qed.

End ResponsesDemo.
