(* ===== verification/CvDownload.v ===== *)
(** * CvDownload: the two handlers that send a stored CV
    [view_cv_inline] and [download_cv] ([src/Api/routers/postulaciones.py])
    look the application up, check that [cv_disk_path(obj.cv_filename)]
    is a file, and answer a [FileResponse] whose [Content-Disposition]
    header carries the original file name as an RFC 5987 parameter:
    [filename*=UTF-8''] followed by [quote(obj.cv_original or "cv",
    safe="")].  They differ only in the disposition, [inline] or
    [attachment]; both run behind [admin_required].

    Module [Quote] is [urllib.parse.quote] with [safe=""] on the bytes of
    the name: a byte of [_ALWAYS_SAFE] (ASCII letters, digits and [_.-~])
    is kept, any other byte becomes [%XX] with upper-case hex digits.
    [unquote] is the percent-decoding the client applies to the
    parameter (RFC 3986 and 5987); it is not code of the repository and
    serves to state the round trip.  [files] are the paths for which
    [os.path.isfile] holds. *)

From S2P Require Import Prelude PyStr Files Postulaciones.
From Stdlib Require Import Ascii.

Module Quote.

(** [_ALWAYS_SAFE]: ASCII letters, digits and [_.-~]. *)
Definition always_safe (c : ascii) : bool :=
  let n := nat_of_ascii c in
  ((48 <=? n) && (n <=? 57)) || ((65 <=? n) && (n <=? 90)) || ((97 <=? n) && (n <=? 122)) ||
  Ascii.eqb c "_" || Ascii.eqb c "." || Ascii.eqb c "-" || Ascii.eqb c "~".

(** A hex digit as ['%{:02X}'] writes it. *)
Definition hex_digit (n : nat) : ascii :=
  if n <? 10 then ascii_of_nat (48 + n) else ascii_of_nat (55 + n).

(** The quoter of one byte. *)
Definition quote_byte (c : ascii) : list ascii :=
  if always_safe c then [c]
  else let n := nat_of_ascii c in ["%"%char; hex_digit (n / 16); hex_digit (n mod 16)].

(** [quote(s, safe="")]: [quote_from_bytes] on the bytes of [s]; its
    fast path (every byte safe: [s] itself) gives the same string. *)
Definition quote (s : string) : string :=
  string_of_list_ascii (concat (map quote_byte (list_ascii_of_string s))).

(** The value of a hex digit, either case. *)
Definition hex_value (c : ascii) : option nat :=
  let n := nat_of_ascii c in
  if (48 <=? n) && (n <=? 57) then Some (n - 48)
  else if (65 <=? n) && (n <=? 70) then Some (n - 55)
  else if (97 <=? n) && (n <=? 102) then Some (n - 87)
  else None.

(** Percent-decoding: [%XX] is the byte [XX], any other character
    stands for itself; a [%] without two hex digits is refused. *)
Fixpoint unquote_list (cs : list ascii) : option (list ascii) :=
  match cs with
  | [] => Some []
  | c :: rest =>
      if Ascii.eqb c "%" then
        match rest with
        | h :: l :: rest' =>
            match hex_value h, hex_value l with
            | Some a, Some b => cons (ascii_of_nat (16 * a + b)) <$> unquote_list rest'
            | _, _ => None
            end
        | _ => None
        end
      else cons c <$> unquote_list rest
  end.

Definition unquote (s : string) : option string :=
  string_of_list_ascii <$> unquote_list (list_ascii_of_string s).

(** ** Lemmas *)

Lemma hex_value_digit k : k < 16 -> hex_value (hex_digit k) = Some k.
Proof. intros Hk. do 16 (destruct k as [|k]; [reflexivity|]). lia. Qed.

Lemma always_safe_hex_digit k : k < 16 -> always_safe (hex_digit k) = true.
Proof. intros Hk. do 16 (destruct k as [|k]; [reflexivity|]). lia. Qed.

Lemma always_safe_not_percent c : always_safe c = true -> Ascii.eqb c "%" = false.
Proof. intros H. apply Ascii.eqb_neq. intros ->. discriminate. Qed.

Lemma quote_byte_decode c rest :
  unquote_list (quote_byte c ++ rest) = cons c <$> unquote_list rest.
Proof.
  unfold quote_byte. destruct (always_safe c) eqn:Hs.
  - simpl. by rewrite always_safe_not_percent.
  - pose proof (nat_ascii_bounded c) as Hb.
    cbn -[Nat.div Nat.modulo hex_value hex_digit nat_of_ascii Nat.mul Nat.add].
    rewrite !hex_value_digit by (apply Nat.Div0.div_lt_upper_bound || apply Nat.mod_upper_bound; lia).
    do 2 f_equal. rewrite <- Nat.div_mod_eq. apply ascii_nat_embedding.
Qed.

Lemma list_ascii_of_string_of_list l : list_ascii_of_string (string_of_list_ascii l) = l.
Proof. apply list_ascii_of_string_of_list_ascii. Qed.

Lemma quote_byte_length c : 1 <= length (quote_byte c) <= 3.
Proof. unfold quote_byte. destruct (always_safe c); simpl; lia. Qed.

Lemma quote_list_length cs :
  length cs <= length (concat (map quote_byte cs)) <= 3 * length cs.
Proof.
  induction cs as [|c cs IH]; simpl; [lia|]. rewrite length_app.
  pose proof (quote_byte_length c). lia.
Qed.

Lemma quote_safe_chars cs c :
  c ∈ concat (map quote_byte cs) -> always_safe c = true \/ c = "%"%char.
Proof.
  intros (l & Hl & Hc)%list_elem_of_In%in_concat.
  apply in_map_iff in Hl as (x & <- & _). unfold quote_byte in Hc.
  pose proof (nat_ascii_bounded x) as Hb.
  destruct (always_safe x) eqn:Hs; cbn -[Nat.div Nat.modulo hex_digit nat_of_ascii] in Hc; [naive_solver|].
  destruct Hc as [<-|[<-|[<-|[]]]]; [by right| left..]; apply always_safe_hex_digit.
  - apply Nat.Div0.div_lt_upper_bound. lia.
  - apply Nat.mod_upper_bound. lia.
Qed.

Lemma unquote_list_quote cs : unquote_list (concat (map quote_byte cs)) = Some cs.
Proof. induction cs as [|c cs IH]; [done|]. simpl. by rewrite quote_byte_decode, IH. Qed.

(** Round trip: the client that percent-decodes the parameter
    gets back exactly the bytes of the name [quote] encoded. *)
Theorem quote_roundtrip s : unquote (quote s) = Some s.
Proof.
  unfold unquote, quote. rewrite list_ascii_of_string_of_list, unquote_list_quote. simpl.
  by rewrite string_of_list_ascii_of_string.
Qed.

(** Bounds: the encoded name is at least as long as the name and
    at most three times as long (every byte kept or written [%XX]). *)
Theorem quote_length s :
  String.length s <= String.length (quote s) <= 3 * String.length s.
Proof.
  unfold quote. rewrite PyStr.length_string_of_list_ascii, <- PyStr.length_list_ascii_of_string.
  apply quote_list_length.
Qed.

End Quote.

Module CvDownload.
Import Store Service Router Quote.

Local Open Scope Z_scope.

(** A [FileResponse]: the path it streams, its [media_type] and the
    headers the handler sets on it. *)
Record file_response := FileResponse {
  fr_path : string; fr_media_type : string; fr_headers : list (string * string)
}.

(** The body shared by the two handlers, for the disposition [disp]. *)
Definition cv_response (disp : string) (cfg : Files.config) (d : db) (files : list string) (pid : Z)
  : response file_response :=
  match get d pid with
  | None => HTTPError 404 "No encontrado"
  | Some obj =>
      let path := Files.cv_disk_path cfg (cv_filename obj) in
      if bool_decide (path ∈ files) then
        let encoded_name := quote (if String.eqb (cv_original obj) "" then "cv" else cv_original obj) in
        Resp 200 (FileResponse path (cv_mime obj)
                    [("Content-Disposition", disp +:+ "; filename*=UTF-8''" +:+ encoded_name);
                     ("Cache-Control", "no-store")])
      else HTTPError 404 "Archivo CV no encontrado en el servidor"
  end.

(** [GET /postulaciones/{pid}/cv/inline] *)
Definition view_cv_inline := cv_response "inline".

(** [GET /postulaciones/{pid}/cv/download] *)
Definition download_cv := cv_response "attachment".

(** (C19) Both handlers, on every branch: 404 "No encontrado" for a
    missing application, 404 for a stored file that is gone, otherwise
    the stored file with its MIME type and a [Content-Disposition] whose
    [filename*] parameter decodes to the original name ("cv" when it is
    empty) and is made of safe characters and [%] only -- so no name can
    end the parameter or the header line ([;], quotes, CR, LF). *)
Theorem cv_response_spec disp cfg d files pid :
  match cv_response disp cfg d files pid with
  | Resp st r =>
      st = 200 /\ exists obj, get d pid = Some obj /\
        fr_path r = Files.cv_disk_path cfg (cv_filename obj) /\ fr_path r ∈ files /\
        fr_media_type r = cv_mime obj /\
        exists enc, fr_headers r = [("Content-Disposition", disp +:+ "; filename*=UTF-8''" +:+ enc);
                                    ("Cache-Control", "no-store")] /\
          unquote enc = Some (if String.eqb (cv_original obj) "" then "cv" else cv_original obj) /\
          forall c, c ∈ list_ascii_of_string enc -> always_safe c = true \/ c = "%"%char
  | HTTPError st msg =>
      st = 404 /\
      ((get d pid = None /\ msg = "No encontrado") \/
       (exists obj, get d pid = Some obj /\ Files.cv_disk_path cfg (cv_filename obj) ∉ files /\
          msg = "Archivo CV no encontrado en el servidor"))
  end.
Proof.
  unfold cv_response. destruct (get d pid) as [obj|] eqn:Hg; [|eauto].
  case_bool_decide as Hf; [|eauto 10].
  split; [done|]. exists obj. do 4 (split; [done|]). eexists. split; [done|].
  split; [apply quote_roundtrip|]. intros c. unfold quote.
  rewrite list_ascii_of_string_of_list. apply quote_safe_chars.
Qed.

End CvDownload.
