(* ===== verification/Api.v ===== *)
(** * Api: the routers as [main.py] assembles them
    [main.py] includes the routers of [usuarios], [puestos],
    [unidades_negocio], [postulaciones] and [websockets], in this order,
    into one Starlette router.  Each route declares the dependency that
    guards it ([JWTBearer()], [admin_required], [require_public_api_key]
    or none), and FastAPI runs that dependency before it validates the
    path parameters and the body.

    [app_routes] is the route table of the application, each router's
    table (in declaration order) tagged with its router; [app_dispatch]
    is a request going through the table ([Routing.dispatch]: first full
    match, 405 for a path-only match) and then through the dependency of
    the route it reached.  The websocket route is not an HTTP route, and
    the routes [main.py] declares itself come after the routers
    ([App.Main]): they only see paths no router matched.

    The theorems: the routers do not interfere (a path of one router is
    dispatched as that router alone would), every endpoint of the
    applications router but the public form runs only for an
    administrator's token, and a request without credentials reaches
    only the form and the login. *)

From S2P Require Import Prelude PyDict PyStr Json Auth Usuarios.

Module Api.
Import Json Jwt Guards Routing.

Local Open Scope Z_scope.

(** The endpoints of [routers/puestos.py]. *)
Inductive puesto_ep := PuList | PuCreate | PuUpdate | PuDelete.

Definition puestos_routes : list (route puesto_ep) :=
  [Route GET [Lit "puestos"] PuList;
   Route POST [Lit "puestos"] PuCreate;
   Route PATCH [Lit "puestos"; Param "pid"] PuUpdate;
   Route DELETE [Lit "puestos"; Param "pid"] PuDelete].

(** The endpoints of [routers/unidades_negocio.py]. *)
Inductive unidad_ep := UnList | UnGet | UnCreate | UnUpdate | UnDelete.

Definition unidades_routes : list (route unidad_ep) :=
  [Route GET [Lit "unidades-negocio"] UnList;
   Route GET [Lit "unidades-negocio"; Param "uid"] UnGet;
   Route POST [Lit "unidades-negocio"] UnCreate;
   Route PATCH [Lit "unidades-negocio"; Param "uid"] UnUpdate;
   Route DELETE [Lit "unidades-negocio"; Param "uid"] UnDelete].

(** The endpoints of [routers/postulaciones.py]. *)
Inductive postulacion_ep :=
  | PoCounts | PoList | PoGet | PoCreate | PoDecidir | PoUpdate | PoDelete | PoInline | PoDownload.

Definition postulaciones_routes : list (route postulacion_ep) :=
  [Route GET [Lit "postulaciones"; Lit "counts"] PoCounts;
   Route GET [Lit "postulaciones"] PoList;
   Route GET [Lit "postulaciones"; Param "pid"] PoGet;
   Route POST [Lit "postulaciones"] PoCreate;
   Route POST [Lit "postulaciones"; Param "pid"; Lit "decidir"] PoDecidir;
   Route PATCH [Lit "postulaciones"; Param "pid"] PoUpdate;
   Route DELETE [Lit "postulaciones"; Param "pid"] PoDelete;
   Route GET [Lit "postulaciones"; Param "pid"; Lit "cv"; Lit "inline"] PoInline;
   Route GET [Lit "postulaciones"; Param "pid"; Lit "cv"; Lit "download"] PoDownload].

Inductive endpoint :=
  | EUsuarios (e : Routing.endpoint)
  | EPuestos (e : puesto_ep)
  | EUnidades (e : unidad_ep)
  | EPostulaciones (e : postulacion_ep).

(** A router's table with its endpoints tagged. *)
Definition lift {A} (f : A -> endpoint) (rs : list (route A)) : list (route endpoint) :=
  (fun r => Route (r_method r) (r_path r) (f (r_endpoint r))) <$> rs.

(** [app.include_router(...)] in the order of [main.py]. *)
Definition app_routes : list (route endpoint) :=
  lift EUsuarios usuarios_routes ++ lift EPuestos puestos_routes ++
  lift EUnidades unidades_routes ++ lift EPostulaciones postulaciones_routes.

(** The dependency a route declares: in [dependencies=[...]], or, for
    [decidir_postulacion], as the parameter [jwt = Depends(admin_required)]. *)
Inductive guard_kind := Public | NeedsJwt | NeedsAdmin | NeedsApiKey.

Definition guard_of (e : endpoint) : guard_kind :=
  match e with
  | EUsuarios u => if needs_jwt u then NeedsJwt else Public
  | EPuestos PuList => NeedsApiKey
  | EPuestos _ => NeedsAdmin
  | EUnidades (UnList | UnGet) => NeedsApiKey
  | EUnidades _ => NeedsAdmin
  | EPostulaciones PoCreate => Public
  | EPostulaciones _ => NeedsAdmin
  end.

(** Running the dependency: the claims of the token when there is one. *)
Definition run_guard (cfg : jwt_config) (now : Z) (req : request) (g : guard_kind)
  : guard (option (list (string * json))) :=
  match g with
  | Public => Pass None
  | NeedsJwt => match jwt_bearer cfg req now with Pass p => Pass (Some p) | Deny st d => Deny st d end
  | NeedsAdmin => match admin_required cfg req now with Pass p => Pass (Some p) | Deny st d => Deny st d end
  | NeedsApiKey => match require_public_api_key req with Pass _ => Pass None | Deny st d => Deny st d end
  end.

(** What becomes of a request: refused by the routing or a dependency,
    or handed to the endpoint with its path parameters. *)
Inductive outcome :=
  | Refused (status : Z) (detail : string)
  | Runs (e : endpoint) (params : list (string * string)) (claims : option (list (string * json))).

Definition app_dispatch (cfg : jwt_config) (now : Z) (req : request) (m : method) (path : list string)
  : outcome :=
  match dispatch app_routes m path with
  | NoMatch => Refused 404 "Not Found"
  | Partial => Refused 405 "Method Not Allowed"
  | Full e ps =>
      match run_guard cfg now req (guard_of e) with
      | Deny st d => Refused st d
      | Pass c => Runs e ps c
      end
  end.

(** ** Lemmas *)

(** Routes that do not match the path do not change the dispatch. *)
Lemma dispatch_app_skip {E} (rs1 rs2 : list (route E)) m path :
  Forall (fun r => match_path (r_path r) path = None) rs1 ->
  dispatch (rs1 ++ rs2) m path = dispatch rs2 m path.
Proof. induction 1 as [|r rs Hr _ IH]; [done|]. simpl. by rewrite Hr. Qed.

Definition map_matched {A B} (f : A -> B) (r : matched A) : matched B :=
  match r with Full e ps => Full (f e) ps | Partial => Partial | NoMatch => NoMatch end.

Lemma dispatch_lift {A} (f : A -> endpoint) rs m path :
  dispatch (lift f rs) m path = map_matched f (dispatch rs m path).
Proof.
  induction rs as [|r rs IH]; [done|]. simpl.
  destruct (match_path (r_path r) path); [|done].
  case_decide; [done|]. rewrite IH. by destruct (dispatch rs m path).
Qed.

(** A table whose routes all begin with the literal [p] does not match a
    path that begins otherwise. *)
Lemma prefix_mismatch {E} (rs : list (route E)) p x path :
  Forall (fun r => exists rest, r_path r = Lit p :: rest) rs -> String.eqb p x = false ->
  Forall (fun r => match_path (r_path r) (x :: path) = None) rs.
Proof.
  intros Hrs Hpx. eapply Forall_impl; [exact Hrs|]. intros r [rest ->]. simpl. by rewrite Hpx.
Qed.

Lemma lift_prefix {A} (f : A -> endpoint) rs p :
  Forall (fun r => exists rest, r_path r = Lit p :: rest) rs ->
  Forall (fun r => exists rest, r_path r = Lit p :: rest) (lift f rs).
Proof. intros H. apply Forall_fmap. eapply Forall_impl; [exact H|]. done. Qed.

Lemma admin_required_Pass cfg req now p :
  admin_required cfg req now = Pass p ->
  jwt_bearer cfg req now = Pass p /\ PyDict.get p "role" = Some (JStr "Admin").
Proof.
  unfold admin_required. destruct (jwt_bearer cfg req now) as [q|]; [|done].
  destruct (py_eq_str _ _) eqn:He; [|done]. intros [= <-]. split; [done|].
  apply py_eq_str_true in He. destruct (PyDict.get q "role"); simpl in He; congruence.
Qed.

Lemma dispatch_none {E} (rs : list (route E)) m path :
  Forall (fun r => match_path (r_path r) path = None) rs -> dispatch rs m path = NoMatch.
Proof. intros H. rewrite <- (app_nil_r rs). rewrite dispatch_app_skip; done. Qed.

(** Routes after the ones that match change nothing when they do not
    match either. *)
Lemma dispatch_app_none_r {E} (rs1 rs2 : list (route E)) m path :
  Forall (fun r => match_path (r_path r) path = None) rs2 ->
  dispatch (rs1 ++ rs2) m path = dispatch rs1 m path.
Proof.
  intros H2. induction rs1 as [|r rs IH]; simpl; [by apply dispatch_none|].
  destruct (match_path (r_path r) path); [|done]. by rewrite IH.
Qed.

Lemma usuarios_prefix : Forall (fun r => exists rest, r_path r = Lit "usuarios" :: rest) usuarios_routes.
Proof. repeat constructor; eexists; reflexivity. Qed.

Lemma puestos_prefix : Forall (fun r => exists rest, r_path r = Lit "puestos" :: rest) puestos_routes.
Proof. repeat constructor; eexists; reflexivity. Qed.

Lemma unidades_prefix :
  Forall (fun r => exists rest, r_path r = Lit "unidades-negocio" :: rest) unidades_routes.
Proof. repeat constructor; eexists; reflexivity. Qed.

Lemma postulaciones_prefix :
  Forall (fun r => exists rest, r_path r = Lit "postulaciones" :: rest) postulaciones_routes.
Proof. repeat constructor; eexists; reflexivity. Qed.

Create HintDb api.
#[local] Hint Resolve usuarios_prefix puestos_prefix unidades_prefix postulaciones_prefix lift_prefix : api.

(** A router's table does not match a path that begins with another
    router's prefix. *)
Ltac skip_router :=
  eapply prefix_mismatch; [eauto with api | apply String.eqb_neq; congruence].

(** The composition of [main.py]: the routers do not interfere.
    A path that begins with a router's prefix is dispatched as that
    router alone dispatches it, whatever the other routers declare, and
    a path with another first segment matches no router. *)
Theorem routers_isolated m rest :
  dispatch app_routes m ("usuarios" :: rest) =
    map_matched EUsuarios (dispatch usuarios_routes m ("usuarios" :: rest)) /\
  dispatch app_routes m ("puestos" :: rest) =
    map_matched EPuestos (dispatch puestos_routes m ("puestos" :: rest)) /\
  dispatch app_routes m ("unidades-negocio" :: rest) =
    map_matched EUnidades (dispatch unidades_routes m ("unidades-negocio" :: rest)) /\
  dispatch app_routes m ("postulaciones" :: rest) =
    map_matched EPostulaciones (dispatch postulaciones_routes m ("postulaciones" :: rest)) /\
  (forall x, x ∉ ["usuarios"; "puestos"; "unidades-negocio"; "postulaciones"] ->
     dispatch app_routes m (x :: rest) = NoMatch).
Proof.
  unfold app_routes. repeat split.
  - rewrite dispatch_app_none_r, dispatch_lift; [done|].
    apply Forall_app; split; [|apply Forall_app; split]; skip_router.
  - rewrite dispatch_app_skip by skip_router.
    rewrite dispatch_app_none_r, dispatch_lift; [done|].
    apply Forall_app; split; skip_router.
  - rewrite !dispatch_app_skip by skip_router.
    rewrite dispatch_app_none_r, dispatch_lift; [done|]. skip_router.
  - rewrite !dispatch_app_skip by skip_router. apply dispatch_lift.
  - intros x Hx. rewrite !elem_of_cons, elem_of_nil in Hx.
    apply dispatch_none. repeat (apply Forall_app; split);
      (eapply prefix_mismatch; [eauto with api | apply String.eqb_neq; naive_solver]).
Qed.

Lemma run_guard_Pass cfg now req g c :
  run_guard cfg now req g = Pass c ->
  match g with
  | Public => c = None
  | NeedsJwt => exists p, c = Some p /\ jwt_bearer cfg req now = Pass p
  | NeedsAdmin => exists p, c = Some p /\ jwt_bearer cfg req now = Pass p /\
                            PyDict.get p "role" = Some (JStr "Admin")
  | NeedsApiKey => c = None /\ x_api_key req = Some "Donemilio@2026"
  end.
Proof.
  destruct g; simpl.
  - by intros [= <-].
  - destruct (jwt_bearer cfg req now); [|done]. intros [= <-]. eauto.
  - destruct (admin_required cfg req now) eqn:Ha; [|done]. intros [= <-].
    apply admin_required_Pass in Ha. naive_solver.
  - unfold require_public_api_key. destruct (x_api_key req) as [k|]; [|done].
    destruct (String.eqb_spec k "Donemilio@2026"); [|done]. intros [= <-]. by subst.
Qed.

Lemma app_dispatch_Runs cfg now req m path e ps c :
  app_dispatch cfg now req m path = Runs e ps c ->
  dispatch app_routes m path = Full e ps /\ run_guard cfg now req (guard_of e) = Pass c.
Proof.
  unfold app_dispatch. destruct (dispatch _ _ _) as [e' ps'| |]; [|done|done].
  destruct (run_guard _ _ _ _) eqn:Hg; [|done]. by intros [= <- <- <-].
Qed.

(** (C7) Every endpoint of [routers/postulaciones.py] but the public
    [POST /postulaciones] -- the counts, the list, an application, its
    decision, update and deletion, and both CV downloads -- runs only for
    a request whose bearer token is valid and carries the role "Admin". *)
Theorem applications_admin_only cfg now req m path e ps c :
  app_dispatch cfg now req m path = Runs (EPostulaciones e) ps c ->
  e = PoCreate \/
  exists p, c = Some p /\ jwt_bearer cfg req now = Pass p /\ PyDict.get p "role" = Some (JStr "Admin").
Proof.
  intros [_ Hg]%app_dispatch_Runs. apply run_guard_Pass in Hg.
  destruct e; simpl in Hg; first [by left | by right].
Qed.

(** Without an [Authorization] or [X-API-Key] header, a request reaches
    only the application form and the login. *)
Lemma anonymous_access cfg now req m path e ps c :
  authorization req = None -> x_api_key req = None ->
  app_dispatch cfg now req m path = Runs e ps c ->
  e = EPostulaciones PoCreate \/ e = EUsuarios EpLogin.
Proof.
  intros Ha Hk [_ Hg]%app_dispatch_Runs. apply run_guard_Pass in Hg.
  assert (Hj : forall p, jwt_bearer cfg req now <> Pass p).
  { intros p. unfold jwt_bearer, http_bearer. by rewrite Ha. }
  destruct e as [[]|[]|[]|[]]; simpl in Hg; naive_solver.
Qed.

(** [GET /postulaciones/counts] reaches [counts_por_estado]: its route is
    declared before [GET /postulaciones/{pid}]. *)
Lemma counts_route : dispatch app_routes GET ["postulaciones"; "counts"] = Full (EPostulaciones PoCounts) [].
Proof. reflexivity. Qed.

End Api.

Module ApiDemo.
Import Json Jwt Guards Routing Api.

Local Open Scope Z_scope.

Definition cfg : jwt_config := JwtConfig "s3cret" 120.

(** An administrator's login token, issued at 1000. *)
Definition admin_req : request :=
  Request (Some ("Bearer", Some (create_token cfg "ana@mail.com"
                                   (Some [("uid", JInt 1); ("role", JStr "Admin")]) 1000))) None None.

Lemma applications_admin_only_witness :
  let c := match app_dispatch cfg 2000 admin_req GET ["postulaciones"; "4"; "cv"; "download"] with
           | Runs _ _ c => c | Refused _ _ => None end in
  app_dispatch cfg 2000 admin_req GET ["postulaciones"; "4"; "cv"; "download"] =
    Runs (EPostulaciones PoDownload) [("pid", "4")] c /\
  (PoDownload = PoCreate \/
   exists p, c = Some p /\ jwt_bearer cfg admin_req 2000 = Pass p /\
             PyDict.get p "role" = Some (JStr "Admin")).
Proof.
  intros c. assert (H : app_dispatch cfg 2000 admin_req GET ["postulaciones"; "4"; "cv"; "download"] =
                        Runs (EPostulaciones PoDownload) [("pid", "4")] c) by (vm_compute; reflexivity).
  split; [exact H | exact (applications_admin_only _ _ _ _ _ _ _ _ H)].
Defined.

(** The same download with a plain user's token is refused with 403. *)
Example user_cannot_download :
  app_dispatch cfg 2000
    (Request (Some ("Bearer", Some (create_token cfg "beto@mail.com"
                                      (Some [("uid", JInt 2); ("role", JStr "user")]) 1000))) None None)
    GET ["postulaciones"; "4"; "cv"; "download"] = Refused 403 "Solo administradores".
Proof. vm_compute. reflexivity. Qed.

End ApiDemo.
